(** * The X11 selection bridge of spice-vdagent (src/vdagent-x11.c)

    A shallow embedding of the clipboard half of [vdagent-x11.c]: the
    [struct vdagent_x11] record, the X11 event handler and the four entry
    points the daemon drives ([vdagent_x11_clipboard_request], [_grab],
    [_data], [_release]), followed by the properties of the selection
    protocol they implement.

    Conventions of the embedding.
    - Every Xlib call that talks to the server and every [udscs_write] is
      appended, in program order, to the [out] field of the state.
    - What the environment decides is an explicit input: the events returned
      by [XNextEvent], the reply of [XGetWindowProperty] and whether
      [malloc]/[realloc] succeed.
    - Undefined behaviour of the C program (an array read past its end, a
      NULL dereference, signed overflow) is the result [None].
    - Diagnostics written to [errfile] are not part of the model. *)

From stdpp Require Import base option list gmap strings.
From Stdlib Require Import ZArith Lia.

Local Open Scope Z_scope.

(** ** Machine integers *)

Definition INT_MAX : Z := 2147483647.
Definition UINT32_MOD : Z := 4294967296.
Definition ULONG_MOD : Z := 18446744073709551616.

(** Conversion to [uint32_t] and to [unsigned long] (LP64). *)
Definition to_uint32 (z : Z) : Z := z mod UINT32_MOD.
Definition to_ulong (z : Z) : Z := z mod ULONG_MOD.

(** Conversion to [int]: the value is reduced modulo 2^32 into the signed
    range, as gcc defines it. *)
Definition to_int (z : Z) : Z :=
  let u := z mod UINT32_MOD in
  if u <=? INT_MAX then u else u - UINT32_MOD.

Definition sizeof_long : Z := 8.
Definition sizeof_short : Z := 2.
Definition sizeof_Atom : Z := 8.
Definition sizeof_uint32 : Z := 4.

(** ** X11 and protocol constants *)

(** [Atom] and [Window] are X ids. *)
Abbreviation Atom := Z (only parsing).
Abbreviation Window := Z (only parsing).

(** Xlib's [None] (the null atom and the null window). *)
Definition XNone : Z := 0.
(** Xatom.h: [XA_ATOM]. *)
Definition XA_ATOM : Atom := 4.
(** X.h: [PropertyChangeMask]. *)
Definition PropertyChangeMask : Z := 4194304.

(** Modelled from the spec: the [VD_AGENT_CLIPBOARD_*] type codes of
    spice/vd_agent.h, which is not part of the sources at hand; the values
    are the wire values the specification lists. *)
Definition VD_AGENT_CLIPBOARD_NONE : Z := 0.
Definition VD_AGENT_CLIPBOARD_UTF8_TEXT : Z := 1.
Definition VD_AGENT_CLIPBOARD_IMAGE_PNG : Z := 2.
Definition VD_AGENT_CLIPBOARD_IMAGE_BMP : Z := 3.
Definition VD_AGENT_CLIPBOARD_IMAGE_TIFF : Z := 4.
Definition VD_AGENT_CLIPBOARD_IMAGE_JPG : Z := 5.

(** Modelled from the spec: the selection ids of spice/vd_agent.h. *)
Definition VD_AGENT_CLIPBOARD_SELECTION_CLIPBOARD : Z := 0.
Definition VD_AGENT_CLIPBOARD_SELECTION_PRIMARY : Z := 1.
Definition VD_AGENT_CLIPBOARD_SELECTION_SECONDARY : Z := 2.

(** Modelled from the spec: the message codes of vdagentd-proto.h, which is
    not part of the sources at hand; only their names are used. *)
Inductive vdagentd_message :=
  | VDAGENTD_GUEST_XORG_RESOLUTION
  | VDAGENTD_CLIPBOARD_GRAB
  | VDAGENTD_CLIPBOARD_REQUEST
  | VDAGENTD_CLIPBOARD_DATA
  | VDAGENTD_CLIPBOARD_RELEASE.

(** [enum { owner_none, owner_guest, owner_client }] *)
Inductive owner := owner_none | owner_guest | owner_client.

Global Instance owner_eq_dec : EqDecision owner.
Proof. solve_decision. Defined.

(** ** Events *)

Inductive xfixes_subtype :=
  | XFixesSetSelectionOwnerNotify
  | XFixesSelectionWindowDestroyNotify
  | XFixesSelectionClientCloseNotify
  | XFixesUnknownSubtype.

Inductive property_state := PropertyNewValue | PropertyDelete.

Global Instance property_state_eq_dec : EqDecision property_state.
Proof. solve_decision. Defined.

(** [XSelectionRequestEvent], the fields the program reads. *)
Record XSelectionRequestEvent := {
  xselectionrequest_requestor : Window;
  xselectionrequest_selection : Atom;
  xselectionrequest_target : Atom;
  xselectionrequest_property : Atom;
  xselectionrequest_time : Z
}.

(** [XSelectionEvent]: received as SelectionNotify, and sent as the reply to
    a SelectionRequest. *)
Record XSelectionEvent := {
  xselection_requestor : Window;
  xselection_selection : Atom;
  xselection_target : Atom;
  xselection_property : Atom;
  xselection_time : Z
}.

(** [XEvent], by [event.type]; an event whose type is [xfixes_event_base] is
    an [XFixesSelectionNotifyEvent]. *)
Inductive XEvent :=
  | XFixesSelectionNotify (subtype : xfixes_subtype) (xfev_owner : Window)
                          (xfev_selection : Atom)
  | ConfigureNotify (window : Window) (width height : Z)
  | MappingNotify
  | SelectionNotify (e : XSelectionEvent)
  | PropertyNotify (window : Window) (atom : Atom) (state : property_state)
  | SelectionClear
  | SelectionRequest (e : XSelectionRequestEvent)
  | OtherEvent.

(** What the X server answers to [XGetWindowProperty]: the status, the
    property's type and format, and its items ([nitems] is their number;
    an item is a byte, a short or a long according to the format). *)
Record property_reply := {
  reply_success : bool;
  reply_type : Atom;
  reply_format : Z;
  reply_items : list Z
}.

(** The environment of one handled event or entry point: the reply
    [XGetWindowProperty] would give, and whether an allocation succeeds. *)
Record environment := {
  env_reply : property_reply;
  env_alloc_ok : bool
}.

(** ** Requests and the format catalog *)

(** [struct vdagent_x11_selection_request] ([next] is the list's tail). *)
Record vdagent_x11_selection_request := {
  sel_event : XSelectionRequestEvent;
  sel_selection : Z
}.

(** [struct vdagent_x11_conversion_request]. *)
Record vdagent_x11_conversion_request := {
  conv_target : Atom;
  conv_selection : Z
}.

(** [struct clipboard_format_tmpl]; [atom_names] up to the NULL. *)
Record clipboard_format_tmpl := {
  tmpl_type : Z;
  tmpl_atom_names : list string
}.

(** [struct clipboard_format_info]. *)
Record clipboard_format_info := {
  fmt_type : Z;
  fmt_atoms : list Atom;
  fmt_atom_count : Z
}.

Definition clipboard_format_templates : list clipboard_format_tmpl :=
  [ {| tmpl_type := VD_AGENT_CLIPBOARD_UTF8_TEXT;
       tmpl_atom_names := ["UTF8_STRING"; "text/plain;charset=UTF-8";
                           "text/plain;charset=utf-8"]%string |};
    {| tmpl_type := VD_AGENT_CLIPBOARD_IMAGE_PNG;
       tmpl_atom_names := ["image/png"]%string |};
    {| tmpl_type := VD_AGENT_CLIPBOARD_IMAGE_BMP;
       tmpl_atom_names := ["image/bmp"; "image/x-bmp"; "image/x-MS-bmp";
                           "image/x-win-bitmap"]%string |};
    {| tmpl_type := VD_AGENT_CLIPBOARD_IMAGE_TIFF;
       tmpl_atom_names := ["image/tiff"]%string |};
    {| tmpl_type := VD_AGENT_CLIPBOARD_IMAGE_JPG;
       tmpl_atom_names := ["image/jpeg"]%string |} ].

Definition clipboard_format_count : Z :=
  Z.of_nat (length clipboard_format_templates).

(** Size of a row of [clipboard_agent_types] and of [targets] in
    [vdagent_x11_send_targets]. *)
Definition MAX_TYPES : Z := 256.

(** ** Calls made to the X server and to the daemon *)

Inductive payload :=
  | NoData
  | Bytes (data : list Z)
  | Types (types : list Z)
  | Resolution (width height : Z).

Inductive action :=
  | XConvertSelection (selection target property : Atom) (requestor : Window)
  | XSendEvent (w : Window) (e : XSelectionEvent)
  | XChangeProperty (w : Window) (property type : Atom) (format : Z)
                    (data : list Z) (nelements : Z)
  | XSelectInput (w : Window) (mask : Z)
  | XDeleteProperty (w : Window) (property : Atom)
  | XGetWindowProperty (w : Window) (property : Atom) (delete : bool)
                       (req_type : Atom)
  | XSetSelectionOwner (selection : Atom) (w : Window)
  | XSync
  | udscs_write (type : vdagentd_message) (arg1 arg2 : Z) (data : payload).

(** ** [struct vdagent_x11] *)

Record vdagent_x11 := {
  clipboard_formats : list clipboard_format_info;
  clipboard_atom : Atom;
  clipboard_primary_atom : Atom;
  targets_atom : Atom;
  incr_atom : Atom;
  multiple_atom : Atom;
  root_window : Window;
  selection_window : Window;
  width : Z;
  height : Z;
  max_prop_size : Z;
  expected_targets_notifies : gmap Z Z;
  clipboard_owner : gmap Z owner;
  clipboard_type_count : gmap Z Z;
  clipboard_agent_types : gmap (Z * Z) Z;
  clipboard_x11_targets : gmap (Z * Z) Z;
  conversion_req : list vdagent_x11_conversion_request;
  expect_property_notify : bool;
  clipboard_data : list Z;
  clipboard_data_size : Z;
  clipboard_data_space : Z;
  selection_req : list vdagent_x11_selection_request;
  selection_req_data : option (list Z);
  selection_req_data_pos : Z;
  selection_req_data_size : Z;
  selection_req_atom : Atom;
  out : list action
}.

(** Field updates ([x11->f = v]); the first eight fields and
    [max_prop_size] are written by [vdagent_x11_create] only. *)

Definition set_width (v : Z) (x : vdagent_x11) : vdagent_x11 :=
  Build_vdagent_x11 (clipboard_formats x) (clipboard_atom x)
    (clipboard_primary_atom x) (targets_atom x) (incr_atom x)
    (multiple_atom x) (root_window x) (selection_window x) v (height x)
    (max_prop_size x) (expected_targets_notifies x) (clipboard_owner x)
    (clipboard_type_count x) (clipboard_agent_types x)
    (clipboard_x11_targets x) (conversion_req x) (expect_property_notify x)
    (clipboard_data x) (clipboard_data_size x) (clipboard_data_space x)
    (selection_req x) (selection_req_data x) (selection_req_data_pos x)
    (selection_req_data_size x) (selection_req_atom x) (out x).

Definition set_height (v : Z) (x : vdagent_x11) : vdagent_x11 :=
  Build_vdagent_x11 (clipboard_formats x) (clipboard_atom x)
    (clipboard_primary_atom x) (targets_atom x) (incr_atom x)
    (multiple_atom x) (root_window x) (selection_window x) (width x) v
    (max_prop_size x) (expected_targets_notifies x) (clipboard_owner x)
    (clipboard_type_count x) (clipboard_agent_types x)
    (clipboard_x11_targets x) (conversion_req x) (expect_property_notify x)
    (clipboard_data x) (clipboard_data_size x) (clipboard_data_space x)
    (selection_req x) (selection_req_data x) (selection_req_data_pos x)
    (selection_req_data_size x) (selection_req_atom x) (out x).

Definition set_expected_targets_notifies (v : gmap Z Z) (x : vdagent_x11)
  : vdagent_x11 :=
  Build_vdagent_x11 (clipboard_formats x) (clipboard_atom x)
    (clipboard_primary_atom x) (targets_atom x) (incr_atom x)
    (multiple_atom x) (root_window x) (selection_window x) (width x)
    (height x) (max_prop_size x) v (clipboard_owner x)
    (clipboard_type_count x) (clipboard_agent_types x)
    (clipboard_x11_targets x) (conversion_req x) (expect_property_notify x)
    (clipboard_data x) (clipboard_data_size x) (clipboard_data_space x)
    (selection_req x) (selection_req_data x) (selection_req_data_pos x)
    (selection_req_data_size x) (selection_req_atom x) (out x).

Definition set_clipboard_owner (v : gmap Z owner) (x : vdagent_x11)
  : vdagent_x11 :=
  Build_vdagent_x11 (clipboard_formats x) (clipboard_atom x)
    (clipboard_primary_atom x) (targets_atom x) (incr_atom x)
    (multiple_atom x) (root_window x) (selection_window x) (width x)
    (height x) (max_prop_size x) (expected_targets_notifies x) v
    (clipboard_type_count x) (clipboard_agent_types x)
    (clipboard_x11_targets x) (conversion_req x) (expect_property_notify x)
    (clipboard_data x) (clipboard_data_size x) (clipboard_data_space x)
    (selection_req x) (selection_req_data x) (selection_req_data_pos x)
    (selection_req_data_size x) (selection_req_atom x) (out x).

Definition set_clipboard_type_count (v : gmap Z Z) (x : vdagent_x11)
  : vdagent_x11 :=
  Build_vdagent_x11 (clipboard_formats x) (clipboard_atom x)
    (clipboard_primary_atom x) (targets_atom x) (incr_atom x)
    (multiple_atom x) (root_window x) (selection_window x) (width x)
    (height x) (max_prop_size x) (expected_targets_notifies x)
    (clipboard_owner x) v (clipboard_agent_types x)
    (clipboard_x11_targets x) (conversion_req x) (expect_property_notify x)
    (clipboard_data x) (clipboard_data_size x) (clipboard_data_space x)
    (selection_req x) (selection_req_data x) (selection_req_data_pos x)
    (selection_req_data_size x) (selection_req_atom x) (out x).

Definition set_clipboard_agent_types (v : gmap (Z * Z) Z) (x : vdagent_x11)
  : vdagent_x11 :=
  Build_vdagent_x11 (clipboard_formats x) (clipboard_atom x)
    (clipboard_primary_atom x) (targets_atom x) (incr_atom x)
    (multiple_atom x) (root_window x) (selection_window x) (width x)
    (height x) (max_prop_size x) (expected_targets_notifies x)
    (clipboard_owner x) (clipboard_type_count x) v
    (clipboard_x11_targets x) (conversion_req x) (expect_property_notify x)
    (clipboard_data x) (clipboard_data_size x) (clipboard_data_space x)
    (selection_req x) (selection_req_data x) (selection_req_data_pos x)
    (selection_req_data_size x) (selection_req_atom x) (out x).

Definition set_clipboard_x11_targets (v : gmap (Z * Z) Z) (x : vdagent_x11)
  : vdagent_x11 :=
  Build_vdagent_x11 (clipboard_formats x) (clipboard_atom x)
    (clipboard_primary_atom x) (targets_atom x) (incr_atom x)
    (multiple_atom x) (root_window x) (selection_window x) (width x)
    (height x) (max_prop_size x) (expected_targets_notifies x)
    (clipboard_owner x) (clipboard_type_count x) (clipboard_agent_types x)
    v (conversion_req x) (expect_property_notify x) (clipboard_data x)
    (clipboard_data_size x) (clipboard_data_space x) (selection_req x)
    (selection_req_data x) (selection_req_data_pos x)
    (selection_req_data_size x) (selection_req_atom x) (out x).

Definition set_conversion_req (v : list vdagent_x11_conversion_request) (x : vdagent_x11)
  : vdagent_x11 :=
  Build_vdagent_x11 (clipboard_formats x) (clipboard_atom x)
    (clipboard_primary_atom x) (targets_atom x) (incr_atom x)
    (multiple_atom x) (root_window x) (selection_window x) (width x)
    (height x) (max_prop_size x) (expected_targets_notifies x)
    (clipboard_owner x) (clipboard_type_count x) (clipboard_agent_types x)
    (clipboard_x11_targets x) v (expect_property_notify x)
    (clipboard_data x) (clipboard_data_size x) (clipboard_data_space x)
    (selection_req x) (selection_req_data x) (selection_req_data_pos x)
    (selection_req_data_size x) (selection_req_atom x) (out x).

Definition set_expect_property_notify (v : bool) (x : vdagent_x11)
  : vdagent_x11 :=
  Build_vdagent_x11 (clipboard_formats x) (clipboard_atom x)
    (clipboard_primary_atom x) (targets_atom x) (incr_atom x)
    (multiple_atom x) (root_window x) (selection_window x) (width x)
    (height x) (max_prop_size x) (expected_targets_notifies x)
    (clipboard_owner x) (clipboard_type_count x) (clipboard_agent_types x)
    (clipboard_x11_targets x) (conversion_req x) v (clipboard_data x)
    (clipboard_data_size x) (clipboard_data_space x) (selection_req x)
    (selection_req_data x) (selection_req_data_pos x)
    (selection_req_data_size x) (selection_req_atom x) (out x).

Definition set_clipboard_data (v : list Z) (x : vdagent_x11) : vdagent_x11 :=
  Build_vdagent_x11 (clipboard_formats x) (clipboard_atom x)
    (clipboard_primary_atom x) (targets_atom x) (incr_atom x)
    (multiple_atom x) (root_window x) (selection_window x) (width x)
    (height x) (max_prop_size x) (expected_targets_notifies x)
    (clipboard_owner x) (clipboard_type_count x) (clipboard_agent_types x)
    (clipboard_x11_targets x) (conversion_req x) (expect_property_notify x)
    v (clipboard_data_size x) (clipboard_data_space x) (selection_req x)
    (selection_req_data x) (selection_req_data_pos x)
    (selection_req_data_size x) (selection_req_atom x) (out x).

Definition set_clipboard_data_size (v : Z) (x : vdagent_x11) : vdagent_x11 :=
  Build_vdagent_x11 (clipboard_formats x) (clipboard_atom x)
    (clipboard_primary_atom x) (targets_atom x) (incr_atom x)
    (multiple_atom x) (root_window x) (selection_window x) (width x)
    (height x) (max_prop_size x) (expected_targets_notifies x)
    (clipboard_owner x) (clipboard_type_count x) (clipboard_agent_types x)
    (clipboard_x11_targets x) (conversion_req x) (expect_property_notify x)
    (clipboard_data x) v (clipboard_data_space x) (selection_req x)
    (selection_req_data x) (selection_req_data_pos x)
    (selection_req_data_size x) (selection_req_atom x) (out x).

Definition set_clipboard_data_space (v : Z) (x : vdagent_x11) : vdagent_x11 :=
  Build_vdagent_x11 (clipboard_formats x) (clipboard_atom x)
    (clipboard_primary_atom x) (targets_atom x) (incr_atom x)
    (multiple_atom x) (root_window x) (selection_window x) (width x)
    (height x) (max_prop_size x) (expected_targets_notifies x)
    (clipboard_owner x) (clipboard_type_count x) (clipboard_agent_types x)
    (clipboard_x11_targets x) (conversion_req x) (expect_property_notify x)
    (clipboard_data x) (clipboard_data_size x) v (selection_req x)
    (selection_req_data x) (selection_req_data_pos x)
    (selection_req_data_size x) (selection_req_atom x) (out x).

Definition set_selection_req (v : list vdagent_x11_selection_request) (x : vdagent_x11)
  : vdagent_x11 :=
  Build_vdagent_x11 (clipboard_formats x) (clipboard_atom x)
    (clipboard_primary_atom x) (targets_atom x) (incr_atom x)
    (multiple_atom x) (root_window x) (selection_window x) (width x)
    (height x) (max_prop_size x) (expected_targets_notifies x)
    (clipboard_owner x) (clipboard_type_count x) (clipboard_agent_types x)
    (clipboard_x11_targets x) (conversion_req x) (expect_property_notify x)
    (clipboard_data x) (clipboard_data_size x) (clipboard_data_space x) v
    (selection_req_data x) (selection_req_data_pos x)
    (selection_req_data_size x) (selection_req_atom x) (out x).

Definition set_selection_req_data (v : option (list Z)) (x : vdagent_x11)
  : vdagent_x11 :=
  Build_vdagent_x11 (clipboard_formats x) (clipboard_atom x)
    (clipboard_primary_atom x) (targets_atom x) (incr_atom x)
    (multiple_atom x) (root_window x) (selection_window x) (width x)
    (height x) (max_prop_size x) (expected_targets_notifies x)
    (clipboard_owner x) (clipboard_type_count x) (clipboard_agent_types x)
    (clipboard_x11_targets x) (conversion_req x) (expect_property_notify x)
    (clipboard_data x) (clipboard_data_size x) (clipboard_data_space x)
    (selection_req x) v (selection_req_data_pos x)
    (selection_req_data_size x) (selection_req_atom x) (out x).

Definition set_selection_req_data_pos (v : Z) (x : vdagent_x11)
  : vdagent_x11 :=
  Build_vdagent_x11 (clipboard_formats x) (clipboard_atom x)
    (clipboard_primary_atom x) (targets_atom x) (incr_atom x)
    (multiple_atom x) (root_window x) (selection_window x) (width x)
    (height x) (max_prop_size x) (expected_targets_notifies x)
    (clipboard_owner x) (clipboard_type_count x) (clipboard_agent_types x)
    (clipboard_x11_targets x) (conversion_req x) (expect_property_notify x)
    (clipboard_data x) (clipboard_data_size x) (clipboard_data_space x)
    (selection_req x) (selection_req_data x) v (selection_req_data_size x)
    (selection_req_atom x) (out x).

Definition set_selection_req_data_size (v : Z) (x : vdagent_x11)
  : vdagent_x11 :=
  Build_vdagent_x11 (clipboard_formats x) (clipboard_atom x)
    (clipboard_primary_atom x) (targets_atom x) (incr_atom x)
    (multiple_atom x) (root_window x) (selection_window x) (width x)
    (height x) (max_prop_size x) (expected_targets_notifies x)
    (clipboard_owner x) (clipboard_type_count x) (clipboard_agent_types x)
    (clipboard_x11_targets x) (conversion_req x) (expect_property_notify x)
    (clipboard_data x) (clipboard_data_size x) (clipboard_data_space x)
    (selection_req x) (selection_req_data x) (selection_req_data_pos x) v
    (selection_req_atom x) (out x).

Definition set_selection_req_atom (v : Atom) (x : vdagent_x11) : vdagent_x11 :=
  Build_vdagent_x11 (clipboard_formats x) (clipboard_atom x)
    (clipboard_primary_atom x) (targets_atom x) (incr_atom x)
    (multiple_atom x) (root_window x) (selection_window x) (width x)
    (height x) (max_prop_size x) (expected_targets_notifies x)
    (clipboard_owner x) (clipboard_type_count x) (clipboard_agent_types x)
    (clipboard_x11_targets x) (conversion_req x) (expect_property_notify x)
    (clipboard_data x) (clipboard_data_size x) (clipboard_data_space x)
    (selection_req x) (selection_req_data x) (selection_req_data_pos x)
    (selection_req_data_size x) v (out x).

Definition set_out (v : list action) (x : vdagent_x11) : vdagent_x11 :=
  Build_vdagent_x11 (clipboard_formats x) (clipboard_atom x)
    (clipboard_primary_atom x) (targets_atom x) (incr_atom x)
    (multiple_atom x) (root_window x) (selection_window x) (width x)
    (height x) (max_prop_size x) (expected_targets_notifies x)
    (clipboard_owner x) (clipboard_type_count x) (clipboard_agent_types x)
    (clipboard_x11_targets x) (conversion_req x) (expect_property_notify x)
    (clipboard_data x) (clipboard_data_size x) (clipboard_data_space x)
    (selection_req x) (selection_req_data x) (selection_req_data_pos x)
    (selection_req_data_size x) (selection_req_atom x) v.

(** Reads of the arrays indexed by selection; [calloc] zeroes them, so a
    slot never written holds 0 ([owner_none] for [clipboard_owner]). *)

Definition expected_targets_notifies_at (x : vdagent_x11) (selection : Z) : Z :=
  default 0 (expected_targets_notifies x !! selection).

Definition clipboard_owner_at (x : vdagent_x11) (selection : Z) : owner :=
  default owner_none (clipboard_owner x !! selection).

Definition clipboard_type_count_at (x : vdagent_x11) (selection : Z) : Z :=
  default 0 (clipboard_type_count x !! selection).

Definition clipboard_agent_types_at (x : vdagent_x11) (selection i : Z) : Z :=
  default 0 (clipboard_agent_types x !! (selection, i)).

Definition clipboard_x11_targets_at (x : vdagent_x11) (selection i : Z) : Z :=
  default 0 (clipboard_x11_targets x !! (selection, i)).

(** The indices [0 .. n-1]. *)
Definition indices (n : Z) : list Z := Z.of_nat <$> seq 0 (Z.to_nat n).

(** [clipboard_agent_types[selection]], its first [clipboard_type_count]
    entries: what [udscs_write] sends with a grab. *)
Definition agent_types_row (x : vdagent_x11) (selection : Z) : list Z :=
  clipboard_agent_types_at x selection <$>
    indices (clipboard_type_count_at x selection).

(** The call is recorded in [out]. *)
Definition emit (a : action) (x : vdagent_x11) : vdagent_x11 :=
  set_out (out x ++ [a]) x.

(** ** Queue heads *)

Definition vdagent_x11_next_selection_request (x : vdagent_x11)
  : option vdagent_x11 :=
  match selection_req x with
  | [] => None
  | _ :: next => Some (set_selection_req next x)
  end.

Definition vdagent_x11_next_conversion_request (x : vdagent_x11)
  : option vdagent_x11 :=
  match conversion_req x with
  | [] => None
  | _ :: next => Some (set_conversion_req next x)
  end.

(** The SelectionNotify event [vdagent_x11_send_selection_notify] builds
    from the request's event. *)
Definition selection_notify (prop : Atom) (event : XSelectionRequestEvent)
  : XSelectionEvent :=
  {| xselection_requestor := xselectionrequest_requestor event;
     xselection_selection := xselectionrequest_selection event;
     xselection_target := xselectionrequest_target event;
     xselection_property := prop;
     xselection_time := xselectionrequest_time event |}.

(** [vdagent_x11_send_selection_notify] with a request given: the event is
    sent and the queue is left alone. *)
Definition send_selection_notify_to (prop : Atom)
    (request : vdagent_x11_selection_request) (x : vdagent_x11) : vdagent_x11 :=
  emit (XSendEvent (xselectionrequest_requestor (sel_event request))
                   (selection_notify prop (sel_event request))) x.

(** ** [vdagent_x11_set_clipboard_owner] *)

(** The first [while] loop. [prev] holds the nodes kept so far, in order
    ([prev_sel] is its last one) and [next_sel] the nodes still to visit; the
    queue is [prev ++ next_sel] throughout. [curr_sel == x11->selection_req]
    holds exactly when no node has been kept yet. *)
Fixpoint clear_selection_requests (selection : Z)
    (prev next_sel : list vdagent_x11_selection_request) (x : vdagent_x11)
  : vdagent_x11 :=
  match next_sel with
  | [] => x
  | curr_sel :: next_sel =>
      if sel_selection curr_sel =? selection then
        let x := send_selection_notify_to XNone curr_sel x in
        let x :=
          match prev with
          | [] =>
              set_selection_req_atom XNone
                (set_selection_req_data_size 0
                  (set_selection_req_data_pos 0
                    (set_selection_req_data None
                      (set_selection_req next_sel x))))
          | _ => set_selection_req (prev ++ next_sel) x
          end in
        clear_selection_requests selection prev next_sel x
      else
        clear_selection_requests selection (prev ++ [curr_sel]) next_sel x
  end.

(** The second [while] loop, over the conversion requests. *)
Fixpoint clear_conversion_requests (selection : Z)
    (prev next_conv : list vdagent_x11_conversion_request) (x : vdagent_x11)
  : vdagent_x11 :=
  match next_conv with
  | [] => x
  | curr_conv :: next_conv =>
      if conv_selection curr_conv =? selection then
        let x := emit (udscs_write VDAGENTD_CLIPBOARD_DATA selection
                         VD_AGENT_CLIPBOARD_NONE NoData) x in
        let x :=
          match prev with
          | [] =>
              set_expect_property_notify false
                (set_clipboard_data_size 0
                  (set_conversion_req next_conv x))
          | _ => set_conversion_req (prev ++ next_conv) x
          end in
        clear_conversion_requests selection prev next_conv x
      else
        clear_conversion_requests selection (prev ++ [curr_conv]) next_conv x
  end.

(** The tail of the function: the release message, the catalog reset and
    the assignment of the new owner. *)
Definition assign_clipboard_owner (selection : Z) (new_owner : owner)
    (x : vdagent_x11) : vdagent_x11 :=
  let x :=
    if decide (new_owner = owner_none) then
      let x :=
        if decide (clipboard_owner_at x selection = owner_guest) then
          emit (udscs_write VDAGENTD_CLIPBOARD_RELEASE selection 0 NoData) x
        else x in
      set_clipboard_type_count (<[selection := 0]> (clipboard_type_count x)) x
    else x in
  set_clipboard_owner (<[selection := new_owner]> (clipboard_owner x)) x.

(** The head of the function, [/* Clear pending requests and clipboard
    data */]: the two loops. *)
Definition clear_pending_requests (x : vdagent_x11) (selection : Z)
  : vdagent_x11 :=
  let x := clear_selection_requests selection [] (selection_req x) x in
  clear_conversion_requests selection [] (conversion_req x) x.

Definition vdagent_x11_set_clipboard_owner (x : vdagent_x11) (selection : Z)
    (new_owner : owner) : vdagent_x11 :=
  assign_clipboard_owner selection new_owner
    (clear_pending_requests x selection).

(** ** Selections and atoms *)

(** Returns the atom, or [None] where the C function returns -1. *)
Definition vdagent_x11_get_clipboard_atom (x : vdagent_x11) (selection : Z)
  : option Atom :=
  if selection =? VD_AGENT_CLIPBOARD_SELECTION_CLIPBOARD then
    Some (clipboard_atom x)
  else if selection =? VD_AGENT_CLIPBOARD_SELECTION_PRIMARY then
    Some (clipboard_primary_atom x)
  else None.

(** The second half of [vdagent_x11_get_clipboard_selection]: the selection
    id of a selection atom, or [None] where the function returns -1. *)
Definition selection_of_atom (x : vdagent_x11) (atom : Atom) : option Z :=
  if atom =? clipboard_atom x then
    Some VD_AGENT_CLIPBOARD_SELECTION_CLIPBOARD
  else if atom =? clipboard_primary_atom x then
    Some VD_AGENT_CLIPBOARD_SELECTION_PRIMARY
  else None.

(** Returns the selection id, or [None] where the C function returns -1. *)
Definition vdagent_x11_get_clipboard_selection (x : vdagent_x11)
    (event : XEvent) : option Z :=
  match event with
  | XFixesSelectionNotify _ _ selection => selection_of_atom x selection
  | SelectionNotify e => selection_of_atom x (xselection_selection e)
  | SelectionRequest e => selection_of_atom x (xselectionrequest_selection e)
  | _ => None
  end.

(** ** [vdagent_x11_target_to_type] *)

(** The two nested [for] loops as written: the inner loop's increment is
    [i++], so [j] keeps the value it was given and each pass moves on to the
    next format. [formats] is [clipboard_formats] from index [i] on; the
    function is entered at the inner loop's test, which reads
    [clipboard_formats[i].atom_count]. With [i = clipboard_format_count]
    that read is past the end of the array. When the inner test fails the
    outer loop does its own [i++] and test. *)
Fixpoint target_to_type_inner (formats : list clipboard_format_info) (j : Z)
    (target : Atom) : option Z :=
  match formats with
  | [] => None
  | f :: formats =>
      if j <? fmt_atom_count f then
        match fmt_atoms f !! Z.to_nat j with
        | None => None
        | Some a =>
            if a =? target then Some (fmt_type f)
            else target_to_type_inner formats j target
        end
      else
        match formats with
        | [] => Some VD_AGENT_CLIPBOARD_NONE
        | _ => target_to_type_inner formats 0 target
        end
  end.

Definition vdagent_x11_target_to_type (x : vdagent_x11) (selection : Z)
    (target : Atom) : option Z :=
  match clipboard_formats x with
  | [] => Some VD_AGENT_CLIPBOARD_NONE
  | formats => target_to_type_inner formats 0 target
  end.

(** ** [vdagent_x11_type_to_target] *)

Fixpoint type_to_target_from (x : vdagent_x11) (selection type : Z)
    (idx : list Z) : Atom :=
  match idx with
  | [] => XNone
  | i :: idx =>
      if clipboard_agent_types_at x selection i =? type then
        clipboard_x11_targets_at x selection i
      else type_to_target_from x selection type idx
  end.

Definition vdagent_x11_type_to_target (x : vdagent_x11) (selection type : Z)
  : Atom :=
  type_to_target_from x selection type
    (indices (clipboard_type_count_at x selection)).

(** ** [vdagent_x11_get_selection] *)

(** [event->xselection] of an event; only read for a SelectionNotify. *)
Definition xselection (event : XEvent) : XSelectionEvent :=
  match event with
  | SelectionNotify e => e
  | _ => {| xselection_requestor := 0; xselection_selection := 0;
            xselection_target := 0; xselection_property := 0;
            xselection_time := 0 |}
  end.

(** [*(uint32_t * )data] on the items Xlib returned (little endian; Xlib
    stores format-32 items as longs). The read is past the data when there
    are too few items. *)
Definition read_uint32 (format : Z) (items : list Z) : option Z :=
  if format =? 32 then
    match items with
    | v :: _ => Some (to_uint32 v)
    | _ => None
    end
  else if format =? 16 then
    match items with
    | v0 :: v1 :: _ => Some (v0 mod 65536 + 65536 * (v1 mod 65536))
    | _ => None
    end
  else if format =? 8 then
    match items with
    | b0 :: b1 :: b2 :: b3 :: _ =>
        Some (b0 mod 256 + 256 * (b1 mod 256) + 65536 * (b2 mod 256)
              + 16777216 * (b3 mod 256))
    | _ => None
    end
  else None.

(** The [exit:] label, reached with [ret_val] and [*data_ret]. *)
Definition get_selection_exit (incr : bool) (ret_val : Z) (data_ret : list Z)
    (x : vdagent_x11) : option (Z * list Z * vdagent_x11) :=
  Some (ret_val, data_ret,
        if incr then
          set_expect_property_notify false (set_clipboard_data_size 0 x)
        else x).

(** The function from the type and format checks on; [len] is [nitems]. *)
Definition get_selection_data (x : vdagent_x11) (type : Atom) (format : Z)
    (incr : bool) (env : environment) : option (Z * list Z * vdagent_x11) :=
  let r := env_reply env in
  let len := Z.of_nat (length (reply_items r)) in
  if negb (reply_type r =? type) then get_selection_exit incr (-1) [] x
  else if negb (reply_format r =? format) then get_selection_exit incr (-1) [] x
  else
    let len :=
      if format =? 16 then to_ulong (len * sizeof_short)
      else if format =? 32 then to_ulong (len * sizeof_long)
      else len in
    if incr then
      if negb (len =? 0) then
        let size := to_ulong (clipboard_data_size x + len) in
        let grown :=
          if clipboard_data_space x <? size then
            if env_alloc_ok env then
              Some (set_clipboard_data_space (to_uint32 size) x)
            else None
          else Some x in
        match grown with
        | None =>
            get_selection_exit incr (-1) []
              (set_clipboard_data [] (set_clipboard_data_space 0 x))
        | Some x =>
            Some (0, [],
                  set_clipboard_data_size (to_uint32 size)
                    (set_clipboard_data
                       (take (Z.to_nat (clipboard_data_size x))
                             (clipboard_data x) ++ reply_items r) x))
        end
      else
        let len := clipboard_data_size x in
        if 0 <? len then
          get_selection_exit incr (to_int len) (clipboard_data x) x
        else get_selection_exit incr (-1) [] x
    else
      if 0 <? len then get_selection_exit incr (to_int len) (reply_items r) x
      else get_selection_exit incr (-1) [] x.

(** [clipboard_data] holds the bytes received so far; the contents of a
    buffer fresh from [malloc] are not modelled. *)
Definition vdagent_x11_get_selection (x : vdagent_x11) (event : XEvent)
    (selection : Z) (type prop : Atom) (format : Z) (incr : bool)
    (env : environment) : option (Z * list Z * vdagent_x11) :=
  if negb incr && (xselection_property (xselection event) =? XNone) then
    get_selection_exit incr (-1) [] x
  else if negb incr &&
          (negb (xselection_requestor (xselection event) =? selection_window x)
           || negb (xselection_property (xselection event) =? prop)) then
    get_selection_exit incr (-1) [] x
  else
    let x := emit (XGetWindowProperty (selection_window x) prop incr type) x in
    let r := env_reply env in
    if negb (reply_success r) then get_selection_exit incr (-1) [] x
    else if negb incr && negb (prop =? targets_atom x) then
      if reply_type r =? incr_atom x then
        match read_uint32 (reply_format r) (reply_items r) with
        | None => None
        | Some v =>
            let prop_min_size := to_int v in
            if expect_property_notify x then get_selection_exit incr (-1) [] x
            else
              let wait (x : vdagent_x11) :=
                let x := set_expect_property_notify true x in
                let x := emit (XSelectInput (selection_window x)
                                            PropertyChangeMask) x in
                let x := emit (XDeleteProperty (selection_window x) prop) x in
                Some (0, [], x) in
              if clipboard_data_space x <? to_uint32 prop_min_size then
                if env_alloc_ok env then
                  wait (set_clipboard_data_space (to_uint32 prop_min_size)
                          (set_clipboard_data [] x))
                else
                  get_selection_exit incr (-1) []
                    (set_clipboard_data_space 0 (set_clipboard_data [] x))
              else wait x
        end
      else
        get_selection_data
          (emit (XDeleteProperty (selection_window x) prop) x)
          type format incr env
    else get_selection_data x type format incr env.

Definition vdagent_x11_get_selection_free (x : vdagent_x11) (incr : bool)
  : vdagent_x11 :=
  if incr then
    if 512 * 1024 <? clipboard_data_space x then
      set_clipboard_data_space 0 (set_clipboard_data [] x)
    else x
  else x.

(** ** Conversion requests (guest to client) *)

Definition vdagent_x11_handle_conversion_request (x : vdagent_x11)
  : option vdagent_x11 :=
  match conversion_req x with
  | [] => Some x
  | req :: _ =>
      clip ← vdagent_x11_get_clipboard_atom x (conv_selection req);
      Some (emit (XConvertSelection clip (conv_target req) clip
                                    (selection_window x)) x)
  end.

(** [data, len] as handed to [udscs_write]. *)
Definition data_payload (data : list Z) (len : Z) : payload :=
  if len =? 0 then NoData else Bytes (take (Z.to_nat len) data).

Definition vdagent_x11_handle_selection_notify (x : vdagent_x11)
    (event : XEvent) (incr : bool) (env : environment) : option vdagent_x11 :=
  match conversion_req x with
  | [] => Some x
  | req :: _ =>
      clip ← vdagent_x11_get_clipboard_atom x (conv_selection req);
      let checked : option Z :=
        if incr then
          match event with
          | PropertyNotify window atom _ =>
              if negb (atom =? clip) || negb (window =? selection_window x)
              then None else Some 0
          | _ => None
          end
        else
          let len :=
            match vdagent_x11_get_clipboard_selection x event with
            | None => -1
            | Some selection =>
                if negb (selection =? conv_selection req) then -1 else 0
            end in
          if negb (xselection_target (xselection event) =? conv_target req)
             && negb (xselection_target (xselection event) =? incr_atom x)
          then Some (-1) else Some len in
      match checked with
      | None => Some x
      | Some len =>
          let selection := conv_selection req in
          type ← vdagent_x11_target_to_type x selection (conv_target req);
          '(len, data, x) ←
            (if len =? 0 then
               vdagent_x11_get_selection x event selection (conv_target req)
                                         clip 8 incr env
             else Some (len, [], x));
          if len =? 0 then Some x
          else
            let '(type, len) :=
              if len =? -1 then (VD_AGENT_CLIPBOARD_NONE, 0)
              else (type, len) in
            let x := emit (udscs_write VDAGENTD_CLIPBOARD_DATA selection type
                             (data_payload data len)) x in
            let x := vdagent_x11_get_selection_free x incr in
            x ← vdagent_x11_next_conversion_request x;
            vdagent_x11_handle_conversion_request x
      end
  end.

(** ** The targets reply of the selection owner *)

(** The inner loop of [atom_lists_overlap]: is [a] among [atoms2]? *)
Fixpoint atom_in_list (a : Atom) (atoms2 : list Atom) : bool :=
  match atoms2 with
  | [] => false
  | b :: atoms2 => if a =? b then true else atom_in_list a atoms2
  end.

(** The outer loop. *)
Fixpoint atom_lists_overlap_from (atoms1 atoms2 : list Atom) : Atom :=
  match atoms1 with
  | [] => 0
  | a :: atoms1 =>
      if atom_in_list a atoms2 then a
      else atom_lists_overlap_from atoms1 atoms2
  end.

Definition atom_lists_overlap (atoms1 atoms2 : list Atom) (l1 l2 : Z) : Atom :=
  atom_lists_overlap_from (take (Z.to_nat l1) atoms1)
                          (take (Z.to_nat l2) atoms2).

(** The [for] loop of [vdagent_x11_handle_targets_notify] over the formats
    still to visit; it stops early when a row is full. *)
Fixpoint record_targets (selection : Z) (formats : list clipboard_format_info)
    (atoms : list Atom) (len : Z) (x : vdagent_x11) : vdagent_x11 :=
  match formats with
  | [] => x
  | f :: formats =>
      let atom := atom_lists_overlap (fmt_atoms f) atoms
                                     (fmt_atom_count f) len in
      if negb (atom =? 0) then
        let type_count := clipboard_type_count_at x selection in
        let x := set_clipboard_agent_types
                   (<[(selection, type_count) := fmt_type f]>
                      (clipboard_agent_types x)) x in
        let x := set_clipboard_x11_targets
                   (<[(selection, type_count) := atom]>
                      (clipboard_x11_targets x)) x in
        let x := set_clipboard_type_count
                   (<[selection := type_count + 1]>
                      (clipboard_type_count x)) x in
        if type_count + 1 =? MAX_TYPES then x
        else record_targets selection formats atoms len x
      else record_targets selection formats atoms len x
  end.

Definition vdagent_x11_handle_targets_notify (x : vdagent_x11)
    (event : XEvent) (env : environment) : option vdagent_x11 :=
  match vdagent_x11_get_clipboard_selection x event with
  | None => Some x
  | Some selection =>
      if expected_targets_notifies_at x selection =? 0 then Some x
      else
        let x := set_expected_targets_notifies
                   (<[selection := expected_targets_notifies_at x selection - 1]>
                      (expected_targets_notifies x)) x in
        if negb (expected_targets_notifies_at x selection =? 0) then Some x
        else
          '(len, atoms, x) ←
            vdagent_x11_get_selection x event selection XA_ATOM
                                      (targets_atom x) 32 false env;
          if (len =? 0) || (len =? -1) then Some x
          else
            let len := len / sizeof_Atom in
            let x := set_clipboard_type_count
                       (<[selection := 0]> (clipboard_type_count x)) x in
            let x := record_targets selection (clipboard_formats x)
                                    atoms len x in
            if negb (clipboard_type_count_at x selection =? 0) then
              let x := emit (udscs_write VDAGENTD_CLIPBOARD_GRAB selection 0
                               (Types (agent_types_row x selection))) x in
              Some (vdagent_x11_set_clipboard_owner x selection owner_guest)
            else Some x
  end.

(** ** Selection requests (client to guest) *)

(** The innermost loop of [vdagent_x11_send_targets]: the atoms of one
    format are appended to [targets]; the flag tells that the array is full
    ([goto exit_loop]). *)
Fixpoint send_targets_atoms (atoms targets : list Atom) : list Atom * bool :=
  match atoms with
  | [] => (targets, false)
  | a :: atoms =>
      let targets := targets ++ [a] in
      if Z.of_nat (length targets) =? MAX_TYPES then (targets, true)
      else send_targets_atoms atoms targets
  end.

(** The loop over the formats, for one advertised type. *)
Fixpoint send_targets_formats (formats : list clipboard_format_info)
    (type : Z) (targets : list Atom) : list Atom * bool :=
  match formats with
  | [] => (targets, false)
  | f :: formats =>
      if negb (fmt_type f =? type) then
        send_targets_formats formats type targets
      else
        let '(targets, full) :=
          send_targets_atoms (take (Z.to_nat (fmt_atom_count f)) (fmt_atoms f))
                             targets in
        if full then (targets, true)
        else send_targets_formats formats type targets
  end.

(** The loop over the advertised types. *)
Fixpoint send_targets_types (formats : list clipboard_format_info)
    (types : list Z) (targets : list Atom) : list Atom :=
  match types with
  | [] => targets
  | type :: types =>
      let '(targets, full) := send_targets_formats formats type targets in
      if full then targets
      else send_targets_types formats types targets
  end.

(** The property a reply is written to: the request's property, or its
    target when the property is None. *)
Definition reply_property (event : XSelectionRequestEvent) : Atom :=
  if xselectionrequest_property event =? XNone then
    xselectionrequest_target event
  else xselectionrequest_property event.

(** [vdagent_x11_send_targets] up to its last call, which is
    [vdagent_x11_send_selection_notify (x11, prop, NULL)]. *)
Definition send_targets_property (x : vdagent_x11) (selection : Z)
    (event : XSelectionRequestEvent) : vdagent_x11 :=
  let targets :=
    send_targets_types (clipboard_formats x) (agent_types_row x selection)
                       [targets_atom x] in
  emit (XChangeProperty (xselectionrequest_requestor event)
          (reply_property event) XA_ATOM 32 targets
          (Z.of_nat (length targets))) x.

(** [vdagent_x11_handle_selection_request], on the queue [queue] that
    [x11->selection_req] points to. The function and
    [vdagent_x11_send_selection_notify (x11, prop, NULL)] call each other,
    each round with a queue one shorter; [reply prop x] is that call. *)
Fixpoint handle_selection_request_from
    (queue : list vdagent_x11_selection_request) (x : vdagent_x11)
  : option vdagent_x11 :=
  match queue with
  | [] => Some x
  | req :: next =>
      let event := sel_event req in
      let selection := sel_selection req in
      let reply (prop : Atom) (x : vdagent_x11) :=
        handle_selection_request_from next
          (set_selection_req next (send_selection_notify_to prop req x)) in
      if negb (bool_decide (clipboard_owner_at x selection = owner_client))
      then reply XNone x
      else if xselectionrequest_target event =? multiple_atom x
      then reply XNone x
      else if xselectionrequest_target event =? targets_atom x
      then reply (reply_property event)
                 (send_targets_property x selection event)
      else
        type ← vdagent_x11_target_to_type x selection
                 (xselectionrequest_target event);
        if type =? VD_AGENT_CLIPBOARD_NONE then reply XNone x
        else Some (emit (udscs_write VDAGENTD_CLIPBOARD_REQUEST selection type
                           NoData) x)
  end.

Definition vdagent_x11_handle_selection_request (x : vdagent_x11)
  : option vdagent_x11 :=
  handle_selection_request_from (selection_req x) x.

(** With [request = None] the event of the queue's head is answered, the
    head is dropped and the next request is handled. *)
Definition vdagent_x11_send_selection_notify (x : vdagent_x11) (prop : Atom)
    (request : option vdagent_x11_selection_request) : option vdagent_x11 :=
  match request with
  | Some request => Some (send_selection_notify_to prop request x)
  | None =>
      match selection_req x with
      | [] => None
      | head :: _ =>
          x ← vdagent_x11_next_selection_request
                (send_selection_notify_to prop head x);
          vdagent_x11_handle_selection_request x
      end
  end.

Definition vdagent_x11_send_targets (x : vdagent_x11) (selection : Z)
    (event : XSelectionRequestEvent) : option vdagent_x11 :=
  vdagent_x11_send_selection_notify
    (send_targets_property x selection event) (reply_property event) None.

(** The bytes [data + pos .. data + pos + len - 1]. *)
Definition slice (data : list Z) (pos len : Z) : list Z :=
  take (Z.to_nat len) (drop (Z.to_nat pos) data).

Definition vdagent_x11_handle_property_delete_notify (x : vdagent_x11)
    (del_event : XEvent) : option vdagent_x11 :=
  match selection_req x, del_event with
  | req :: _, PropertyNotify window atom _ =>
      let sel_event := sel_event req in
      if negb (window =? xselectionrequest_requestor sel_event)
         || negb (atom =? selection_req_atom x) then Some x
      else
        let len := to_int (to_uint32 (selection_req_data_size x
                                      - selection_req_data_pos x)) in
        let len := if max_prop_size x <? len then max_prop_size x else len in
        let x := emit (XChangeProperty
                         (xselectionrequest_requestor sel_event)
                         (selection_req_atom x)
                         (xselectionrequest_target sel_event) 8
                         (slice (default [] (selection_req_data x))
                                (selection_req_data_pos x) len)
                         len) x in
        let x := set_selection_req_data_pos
                   (to_uint32 (selection_req_data_pos x + len)) x in
        if len =? 0 then
          let x := set_selection_req_data None x in
          let x := set_selection_req_data_pos 0 x in
          let x := set_selection_req_data_size 0 x in
          let x := set_selection_req_atom XNone x in
          x ← vdagent_x11_next_selection_request x;
          vdagent_x11_handle_selection_request x
        else Some x
  | _, _ => None
  end.

(** ** The event handler *)

Definition vdagent_x11_send_daemon_guest_xorg_res (x : vdagent_x11)
  : vdagent_x11 :=
  emit (udscs_write VDAGENTD_GUEST_XORG_RESOLUTION 0 0
          (Resolution (width x) (height x))) x.

Definition vdagent_x11_handle_event (x : vdagent_x11) (event : XEvent)
    (env : environment) : option vdagent_x11 :=
  match event with
  | XFixesSelectionNotify subtype xfev_owner xfev_selection =>
      match vdagent_x11_get_clipboard_selection x event with
      | None => Some x
      | Some selection =>
          let new_owner :=
            match subtype with
            | XFixesSetSelectionOwnerNotify => Some xfev_owner
            | XFixesSelectionWindowDestroyNotify
            | XFixesSelectionClientCloseNotify => Some XNone
            | XFixesUnknownSubtype => None
            end in
          match new_owner with
          | None => Some x
          | Some xfev_owner =>
              if xfev_owner =? selection_window x then Some x
              else
                let x := vdagent_x11_set_clipboard_owner x selection
                                                         owner_none in
                if xfev_owner =? XNone then Some x
                else
                  let x := emit (XConvertSelection xfev_selection
                                   (targets_atom x) (targets_atom x)
                                   (selection_window x)) x in
                  let n := expected_targets_notifies_at x selection in
                  if n =? INT_MAX then None
                  else
                    Some (set_expected_targets_notifies
                            (<[selection := n + 1]>
                               (expected_targets_notifies x)) x)
          end
      end
  | ConfigureNotify window w h =>
      if negb (window =? root_window x) then Some x
      else if (w =? width x) && (h =? height x) then Some x
      else
        Some (vdagent_x11_send_daemon_guest_xorg_res
                (set_height h (set_width w x)))
  | MappingNotify => Some x
  | SelectionNotify e =>
      if xselection_target e =? targets_atom x then
        vdagent_x11_handle_targets_notify x event env
      else vdagent_x11_handle_selection_notify x event false env
  | PropertyNotify window atom state =>
      x ← (if expect_property_notify x
              && bool_decide (state = PropertyNewValue)
           then vdagent_x11_handle_selection_notify x event true env
           else Some x);
      if bool_decide (is_Some (selection_req_data x))
         && bool_decide (state = PropertyDelete)
      then vdagent_x11_handle_property_delete_notify x event
      else Some x
  | SelectionClear => Some x
  | SelectionRequest e =>
      match vdagent_x11_get_clipboard_selection x event with
      | None => Some x
      | Some selection =>
          if negb (env_alloc_ok env) then Some x
          else
            let new_req := {| sel_event := e; sel_selection := selection |} in
            match selection_req x with
            | [] =>
                vdagent_x11_handle_selection_request
                  (set_selection_req [new_req] x)
            | queue => Some (set_selection_req (queue ++ [new_req]) x)
            end
      end
  | OtherEvent => Some x
  end.

(** [vdagent_x11_do_read]: [pending] are the events [XNextEvent] returns
    while [XPending] is not zero, each with its environment. *)
Fixpoint vdagent_x11_do_read (x : vdagent_x11)
    (pending : list (XEvent * environment)) : option vdagent_x11 :=
  match pending with
  | [] => Some x
  | (event, env) :: pending =>
      x ← vdagent_x11_handle_event x event env;
      vdagent_x11_do_read x pending
  end.

(** ** The entry points driven by the daemon *)

Definition vdagent_x11_clipboard_request (x : vdagent_x11)
    (selection type : Z) (alloc_ok : bool)
    (pending : list (XEvent * environment)) : option vdagent_x11 :=
  let none (x : vdagent_x11) :=
    Some (emit (udscs_write VDAGENTD_CLIPBOARD_DATA selection
                  VD_AGENT_CLIPBOARD_NONE NoData) x) in
  match vdagent_x11_get_clipboard_atom x selection with
  | None => none x
  | Some _ =>
      if negb (bool_decide (clipboard_owner_at x selection = owner_guest))
      then none x
      else
        let target := vdagent_x11_type_to_target x selection type in
        if target =? XNone then none x
        else if negb alloc_ok then Some x
        else
          let new_req := {| conv_target := target;
                            conv_selection := selection |} in
          match conversion_req x with
          | [] =>
              x ← vdagent_x11_handle_conversion_request
                    (set_conversion_req [new_req] x);
              vdagent_x11_do_read x pending
          | queue => Some (set_conversion_req (queue ++ [new_req]) x)
          end
  end.

(** [memcpy] into [clipboard_agent_types[selection]]. *)
Fixpoint copy_agent_types (selection : Z) (i : Z) (types : list Z)
    (m : gmap (Z * Z) Z) : gmap (Z * Z) Z :=
  match types with
  | [] => m
  | t :: types => copy_agent_types selection (i + 1) types
                    (<[(selection, i) := t]> m)
  end.

(** [types] has [type_count] entries; fewer is a read past its end. *)
Definition vdagent_x11_clipboard_grab (x : vdagent_x11) (selection : Z)
    (types : list Z) (type_count : Z)
    (pending : list (XEvent * environment)) : option vdagent_x11 :=
  match vdagent_x11_get_clipboard_atom x selection with
  | None => Some x
  | Some clip =>
      let type_count :=
        if MAX_TYPES <? type_count then MAX_TYPES else type_count in
      if Z.of_nat (length types) <? type_count then None
      else
        let x := set_clipboard_agent_types
                   (copy_agent_types selection 0
                      (take (Z.to_nat type_count) types)
                      (clipboard_agent_types x)) x in
        let x := set_clipboard_type_count
                   (<[selection := type_count]> (clipboard_type_count x)) x in
        let x := emit (XSetSelectionOwner clip (selection_window x)) x in
        let x := vdagent_x11_set_clipboard_owner x selection owner_client in
        vdagent_x11_do_read x pending
  end.

(** [data] points to [size] bytes. *)
Definition vdagent_x11_clipboard_data (x : vdagent_x11) (selection type : Z)
    (data : list Z) (size : Z) (pending : list (XEvent * environment))
  : option vdagent_x11 :=
  if bool_decide (is_Some (selection_req_data x)) then Some x
  else
    match selection_req x with
    | [] => Some x
    | req :: _ =>
        let event := sel_event req in
        type_from_event ← vdagent_x11_target_to_type x (sel_selection req)
                            (xselectionrequest_target event);
        if negb (type_from_event =? type)
           || negb (selection =? sel_selection req) then
          x ← vdagent_x11_send_selection_notify x XNone None;
          vdagent_x11_do_read x pending
        else
          let prop := reply_property event in
          if to_uint32 (max_prop_size x) <? size then
            let x := set_selection_req_data (Some data) x in
            let x := set_selection_req_data_pos 0 x in
            let x := set_selection_req_data_size size x in
            let x := set_selection_req_atom prop x in
            let x := emit (XSelectInput (xselectionrequest_requestor event)
                                        PropertyChangeMask) x in
            let x := emit (XChangeProperty
                             (xselectionrequest_requestor event) prop
                             (incr_atom x) 32 [size] 1) x in
            x ← vdagent_x11_send_selection_notify x prop (Some req);
            vdagent_x11_do_read x pending
          else
            let x := emit (XChangeProperty
                             (xselectionrequest_requestor event) prop
                             (xselectionrequest_target event) 8
                             (take (Z.to_nat size) data) (to_int size)) x in
            x ← vdagent_x11_send_selection_notify x prop None;
            vdagent_x11_do_read x pending
    end.

(** [xfixes_events] are the events [XCheckTypedEvent] finds after the
    [XSync]. *)
Definition vdagent_x11_clipboard_release (x : vdagent_x11) (selection : Z)
    (xfixes_events pending : list (XEvent * environment))
  : option vdagent_x11 :=
  match vdagent_x11_get_clipboard_atom x selection with
  | None => Some x
  | Some clip =>
      if negb (bool_decide (clipboard_owner_at x selection = owner_client))
      then Some x
      else
        let x := emit (XSetSelectionOwner clip XNone) x in
        let x := emit XSync x in
        x ← vdagent_x11_do_read x xfixes_events;
        vdagent_x11_do_read x pending
  end.

(** ** [vdagent_x11_create] *)

(** The catalog, with the atoms [XInternAtom] returns for the names. *)
Definition intern_formats (XInternAtom : string → Atom)
  : list clipboard_format_info :=
  (λ t, {| fmt_type := tmpl_type t;
           fmt_atoms := XInternAtom <$> tmpl_atom_names t;
           fmt_atom_count := Z.of_nat (length (tmpl_atom_names t)) |})
    <$> clipboard_format_templates.

(** [max_prop_size] from [XExtendedMaxRequestSize] and [XMaxRequestSize]. *)
Definition initial_max_prop_size (extended_max max : Z) : Z :=
  let size :=
    if negb (to_int extended_max =? 0) then to_int extended_max - 100
    else to_int (max - 100) in
  if 262144 <? size then 262144 else size.

(** The state after a successful start: the display answers [XInternAtom],
    gives the root window, the new selection window, the request sizes and
    the root window's size. The calls of the set-up itself are not
    recorded. *)
Definition vdagent_x11_create (XInternAtom : string → Atom)
    (root selection : Window) (extended_max max w h : Z)
    (pending : list (XEvent * environment)) : option vdagent_x11 :=
  let x :=
    {| clipboard_formats := intern_formats XInternAtom;
       clipboard_atom := XInternAtom "CLIPBOARD"%string;
       clipboard_primary_atom := XInternAtom "PRIMARY"%string;
       targets_atom := XInternAtom "TARGETS"%string;
       incr_atom := XInternAtom "INCR"%string;
       multiple_atom := XInternAtom "MULTIPLE"%string;
       root_window := root;
       selection_window := selection;
       width := w;
       height := h;
       max_prop_size := initial_max_prop_size extended_max max;
       expected_targets_notifies := ∅;
       clipboard_owner := ∅;
       clipboard_type_count := ∅;
       clipboard_agent_types := ∅;
       clipboard_x11_targets := ∅;
       conversion_req := [];
       expect_property_notify := false;
       clipboard_data := [];
       clipboard_data_size := 0;
       clipboard_data_space := 0;
       selection_req := [];
       selection_req_data := None;
       selection_req_data_pos := 0;
       selection_req_data_size := 0;
       selection_req_atom := XNone;
       out := [] |} in
  vdagent_x11_do_read (vdagent_x11_send_daemon_guest_xorg_res x) pending.

(** ** A sample display *)

(** An atom table as an X server could hand it out ([PRIMARY] is the
    predefined atom 1). *)
Definition sample_atoms : list (string * Atom) :=
  [ ("PRIMARY", 1); ("CLIPBOARD", 300); ("TARGETS", 301); ("INCR", 302);
    ("MULTIPLE", 303); ("UTF8_STRING", 304);
    ("text/plain;charset=UTF-8", 305); ("text/plain;charset=utf-8", 306);
    ("image/png", 307); ("image/bmp", 308); ("image/x-bmp", 309);
    ("image/x-MS-bmp", 310); ("image/x-win-bitmap", 311);
    ("image/tiff", 312); ("image/jpeg", 313) ]%string.

Fixpoint lookup_atom (name : string) (table : list (string * Atom))
  : option Atom :=
  match table with
  | [] => None
  | (n, a) :: table =>
      if String.eqb n name then Some a else lookup_atom name table
  end.

Definition sample_XInternAtom (name : string) : Atom :=
  default 999 (lookup_atom name sample_atoms).

(** The bridge right after start on the sample display: root window 50,
    selection window 77, a 1024x768 screen. *)
Definition sample_x11 (max_request : Z) : vdagent_x11 :=
  default (Build_vdagent_x11 [] 0 0 0 0 0 0 0 0 0 0 ∅ ∅ ∅ ∅ ∅ [] false [] 0 0
             [] None 0 0 0 [])
    (vdagent_x11_create sample_XInternAtom 50 77 0 max_request 1024 768 []).

(** * Closed forms, specification-side definitions and samples *)

(** ** Records *)

(** The setters and fields are unfolded on states given by their fields. *)
Ltac x11_unfold :=
  cbv beta iota delta
    [set_width set_height set_expected_targets_notifies
     set_clipboard_owner set_clipboard_type_count
     set_clipboard_agent_types set_clipboard_x11_targets
     set_conversion_req set_expect_property_notify set_clipboard_data
     set_clipboard_data_size set_clipboard_data_space set_selection_req
     set_selection_req_data set_selection_req_data_pos
     set_selection_req_data_size set_selection_req_atom set_out
     clipboard_formats clipboard_atom clipboard_primary_atom targets_atom
     incr_atom multiple_atom root_window selection_window width height
     max_prop_size expected_targets_notifies clipboard_owner
     clipboard_type_count clipboard_agent_types clipboard_x11_targets
     conversion_req expect_property_notify clipboard_data
     clipboard_data_size clipboard_data_space selection_req
     selection_req_data selection_req_data_pos selection_req_data_size
     selection_req_atom out] in *.

(** Two states are equal when their fields are. *)
Ltac x11_fields :=
  repeat match goal with x : vdagent_x11 |- _ => destruct x end;
  x11_unfold; subst; try reflexivity.

(** ** Clearing the queues on an ownership change *)

(** The four assignments that drop the INCR send buffer. *)
Definition reset_selection_req_data (x : vdagent_x11) : vdagent_x11 :=
  set_selection_req_atom XNone
    (set_selection_req_data_size 0
      (set_selection_req_data_pos 0 (set_selection_req_data None x))).

(** The two assignments that drop the INCR receive state. *)
Definition reset_clipboard_data (x : vdagent_x11) : vdagent_x11 :=
  set_expect_property_notify false (set_clipboard_data_size 0 x).

(** The refusal of the request [e], as the specification words it: a
    SelectionNotify carrying property = None. It names the requestor, the
    selection, the target and the time of the request. The fields are
    written out here; the event the code builds is [selection_notify]. *)
Definition refusal (e : XSelectionRequestEvent) : XSelectionEvent :=
  {| xselection_requestor := xselectionrequest_requestor e;
     xselection_selection := xselectionrequest_selection e;
     xselection_target := xselectionrequest_target e;
     xselection_property := XNone;
     xselection_time := xselectionrequest_time e |}.

(** The refusals sent for the queued selection requests of [selection],
    each to the requestor of its request. *)
Definition refusals (selection : Z)
    (queue : list vdagent_x11_selection_request) : list action :=
  (λ r, XSendEvent (xselectionrequest_requestor (sel_event r))
                   (refusal (sel_event r)))
    <$> List.filter (λ r, sel_selection r =? selection) queue.

(** The answers posted for the queued conversion requests of [selection]. *)
Definition none_answers (selection : Z)
    (queue : list vdagent_x11_conversion_request) : list action :=
  (λ _, udscs_write VDAGENTD_CLIPBOARD_DATA selection
                    VD_AGENT_CLIPBOARD_NONE NoData)
    <$> List.filter (λ r, conv_selection r =? selection) queue.

(** Is the head of the queue a request of [selection]? *)
Definition selection_head (selection : Z)
    (queue : list vdagent_x11_selection_request) : bool :=
  match queue with
  | r :: _ => sel_selection r =? selection
  | [] => false
  end.

Definition conversion_head (selection : Z)
    (queue : list vdagent_x11_conversion_request) : bool :=
  match queue with
  | r :: _ => conv_selection r =? selection
  | [] => false
  end.

Ltac x11_simpl :=
  unfold reset_selection_req_data, reset_clipboard_data,
    send_selection_notify_to, emit in *;
  x11_fields.

(** The state [clear_pending_requests] leaves, field by field. *)
Definition requests_cleared (x : vdagent_x11) (selection : Z) : vdagent_x11 :=
  let x1 :=
    if selection_head selection (selection_req x)
    then reset_selection_req_data x else x in
  let x2 :=
    if conversion_head selection (conversion_req x)
    then reset_clipboard_data x1 else x1 in
  set_out (out x ++ refusals selection (selection_req x)
                 ++ none_answers selection (conversion_req x))
    (set_conversion_req
       (List.filter (λ r, negb (conv_selection r =? selection))
                    (conversion_req x))
       (set_selection_req
          (List.filter (λ r, negb (sel_selection r =? selection))
                       (selection_req x))
          x2)).

(** The message [assign_clipboard_owner] posts: a release, when the guest
    gives the selection up. *)
Definition release_message (x : vdagent_x11) (selection : Z)
    (new_owner : owner) : list action :=
  if bool_decide (new_owner = owner_none
                  ∧ clipboard_owner_at x selection = owner_guest)
  then [udscs_write VDAGENTD_CLIPBOARD_RELEASE selection 0 NoData]
  else [].

Ltac owner_cases :=
  unfold vdagent_x11_set_clipboard_owner, assign_clipboard_owner,
    requests_cleared, release_message, clipboard_owner_at,
    clipboard_type_count_at;
  repeat case_decide; repeat case_bool_decide;
  repeat match goal with
         | |- context [if ?b then _ else _] => destruct b eqn:?
         end;
  x11_simpl.

(** ** The catalog intersected with the announced targets *)

(** The first atom of a format's list that is among the announced ones. *)
Definition first_announced (announced : list Atom) (f : clipboard_format_info)
  : option Atom :=
  List.find (λ a, bool_decide (a ∈ announced)) (fmt_atoms f).

(** The intersection as the specification words it: the formats in their
    declared order, and per type the first matching atom. *)
Definition matched_targets (formats : list clipboard_format_info)
    (announced : list Atom) : list (Z * Atom) :=
  omap (λ f, (λ a, (fmt_type f, a)) <$> first_announced announced f) formats.

(** A catalog entry as [vdagent_x11_create] builds it: [atom_count] counts
    the atoms, and no atom is None. *)
Definition format_ok (f : clipboard_format_info) : Prop :=
  fmt_atom_count f = Z.of_nat (length (fmt_atoms f))
  ∧ Forall (λ a, a ≠ XNone) (fmt_atoms f).

(** ** Reading the TARGETS property *)

(** A reply of [XGetWindowProperty] that holds the atoms [announced]. *)
Definition atoms_reply (announced : list Atom) : property_reply :=
  {| reply_success := true; reply_type := XA_ATOM; reply_format := 32;
     reply_items := announced |}.

(** The state an honored TARGETS reply leaves: the counter at 0, the
    property read, the pairs recorded from index 0 and, when there are any,
    the grab posted and the guest made owner. *)
Definition targets_recorded (x : vdagent_x11) (selection : Z)
    (announced : list Atom) : vdagent_x11 :=
  let pairs := matched_targets (clipboard_formats x) announced in
  let x :=
    set_expected_targets_notifies
      (<[selection := 0]> (expected_targets_notifies x)) x in
  let x :=
    emit (XGetWindowProperty (selection_window x) (targets_atom x)
                             false XA_ATOM) x in
  let x :=
    set_clipboard_type_count
      (<[selection := Z.of_nat (length pairs)]> (clipboard_type_count x))
      (set_clipboard_x11_targets
         (copy_agent_types selection 0 (pairs.*2) (clipboard_x11_targets x))
         (set_clipboard_agent_types
            (copy_agent_types selection 0 (pairs.*1)
                              (clipboard_agent_types x)) x)) in
  match pairs with
  | [] => x
  | _ =>
      vdagent_x11_set_clipboard_owner
        (emit (udscs_write VDAGENTD_CLIPBOARD_GRAB selection 0
                 (Types (pairs.*1))) x)
        selection owner_guest
  end.

(** ** The counter of expected TARGETS replies *)

(** What [vdagent_x11_create] fixes for good. *)
Definition display_of (x : vdagent_x11) :=
  (clipboard_formats x, clipboard_atom x, clipboard_primary_atom x,
   targets_atom x, incr_atom x, multiple_atom x, root_window x,
   selection_window x, max_prop_size x).

(** The state after the XFixes event of a new owner [w] of the selection
    with atom [a]: the queues are cleared with [owner_none], the targets are
    asked for and one more reply is expected. *)
Definition owner_changed (x : vdagent_x11) (selection : Z) (a : Atom)
  : vdagent_x11 :=
  let x1 := vdagent_x11_set_clipboard_owner x selection owner_none in
  set_expected_targets_notifies
    (<[selection := expected_targets_notifies_at x selection + 1]>
       (expected_targets_notifies x))
    (emit (XConvertSelection a (targets_atom x) (targets_atom x)
                             (selection_window x)) x1).

(** The events of a run of ownership changes and of a run of replies. *)
Definition owner_changes (a : Atom) (owners : list (Window * environment))
  : list (XEvent * environment) :=
  (λ '(w, env),
     (XFixesSelectionNotify XFixesSetSelectionOwnerNotify w a, env))
    <$> owners.

Definition selection_notifies (replies : list (XSelectionEvent * environment))
  : list (XEvent * environment) :=
  (λ '(e, env), (SelectionNotify e, env)) <$> replies.

(** ** Serving a selection request *)

(** The state in which the data of the head request has been written in one
    piece and announced to the requestor; the head is still queued. *)
Definition data_written (x : vdagent_x11)
    (req : vdagent_x11_selection_request) (data : list Z) (size : Z)
  : vdagent_x11 :=
  let event := sel_event req in
  send_selection_notify_to (reply_property event) req
    (emit (XChangeProperty (xselectionrequest_requestor event)
             (reply_property event) (xselectionrequest_target event) 8
             (take (Z.to_nat size) data) size) x).

(** The state in which an INCR transfer of the head request has been
    started: the buffer is kept, the INCR property holds the size and the
    requestor has been notified. *)
Definition incr_started (x : vdagent_x11)
    (req : vdagent_x11_selection_request) (data : list Z) (size : Z)
  : vdagent_x11 :=
  let event := sel_event req in
  let x := set_selection_req_data (Some data) x in
  let x := set_selection_req_data_pos 0 x in
  let x := set_selection_req_data_size size x in
  let x := set_selection_req_atom (reply_property event) x in
  let x := emit (XSelectInput (xselectionrequest_requestor event)
                              PropertyChangeMask) x in
  let x := emit (XChangeProperty (xselectionrequest_requestor event)
                   (reply_property event) (incr_atom x) 32 [size] 1) x in
  send_selection_notify_to (reply_property event) req x.

(** The data the daemon delivers is for the request at the head of the
    queue: no INCR transfer is running, and the selection and the type are
    those of the request. *)
Definition awaits (x : vdagent_x11) (req : vdagent_x11_selection_request)
    (next : list vdagent_x11_selection_request) (selection type : Z) : Prop :=
  selection_req x = req :: next
  ∧ selection_req_data x = None
  ∧ selection = sel_selection req
  ∧ vdagent_x11_target_to_type x (sel_selection req)
      (xselectionrequest_target (sel_event req)) = Some type.

(** ** The INCR transfer to a requestor *)

(** The PropertyNotify a requestor causes by deleting the property. *)
Definition property_deleted (req : vdagent_x11_selection_request)
    (prop : Atom) : XEvent :=
  PropertyNotify (xselectionrequest_requestor (sel_event req)) prop
                 PropertyDelete.

(** One piece of the data written to the requestor's property. *)
Definition piece_written (req : vdagent_x11_selection_request) (prop : Atom)
    (piece : list Z) : action :=
  XChangeProperty (xselectionrequest_requestor (sel_event req)) prop
                  (xselectionrequest_target (sel_event req)) 8 piece
                  (Z.of_nat (length piece)).

(** An INCR transfer of [data] for the head request is running, with
    [pos] bytes sent. *)
Definition incr_sending (x : vdagent_x11)
    (req : vdagent_x11_selection_request)
    (next : list vdagent_x11_selection_request) (data : list Z) (prop : Atom)
    (pos : Z) : Prop :=
  selection_req x = req :: next
  ∧ selection_req_data x = Some data
  ∧ selection_req_atom x = prop
  ∧ selection_req_data_size x = Z.of_nat (length data)
  ∧ selection_req_data_pos x = pos.

(** The state the final, empty write leaves: the buffer is freed and the
    head request dropped. *)
Definition incr_finished (x : vdagent_x11)
    (req : vdagent_x11_selection_request)
    (next : list vdagent_x11_selection_request) (prop : Atom) : vdagent_x11 :=
  set_selection_req next
    (reset_selection_req_data (emit (piece_written req prop []) x)).

(** [data] cut into pieces of [max] bytes, the last one possibly shorter;
    [n] bounds the number of pieces. *)
Fixpoint pieces (n : nat) (max : nat) (data : list Z) : list (list Z) :=
  match n, data with
  | S n, _ :: _ => take max data :: pieces n max (drop max data)
  | _, _ => []
  end.

(** The deletions of the property, one per environment. *)
Definition property_deletions (req : vdagent_x11_selection_request)
    (prop : Atom) (envs : list environment) : list (XEvent * environment) :=
  (λ env, (property_deleted req prop, env)) <$> envs.

(** ** Data that no request waits for *)

(** The state in which the head request has been refused and is still
    queued. *)
Definition refused (x : vdagent_x11) (req : vdagent_x11_selection_request)
  : vdagent_x11 :=
  send_selection_notify_to XNone req x.

(** ** The classification of a target *)

(** The names of the catalog, template by template. *)
Definition catalog_names : list string :=
  concat (tmpl_atom_names <$> clipboard_format_templates).

(** ** Sample runs *)

Definition force (x : option vdagent_x11) : vdagent_x11 :=
  default (sample_x11 0) x.

(** An environment with no property to read, and one in which allocations
    fail as well. *)
Definition no_reply : environment :=
  {| env_reply := {| reply_success := false; reply_type := 0;
                     reply_format := 0; reply_items := [] |};
     env_alloc_ok := true |}.

Definition out_of_memory : environment :=
  {| env_reply := env_reply no_reply; env_alloc_ok := false |}.

(** The environment in which the TARGETS property holds [announced]. *)
Definition announces (announced : list Atom) : environment :=
  {| env_reply := atoms_reply announced; env_alloc_ok := true |}.

(** A request of the window 900 for [target] of the selection with atom
    [selection], to be answered on [property]. *)
Definition sample_request (selection target property : Atom)
  : XSelectionRequestEvent :=
  {| xselectionrequest_requestor := 900;
     xselectionrequest_selection := selection;
     xselectionrequest_target := target;
     xselectionrequest_property := property;
     xselectionrequest_time := 12345 |}.

(** The reply of a selection owner to the TARGETS conversion. *)
Definition sample_targets_reply (selection : Atom) : XSelectionEvent :=
  {| xselection_requestor := 77; xselection_selection := selection;
     xselection_target := 301; xselection_property := 301;
     xselection_time := 0 |}.

(** The bridge with [max_prop_size] 8. *)
Definition sample_start : vdagent_x11 := sample_x11 108.

(** The daemon has grabbed CLIPBOARD with UTF8_TEXT. *)
Definition sample_client : vdagent_x11 :=
  force (vdagent_x11_clipboard_grab sample_start 0 [1] 1 []).

(** Window 900 has asked for UTF8_STRING on property 555, and then for
    PRIMARY; the first request waits for the daemon's data. *)
Definition sample_awaiting : vdagent_x11 :=
  force (vdagent_x11_do_read sample_client
           [(SelectionRequest (sample_request 300 304 555), no_reply);
            (SelectionRequest (sample_request 1 304 556), no_reply)]).

(** The same first request, with no property named. *)
Definition sample_awaiting_on_target : vdagent_x11 :=
  force (vdagent_x11_handle_event sample_client
           (SelectionRequest (sample_request 300 304 0)) no_reply).

(** A TARGETS request of window 900 with no property named, just queued. *)
Definition sample_targets_request : vdagent_x11 :=
  set_selection_req
    [{| sel_event := sample_request 300 301 0; sel_selection := 0 |}]
    sample_client.

(** Window 900 has taken CLIPBOARD; its targets are still to come. *)
Definition sample_new_owner : vdagent_x11 :=
  force (vdagent_x11_handle_event sample_start
           (XFixesSelectionNotify XFixesSetSelectionOwnerNotify 900 300)
           no_reply).

(** The guest owns CLIPBOARD and PRIMARY, each with text and PNG. *)
Definition sample_guest : vdagent_x11 :=
  force (vdagent_x11_do_read sample_start
           [(XFixesSelectionNotify XFixesSetSelectionOwnerNotify 900 300,
             no_reply);
            (SelectionNotify (sample_targets_reply 300),
             announces [307; 306; 304]);
            (XFixesSelectionNotify XFixesSetSelectionOwnerNotify 900 1,
             no_reply);
            (SelectionNotify (sample_targets_reply 1),
             announces [304; 307])]).

(** The daemon has asked for CLIPBOARD text, PRIMARY text and CLIPBOARD
    PNG, in this order. *)
Definition sample_guest_busy : vdagent_x11 :=
  force (x ← vdagent_x11_clipboard_request sample_guest 0 1 true [];
         x ← vdagent_x11_clipboard_request x 1 1 true [];
         vdagent_x11_clipboard_request x 0 2 true []).

Definition twenty_bytes : list Z :=
  [97; 98; 99; 100; 101; 102; 103; 104; 105; 106; 107; 108; 109; 110; 111;
   112; 113; 114; 115; 116].

(** A running INCR transfer of twenty bytes to window 900. *)
Definition sample_incr : vdagent_x11 :=
  force (vdagent_x11_clipboard_data sample_awaiting 0 1 twenty_bytes 20 []).

(** The head of the queue of [sample_awaiting], and the request behind
    it. *)
Definition sample_head : vdagent_x11_selection_request :=
  {| sel_event := sample_request 300 304 555; sel_selection := 0 |}.

Definition sample_second : vdagent_x11_selection_request :=
  {| sel_event := sample_request 1 304 556; sel_selection := 1 |}.

(** * The rest of the bridge *)

(** ** [vdagent_x11_destroy] *)

(** The [for] loop over the selections still to visit. *)
Fixpoint destroy_selections (sels : list Z) (x : vdagent_x11) : vdagent_x11 :=
  match sels with
  | [] => x
  | sel :: sels =>
      destroy_selections sels
        (vdagent_x11_set_clipboard_owner x sel owner_none)
  end.

(** [x11] is [None] for the NULL pointer, with which the function returns
    at once. Otherwise the result is the state [XCloseDisplay] and [free]
    are then called on; the loop runs over
    [sel = 0 .. VD_AGENT_CLIPBOARD_SELECTION_SECONDARY - 1]. *)
Definition vdagent_x11_destroy (x11 : option vdagent_x11)
  : option vdagent_x11 :=
  destroy_selections (indices VD_AGENT_CLIPBOARD_SELECTION_SECONDARY) <$> x11.

(** ** [vdagent_x11_set_monitor_config] *)

(** [XRRScreenSize] of Xrandr.h: [int width, height]. *)
Record XRRScreenSize := {
  xrr_width : Z;
  xrr_height : Z
}.

(** Modelled from the spec: [VDAgentMonConfig] of spice/vd_agent.h, which
    is not part of the sources at hand and which the specification names
    only as the monitor configuration; its [width] and [height] are
    [uint32_t], the type the message carries. *)
Record VDAgentMonConfig := {
  mon_width : Z;
  mon_height : Z
}.

Definition UINT_MAX : Z := UINT32_MOD - 1.

(** The body of the [for] loop for [sizes[i]]: [(best, closest_diff)] after
    it. The [int] sizes are compared with the [uint32_t] monitor size as
    [unsigned int], and the differences and their squares are
    [unsigned int]. *)
Definition closest_size_step (mon : VDAgentMonConfig) (i : Z)
    (size : XRRScreenSize) (acc : Z * Z) : Z * Z :=
  if (mon_width mon <? to_uint32 (xrr_width size))
     || (mon_height mon <? to_uint32 (xrr_height size)) then acc
  else
    let wdiff := to_uint32 (mon_width mon - xrr_width size) in
    let hdiff := to_uint32 (mon_height mon - xrr_height size) in
    let diff := to_uint32 (wdiff * wdiff + hdiff * hdiff) in
    if diff <? acc.2 then (i, diff) else acc.

(** The loop from [i] on, over the sizes still to visit. *)
Fixpoint closest_size_from (mon : VDAgentMonConfig) (i : Z)
    (sizes : list XRRScreenSize) (acc : Z * Z) : Z * Z :=
  match sizes with
  | [] => acc
  | size :: sizes =>
      closest_size_from mon (i + 1) sizes (closest_size_step mon i size acc)
  end.

(** [best] after the loop; it starts as -1, with [closest_diff] at
    [(unsigned int)-1]. *)
Definition closest_size (mon : VDAgentMonConfig) (sizes : list XRRScreenSize)
  : Z :=
  (closest_size_from mon 0 sizes (-1, UINT_MAX)).1.

(** [has_xrandr] is the field [vdagent_x11_create] sets; [monitors] is
    [mon_config->monitors], [sizes] what [XRRSizes] returns (empty for NULL
    or no size) and [config_ok] whether [XRRGetScreenInfo] gives a
    configuration. [monitors[0]] is read whatever [num_of_monitors] says.
    The result holds the index [XRRSetScreenConfig] is called with, when it
    is called. *)
Definition vdagent_x11_set_monitor_config (x : vdagent_x11)
    (has_xrandr : bool) (monitors : list VDAgentMonConfig)
    (sizes : list XRRScreenSize) (config_ok : bool)
    (pending : list (XEvent * environment))
  : option (option Z * vdagent_x11) :=
  if negb has_xrandr then Some (None, x)
  else
    match sizes with
    | [] => Some (None, x)
    | _ =>
        mon ← monitors !! 0%nat;
        let best := closest_size mon sizes in
        if best =? -1 then Some (None, x)
        else if negb config_ok then Some (None, x)
        else
          size ← sizes !! Z.to_nat best;
          let x := set_width (xrr_width size) x in
          let x := set_height (xrr_height size) x in
          let x := vdagent_x11_send_daemon_guest_xorg_res x in
          x ← vdagent_x11_do_read x pending;
          Some (Some best, x)
    end.

(** ** The runs of the bridge *)

(** One call of an entry point; the arguments have the range of their C
    types. *)
Inductive step (x : vdagent_x11) : vdagent_x11 → Prop :=
  | step_do_read pending x' :
      vdagent_x11_do_read x pending = Some x' → step x x'
  | step_clipboard_request selection type alloc_ok pending x' :
      vdagent_x11_clipboard_request x selection type alloc_ok pending
        = Some x' →
      step x x'
  | step_clipboard_grab selection types type_count pending x' :
      0 <= type_count < UINT32_MOD →
      vdagent_x11_clipboard_grab x selection types type_count pending
        = Some x' →
      step x x'
  | step_clipboard_data selection type data size pending x' :
      vdagent_x11_clipboard_data x selection type data size pending
        = Some x' →
      step x x'
  | step_clipboard_release selection xfixes_events pending x' :
      vdagent_x11_clipboard_release x selection xfixes_events pending
        = Some x' →
      step x x'
  | step_set_monitor_config has_xrandr monitors sizes config_ok pending
                            best x' :
      vdagent_x11_set_monitor_config x has_xrandr monitors sizes config_ok
                                     pending = Some (best, x') →
      step x x'.

(** The states the bridge is in between two calls, from its creation on. *)
Inductive reachable : vdagent_x11 → Prop :=
  | reachable_create XInternAtom root selection extended_max max w h
                     pending x :
      vdagent_x11_create XInternAtom root selection extended_max max w h
                         pending = Some x →
      reachable x
  | reachable_step x x' : reachable x → step x x' → reachable x'.

(** A selection the bridge serves. *)
Definition supported (selection : Z) : Prop :=
  selection = VD_AGENT_CLIPBOARD_SELECTION_CLIPBOARD
  ∨ selection = VD_AGENT_CLIPBOARD_SELECTION_PRIMARY.

(** What holds between two calls: the queues hold requests of the served
    selections only, an INCR send buffer belongs to a queued request, bytes
    are counted as received only while an INCR property is being read, and
    the counters stay in their range. *)
Record x11_inv (x : vdagent_x11) : Prop := {
  inv_selection_req :
    Forall (λ r, supported (sel_selection r)) (selection_req x);
  inv_conversion_req :
    Forall (λ r, supported (conv_selection r)) (conversion_req x);
  inv_selection_req_data :
    is_Some (selection_req_data x) → selection_req x ≠ [];
  inv_clipboard_data_size :
    expect_property_notify x = false → clipboard_data_size x = 0;
  inv_clipboard_type_count :
    ∀ s, 0 <= clipboard_type_count_at x s <= MAX_TYPES;
  inv_expected_targets_notifies :
    ∀ s, 0 <= expected_targets_notifies_at x s <= INT_MAX
}.

(** ** What the peers see *)

(** The messages posted to the daemon, among the calls made. *)
Definition daemon_messages (calls : list action) : list action :=
  List.filter (λ a, match a with udscs_write _ _ _ _ => true | _ => false end)
              calls.

(** The events sent to X clients, among the calls made. *)
Definition sent_events (calls : list action)
  : list (Window * XSelectionEvent) :=
  omap (λ a, match a with XSendEvent w e => Some (w, e) | _ => None end)
       calls.

(** ** The parts of the state *)

(** The queue of selection requests and the INCR send buffer. *)
Definition outbound_of (x : vdagent_x11) :=
  (selection_req x, selection_req_data x, selection_req_data_pos x,
   selection_req_data_size x, selection_req_atom x).

(** The queue of conversion requests and the INCR receive buffer. *)
Definition inbound_of (x : vdagent_x11) :=
  (conversion_req x, expect_property_notify x, clipboard_data x,
   clipboard_data_size x, clipboard_data_space x).

(** The owners and what they offer. *)
Definition catalog_of (x : vdagent_x11) :=
  (expected_targets_notifies x, clipboard_owner x, clipboard_type_count x,
   clipboard_agent_types x, clipboard_x11_targets x).

(** The size of the root window. *)
Definition screen_of (x : vdagent_x11) := (width x, height x).

(** The property named in the answer to a request that is answered at
    once: the reply property for a TARGETS request on a selection the
    client owns, None for a refusal. *)
Definition answered_property (x : vdagent_x11)
    (r : vdagent_x11_selection_request) : Atom :=
  if bool_decide (clipboard_owner_at x (sel_selection r) = owner_client)
     && negb (xselectionrequest_target (sel_event r) =? multiple_atom x)
     && (xselectionrequest_target (sel_event r) =? targets_atom x)
  then reply_property (sel_event r)
  else XNone.

(** The answer to such a request: the window it is sent to, which is the
    requestor, and the SelectionNotify, which repeats the requestor, the
    selection, the target and the time of the request and names
    [answered_property]. The fields are written out here; the event the
    code builds is [selection_notify]. *)
Definition answer_of (x : vdagent_x11) (r : vdagent_x11_selection_request)
  : Window * XSelectionEvent :=
  (xselectionrequest_requestor (sel_event r),
   {| xselection_requestor := xselectionrequest_requestor (sel_event r);
      xselection_selection := xselectionrequest_selection (sel_event r);
      xselection_target := xselectionrequest_target (sel_event r);
      xselection_property := answered_property x r;
      xselection_time := xselectionrequest_time (sel_event r) |}).

(** The request is answered at once, without data of the client and
    without classifying its target: the client does not own the selection,
    or the target is MULTIPLE or TARGETS. *)
Definition answered_at_once (x : vdagent_x11)
    (r : vdagent_x11_selection_request) : Prop :=
  clipboard_owner_at x (sel_selection r) ≠ owner_client
  ∨ xselectionrequest_target (sel_event r) = multiple_atom x
  ∨ xselectionrequest_target (sel_event r) = targets_atom x.

(** The request needs data of the client: the client owns the selection
    and the target is one of the catalog, of type [type]. *)
Definition needs_data (x : vdagent_x11) (r : vdagent_x11_selection_request)
    (type : Z) : Prop :=
  clipboard_owner_at x (sel_selection r) = owner_client
  ∧ xselectionrequest_target (sel_event r) ≠ multiple_atom x
  ∧ xselectionrequest_target (sel_event r) ≠ targets_atom x
  ∧ vdagent_x11_target_to_type x (sel_selection r)
      (xselectionrequest_target (sel_event r)) = Some type
  ∧ type ≠ VD_AGENT_CLIPBOARD_NONE.

(** ** The targets offered to a requestor *)

(** The atoms that stand for the types [types]: type by type, the atoms of
    every format of the type. *)
Definition offered_targets (formats : list clipboard_format_info)
    (types : list Z) : list Atom :=
  flat_map
    (λ type,
       flat_map
         (λ f, if fmt_type f =? type
               then take (Z.to_nat (fmt_atom_count f)) (fmt_atoms f)
               else [])
         formats)
    types.

(** ** Requests that arrive while one is being served *)

(** The queue entry made for a SelectionRequest event, when one is made:
    the selection is one the bridge serves and the allocation succeeds. *)
Definition accepted_request (x : vdagent_x11)
    (arrival : XSelectionRequestEvent * environment)
  : option vdagent_x11_selection_request :=
  if env_alloc_ok arrival.2 then
    (λ selection, {| sel_event := arrival.1; sel_selection := selection |})
      <$> selection_of_atom x (xselectionrequest_selection arrival.1)
  else None.

Definition selection_requests
    (arrivals : list (XSelectionRequestEvent * environment))
  : list (XEvent * environment) :=
  (λ arrival, (SelectionRequest arrival.1, arrival.2)) <$> arrivals.

(** ** Property changes and the transfers *)

(** The PropertyNotify is the next step of the INCR transfer being
    received: a new value of the selection's property on the selection
    window, while one is expected for the request at the head. *)
Definition continues_receive (x : vdagent_x11) (window : Window)
    (atom : Atom) (state : property_state) : Prop :=
  state = PropertyNewValue ∧ expect_property_notify x = true
  ∧ ∃ req next,
      conversion_req x = req :: next
      ∧ vdagent_x11_get_clipboard_atom x (conv_selection req) = Some atom
      ∧ window = selection_window x.

(** The PropertyNotify is the next step of the INCR transfer being sent:
    the requestor has deleted the property the pieces are written to. *)
Definition continues_send (x : vdagent_x11) (window : Window)
    (atom : Atom) (state : property_state) : Prop :=
  state = PropertyDelete ∧ is_Some (selection_req_data x)
  ∧ ∃ req next,
      selection_req x = req :: next
      ∧ window = xselectionrequest_requestor (sel_event req)
      ∧ atom = selection_req_atom x.

(** ** Requests of the client for the guest's data *)

(** The atom recorded with a type among the (type, atom) pairs of a
    selection: that of the first pair of the type, None when there is
    none. *)
Definition recorded_target (pairs : list (Z * Atom)) (type : Z) : Atom :=
  default XNone (snd <$> List.find (λ p, p.1 =? type) pairs).

(** ** The answer of the selection owner *)

(** The SelectionNotify [e] and the property read after it deliver the
    data asked for by the request [req], whose selection has the atom
    [clip]: the event names the selection and the target asked for (or
    INCR), the property named after the selection on the selection window
    can be read, and it holds a non-empty list of bytes of the type asked
    for. *)
Definition delivers (x : vdagent_x11) (req : vdagent_x11_conversion_request)
    (clip : Atom) (e : XSelectionEvent) (reply : property_reply) : bool :=
  bool_decide (selection_of_atom x (xselection_selection e)
               = Some (conv_selection req))
  && ((xselection_target e =? conv_target req)
      || (xselection_target e =? incr_atom x))
  && negb (xselection_property e =? XNone)
  && (xselection_requestor e =? selection_window x)
  && (xselection_property e =? clip)
  && reply_success reply
  && (reply_type reply =? conv_target req)
  && (reply_format reply =? 8)
  && (0 <? Z.of_nat (length (reply_items reply))).

(** The message that ends a conversion request: the data with its type,
    or NONE. *)
Definition conversion_answer (selection type : Z) (data : option (list Z))
  : action :=
  match data with
  | Some bytes =>
      udscs_write VDAGENTD_CLIPBOARD_DATA selection type (Bytes bytes)
  | None =>
      udscs_write VDAGENTD_CLIPBOARD_DATA selection VD_AGENT_CLIPBOARD_NONE
                  NoData
  end.

(** ** The INCR transfer from the selection owner *)

(** The property that announces an INCR transfer: of type INCR, with a
    lower bound of the size. *)
Definition incr_announced (x : vdagent_x11) (size_hint : Z) : environment :=
  {| env_reply := {| reply_success := true; reply_type := incr_atom x;
                     reply_format := 32; reply_items := [size_hint] |};
     env_alloc_ok := true |}.

(** The property holding one chunk of the data for the request; the
    empty chunk ends the transfer. *)
Definition chunk_arrived (req : vdagent_x11_conversion_request)
    (chunk : list Z) : environment :=
  {| env_reply := {| reply_success := true; reply_type := conv_target req;
                     reply_format := 8; reply_items := chunk |};
     env_alloc_ok := true |}.

(** The PropertyNotify events of the chunks, on the selection window. *)
Definition chunk_events (x : vdagent_x11)
    (req : vdagent_x11_conversion_request) (clip : Atom)
    (chunks : list (list Z)) : list (XEvent * environment) :=
  (λ chunk, (PropertyNotify (selection_window x) clip PropertyNewValue,
             chunk_arrived req chunk)) <$> chunks.

(** An INCR transfer for the head request is being received, with the
    bytes [received] in the buffer. *)
Definition incr_receiving (x : vdagent_x11)
    (req : vdagent_x11_conversion_request)
    (next : list vdagent_x11_conversion_request) (received : list Z) : Prop :=
  conversion_req x = req :: next
  ∧ expect_property_notify x = true
  ∧ clipboard_data_size x = Z.of_nat (length received)
  ∧ take (length received) (clipboard_data x) = received.

(** ** The screen size closest to a monitor *)

(** The screen size is not larger than the monitor. *)
Definition fits (mon : VDAgentMonConfig) (size : XRRScreenSize) : Prop :=
  xrr_width size <= mon_width mon ∧ xrr_height size <= mon_height mon.

(** The square of the distance between the monitor's size and the screen
    size. *)
Definition distance (mon : VDAgentMonConfig) (size : XRRScreenSize) : Z :=
  (mon_width mon - xrr_width size) * (mon_width mon - xrr_width size)
  + (mon_height mon - xrr_height size) * (mon_height mon - xrr_height size).

(** [best] is the first of the sizes of [sizes] closest to the monitor
    among those that fit, and [closest_diff] its distance; or no size
    fits. *)
Definition closest_so_far (mon : VDAgentMonConfig)
    (sizes : list XRRScreenSize) (best closest_diff : Z) : Prop :=
  (best = -1 ∧ closest_diff = UINT_MAX ∧ Forall (λ s, ¬ fits mon s) sizes)
  ∨ ∃ size,
      0 <= best ∧ sizes !! Z.to_nat best = Some size ∧ fits mon size
      ∧ closest_diff = distance mon size
      ∧ ∀ (j : nat) size',
          sizes !! j = Some size' → fits mon size' →
          distance mon size <= distance mon size'
          ∧ (Z.of_nat j < best → distance mon size < distance mon size').

(** The sizes and the monitor are in the range in which the squares do
    not wrap around. *)
Definition sizes_in_range (mon : VDAgentMonConfig)
    (sizes : list XRRScreenSize) : Prop :=
  0 <= mon_width mon ∧ 0 <= mon_height mon
  ∧ mon_width mon * mon_width mon + mon_height mon * mon_height mon < UINT_MAX
  ∧ Forall (λ s, 0 <= xrr_width s <= INT_MAX ∧ 0 <= xrr_height s <= INT_MAX)
           sizes.

(** The property of a chunk could be read, but the buffer cannot be
    enlarged to take it. *)
Definition chunk_out_of_memory (req : vdagent_x11_conversion_request)
    (chunk : list Z) : environment :=
  {| env_reply := env_reply (chunk_arrived req chunk);
     env_alloc_ok := false |}.

(** ** A TARGETS reply that cannot be used *)

(** The reply to the TARGETS conversion gives no list of atoms: the owner
    refused, the event names another window or property, or the property
    cannot be read, is of another type or format, or is empty. *)
Definition targets_unreadable (x : vdagent_x11) (e : XSelectionEvent)
    (reply : property_reply) : Prop :=
  xselection_property e = XNone
  ∨ xselection_requestor e ≠ selection_window x
  ∨ xselection_property e ≠ targets_atom x
  ∨ reply_success reply = false
  ∨ reply_type reply ≠ XA_ATOM
  ∨ reply_format reply ≠ 32
  ∨ reply_items reply = [].

(** ** Further sample runs *)

(** The client owns CLIPBOARD; three requests are queued: one for PRIMARY,
    which the client does not own, one for the TARGETS of CLIPBOARD and
    one for its text. *)
Definition sample_queued : vdagent_x11 :=
  set_selection_req
    [{| sel_event := sample_request 1 304 556; sel_selection := 1 |};
     {| sel_event := sample_request 300 301 557; sel_selection := 0 |};
     {| sel_event := sample_request 300 304 558; sel_selection := 0 |}]
    sample_client.

(** The answer of the owner of CLIPBOARD to the conversion to
    UTF8_STRING. *)
Definition sample_answer : XSelectionEvent :=
  {| xselection_requestor := 77; xselection_selection := 300;
     xselection_target := 304; xselection_property := 300;
     xselection_time := 0 |}.

(** A monitor of 1024x768 and the sizes of a screen. *)
Definition sample_monitor : VDAgentMonConfig :=
  {| mon_width := 1024; mon_height := 768 |}.

Definition sample_sizes : list XRRScreenSize :=
  [ {| xrr_width := 800; xrr_height := 600 |};
    {| xrr_width := 1280; xrr_height := 1024 |};
    {| xrr_width := 1024; xrr_height := 768 |};
    {| xrr_width := 640; xrr_height := 480 |} ].

(** The owner of CLIPBOARD has announced an INCR transfer of at least
    three bytes for the first request of [sample_guest_busy], and has
    written two. *)
Definition sample_receiving : vdagent_x11 :=
  force (vdagent_x11_do_read sample_guest_busy
           ((SelectionNotify sample_answer,
             incr_announced sample_guest_busy 3)
            :: chunk_events sample_guest_busy
                 {| conv_target := 304; conv_selection := 0 |} 300
                 [[104; 105]])).

(** The client owns CLIPBOARD, and window 900 asks for
    text/plain;charset=UTF-8 (atom 305), the second name of the text
    format. *)
Definition sample_later_request : vdagent_x11 :=
  set_selection_req
    [{| sel_event := sample_request 300 305 559; sel_selection := 0 |}]
    sample_client.

(** The owner of CLIPBOARD offers text as text/plain;charset=utf-8 (atom
    306) only, and the daemon has asked for the text. *)
Definition sample_later_target : vdagent_x11 :=
  force (x ← vdagent_x11_do_read sample_start
               [(XFixesSelectionNotify XFixesSetSelectionOwnerNotify 900 300,
                 no_reply);
                (SelectionNotify (sample_targets_reply 300),
                 announces [306])];
         vdagent_x11_clipboard_request x 0 1 true []).

(** * Properties *)

(** ** Machine integers *)

Lemma to_uint32_small (z : Z) : 0 <= z < UINT32_MOD → to_uint32 z = z.
Proof. intros H. unfold to_uint32. by apply Z.mod_small. Qed.

Lemma to_int_small (z : Z) : 0 <= z <= INT_MAX → to_int z = z.
Proof.
  intros H. unfold to_int, INT_MAX, UINT32_MOD in *.
  rewrite Z.mod_small by lia.
  destruct (Z.leb_spec z 2147483647); lia.
Qed.

(** ** Records *)

Lemma set_selection_req_same (x : vdagent_x11) :
  set_selection_req (selection_req x) x = x.
Proof. by x11_fields. Qed.

Lemma set_conversion_req_same (x : vdagent_x11) :
  set_conversion_req (conversion_req x) x = x.
Proof. by x11_fields. Qed.

Lemma set_out_same (x : vdagent_x11) : set_out (out x) x = x.
Proof. by x11_fields. Qed.

(** ** Clearing the queues on an ownership change *)

Lemma clear_selection_requests_eq (selection : Z) :
  ∀ next_sel prev x,
    selection_req x = prev ++ next_sel →
    clear_selection_requests selection prev next_sel x =
      set_out (out x ++ refusals selection next_sel)
        (set_selection_req
           (prev ++ List.filter (λ r, negb (sel_selection r =? selection))
                                next_sel)
           (if bool_decide (prev = []) && selection_head selection next_sel
            then reset_selection_req_data x else x)).
Proof.
  unfold refusals.
  induction next_sel as [|curr next_sel IH]; intros prev x Hq.
  - cbn. rewrite !app_nil_r in *. rewrite <- Hq, andb_false_r.
    by rewrite set_selection_req_same, set_out_same.
  - cbn [clear_selection_requests List.filter selection_head].
    destruct (sel_selection curr =? selection) eqn:Hsel; cbn [negb].
    + rewrite IH.
      2:{ destruct prev; by x11_simpl. }
      destruct prev as [|p prev]; cbn [bool_decide andb].
      * rewrite bool_decide_eq_true_2 by done. cbn [andb fmap list_fmap].
        destruct (selection_head selection next_sel);
          x11_simpl; f_equal; by rewrite <- app_assoc.
      * rewrite bool_decide_eq_false_2 by done. cbn [andb fmap list_fmap].
        x11_simpl. f_equal. by rewrite <- app_assoc.
    + rewrite IH by (rewrite Hq; by rewrite <- app_assoc).
      rewrite andb_false_r.
      rewrite bool_decide_eq_false_2 by (by destruct prev).
      cbn [andb]. by rewrite <- app_assoc.
Qed.

Lemma clear_conversion_requests_eq (selection : Z) :
  ∀ next_conv prev x,
    conversion_req x = prev ++ next_conv →
    clear_conversion_requests selection prev next_conv x =
      set_out (out x ++ none_answers selection next_conv)
        (set_conversion_req
           (prev ++ List.filter (λ r, negb (conv_selection r =? selection))
                                next_conv)
           (if bool_decide (prev = []) && conversion_head selection next_conv
            then reset_clipboard_data x else x)).
Proof.
  unfold none_answers.
  induction next_conv as [|curr next_conv IH]; intros prev x Hq.
  - cbn. rewrite !app_nil_r in *. rewrite <- Hq, andb_false_r.
    by rewrite set_conversion_req_same, set_out_same.
  - cbn [clear_conversion_requests List.filter conversion_head].
    destruct (conv_selection curr =? selection) eqn:Hsel; cbn [negb].
    + rewrite IH.
      2:{ destruct prev; by x11_simpl. }
      destruct prev as [|p prev]; cbn [bool_decide andb].
      * rewrite bool_decide_eq_true_2 by done. cbn [andb fmap list_fmap].
        destruct (conversion_head selection next_conv);
          x11_simpl; f_equal; by rewrite <- app_assoc.
      * rewrite bool_decide_eq_false_2 by done. cbn [andb fmap list_fmap].
        x11_simpl. f_equal. by rewrite <- app_assoc.
    + rewrite IH by (rewrite Hq; by rewrite <- app_assoc).
      rewrite andb_false_r.
      rewrite bool_decide_eq_false_2 by (by destruct prev).
      cbn [andb]. by rewrite <- app_assoc.
Qed.

Lemma clear_pending_requests_eq (x : vdagent_x11) (selection : Z) :
  clear_pending_requests x selection = requests_cleared x selection.
Proof.
  unfold clear_pending_requests, requests_cleared.
  rewrite clear_selection_requests_eq by done.
  rewrite clear_conversion_requests_eq by done.
  cbn [bool_decide andb app].
  rewrite !bool_decide_eq_true_2 by done. cbn [andb].
  destruct (selection_head selection (selection_req x)),
           (conversion_head selection (conversion_req x)) eqn:Hc;
    x11_simpl; rewrite ?Hc; x11_unfold; f_equal; by rewrite <- app_assoc.
Qed.

Lemma set_clipboard_owner_eq (x : vdagent_x11) (selection : Z)
    (new_owner : owner) :
  vdagent_x11_set_clipboard_owner x selection new_owner =
    assign_clipboard_owner selection new_owner (requests_cleared x selection).
Proof.
  unfold vdagent_x11_set_clipboard_owner.
  by rewrite clear_pending_requests_eq.
Qed.

Lemma requests_cleared_owner (x : vdagent_x11) (selection s : Z) :
  clipboard_owner_at (requests_cleared x selection) s = clipboard_owner_at x s.
Proof. by owner_cases. Qed.

Lemma requests_cleared_selection_req (x : vdagent_x11) (selection : Z) :
  selection_req (requests_cleared x selection) =
    List.filter (λ r, negb (sel_selection r =? selection)) (selection_req x).
Proof. by owner_cases. Qed.

Lemma requests_cleared_conversion_req (x : vdagent_x11) (selection : Z) :
  conversion_req (requests_cleared x selection) =
    List.filter (λ r, negb (conv_selection r =? selection)) (conversion_req x).
Proof. by owner_cases. Qed.

Lemma requests_cleared_out (x : vdagent_x11) (selection : Z) :
  out (requests_cleared x selection) =
    out x ++ refusals selection (selection_req x)
          ++ none_answers selection (conversion_req x).
Proof. by owner_cases. Qed.

Lemma set_clipboard_owner_out (x : vdagent_x11) (selection : Z)
    (new_owner : owner) :
  out (vdagent_x11_set_clipboard_owner x selection new_owner) =
    out x ++ refusals selection (selection_req x)
          ++ none_answers selection (conversion_req x)
          ++ release_message x selection new_owner.
Proof.
  rewrite set_clipboard_owner_eq.
  pose proof (requests_cleared_owner x selection selection) as Ho.
  pose proof (requests_cleared_out x selection) as Hout.
  unfold assign_clipboard_owner, release_message.
  repeat case_decide; repeat case_bool_decide;
    try (exfalso; intuition congruence);
    destruct (requests_cleared x selection); x11_simpl;
    cbn in *; rewrite ?Hout, <- ?app_assoc, ?app_nil_r; try done.
Qed.

Lemma set_clipboard_owner_selection_req (x : vdagent_x11) (selection : Z)
    (new_owner : owner) :
  selection_req (vdagent_x11_set_clipboard_owner x selection new_owner) =
    List.filter (λ r, negb (sel_selection r =? selection)) (selection_req x).
Proof. rewrite set_clipboard_owner_eq. by owner_cases. Qed.

Lemma set_clipboard_owner_conversion_req (x : vdagent_x11) (selection : Z)
    (new_owner : owner) :
  conversion_req (vdagent_x11_set_clipboard_owner x selection new_owner) =
    List.filter (λ r, negb (conv_selection r =? selection)) (conversion_req x).
Proof. rewrite set_clipboard_owner_eq. by owner_cases. Qed.

Lemma set_clipboard_owner_owner (x : vdagent_x11) (selection : Z)
    (new_owner : owner) :
  clipboard_owner_at (vdagent_x11_set_clipboard_owner x selection new_owner)
                     selection = new_owner.
Proof.
  rewrite set_clipboard_owner_eq.
  unfold assign_clipboard_owner, clipboard_owner_at.
  repeat case_decide; destruct (requests_cleared x selection); x11_simpl;
    by rewrite lookup_insert_eq.
Qed.

Lemma set_clipboard_owner_other_owner (x : vdagent_x11) (selection s : Z)
    (new_owner : owner) :
  s ≠ selection →
  clipboard_owner_at (vdagent_x11_set_clipboard_owner x selection new_owner) s
    = clipboard_owner_at x s.
Proof.
  intros Hs. rewrite set_clipboard_owner_eq.
  rewrite <- (requests_cleared_owner x selection s).
  unfold assign_clipboard_owner, clipboard_owner_at.
  repeat case_decide; destruct (requests_cleared x selection); x11_simpl;
    by rewrite lookup_insert_ne.
Qed.

(** The INCR send buffer after an ownership change: dropped when the head
    of the queue was a request of the selection, untouched otherwise. *)
Lemma set_clipboard_owner_selection_req_data (x : vdagent_x11) (selection : Z)
    (new_owner : owner) :
  let x' := vdagent_x11_set_clipboard_owner x selection new_owner in
  if selection_head selection (selection_req x) then
    selection_req_data x' = None ∧ selection_req_data_pos x' = 0
    ∧ selection_req_data_size x' = 0 ∧ selection_req_atom x' = XNone
  else
    selection_req_data x' = selection_req_data x
    ∧ selection_req_data_pos x' = selection_req_data_pos x
    ∧ selection_req_data_size x' = selection_req_data_size x
    ∧ selection_req_atom x' = selection_req_atom x.
Proof.
  cbn zeta. rewrite set_clipboard_owner_eq.
  unfold assign_clipboard_owner, requests_cleared.
  destruct (selection_head selection (selection_req x));
    repeat case_decide;
    destruct (conversion_head selection (conversion_req x));
    by x11_simpl.
Qed.

(** The INCR receive state after an ownership change. *)
Lemma set_clipboard_owner_clipboard_data (x : vdagent_x11) (selection : Z)
    (new_owner : owner) :
  let x' := vdagent_x11_set_clipboard_owner x selection new_owner in
  if conversion_head selection (conversion_req x) then
    expect_property_notify x' = false ∧ clipboard_data_size x' = 0
  else
    expect_property_notify x' = expect_property_notify x
    ∧ clipboard_data_size x' = clipboard_data_size x.
Proof.
  cbn zeta. rewrite set_clipboard_owner_eq.
  unfold assign_clipboard_owner, requests_cleared.
  destruct (conversion_head selection (conversion_req x));
    repeat case_decide;
    destruct (selection_head selection (selection_req x));
    by x11_simpl.
Qed.

(** C4. Ownership-change flushing. When the owner of [selection] changes
    away from the guest, every queued conversion (inbound) request of the
    selection is answered with CLIPBOARD_DATA (selection, NONE) and leaves
    the queue, and the INCR receive state is cleared when the request being
    served was one of them; when the owner changes away from the client,
    every queued selection (outbound) request of the selection is refused
    with a SelectionNotify whose property is None ([refusals]: one
    [refusal] per request, sent to its requestor) and leaves the queue, and
    the INCR send buffer is freed when the request being served was one of
    them. The requests of the other selection stay queued, in their order,
    and their INCR state is not touched. *)
Theorem set_clipboard_owner_flushes (x : vdagent_x11) (selection : Z)
    (new_owner : owner) :
  clipboard_owner_at x selection ≠ new_owner →
  let x' := vdagent_x11_set_clipboard_owner x selection new_owner in
  clipboard_owner_at x' selection = new_owner
  ∧ out x' = out x ++ refusals selection (selection_req x)
                   ++ none_answers selection (conversion_req x)
                   ++ release_message x selection new_owner
  ∧ (clipboard_owner_at x selection = owner_guest →
       conversion_req x' =
         List.filter (λ r, negb (conv_selection r =? selection))
                     (conversion_req x)
       ∧ Forall (λ r, conv_selection r ≠ selection) (conversion_req x')
       ∧ if conversion_head selection (conversion_req x) then
           expect_property_notify x' = false ∧ clipboard_data_size x' = 0
         else
           expect_property_notify x' = expect_property_notify x
           ∧ clipboard_data_size x' = clipboard_data_size x)
  ∧ (clipboard_owner_at x selection = owner_client →
       selection_req x' =
         List.filter (λ r, negb (sel_selection r =? selection))
                     (selection_req x)
       ∧ Forall (λ r, sel_selection r ≠ selection) (selection_req x')
       ∧ if selection_head selection (selection_req x) then
           selection_req_data x' = None ∧ selection_req_data_pos x' = 0
           ∧ selection_req_data_size x' = 0 ∧ selection_req_atom x' = XNone
         else
           selection_req_data x' = selection_req_data x
           ∧ selection_req_data_pos x' = selection_req_data_pos x
           ∧ selection_req_data_size x' = selection_req_data_size x
           ∧ selection_req_atom x' = selection_req_atom x).
Proof.
  intros _ x'. subst x'. split_and!.
  - apply set_clipboard_owner_owner.
  - apply set_clipboard_owner_out.
  - intros _. split_and!.
    + apply set_clipboard_owner_conversion_req.
    + rewrite set_clipboard_owner_conversion_req.
      apply Forall_forall. intros r Hr%list_elem_of_In%filter_In.
      destruct Hr as [_ Hr]. apply negb_true_iff in Hr. lia.
    + apply set_clipboard_owner_clipboard_data.
  - intros _. split_and!.
    + apply set_clipboard_owner_selection_req.
    + rewrite set_clipboard_owner_selection_req.
      apply Forall_forall. intros r Hr%list_elem_of_In%filter_In.
      destruct Hr as [_ Hr]. apply negb_true_iff in Hr. lia.
    + apply set_clipboard_owner_selection_req_data.
Qed.

(** ** Rows of the type and target arrays *)

Lemma copy_agent_types_other (selection : Z) :
  ∀ types i m s k,
    (s ≠ selection ∨ k < i) →
    copy_agent_types selection i types m !! (s, k) = m !! (s, k).
Proof.
  induction types as [|t types IH]; intros i m s k Hk; cbn; [done|].
  rewrite IH by lia. apply lookup_insert_ne. intros [= -> ->]. lia.
Qed.

Lemma copy_agent_types_lookup (selection : Z) :
  ∀ types i m (n : nat) t,
    types !! n = Some t →
    copy_agent_types selection i types m !! (selection, i + Z.of_nat n)
      = Some t.
Proof.
  induction types as [|t0 types IH]; intros i m n t Hn; [done|].
  destruct n as [|n]; cbn [copy_agent_types].
  - injection Hn as ->. rewrite copy_agent_types_other by lia.
    rewrite Z.add_0_r. apply lookup_insert_eq.
  - replace (i + Z.of_nat (S n)) with ((i + 1) + Z.of_nat n) by lia.
    by apply IH.
Qed.

Lemma indices_lookup (n : Z) (i : nat) :
  (Z.of_nat i < n) → indices n !! i = Some (Z.of_nat i).
Proof.
  intros Hi. unfold indices. rewrite list_lookup_fmap.
  rewrite lookup_seq_lt by lia. done.
Qed.

Lemma indices_length (n : Z) : length (indices n) = Z.to_nat n.
Proof. unfold indices. by rewrite length_fmap, length_seq. Qed.

(** Reading back a row written from index 0. *)
Lemma copy_agent_types_row (selection : Z) (types : list Z)
    (m : gmap (Z * Z) Z) :
  (λ i, default 0 (copy_agent_types selection 0 types m !! (selection, i)))
    <$> indices (Z.of_nat (length types)) = types.
Proof.
  apply list_eq. intros i. rewrite list_lookup_fmap.
  destruct (types !! i) as [t|] eqn:Ht.
  - pose proof (lookup_lt_Some _ _ _ Ht) as Hlt.
    rewrite indices_lookup by lia. cbn.
    pose proof (copy_agent_types_lookup selection types 0 m i t Ht) as H.
    rewrite Z.add_0_l in H. by rewrite H.
  - pose proof (lookup_ge_None_1 _ _ Ht) as Hge.
    rewrite (lookup_ge_None_2 (indices _)); [done|].
    rewrite indices_length. lia.
Qed.

(** ** The catalog intersected with the announced targets *)

Lemma atom_in_list_spec (a : Atom) (atoms2 : list Atom) :
  atom_in_list a atoms2 = bool_decide (a ∈ atoms2).
Proof.
  induction atoms2 as [|b atoms2 IH]; cbn.
  - symmetry. apply bool_decide_eq_false_2. by intros ?%elem_of_nil.
  - destruct (Z.eqb_spec a b) as [->|Hne].
    + symmetry. apply bool_decide_eq_true_2. by left.
    + rewrite IH. apply bool_decide_ext. rewrite elem_of_cons. tauto.
Qed.

Lemma atom_lists_overlap_from_find (atoms1 atoms2 : list Atom) :
  atom_lists_overlap_from atoms1 atoms2 =
    default 0 (List.find (λ a, bool_decide (a ∈ atoms2)) atoms1).
Proof.
  induction atoms1 as [|a atoms1 IH]; cbn; [done|].
  rewrite atom_in_list_spec. by case_bool_decide.
Qed.

Lemma atom_lists_overlap_first (f : clipboard_format_info)
    (announced : list Atom) :
  format_ok f →
  atom_lists_overlap (fmt_atoms f) announced (fmt_atom_count f)
                     (Z.of_nat (length announced))
    = default 0 (first_announced announced f).
Proof.
  intros [Hc _]. unfold atom_lists_overlap, first_announced.
  rewrite Hc, !Nat2Z.id, !firstn_all.
  apply atom_lists_overlap_from_find.
Qed.

Lemma first_announced_not_none (f : clipboard_format_info)
    (announced : list Atom) (a : Atom) :
  format_ok f → first_announced announced f = Some a → a ≠ 0.
Proof.
  intros [_ Hnz] Hf. apply find_some in Hf as [Hin _].
  rewrite Forall_forall in Hnz. apply Hnz. by apply list_elem_of_In.
Qed.

Lemma record_targets_eq (selection : Z) (announced : list Atom) :
  ∀ formats x c0,
    Forall format_ok formats →
    clipboard_type_count x !! selection = Some c0 →
    c0 + Z.of_nat (length formats) < MAX_TYPES →
    let pairs := matched_targets formats announced in
    record_targets selection formats announced
                   (Z.of_nat (length announced)) x =
      set_clipboard_type_count
        (<[selection := c0 + Z.of_nat (length pairs)]>
           (clipboard_type_count x))
        (set_clipboard_x11_targets
           (copy_agent_types selection c0 (pairs.*2)
                             (clipboard_x11_targets x))
           (set_clipboard_agent_types
              (copy_agent_types selection c0 (pairs.*1)
                                (clipboard_agent_types x)) x)).
Proof.
  unfold MAX_TYPES.
  induction formats as [|f formats IH]; intros x c0 Hok Hc Hlen; cbn zeta.
  - cbn. rewrite Z.add_0_r, insert_id by done. by x11_fields.
  - apply Forall_cons in Hok as [Hf Hok].
    cbn [record_targets matched_targets omap list_omap].
    rewrite atom_lists_overlap_first by done.
    fold (matched_targets formats announced).
    destruct (first_announced announced f) as [a|] eqn:Hfa;
      cbn [default from_option fmap option_fmap option_map]; unfold id.
    + pose proof (first_announced_not_none _ _ _ Hf Hfa) as Hnz.
      destruct (Z.eqb_spec a 0) as [?|_]; [done|]. cbn [negb].
      assert (clipboard_type_count_at x selection = c0) as ->
        by (unfold clipboard_type_count_at; by rewrite Hc).
      unfold MAX_TYPES. destruct (Z.eqb_spec (c0 + 1) 256) as [?|_];
        [cbn [length] in Hlen; exfalso; lia|].
      rewrite (IH _ (c0 + 1)); [| done | | cbn [length] in Hlen; lia].
      2:{ x11_fields. apply lookup_insert_eq. }
      cbn [fmap list_fmap length fst snd copy_agent_types].
      x11_fields. f_equal.
      rewrite insert_insert_eq. f_equal. lia.
    + cbn [negb Z.eqb]. apply IH; [done..|]. cbn [length] in Hlen. lia.
Qed.

(** ** Reading the TARGETS property *)

Lemma get_selection_targets (x : vdagent_x11) (e : XSelectionEvent)
    (selection : Z) (env : environment) (announced : list Atom) :
  targets_atom x ≠ XNone →
  xselection_property e = targets_atom x →
  xselection_requestor e = selection_window x →
  env_reply env = atoms_reply announced →
  announced ≠ [] →
  sizeof_Atom * Z.of_nat (length announced) <= INT_MAX →
  vdagent_x11_get_selection x (SelectionNotify e) selection XA_ATOM
                            (targets_atom x) 32 false env
    = Some (sizeof_Atom * Z.of_nat (length announced), announced,
            emit (XGetWindowProperty (selection_window x) (targets_atom x)
                                     false XA_ATOM) x).
Proof.
  intros Hnz Hprop Hreq Hreply Hne Hlen.
  unfold vdagent_x11_get_selection, get_selection_data, get_selection_exit.
  cbn [xselection negb andb].
  rewrite Hreply.
  cbn [reply_success reply_type reply_format reply_items atoms_reply negb].
  x11_simpl.
  destruct (Z.eqb_spec (xselection_property e) XNone) as [?|_]; [done|].
  rewrite !Z.eqb_refl. cbn [negb orb andb Z.eqb Pos.eqb].
  unfold sizeof_Atom, sizeof_long, INT_MAX in *.
  assert (0 < Z.of_nat (length announced))
    by (destruct announced; [done|cbn [length]; lia]).
  assert (to_ulong (Z.of_nat (length announced) * 8)
          = 8 * Z.of_nat (length announced)) as ->.
  { unfold to_ulong, ULONG_MOD. rewrite Z.mod_small; lia. }
  destruct (Z.ltb_spec 0 (8 * Z.of_nat (length announced))); [|lia].
  rewrite to_int_small by (unfold INT_MAX; lia).
  done.
Qed.

(** The catalog rows are not written by an ownership change; the count of
    the selection is reset only when the new owner is [owner_none]. *)
Lemma set_clipboard_owner_catalog (x : vdagent_x11) (selection : Z)
    (new_owner : owner) :
  let x' := vdagent_x11_set_clipboard_owner x selection new_owner in
  clipboard_agent_types x' = clipboard_agent_types x
  ∧ clipboard_x11_targets x' = clipboard_x11_targets x
  ∧ (new_owner ≠ owner_none →
     clipboard_type_count x' = clipboard_type_count x).
Proof.
  cbn zeta. rewrite set_clipboard_owner_eq.
  unfold assign_clipboard_owner, requests_cleared.
  repeat case_decide;
    destruct (selection_head selection (selection_req x)),
             (conversion_head selection (conversion_req x));
    by x11_simpl.
Qed.

Lemma targets_notify_honored (x : vdagent_x11) (e : XSelectionEvent)
    (selection : Z) (env : environment) (announced : list Atom) :
  vdagent_x11_get_clipboard_selection x (SelectionNotify e) = Some selection →
  expected_targets_notifies_at x selection = 1 →
  targets_atom x ≠ XNone →
  xselection_property e = targets_atom x →
  xselection_requestor e = selection_window x →
  env_reply env = atoms_reply announced →
  announced ≠ [] →
  sizeof_Atom * Z.of_nat (length announced) <= INT_MAX →
  Forall format_ok (clipboard_formats x) →
  Z.of_nat (length (clipboard_formats x)) < MAX_TYPES →
  vdagent_x11_handle_targets_notify x (SelectionNotify e) env
    = Some (targets_recorded x selection announced).
Proof.
  intros Hsel Hexp Hnz Hprop Hreq Hreply Hne Hlen Hok Hcount.
  unfold vdagent_x11_handle_targets_notify, targets_recorded.
  rewrite Hsel, Hexp.
  cbn [Z.eqb Z.sub Z.add Z.opp Z.pos_sub].
  set (pairs := matched_targets (clipboard_formats x) announced).
  set (x1 := set_expected_targets_notifies _ x).
  assert (expected_targets_notifies_at x1 selection = 0) as ->.
  { subst x1. unfold expected_targets_notifies_at. x11_simpl.
    by rewrite lookup_insert_eq. }
  cbn [Z.eqb negb].
  assert (targets_atom x1 = targets_atom x) as Ht by (subst x1; by x11_simpl).
  assert (selection_window x1 = selection_window x) as Hw
    by (subst x1; by x11_simpl).
  rewrite (get_selection_targets x1 e selection env announced)
    by (rewrite ?Ht, ?Hw; done).
  cbn [mbind option_bind].
  assert (0 < Z.of_nat (length announced))
    by (destruct announced; [done|cbn [length]; lia]).
  unfold sizeof_Atom in *.
  destruct (Z.eqb_spec (8 * Z.of_nat (length announced)) 0) as [?|_]; [lia|].
  destruct (Z.eqb_spec (8 * Z.of_nat (length announced)) (-1)) as [?|_]; [lia|].
  cbn [orb].
  replace (8 * Z.of_nat (length announced) / 8)
    with (Z.of_nat (length announced)) by (rewrite Z.mul_comm, Z.div_mul; lia).
  set (x2 := emit _ x1).
  set (x3 := set_clipboard_type_count _ x2).
  assert (clipboard_formats x3 = clipboard_formats x) as Hf
    by (subst x3 x2 x1; by x11_simpl).
  rewrite (record_targets_eq selection announced (clipboard_formats x3) x3 0);
    [ | by rewrite Hf | subst x3; x11_simpl; apply lookup_insert_eq
      | rewrite Hf; lia ].
  rewrite Hf. fold pairs. rewrite Z.add_0_l.
  set (x4 := set_clipboard_type_count _ _).
  set (x4' := set_clipboard_type_count _ _).
  assert (x4 = x4') as ->.
  { subst x4 x4' x3 x2 x1. x11_simpl. f_equal. apply insert_insert_eq. }
  assert (clipboard_type_count_at x4' selection = Z.of_nat (length pairs))
    as Hc4.
  { subst x4'. unfold clipboard_type_count_at. x11_simpl.
    by rewrite lookup_insert_eq. }
  rewrite Hc4.
  destruct pairs as [|p pairs'] eqn:Hp; [done|].
  cbn [length Z.eqb negb Z.of_nat].
  assert (agent_types_row x4' selection = (p :: pairs').*1) as ->; [|done].
  unfold agent_types_row. rewrite Hc4.
  unfold clipboard_agent_types_at. subst x4'. x11_simpl.
  rewrite <- (length_fmap fst (p :: pairs')). apply copy_agent_types_row.
Qed.

Lemma targets_recorded_type_count (x : vdagent_x11) (selection : Z)
    (announced : list Atom) :
  clipboard_type_count_at (targets_recorded x selection announced) selection
    = Z.of_nat (length (matched_targets (clipboard_formats x) announced)).
Proof.
  unfold targets_recorded, clipboard_type_count_at.
  destruct (matched_targets (clipboard_formats x) announced) as [|p pairs].
  - x11_simpl. by rewrite lookup_insert_eq.
  - match goal with
    | |- context [vdagent_x11_set_clipboard_owner ?y _ _] =>
        destruct (set_clipboard_owner_catalog y selection owner_guest)
          as (_ & _ & Hc); rewrite Hc by done
    end.
    x11_simpl. by rewrite lookup_insert_eq.
Qed.

Lemma targets_recorded_rows (x : vdagent_x11) (selection : Z)
    (announced : list Atom) (i : nat) (t : Z) (a : Atom) :
  matched_targets (clipboard_formats x) announced !! i = Some (t, a) →
  clipboard_agent_types_at (targets_recorded x selection announced)
                           selection (Z.of_nat i) = t
  ∧ clipboard_x11_targets_at (targets_recorded x selection announced)
                             selection (Z.of_nat i) = a.
Proof.
  intros Hi.
  unfold targets_recorded, clipboard_agent_types_at, clipboard_x11_targets_at.
  assert (∀ m, copy_agent_types selection 0
                 (matched_targets (clipboard_formats x) announced).*1 m
               !! (selection, Z.of_nat i) = Some t) as H1.
  { intros m. rewrite <- (Z.add_0_l (Z.of_nat i)).
    apply copy_agent_types_lookup. by rewrite list_lookup_fmap, Hi. }
  assert (∀ m, copy_agent_types selection 0
                 (matched_targets (clipboard_formats x) announced).*2 m
               !! (selection, Z.of_nat i) = Some a) as H2.
  { intros m. rewrite <- (Z.add_0_l (Z.of_nat i)).
    apply copy_agent_types_lookup. by rewrite list_lookup_fmap, Hi. }
  destruct (matched_targets (clipboard_formats x) announced) as [|p pairs].
  - done.
  - match goal with
    | |- context [vdagent_x11_set_clipboard_owner ?y _ _] =>
        destruct (set_clipboard_owner_catalog y selection owner_guest)
          as (-> & -> & _)
    end.
    x11_simpl. by rewrite H1, H2.
Qed.

Lemma targets_recorded_empty (x : vdagent_x11) (selection : Z)
    (announced : list Atom) :
  matched_targets (clipboard_formats x) announced = [] →
  clipboard_owner_at (targets_recorded x selection announced) selection
    = clipboard_owner_at x selection
  ∧ out (targets_recorded x selection announced)
    = out x ++ [XGetWindowProperty (selection_window x) (targets_atom x)
                                   false XA_ATOM].
Proof.
  intros Hp. unfold targets_recorded, clipboard_owner_at. rewrite Hp.
  by x11_simpl.
Qed.

Lemma targets_recorded_grab (x : vdagent_x11) (selection : Z)
    (announced : list Atom) :
  let pairs := matched_targets (clipboard_formats x) announced in
  pairs ≠ [] →
  clipboard_owner_at (targets_recorded x selection announced) selection
    = owner_guest
  ∧ out (targets_recorded x selection announced)
    = out x
        ++ [XGetWindowProperty (selection_window x) (targets_atom x)
                               false XA_ATOM;
            udscs_write VDAGENTD_CLIPBOARD_GRAB selection 0
                        (Types (pairs.*1))]
        ++ refusals selection (selection_req x)
        ++ none_answers selection (conversion_req x).
Proof.
  intros pairs Hp. unfold targets_recorded. fold pairs.
  destruct pairs as [|p pairs'] eqn:Heq; [done|].
  split; [apply set_clipboard_owner_owner|].
  rewrite set_clipboard_owner_out. unfold release_message.
  rewrite bool_decide_eq_false_2 by (by intros [? _]).
  x11_simpl. by rewrite app_nil_r, <- !app_assoc.
Qed.

(** C6. The targets phase. A TARGETS reply that is honored (it is the only
    one still expected, and the property read gives a non-empty list of
    atoms) intersects the announced atoms with the catalog in the declared
    order of the types; for each type the first atom of its list that is
    announced wins. The (type, atom) pairs are recorded. When the
    intersection is not empty a CLIPBOARD_GRAB with exactly the matched
    types goes to the daemon and the owner becomes the guest; when it is
    empty neither a grab nor a release is sent and the owner stays as it
    was. *)
Theorem targets_notify_intersects_catalog (x : vdagent_x11)
    (e : XSelectionEvent) (selection : Z) (env : environment)
    (announced : list Atom) :
  vdagent_x11_get_clipboard_selection x (SelectionNotify e) = Some selection →
  expected_targets_notifies_at x selection = 1 →
  targets_atom x ≠ XNone →
  xselection_property e = targets_atom x →
  xselection_requestor e = selection_window x →
  env_reply env = atoms_reply announced →
  announced ≠ [] →
  sizeof_Atom * Z.of_nat (length announced) <= INT_MAX →
  Forall format_ok (clipboard_formats x) →
  Z.of_nat (length (clipboard_formats x)) < MAX_TYPES →
  let pairs := matched_targets (clipboard_formats x) announced in
  let read := XGetWindowProperty (selection_window x) (targets_atom x)
                                 false XA_ATOM in
  ∃ x',
    vdagent_x11_handle_targets_notify x (SelectionNotify e) env = Some x'
    ∧ clipboard_type_count_at x' selection = Z.of_nat (length pairs)
    ∧ (∀ (i : nat) t a, pairs !! i = Some (t, a) →
         clipboard_agent_types_at x' selection (Z.of_nat i) = t
         ∧ clipboard_x11_targets_at x' selection (Z.of_nat i) = a)
    ∧ (pairs ≠ [] →
         clipboard_owner_at x' selection = owner_guest
         ∧ out x' = out x
             ++ [read; udscs_write VDAGENTD_CLIPBOARD_GRAB selection 0
                                   (Types (pairs.*1))]
             ++ refusals selection (selection_req x)
             ++ none_answers selection (conversion_req x))
    ∧ (pairs = [] →
         clipboard_owner_at x' selection = clipboard_owner_at x selection
         ∧ out x' = out x ++ [read]).
Proof.
  intros Hsel Hexp Hnz Hprop Hreq Hreply Hne Hlen Hok Hcount pairs read.
  exists (targets_recorded x selection announced). split_and!.
  - by apply targets_notify_honored.
  - apply targets_recorded_type_count.
  - intros i t a. apply targets_recorded_rows.
  - apply targets_recorded_grab.
  - apply targets_recorded_empty.
Qed.

(** ** The counter of expected TARGETS replies *)

Lemma display_of_eq (x x' : vdagent_x11) :
  display_of x' = display_of x →
  clipboard_formats x' = clipboard_formats x
  ∧ clipboard_atom x' = clipboard_atom x
  ∧ clipboard_primary_atom x' = clipboard_primary_atom x
  ∧ targets_atom x' = targets_atom x
  ∧ incr_atom x' = incr_atom x
  ∧ multiple_atom x' = multiple_atom x
  ∧ root_window x' = root_window x
  ∧ selection_window x' = selection_window x
  ∧ max_prop_size x' = max_prop_size x.
Proof. unfold display_of. intros [= ? ? ? ? ? ? ? ? ?]. done. Qed.

Lemma set_clipboard_owner_display (x : vdagent_x11) (selection : Z)
    (new_owner : owner) :
  display_of (vdagent_x11_set_clipboard_owner x selection new_owner)
    = display_of x.
Proof.
  rewrite set_clipboard_owner_eq.
  unfold display_of, assign_clipboard_owner, requests_cleared.
  repeat case_decide;
    destruct (selection_head selection (selection_req x)),
             (conversion_head selection (conversion_req x));
    by x11_simpl.
Qed.

Lemma set_clipboard_owner_expected (x : vdagent_x11) (selection : Z)
    (new_owner : owner) :
  expected_targets_notifies
    (vdagent_x11_set_clipboard_owner x selection new_owner)
    = expected_targets_notifies x.
Proof.
  rewrite set_clipboard_owner_eq.
  unfold assign_clipboard_owner, requests_cleared.
  repeat case_decide;
    destruct (selection_head selection (selection_req x)),
             (conversion_head selection (conversion_req x));
    by x11_simpl.
Qed.

Lemma handle_event_owner_change (x : vdagent_x11) (selection : Z) (a : Atom)
    (w : Window) (env : environment) :
  selection_of_atom x a = Some selection →
  w ≠ XNone → w ≠ selection_window x →
  expected_targets_notifies_at x selection < INT_MAX →
  vdagent_x11_handle_event x
    (XFixesSelectionNotify XFixesSetSelectionOwnerNotify w a) env
    = Some (owner_changed x selection a).
Proof.
  intros Ha Hw1 Hw2 Hn.
  unfold vdagent_x11_handle_event, owner_changed.
  cbn [vdagent_x11_get_clipboard_selection]. rewrite Ha.
  destruct (Z.eqb_spec w (selection_window x)) as [?|_]; [done|].
  destruct (Z.eqb_spec w XNone) as [?|_]; [done|].
  pose proof (set_clipboard_owner_display x selection owner_none) as Hd.
  pose proof (set_clipboard_owner_expected x selection owner_none) as He.
  set (x1 := vdagent_x11_set_clipboard_owner x selection owner_none) in *.
  apply display_of_eq in Hd as (_ & _ & _ & Ht & _ & _ & _ & Hs & _).
  unfold expected_targets_notifies_at in *.
  replace (expected_targets_notifies (emit _ x1))
    with (expected_targets_notifies x) by (rewrite <- He; by x11_simpl).
  destruct (Z.eqb_spec (default 0 (expected_targets_notifies x !! selection))
                       INT_MAX) as [?|_]; [lia|].
  rewrite Ht, Hs. done.
Qed.

Lemma owner_changed_expected (x : vdagent_x11) (selection : Z) (a : Atom) :
  expected_targets_notifies_at (owner_changed x selection a) selection
    = expected_targets_notifies_at x selection + 1.
Proof.
  unfold owner_changed, expected_targets_notifies_at.
  destruct (vdagent_x11_set_clipboard_owner x selection owner_none).
  x11_simpl. by rewrite lookup_insert_eq.
Qed.

Lemma owner_changed_display (x : vdagent_x11) (selection : Z) (a : Atom) :
  display_of (owner_changed x selection a) = display_of x.
Proof.
  rewrite <- (set_clipboard_owner_display x selection owner_none).
  unfold owner_changed, display_of.
  destruct (vdagent_x11_set_clipboard_owner x selection owner_none).
  by x11_simpl.
Qed.

Lemma selection_of_atom_display (x x' : vdagent_x11) (a : Atom) :
  display_of x' = display_of x → selection_of_atom x' a = selection_of_atom x a.
Proof.
  intros (_ & Hc & Hp & _)%display_of_eq.
  unfold selection_of_atom. by rewrite Hc, Hp.
Qed.

Lemma do_read_owner_changes (selection : Z) (a : Atom) :
  ∀ owners x,
    selection_of_atom x a = Some selection →
    expected_targets_notifies_at x selection + Z.of_nat (length owners)
      <= INT_MAX →
    0 <= expected_targets_notifies_at x selection →
    Forall (λ '(w, _), w ≠ XNone ∧ w ≠ selection_window x) owners →
    ∃ x1,
      vdagent_x11_do_read x (owner_changes a owners) = Some x1
      ∧ expected_targets_notifies_at x1 selection
        = expected_targets_notifies_at x selection + Z.of_nat (length owners)
      ∧ display_of x1 = display_of x.
Proof.
  induction owners as [|[w env] owners IH]; intros x Ha Hn H0 Hw.
  - exists x. cbn. split_and!; [done|lia|done].
  - apply Forall_cons in Hw as [[Hw1 Hw2] Hw]. cbn [length] in Hn.
    cbn [owner_changes fmap list_fmap vdagent_x11_do_read].
    rewrite (handle_event_owner_change x selection) by (done || lia).
    cbn [mbind option_bind].
    pose proof (owner_changed_display x selection a) as Hd.
    pose proof (owner_changed_expected x selection a) as He.
    destruct (IH (owner_changed x selection a)) as (x1 & Hr & He1 & Hd1).
    + by rewrite (selection_of_atom_display x).
    + lia.
    + lia.
    + eapply Forall_impl; [exact Hw|]. intros [w' ?] [? ?].
      split; [done|].
      apply display_of_eq in Hd as (_ & _ & _ & _ & _ & _ & _ & -> & _).
      done.
    + exists x1. split_and!; [exact Hr| |congruence].
      rewrite He1, He. cbn [length]. lia.
Qed.

(** A TARGETS reply that is not the last one expected only lowers the
    counter. *)
Lemma handle_event_stale_targets (x : vdagent_x11) (selection : Z)
    (e : XSelectionEvent) (env : environment) :
  selection_of_atom x (xselection_selection e) = Some selection →
  xselection_target e = targets_atom x →
  1 < expected_targets_notifies_at x selection →
  vdagent_x11_handle_event x (SelectionNotify e) env
    = Some (set_expected_targets_notifies
              (<[selection := expected_targets_notifies_at x selection - 1]>
                 (expected_targets_notifies x)) x).
Proof.
  intros Ha Ht Hn. unfold vdagent_x11_handle_event.
  rewrite Ht, Z.eqb_refl. unfold vdagent_x11_handle_targets_notify.
  cbn [vdagent_x11_get_clipboard_selection]. rewrite Ha.
  destruct (Z.eqb_spec (expected_targets_notifies_at x selection) 0) as [?|_];
    [lia|].
  set (x1 := set_expected_targets_notifies _ x).
  assert (expected_targets_notifies_at x1 selection
          = expected_targets_notifies_at x selection - 1) as ->.
  { subst x1. unfold expected_targets_notifies_at. x11_simpl.
    by rewrite lookup_insert_eq. }
  destruct (Z.eqb_spec (expected_targets_notifies_at x selection - 1) 0)
    as [?|_]; [lia|]. done.
Qed.

Lemma do_read_stale_targets (selection : Z) (a : Atom) :
  ∀ stale x,
    selection_of_atom x a = Some selection →
    Z.of_nat (length stale) < expected_targets_notifies_at x selection →
    Forall (λ '(e, _), xselection_selection e = a
                       ∧ xselection_target e = targets_atom x) stale →
    vdagent_x11_do_read x (selection_notifies stale)
      = Some (set_expected_targets_notifies
                (<[selection := expected_targets_notifies_at x selection
                                - Z.of_nat (length stale)]>
                   (expected_targets_notifies x)) x).
Proof.
  induction stale as [|[e env] stale IH]; intros x Ha Hn Hs.
  - cbn. rewrite Z.sub_0_r. f_equal.
    unfold expected_targets_notifies_at in *.
    destruct (expected_targets_notifies x !! selection) as [n|] eqn:Hl;
      cbn in *; [|lia].
    rewrite insert_id by done. by x11_fields.
  - apply Forall_cons in Hs as [[He Ht] Hs]. cbn [length] in Hn.
    cbn [selection_notifies fmap list_fmap vdagent_x11_do_read].
    rewrite (handle_event_stale_targets x selection)
      by (rewrite ?He; done || lia).
    cbn [mbind option_bind].
    set (x1 := set_expected_targets_notifies _ x).
    assert (expected_targets_notifies_at x1 selection
            = expected_targets_notifies_at x selection - 1) as He1.
    { subst x1. unfold expected_targets_notifies_at. x11_simpl.
      by rewrite lookup_insert_eq. }
    fold (selection_notifies stale). rewrite IH.
    + rewrite He1. subst x1. x11_simpl. do 2 f_equal.
      rewrite insert_insert_eq. f_equal. cbn [length]. lia.
    + subst x1. unfold selection_of_atom in *. by x11_simpl.
    + lia.
    + eapply Forall_impl; [exact Hs|]. intros [e' ?] [? ?].
      split; [done|]. subst x1. by x11_simpl.
Qed.

(** C7. Staleness of targets replies. Let the counter of expected TARGETS
    replies of a selection be raised N times, by N changes of owner, before
    any reply arrives. The first N-1 replies are dropped: each only lowers
    the counter, so the property is not read and the catalog is left as it
    was. The N-th reply is honored: the property is read and the catalog
    becomes the intersection with the atoms it announces. *)
Theorem stale_targets_notifies_dropped (x : vdagent_x11) (selection : Z)
    (a : Atom) (owners : list (Window * environment))
    (stale : list (XSelectionEvent * environment)) :
  selection_of_atom x a = Some selection →
  expected_targets_notifies_at x selection = 0 →
  Z.of_nat (length owners) <= INT_MAX →
  Forall (λ '(w, _), w ≠ XNone ∧ w ≠ selection_window x) owners →
  S (length stale) = length owners →
  Forall (λ '(e, _), xselection_selection e = a
                     ∧ xselection_target e = targets_atom x) stale →
  ∃ x1 x2,
    vdagent_x11_do_read x (owner_changes a owners) = Some x1
    ∧ expected_targets_notifies_at x1 selection = Z.of_nat (length owners)
    ∧ vdagent_x11_do_read x1 (selection_notifies stale) = Some x2
    ∧ x2 = set_expected_targets_notifies
             (<[selection := 1]> (expected_targets_notifies x1)) x1
    ∧ ∀ (e : XSelectionEvent) (env : environment) (announced : list Atom),
        xselection_selection e = a →
        xselection_target e = targets_atom x →
        xselection_property e = targets_atom x →
        xselection_requestor e = selection_window x →
        targets_atom x ≠ XNone →
        env_reply env = atoms_reply announced →
        announced ≠ [] →
        sizeof_Atom * Z.of_nat (length announced) <= INT_MAX →
        Forall format_ok (clipboard_formats x) →
        Z.of_nat (length (clipboard_formats x)) < MAX_TYPES →
        let pairs := matched_targets (clipboard_formats x) announced in
        ∃ x3 rest,
          vdagent_x11_handle_event x2 (SelectionNotify e) env = Some x3
          ∧ expected_targets_notifies_at x3 selection = 0
          ∧ out x3 = out x2
              ++ XGetWindowProperty (selection_window x) (targets_atom x)
                                    false XA_ATOM :: rest
          ∧ clipboard_type_count_at x3 selection = Z.of_nat (length pairs)
          ∧ ∀ (i : nat) t atom, pairs !! i = Some (t, atom) →
              clipboard_agent_types_at x3 selection (Z.of_nat i) = t
              ∧ clipboard_x11_targets_at x3 selection (Z.of_nat i) = atom.
Proof.
  intros Ha Hexp Hn Hw Hlen Hs.
  destruct (do_read_owner_changes selection a owners x)
    as (x1 & Hr1 & He1 & Hd1); [done|lia|lia|done|].
  rewrite Hexp, Z.add_0_l in He1.
  pose proof (display_of_eq _ _ Hd1)
    as (Hf & _ & _ & Ht & _ & _ & _ & Hsw & _).
  assert (selection_of_atom x1 a = Some selection) as Ha1
    by (by rewrite (selection_of_atom_display x)).
  set (x2 := set_expected_targets_notifies
               (<[selection := 1]> (expected_targets_notifies x1)) x1).
  exists x1, x2. split_and!; [done|done| |done|].
  - rewrite (do_read_stale_targets selection a); [|done|lia|].
    + subst x2. do 3 f_equal. lia.
    + eapply Forall_impl; [exact Hs|]. intros [e' ?] [? ?].
      by rewrite Ht.
  - intros e env announced Hea Het Hep Her Hnz Hreply Hne Hsz Hok Hcount pairs.
    assert (display_of x2 = display_of x) as Hd2
      by (rewrite <- Hd1; subst x2; unfold display_of; by x11_simpl).
    pose proof (display_of_eq _ _ Hd2)
      as (Hf2 & _ & _ & Ht2 & _ & _ & _ & Hsw2 & _).
    assert (expected_targets_notifies_at x2 selection = 1) as He2.
    { subst x2. unfold expected_targets_notifies_at. x11_simpl.
      by rewrite lookup_insert_eq. }
    assert (vdagent_x11_handle_event x2 (SelectionNotify e) env
            = Some (targets_recorded x2 selection announced)) as Hh.
    { unfold vdagent_x11_handle_event. rewrite Het, Ht2, Z.eqb_refl.
      apply targets_notify_honored; rewrite ?Hf2, ?Ht2, ?Hsw2; try done.
      cbn [vdagent_x11_get_clipboard_selection]. rewrite Hea.
      by rewrite (selection_of_atom_display x). }
    pose proof (targets_recorded_type_count x2 selection announced) as Hc.
    pose proof (targets_recorded_rows x2 selection announced) as Hrows.
    rewrite Hf2 in Hc, Hrows. fold pairs in Hc, Hrows.
    destruct pairs as [|p pairs'] eqn:Hp.
    + destruct (targets_recorded_empty x2 selection announced) as [_ Hout];
        [by rewrite Hf2|].
      exists (targets_recorded x2 selection announced), [].
      split_and!; [done| |by rewrite Hout, Ht2, Hsw2|done|done].
      unfold targets_recorded. rewrite Hf2. fold pairs. rewrite Hp.
      unfold expected_targets_notifies_at. x11_simpl.
      by rewrite lookup_insert_eq.
    + destruct (targets_recorded_grab x2 selection announced) as [_ Hout];
        [by rewrite Hf2; fold pairs; rewrite Hp|].
      eexists (targets_recorded x2 selection announced), _.
      split_and!; [done| |rewrite Hout, Ht2, Hsw2; reflexivity|done|done].
      unfold targets_recorded. rewrite Hf2. fold pairs. rewrite Hp.
      unfold expected_targets_notifies_at.
      rewrite set_clipboard_owner_expected. x11_simpl.
      by rewrite lookup_insert_eq.
Qed.

(** ** Ownership changes made by a grab and by a targets reply *)

Lemma assign_clipboard_owner_effect (selection : Z) (new_owner : owner)
    (x : vdagent_x11) :
  new_owner ≠ owner_none →
  clipboard_owner_at (assign_clipboard_owner selection new_owner x) selection
    = new_owner
  ∧ out (assign_clipboard_owner selection new_owner x) = out x
  ∧ selection_req (assign_clipboard_owner selection new_owner x)
    = selection_req x
  ∧ conversion_req (assign_clipboard_owner selection new_owner x)
    = conversion_req x.
Proof.
  intros Hn. unfold assign_clipboard_owner, clipboard_owner_at.
  case_decide; [done|]. x11_simpl. by rewrite lookup_insert_eq.
Qed.

(** C9. Every call of [vdagent_x11_set_clipboard_owner] clears the queues
    of the selection, whoever owned it before. A grab of the daemon (the
    new owner is the client) and a targets reply with a non-empty
    intersection (the new owner is the guest) both reach a state [x_mid] in
    which the previous owner is still recorded, every queued selection
    request of the selection has been refused with a SelectionNotify whose
    property is None ([refusals]: one [refusal] per request, sent to its
    requestor) and every queued conversion request of the selection
    has been answered with CLIPBOARD_DATA (selection, NONE); only then is
    the new owner assigned. *)
Theorem every_owner_assignment_flushes (x : vdagent_x11) (selection : Z) :
  (∀ (clip : Atom) (types : list Z) (type_count : Z)
     (pending : list (XEvent * environment)),
     vdagent_x11_get_clipboard_atom x selection = Some clip →
     0 <= type_count <= Z.of_nat (length types) →
     ∃ x_mid,
       vdagent_x11_clipboard_grab x selection types type_count pending
         = vdagent_x11_do_read
             (assign_clipboard_owner selection owner_client x_mid) pending
       ∧ clipboard_owner_at x_mid selection = clipboard_owner_at x selection
       ∧ out x_mid = out x
           ++ [XSetSelectionOwner clip (selection_window x)]
           ++ refusals selection (selection_req x)
           ++ none_answers selection (conversion_req x)
       ∧ Forall (λ r, sel_selection r ≠ selection) (selection_req x_mid)
       ∧ Forall (λ r, conv_selection r ≠ selection) (conversion_req x_mid)
       ∧ clipboard_owner_at
           (assign_clipboard_owner selection owner_client x_mid) selection
         = owner_client
       ∧ out (assign_clipboard_owner selection owner_client x_mid)
         = out x_mid)
  ∧ (∀ (e : XSelectionEvent) (env : environment) (announced : list Atom),
       vdagent_x11_get_clipboard_selection x (SelectionNotify e)
         = Some selection →
       expected_targets_notifies_at x selection = 1 →
       targets_atom x ≠ XNone →
       xselection_property e = targets_atom x →
       xselection_requestor e = selection_window x →
       env_reply env = atoms_reply announced →
       announced ≠ [] →
       sizeof_Atom * Z.of_nat (length announced) <= INT_MAX →
       Forall format_ok (clipboard_formats x) →
       Z.of_nat (length (clipboard_formats x)) < MAX_TYPES →
       matched_targets (clipboard_formats x) announced ≠ [] →
       ∃ x_mid,
         vdagent_x11_handle_targets_notify x (SelectionNotify e) env
           = Some (assign_clipboard_owner selection owner_guest x_mid)
         ∧ clipboard_owner_at x_mid selection = clipboard_owner_at x selection
         ∧ out x_mid = out x
             ++ [XGetWindowProperty (selection_window x) (targets_atom x)
                                    false XA_ATOM;
                 udscs_write VDAGENTD_CLIPBOARD_GRAB selection 0
                   (Types ((matched_targets (clipboard_formats x)
                                            announced).*1))]
             ++ refusals selection (selection_req x)
             ++ none_answers selection (conversion_req x)
         ∧ Forall (λ r, sel_selection r ≠ selection) (selection_req x_mid)
         ∧ Forall (λ r, conv_selection r ≠ selection) (conversion_req x_mid)
         ∧ clipboard_owner_at
             (assign_clipboard_owner selection owner_guest x_mid) selection
           = owner_guest
         ∧ out (assign_clipboard_owner selection owner_guest x_mid)
           = out x_mid).
Proof.
  assert (∀ y, Forall (λ r, sel_selection r ≠ selection)
                      (selection_req (requests_cleared y selection))) as Hfs.
  { intros y. rewrite requests_cleared_selection_req.
    apply Forall_forall. intros r Hr%list_elem_of_In%filter_In.
    destruct Hr as [_ Hr]. apply negb_true_iff in Hr. lia. }
  assert (∀ y, Forall (λ r, conv_selection r ≠ selection)
                      (conversion_req (requests_cleared y selection))) as Hfc.
  { intros y. rewrite requests_cleared_conversion_req.
    apply Forall_forall. intros r Hr%list_elem_of_In%filter_In.
    destruct Hr as [_ Hr]. apply negb_true_iff in Hr. lia. }
  split.
  - intros clip types type_count pending Hclip Hcount.
    unfold vdagent_x11_clipboard_grab. rewrite Hclip.
    set (n := if MAX_TYPES <? type_count then MAX_TYPES else type_count).
    assert (n <= Z.of_nat (length types)) as Hle.
    { subst n. destruct (Z.ltb_spec MAX_TYPES type_count); lia. }
    destruct (Z.ltb_spec (Z.of_nat (length types)) n) as [?|_]; [lia|].
    set (x3 := emit _ _). rewrite set_clipboard_owner_eq.
    exists (requests_cleared x3 selection).
    destruct (assign_clipboard_owner_effect selection owner_client
                (requests_cleared x3 selection)) as (Ho & Hout & _);
      [done|].
    split_and!; try done.
    + rewrite requests_cleared_owner. subst x3.
      unfold clipboard_owner_at. by x11_simpl.
    + rewrite requests_cleared_out. subst x3. x11_simpl.
      by rewrite <- !app_assoc.
  - intros e env announced Hsel Hexp Hnz Hprop Hreq Hreply Hne Hlen Hok
           Hcount Hpairs.
    rewrite (targets_notify_honored x e selection env announced) by done.
    unfold targets_recorded.
    destruct (matched_targets (clipboard_formats x) announced)
      as [|p pairs] eqn:Hp; [done|].
    set (x5 := emit _ _). rewrite set_clipboard_owner_eq.
    exists (requests_cleared x5 selection).
    destruct (assign_clipboard_owner_effect selection owner_guest
                (requests_cleared x5 selection)) as (Ho & Hout & _);
      [done|].
    split_and!; try done.
    + rewrite requests_cleared_owner. subst x5.
      unfold clipboard_owner_at. by x11_simpl.
    + rewrite requests_cleared_out. subst x5. x11_simpl.
      by rewrite <- !app_assoc.
Qed.

(** ** Serving a selection request *)

Lemma send_selection_notify_head (x : vdagent_x11) (prop : Atom)
    (req : vdagent_x11_selection_request)
    (next : list vdagent_x11_selection_request) :
  selection_req x = req :: next →
  vdagent_x11_send_selection_notify x prop None
    = vdagent_x11_handle_selection_request
        (set_selection_req next (send_selection_notify_to prop req x)).
Proof.
  intros Hq. unfold vdagent_x11_send_selection_notify. rewrite Hq.
  unfold vdagent_x11_next_selection_request.
  replace (selection_req (send_selection_notify_to prop req x))
    with (req :: next) by (rewrite <- Hq; by x11_simpl).
  done.
Qed.

Lemma clipboard_data_single (x : vdagent_x11)
    (req : vdagent_x11_selection_request)
    (next : list vdagent_x11_selection_request) (selection type : Z)
    (data : list Z) (size : Z) (pending : list (XEvent * environment)) :
  awaits x req next selection type →
  0 <= max_prop_size x <= INT_MAX →
  0 <= size <= max_prop_size x →
  vdagent_x11_clipboard_data x selection type data size pending
    = x' ← vdagent_x11_handle_selection_request
             (set_selection_req next (data_written x req data size));
      vdagent_x11_do_read x' pending.
Proof.
  intros (Hq & Hd & -> & Ht) Hmax Hsize.
  unfold vdagent_x11_clipboard_data, data_written.
  rewrite Hd, Hq, Ht. cbn [bool_decide decide_rel mbind option_bind].
  rewrite bool_decide_eq_false_2 by (by intros [? ?]).
  rewrite !Z.eqb_refl. cbn [negb orb].
  unfold INT_MAX in *.
  rewrite to_uint32_small by (unfold UINT32_MOD; lia).
  destruct (Z.ltb_spec (max_prop_size x) size) as [?|_]; [lia|].
  rewrite to_int_small by (unfold INT_MAX; lia).
  erewrite send_selection_notify_head; [done|].
  rewrite <- Hq. by x11_simpl.
Qed.

Lemma clipboard_data_incr (x : vdagent_x11)
    (req : vdagent_x11_selection_request)
    (next : list vdagent_x11_selection_request) (selection type : Z)
    (data : list Z) (size : Z) (pending : list (XEvent * environment)) :
  awaits x req next selection type →
  0 <= max_prop_size x <= INT_MAX →
  max_prop_size x < size →
  vdagent_x11_clipboard_data x selection type data size pending
    = vdagent_x11_do_read (incr_started x req data size) pending.
Proof.
  intros (Hq & Hd & -> & Ht) Hmax Hsize.
  unfold vdagent_x11_clipboard_data, incr_started.
  rewrite Hd, Hq, Ht. cbn [bool_decide decide_rel mbind option_bind].
  rewrite bool_decide_eq_false_2 by (by intros [? ?]).
  rewrite !Z.eqb_refl. cbn [negb orb].
  unfold INT_MAX in *.
  rewrite to_uint32_small by (unfold UINT32_MOD; lia).
  destruct (Z.ltb_spec (max_prop_size x) size) as [_|?]; [|lia].
  done.
Qed.

(** ** The INCR transfer to a requestor *)

Lemma incr_tick (x : vdagent_x11) (req : vdagent_x11_selection_request)
    (next : list vdagent_x11_selection_request) (data : list Z) (prop : Atom)
    (pos : Z) (env : environment) :
  incr_sending x req next data prop pos →
  0 < max_prop_size x <= INT_MAX →
  Z.of_nat (length data) <= INT_MAX →
  0 <= pos < Z.of_nat (length data) →
  let piece := take (Z.to_nat (max_prop_size x)) (drop (Z.to_nat pos) data) in
  vdagent_x11_handle_event x (property_deleted req prop) env
    = Some (set_selection_req_data_pos (pos + Z.of_nat (length piece))
              (emit (piece_written req prop piece) x)).
Proof.
  intros (Hq & Hd & Ha & Hs & Hp) Hmax Hlen Hpos piece.
  unfold vdagent_x11_handle_event, property_deleted.
  rewrite (bool_decide_eq_false_2 (PropertyDelete = PropertyNewValue))
    by done.
  rewrite andb_false_r. cbn [mbind option_bind].
  rewrite Hd. rewrite (bool_decide_eq_true_2 (is_Some (Some data))) by eauto.
  rewrite (bool_decide_eq_true_2 (PropertyDelete = PropertyDelete)) by done.
  cbn [andb]. unfold vdagent_x11_handle_property_delete_notify.
  rewrite Hq, Ha, Hs, Hp, Hd, !Z.eqb_refl. cbn [negb orb default from_option].
  unfold INT_MAX in *.
  rewrite to_uint32_small by (unfold UINT32_MOD; lia).
  rewrite to_int_small by (unfold INT_MAX; lia).
  set (len := if max_prop_size x <? Z.of_nat (length data) - pos
              then max_prop_size x else Z.of_nat (length data) - pos).
  assert (len = Z.min (max_prop_size x) (Z.of_nat (length data) - pos)) as Hl.
  { subst len. destruct (Z.ltb_spec (max_prop_size x)
                           (Z.of_nat (length data) - pos)); lia. }
  assert (slice data pos len = piece) as Hslice.
  { unfold slice. subst piece. rewrite Hl.
    destruct (Z.le_ge_cases (max_prop_size x) (Z.of_nat (length data) - pos)).
    - by rewrite Z.min_l.
    - rewrite Z.min_r by done.
      rewrite !take_ge; [done| |]; rewrite length_drop; lia. }
  assert (Z.of_nat (length piece) = len) as Hpl.
  { subst piece. rewrite length_take, length_drop. lia. }
  unfold id. rewrite Hslice, <- Hpl.
  destruct (Z.eqb_spec (Z.of_nat (length piece)) 0) as [?|_]; [lia|].
  replace (selection_req_data_pos (emit _ x)) with pos
    by (rewrite <- Hp; by x11_simpl).
  rewrite to_uint32_small by (unfold UINT32_MOD; lia). done.
Qed.

Lemma incr_last_tick (x : vdagent_x11) (req : vdagent_x11_selection_request)
    (next : list vdagent_x11_selection_request) (data : list Z) (prop : Atom)
    (env : environment) :
  incr_sending x req next data prop (Z.of_nat (length data)) →
  0 < max_prop_size x <= INT_MAX →
  Z.of_nat (length data) <= INT_MAX →
  vdagent_x11_handle_event x (property_deleted req prop) env
    = vdagent_x11_handle_selection_request (incr_finished x req next prop).
Proof.
  intros (Hq & Hd & Ha & Hs & Hp) Hmax Hlen.
  unfold vdagent_x11_handle_event, property_deleted.
  rewrite (bool_decide_eq_false_2 (PropertyDelete = PropertyNewValue))
    by done.
  rewrite andb_false_r. cbn [mbind option_bind].
  rewrite Hd. rewrite (bool_decide_eq_true_2 (is_Some (Some data))) by eauto.
  rewrite (bool_decide_eq_true_2 (PropertyDelete = PropertyDelete)) by done.
  cbn [andb]. unfold vdagent_x11_handle_property_delete_notify.
  rewrite Hq, Ha, Hs, Hp, Hd, !Z.eqb_refl. cbn [negb orb default from_option].
  unfold id. rewrite Z.sub_diag. change (to_int (to_uint32 0)) with 0.
  destruct (Z.ltb_spec (max_prop_size x) 0) as [?|_]; [lia|].
  cbn [Z.eqb]. unfold vdagent_x11_next_selection_request, incr_finished,
    piece_written, slice.
  replace (selection_req _) with (req :: next) by (rewrite <- Hq; by x11_simpl).
  cbn [mbind option_bind Z.to_nat take length Z.of_nat].
  f_equal.
Qed.

Lemma pieces_concat (max : nat) :
  ∀ n data, (0 < max)%nat → (length data <= n)%nat →
    concat (pieces n max data) = data.
Proof.
  induction n as [|n IH]; intros data Hmax Hn.
  - destruct data; [done|cbn in Hn; lia].
  - destruct data as [|b data]; [done|].
    cbn [pieces concat]. rewrite IH; [apply take_drop|done|].
    rewrite length_drop. cbn [length] in *. lia.
Qed.

Lemma pieces_bounded (max : nat) :
  ∀ n data, (0 < max)%nat →
    Forall (λ piece, (0 < length piece <= max)%nat) (pieces n max data).
Proof.
  induction n as [|n IH]; intros data Hmax; [constructor|].
  destruct data as [|b data]; [constructor|].
  cbn [pieces]. constructor; [|by apply IH].
  rewrite length_take. cbn [length]. lia.
Qed.

(** A run of deletions while data is left: each one gets the next piece. *)
Lemma incr_run (req : vdagent_x11_selection_request)
    (next : list vdagent_x11_selection_request) (data : list Z) (prop : Atom) :
  ∀ n x pos envs,
    incr_sending x req next data prop pos →
    0 < max_prop_size x <= INT_MAX →
    Z.of_nat (length data) <= INT_MAX →
    0 <= pos <= Z.of_nat (length data) →
    (length (drop (Z.to_nat pos) data) <= n)%nat →
    let todo := pieces n (Z.to_nat (max_prop_size x))
                       (drop (Z.to_nat pos) data) in
    length envs = length todo →
    vdagent_x11_do_read x (property_deletions req prop envs)
      = Some (set_selection_req_data_pos (Z.of_nat (length data))
                (set_out (out x ++ (piece_written req prop <$> todo)) x)).
Proof.
  induction n as [|n IH]; intros x pos envs Hs Hmax Hlen Hpos Hn todo Henvs.
  - subst todo. cbn [pieces] in *. destruct envs; [|done].
    cbn. rewrite app_nil_r. f_equal.
    destruct Hs as (_ & _ & _ & _ & Hp).
    rewrite length_drop in Hn.
    assert (pos = Z.of_nat (length data)) as <- by lia.
    rewrite <- Hp. by x11_fields.
  - subst todo. destruct (drop (Z.to_nat pos) data) as [|b rest] eqn:Hdrop.
    + cbn [pieces] in *. destruct envs; [|done].
      cbn. rewrite app_nil_r. f_equal.
      destruct Hs as (_ & _ & _ & _ & Hp).
      apply (f_equal length) in Hdrop. rewrite length_drop in Hdrop.
      cbn [length] in Hdrop.
      assert (pos = Z.of_nat (length data)) as <- by lia.
      rewrite <- Hp. by x11_fields.
    + cbn [pieces] in Henvs |- *.
      destruct envs as [|env envs]; [done|].
      cbn [property_deletions fmap list_fmap vdagent_x11_do_read].
      assert (pos < Z.of_nat (length data)) as Hlt.
      { apply (f_equal length) in Hdrop. rewrite length_drop in Hdrop.
        cbn [length] in Hdrop. lia. }
      rewrite (incr_tick x req next data prop pos) by (done || lia).
      cbn [mbind option_bind]. rewrite Hdrop.
      set (piece := take (Z.to_nat (max_prop_size x)) (b :: rest)).
      set (x1 := set_selection_req_data_pos _ _).
      assert (Z.of_nat (length piece) <= Z.of_nat (length data) - pos) as Hpl.
      { subst piece. rewrite length_take.
        apply (f_equal length) in Hdrop. rewrite length_drop in Hdrop. lia. }
      assert (drop (Z.to_nat (pos + Z.of_nat (length piece))) data
              = drop (Z.to_nat (max_prop_size x)) (b :: rest)) as Hd1.
      { pose proof (f_equal length Hdrop) as Hdl.
        rewrite length_drop in Hdl. subst piece. rewrite length_take.
        destruct (Nat.le_ge_cases (Z.to_nat (max_prop_size x))
                                  (length (b :: rest))).
        - rewrite Nat.min_l by done. rewrite <- Hdrop, drop_drop.
          f_equal. lia.
        - rewrite Nat.min_r by done.
          rewrite !drop_ge; [done|lia|lia]. }
      assert (max_prop_size x1 = max_prop_size x) as Hm
        by (subst x1; by x11_simpl).
      fold (property_deletions req prop envs).
      rewrite (IH x1 (pos + Z.of_nat (length piece))).
      * rewrite Hm, Hd1. subst x1. unfold piece_written at 3.
        x11_simpl. f_equal. f_equal. by rewrite <- app_assoc.
      * destruct Hs as (Hq & Hd & Ha & Hsz & Hp).
        subst x1. unfold incr_sending. split_and!; by x11_simpl.
      * by rewrite Hm.
      * done.
      * lia.
      * rewrite Hd1, length_drop.
        apply (f_equal length) in Hdrop. rewrite length_drop in Hdrop.
        cbn [length] in Hdrop, Hn |- *. lia.
      * rewrite Hm, Hd1. cbn [length] in Henvs. lia.
Qed.

(** C2. Outbound round trip. The daemon delivers [size] bytes of the type
    the request at the head of the queue waits for. When they fit in
    [max_prop_size] they are written in one 8-bit property of the requested
    target type, the requestor is notified and the queue advances. When
    they do not, the INCR property holding [size] is written and announced
    first; then each deletion of the property by the requestor gets the
    next piece of at most [max_prop_size] bytes, the pieces in order making
    up the data; the deletion after the last piece gets a write of zero
    bytes, after which the buffer is freed and the queue advances to the
    next request. Sizes are those a C [int] holds. *)
Theorem outbound_round_trip (x : vdagent_x11)
    (req : vdagent_x11_selection_request)
    (next : list vdagent_x11_selection_request) (selection type : Z)
    (data : list Z) (size : Z) :
  awaits x req next selection type →
  0 < max_prop_size x <= INT_MAX →
  size = Z.of_nat (length data) →
  size <= INT_MAX →
  let requestor := xselectionrequest_requestor (sel_event req) in
  let target := xselectionrequest_target (sel_event req) in
  let prop := reply_property (sel_event req) in
  let notify := XSendEvent requestor (selection_notify prop (sel_event req)) in
  (size <= max_prop_size x →
     (∀ pending,
        vdagent_x11_clipboard_data x selection type data size pending
          = x' ← vdagent_x11_handle_selection_request
                   (set_selection_req next (data_written x req data size));
            vdagent_x11_do_read x' pending)
     ∧ out (set_selection_req next (data_written x req data size))
       = out x ++ [XChangeProperty requestor prop target 8 data size; notify]
     ∧ selection_req (set_selection_req next (data_written x req data size))
       = next)
  ∧ (max_prop_size x < size →
     let x0 := incr_started x req data size in
     let todo := pieces (length data) (Z.to_nat (max_prop_size x)) data in
     (∀ pending,
        vdagent_x11_clipboard_data x selection type data size pending
          = vdagent_x11_do_read x0 pending)
     ∧ out x0 = out x ++ [XSelectInput requestor PropertyChangeMask;
                          XChangeProperty requestor prop (incr_atom x) 32
                                          [size] 1;
                          notify]
     ∧ concat todo = data
     ∧ Forall (λ piece, 0 < Z.of_nat (length piece) <= max_prop_size x) todo
     ∧ ∀ (envs : list environment) (env : environment),
         length envs = length todo →
         ∃ x1,
           vdagent_x11_do_read x0 (property_deletions req prop envs) = Some x1
           ∧ out x1 = out x0 ++ (piece_written req prop <$> todo)
           ∧ vdagent_x11_handle_event x1 (property_deleted req prop) env
             = vdagent_x11_handle_selection_request
                 (incr_finished x1 req next prop)
           ∧ out (incr_finished x1 req next prop)
             = out x1 ++ [XChangeProperty requestor prop target 8 [] 0]
           ∧ selection_req_data (incr_finished x1 req next prop) = None
           ∧ selection_req (incr_finished x1 req next prop) = next).
Proof.
  intros Haw Hmax -> Hsize requestor target prop notify. split.
  - intros Hle. split_and!.
    + intros pending. apply clipboard_data_single; (done || lia).
    + unfold data_written. rewrite Nat2Z.id, firstn_all.
      subst requestor target prop notify. x11_simpl.
      by rewrite <- app_assoc.
    + by x11_simpl.
  - intros Hgt x0 todo.
    destruct Haw as (Hq & Hd & Hsel & Ht).
    assert (incr_sending x0 req next data prop 0) as Hs0.
    { subst x0. unfold incr_sending, incr_started. rewrite <- Hq.
      split_and!; by x11_simpl. }
    assert (max_prop_size x0 = max_prop_size x) as Hm
      by (subst x0; unfold incr_started; by x11_simpl).
    split_and!.
    + intros pending. apply (clipboard_data_incr x req next);
        [done|lia|done].
    + subst x0 requestor target prop notify. unfold incr_started.
      x11_simpl. by rewrite <- !app_assoc.
    + apply pieces_concat; lia.
    + eapply Forall_impl; [apply pieces_bounded; lia|].
      intros piece ?. cbn beta in *. lia.
    + intros envs env Henvs.
      pose proof (incr_run req next data prop (length data) x0 0 envs Hs0)
        as Hrun.
      rewrite Hm in Hrun. change (Z.to_nat 0) with 0%nat in Hrun.
      rewrite drop_0 in Hrun.
      specialize (Hrun Hmax Hsize ltac:(lia) ltac:(done) Henvs).
      fold todo in Hrun.
      set (x1 := set_selection_req_data_pos _ _) in Hrun.
      assert (incr_sending x1 req next data prop (Z.of_nat (length data)))
        as Hs1.
      { destruct Hs0 as (Hq0 & Hd0 & Ha0 & Hsz0 & _).
        subst x1. unfold incr_sending. split_and!; by x11_simpl. }
      exists x1. split_and!.
      * exact Hrun.
      * subst x1. by x11_simpl.
      * apply (incr_last_tick x1 req next data prop env Hs1); [|done].
        replace (max_prop_size x1) with (max_prop_size x0)
          by (subst x1; by x11_simpl).
        by rewrite Hm.
      * unfold incr_finished, piece_written, reset_selection_req_data.
        subst requestor target. by x11_simpl.
      * unfold incr_finished, reset_selection_req_data. by x11_simpl.
      * unfold incr_finished. by x11_simpl.
Qed.

(** C10. A request whose property is None is answered on its target atom:
    the TARGETS reply and the data reply (in one piece, or as INCR) write
    the property named by the request's target, and the SelectionNotify
    sent back carries that target atom as its property, not None. The
    event [notify] is written out field by field: it goes to the requestor
    and repeats the requestor, the selection, the target and the time of
    the request. *)
Theorem reply_property_defaults_to_target (x : vdagent_x11)
    (req : vdagent_x11_selection_request)
    (next : list vdagent_x11_selection_request) :
  selection_req x = req :: next →
  xselectionrequest_property (sel_event req) = XNone →
  let event := sel_event req in
  let requestor := xselectionrequest_requestor event in
  let target := xselectionrequest_target event in
  let notify :=
    XSendEvent requestor
      {| xselection_requestor := requestor;
         xselection_selection := xselectionrequest_selection event;
         xselection_target := target;
         xselection_property := target;
         xselection_time := xselectionrequest_time event |} in
  (∀ selection,
     let targets :=
       send_targets_types (clipboard_formats x) (agent_types_row x selection)
                          [targets_atom x] in
     let x' := send_selection_notify_to target req
                 (send_targets_property x selection event) in
     vdagent_x11_send_targets x selection event
       = vdagent_x11_handle_selection_request (set_selection_req next x')
     ∧ out x' = out x ++ [XChangeProperty requestor target XA_ATOM 32 targets
                            (Z.of_nat (length targets)); notify])
  ∧ (∀ selection type data size pending,
       awaits x req next selection type →
       0 < max_prop_size x <= INT_MAX →
       0 <= size →
       (size <= max_prop_size x →
          vdagent_x11_clipboard_data x selection type data size pending
            = (x' ← vdagent_x11_handle_selection_request
                      (set_selection_req next (data_written x req data size));
               vdagent_x11_do_read x' pending)
          ∧ out (data_written x req data size)
            = out x ++ [XChangeProperty requestor target target 8
                          (take (Z.to_nat size) data) size; notify])
       ∧ (max_prop_size x < size →
          vdagent_x11_clipboard_data x selection type data size pending
            = vdagent_x11_do_read (incr_started x req data size) pending
          ∧ selection_req_atom (incr_started x req data size) = target
          ∧ out (incr_started x req data size)
            = out x ++ [XSelectInput requestor PropertyChangeMask;
                        XChangeProperty requestor target (incr_atom x) 32
                                        [size] 1;
                        notify])).
Proof.
  intros Hq Hnone event requestor target notify.
  assert (reply_property event = target) as Hprop.
  { unfold reply_property. subst event. by rewrite Hnone. }
  split.
  - intros selection targets x'. split.
    + unfold vdagent_x11_send_targets.
      rewrite (send_selection_notify_head _ _ req next)
        by (rewrite <- Hq; unfold send_targets_property; by x11_simpl).
      fold event. by rewrite Hprop.
    + subst x' targets notify requestor. unfold send_targets_property.
      fold event. rewrite Hprop. x11_simpl. by rewrite <- app_assoc.
  - intros selection type data size pending Haw Hmax Hsize. split.
    + intros Hle. split.
      * apply clipboard_data_single; (done || lia).
      * unfold data_written. fold event. rewrite Hprop.
        subst notify requestor target. x11_simpl. by rewrite <- app_assoc.
    + intros Hgt. split_and!.
      * apply (clipboard_data_incr x req next); [done|lia|done].
      * unfold incr_started. fold event. rewrite Hprop. by x11_simpl.
      * unfold incr_started. fold event. rewrite Hprop.
        subst notify requestor target. x11_simpl. by rewrite <- !app_assoc.
Qed.

(** ** Data that no request waits for *)

Lemma clipboard_data_mismatch (x : vdagent_x11)
    (req : vdagent_x11_selection_request)
    (next : list vdagent_x11_selection_request) (selection type t : Z)
    (data : list Z) (size : Z) (pending : list (XEvent * environment)) :
  selection_req x = req :: next →
  selection_req_data x = None →
  vdagent_x11_target_to_type x (sel_selection req)
    (xselectionrequest_target (sel_event req)) = Some t →
  t ≠ type ∨ selection ≠ sel_selection req →
  vdagent_x11_clipboard_data x selection type data size pending
    = x' ← vdagent_x11_handle_selection_request
             (set_selection_req next (refused x req));
      vdagent_x11_do_read x' pending.
Proof.
  intros Hq Hd Ht Hne. unfold vdagent_x11_clipboard_data, refused.
  rewrite Hd, Hq, Ht. cbn [mbind option_bind].
  rewrite bool_decide_eq_false_2 by (by intros [? ?]).
  assert (negb (t =? type) || negb (selection =? sel_selection req) = true)
    as ->.
  { destruct (Z.eqb_spec t type), (Z.eqb_spec selection (sel_selection req));
      cbn; tauto. }
  by rewrite (send_selection_notify_head x XNone req next).
Qed.

Lemma clipboard_data_ignored (x : vdagent_x11) (selection type : Z)
    (data : list Z) (size : Z) (pending : list (XEvent * environment)) :
  is_Some (selection_req_data x) ∨ selection_req x = [] →
  vdagent_x11_clipboard_data x selection type data size pending = Some x.
Proof.
  intros H. unfold vdagent_x11_clipboard_data. case_bool_decide; [done|].
  destruct H as [?| ->]; done.
Qed.

(** C5, as the code has it. Data of the daemon that arrives while an INCR
    transfer is still served, or while no selection request is queued, is
    discarded and nothing else happens: no SelectionNotify is sent and the
    queue is left as it is. Data whose selection or type is not that of the
    request at the head of the queue is discarded, that request is refused
    with one SelectionNotify whose property is None ([refusal], sent to the
    requestor), the queue advances and the next request is handled. *)
Theorem unexpected_clipboard_data (x : vdagent_x11) (selection type : Z)
    (data : list Z) (size : Z) (pending : list (XEvent * environment)) :
  (is_Some (selection_req_data x) →
     vdagent_x11_clipboard_data x selection type data size pending = Some x)
  ∧ (selection_req x = [] →
     vdagent_x11_clipboard_data x selection type data size pending = Some x)
  ∧ (∀ req next t,
       selection_req x = req :: next →
       selection_req_data x = None →
       vdagent_x11_target_to_type x (sel_selection req)
         (xselectionrequest_target (sel_event req)) = Some t →
       t ≠ type ∨ selection ≠ sel_selection req →
       vdagent_x11_clipboard_data x selection type data size pending
         = (x' ← vdagent_x11_handle_selection_request
                   (set_selection_req next (refused x req));
            vdagent_x11_do_read x' pending)
       ∧ out (set_selection_req next (refused x req))
         = out x ++ [XSendEvent (xselectionrequest_requestor (sel_event req))
                                (refusal (sel_event req))]
       ∧ selection_req (set_selection_req next (refused x req)) = next).
Proof.
  split_and!.
  - intros H. apply clipboard_data_ignored. by left.
  - intros H. apply clipboard_data_ignored. by right.
  - intros req next t Hq Hd Ht Hne. split_and!.
    + by apply (clipboard_data_mismatch x req next selection type t).
    + unfold refused. by x11_simpl.
    + by x11_simpl.
Qed.

(** C8, as the code has it. A request, a grab or a release of the daemon
    that names a selection other than CLIPBOARD and PRIMARY (the id is a
    [uint8_t]) is rejected: no X11 call is made and nothing changes, except
    that the request is answered with CLIPBOARD_DATA (selection, NONE).
    Data so named is not
    checked for its selection id: it is discarded without effect while an
    INCR transfer is served or no selection request is queued, and is
    otherwise taken as data for the wrong selection, so that the request at
    the head of the queue is refused with one SelectionNotify whose
    property is None ([refusal], sent to the requestor), the queue advances
    to the next request and that request is handled. *)
Theorem unsupported_selection (x : vdagent_x11) (selection : Z) :
  0 <= selection < 256 →
  selection ≠ VD_AGENT_CLIPBOARD_SELECTION_CLIPBOARD →
  selection ≠ VD_AGENT_CLIPBOARD_SELECTION_PRIMARY →
  (∀ type alloc_ok pending,
     vdagent_x11_clipboard_request x selection type alloc_ok pending
       = Some (emit (udscs_write VDAGENTD_CLIPBOARD_DATA selection
                       VD_AGENT_CLIPBOARD_NONE NoData) x))
  ∧ (∀ types type_count pending,
       vdagent_x11_clipboard_grab x selection types type_count pending
         = Some x)
  ∧ (∀ xfixes_events pending,
       vdagent_x11_clipboard_release x selection xfixes_events pending
         = Some x)
  ∧ (∀ type data size pending,
       (is_Some (selection_req_data x) ∨ selection_req x = [] →
          vdagent_x11_clipboard_data x selection type data size pending
            = Some x)
       ∧ (∀ req next t,
            selection_req x = req :: next →
            selection_req_data x = None →
            sel_selection req ≠ selection →
            vdagent_x11_target_to_type x (sel_selection req)
              (xselectionrequest_target (sel_event req)) = Some t →
            vdagent_x11_clipboard_data x selection type data size pending
              = (x' ← vdagent_x11_handle_selection_request
                        (set_selection_req next (refused x req));
                 vdagent_x11_do_read x' pending)
            ∧ out (set_selection_req next (refused x req))
              = out x
                ++ [XSendEvent (xselectionrequest_requestor (sel_event req))
                               (refusal (sel_event req))]
            ∧ selection_req (set_selection_req next (refused x req))
              = next)).
Proof.
  intros _ H0 H1.
  assert (vdagent_x11_get_clipboard_atom x selection = None) as Hatom.
  { unfold vdagent_x11_get_clipboard_atom.
    destruct (Z.eqb_spec selection VD_AGENT_CLIPBOARD_SELECTION_CLIPBOARD);
      [done|].
    by destruct (Z.eqb_spec selection VD_AGENT_CLIPBOARD_SELECTION_PRIMARY). }
  split_and!.
  - intros. unfold vdagent_x11_clipboard_request. by rewrite Hatom.
  - intros. unfold vdagent_x11_clipboard_grab. by rewrite Hatom.
  - intros. unfold vdagent_x11_clipboard_release. by rewrite Hatom.
  - intros type data size pending. split.
    + apply clipboard_data_ignored.
    + intros req next t Hq Hd Hs Ht. split_and!.
      * apply (clipboard_data_mismatch x req next selection type t);
          try done.
        right. congruence.
      * unfold refused. by x11_simpl.
      * by x11_simpl.
Qed.

(** C3, as the code has it. When the allocation of a request slot fails
    the request is ignored and no reply is produced: a CLIPBOARD_REQUEST
    that has come as far as the allocation (the selection is valid, the
    guest owns it and the type is advertised) leaves the state as it was
    and posts nothing to the daemon, and a SelectionRequest leaves the
    state as it was and sends no SelectionNotify. *)
Theorem out_of_memory_drops_request (x : vdagent_x11) :
  (∀ selection type pending,
     is_Some (vdagent_x11_get_clipboard_atom x selection) →
     clipboard_owner_at x selection = owner_guest →
     vdagent_x11_type_to_target x selection type ≠ XNone →
     vdagent_x11_clipboard_request x selection type false pending = Some x)
  ∧ (∀ e env,
       env_alloc_ok env = false →
       vdagent_x11_handle_event x (SelectionRequest e) env = Some x).
Proof.
  split.
  - intros selection type pending [clip Hclip] Howner Htarget.
    unfold vdagent_x11_clipboard_request. rewrite Hclip, Howner.
    rewrite bool_decide_eq_true_2 by done. cbn [negb].
    by destruct (Z.eqb_spec (vdagent_x11_type_to_target x selection type)
                            XNone).
  - intros e env Halloc. unfold vdagent_x11_handle_event.
    destruct (vdagent_x11_get_clipboard_selection x (SelectionRequest e));
      [|done].
    by rewrite Halloc.
Qed.

(** ** The classification of a target *)

(** X25. With [j] left at 0 only the first atom of each format is compared:
    the first name of a template is classified as the template's type. *)
Lemma target_to_type_first_atom (XInternAtom : string → Atom)
    (x : vdagent_x11) (selection : Z) (t : clipboard_format_tmpl)
    (name : string) :
  NoDup (XInternAtom <$> catalog_names) →
  clipboard_formats x = intern_formats XInternAtom →
  t ∈ clipboard_format_templates →
  tmpl_atom_names t !! 0%nat = Some name →
  vdagent_x11_target_to_type x selection (XInternAtom name)
    = Some (tmpl_type t).
Proof.
  intros Hnd Hf Ht Hname. unfold vdagent_x11_target_to_type. rewrite Hf.
  cbn in Hnd. repeat (apply NoDup_cons in Hnd as [? Hnd]).
  repeat match goal with
         | H : _ ∉ _ :: _ |- _ => apply not_elem_of_cons in H as [? H]
         end.
  unfold clipboard_format_templates in Ht.
  repeat (apply elem_of_cons in Ht as [->|Ht]); [..|by apply elem_of_nil in Ht];
    cbn in Hname; injection Hname as <-; cbv -[Z.eqb];
    repeat (match goal with
            | |- context [?a =? ?b] =>
                destruct (Z.eqb_spec a b); [try done; congruence|]
            end);
    try done.
Qed.

(** C1. Target classification, for the names of a template after the
    first, such as text/plain;charset=UTF-8. The inner loop of
    [vdagent_x11_target_to_type] increments [i], not [j]: the target is
    compared with the first atom of each of the five formats only, and the
    loop then reads [clipboard_formats[5].atom_count], past the end of the
    array. The type of the template that lists the atom is not returned. *)
Theorem target_to_type_misses_later_atoms (XInternAtom : string → Atom)
    (x : vdagent_x11) (selection : Z) (t : clipboard_format_tmpl) (j : nat)
    (name : string) :
  NoDup (XInternAtom <$> catalog_names) →
  clipboard_formats x = intern_formats XInternAtom →
  t ∈ clipboard_format_templates →
  tmpl_atom_names t !! S j = Some name →
  vdagent_x11_target_to_type x selection (XInternAtom name) = None.
Proof.
  intros Hnd Hf Ht Hname. unfold vdagent_x11_target_to_type. rewrite Hf.
  cbn in Hnd. repeat (apply NoDup_cons in Hnd as [? Hnd]).
  repeat match goal with
         | H : _ ∉ _ :: _ |- _ => apply not_elem_of_cons in H as [? H]
         end.
  unfold clipboard_format_templates in Ht.
  repeat (apply elem_of_cons in Ht as [->|Ht]); [..|by apply elem_of_nil in Ht];
    cbn in Hname;
    repeat (destruct j as [|j]; cbn in Hname; try done);
    injection Hname as <-; cbv -[Z.eqb];
    repeat (match goal with
            | |- context [?a =? ?b] =>
                destruct (Z.eqb_spec a b); [congruence|]
            end);
    done.
Qed.

(** ** The state [vdagent_x11_create] builds *)

(** The catalog of a display that hands out no None atom is well formed and
    has five entries. *)
Lemma intern_formats_ok (XInternAtom : string → Atom) :
  (∀ name, name ∈ catalog_names → XInternAtom name ≠ XNone) →
  Forall format_ok (intern_formats XInternAtom)
  ∧ Z.of_nat (length (intern_formats XInternAtom)) < MAX_TYPES.
Proof.
  intros Hnz. split; [|done].
  unfold intern_formats, clipboard_format_templates.
  cbn [fmap list_fmap tmpl_type tmpl_atom_names].
  repeat apply Forall_cons_2; try apply Forall_nil_2;
    (split; [done|]); cbn [fmt_atoms];
    repeat apply Forall_cons_2; try apply Forall_nil_2;
    apply Hnz; unfold catalog_names; cbn; set_solver.
Qed.

(** The X protocol lets a request have at least 4096 units; the property
    size derived from it is positive and at most 256 KiB. *)
Lemma initial_max_prop_size_bounds (extended_max max : Z) :
  extended_max = 0 ∨ 4096 <= extended_max <= INT_MAX →
  4096 <= max <= INT_MAX →
  0 < initial_max_prop_size extended_max max <= 262144.
Proof.
  unfold initial_max_prop_size, INT_MAX. intros [->|He] Hm.
  - cbn [to_int Z.modulo Z.div_eucl Z.leb Z.compare Z.eqb negb].
    change (to_int 0) with 0. cbn [Z.eqb negb].
    rewrite to_int_small by (unfold INT_MAX; lia).
    destruct (Z.ltb_spec 262144 (max - 100)); lia.
  - rewrite !to_int_small by (unfold INT_MAX; lia).
    destruct (Z.eqb_spec extended_max 0) as [?|_]; [lia|]. cbn [negb].
    destruct (Z.ltb_spec 262144 (extended_max - 100)); lia.
Qed.

(** ** Evaluations on the sample runs *)

Lemma sample_catalog_distinct : NoDup (sample_XInternAtom <$> catalog_names).
Proof. apply (bool_decide_unpack _). by vm_compute. Qed.

Lemma sample_formats_ok (max_request : Z) :
  Forall format_ok (clipboard_formats (sample_x11 max_request)).
Proof. repeat constructor; by vm_compute. Qed.

(** C1, at the sample display: text/plain;charset=UTF-8 is atom 305, the
    second name of the UTF8_TEXT template. *)
Lemma target_to_type_misses_later_atoms_witness :
  NoDup (sample_XInternAtom <$> catalog_names)
  ∧ clipboard_formats sample_start = intern_formats sample_XInternAtom
  ∧ vdagent_x11_target_to_type sample_start 0 305 = None.
Proof.
  split_and!.
  - apply (bool_decide_unpack _). by vm_compute.
  - reflexivity.
  - apply (target_to_type_misses_later_atoms sample_XInternAtom sample_start 0
             {| tmpl_type := VD_AGENT_CLIPBOARD_UTF8_TEXT;
                tmpl_atom_names := ["UTF8_STRING"; "text/plain;charset=UTF-8";
                                    "text/plain;charset=utf-8"]%string |}
             0 "text/plain;charset=UTF-8"%string).
    + apply (bool_decide_unpack _). by vm_compute.
    + reflexivity.
    + apply list_elem_of_here.
    + reflexivity.
Defined.

(** C2, at twenty bytes with [max_prop_size] 8: three deletions of the
    property get the three pieces. *)
Lemma outbound_round_trip_witness :
  awaits sample_awaiting sample_head [sample_second] 0 1
  ∧ 0 < max_prop_size sample_awaiting <= INT_MAX
  ∧ 20 = Z.of_nat (length twenty_bytes)
  ∧ 20 <= INT_MAX
  ∧ ∃ x1,
      vdagent_x11_do_read
        (incr_started sample_awaiting sample_head twenty_bytes 20)
        (property_deletions sample_head 555 [no_reply; no_reply; no_reply])
        = Some x1
      ∧ out x1
        = out (incr_started sample_awaiting sample_head twenty_bytes 20)
            ++ (piece_written sample_head 555
                  <$> [[97; 98; 99; 100; 101; 102; 103; 104];
                       [105; 106; 107; 108; 109; 110; 111; 112];
                       [113; 114; 115; 116]]).
Proof.
  assert (awaits sample_awaiting sample_head [sample_second] 0 1) as H1
    by (by vm_compute).
  assert (0 < max_prop_size sample_awaiting <= INT_MAX) as H2
    by (by vm_compute).
  assert (20 = Z.of_nat (length twenty_bytes)) as H3 by reflexivity.
  assert (20 <= INT_MAX) as H4 by (by vm_compute).
  do 4 (split; [assumption|]).
  destruct (outbound_round_trip sample_awaiting sample_head [sample_second]
              0 1 twenty_bytes 20 H1 H2 H3 H4) as [_ Hincr].
  destruct (Hincr ltac:(by vm_compute)) as (_ & _ & _ & _ & Hrun).
  destruct (Hrun [no_reply; no_reply; no_reply] no_reply eq_refl)
    as (x1 & Hread & Hout & _).
  exists x1. split; [exact Hread|exact Hout].
Defined.

(** C4, with the guest giving up CLIPBOARD while three conversion requests
    are queued, and with the client losing CLIPBOARD while two selection
    requests are queued. *)
Lemma set_clipboard_owner_flushes_witness :
  (clipboard_owner_at sample_guest_busy 0 ≠ owner_none
   ∧ conversion_req
       (vdagent_x11_set_clipboard_owner sample_guest_busy 0 owner_none)
     = [{| conv_target := 304; conv_selection := 1 |}]
   ∧ out (vdagent_x11_set_clipboard_owner sample_guest_busy 0 owner_none)
     = out sample_guest_busy
         ++ [udscs_write VDAGENTD_CLIPBOARD_DATA 0 VD_AGENT_CLIPBOARD_NONE
                         NoData;
             udscs_write VDAGENTD_CLIPBOARD_DATA 0 VD_AGENT_CLIPBOARD_NONE
                         NoData;
             udscs_write VDAGENTD_CLIPBOARD_RELEASE 0 0 NoData])
  ∧ (clipboard_owner_at sample_awaiting 0 ≠ owner_none
     ∧ selection_req
         (vdagent_x11_set_clipboard_owner sample_awaiting 0 owner_none)
       = [sample_second]
     ∧ out (vdagent_x11_set_clipboard_owner sample_awaiting 0 owner_none)
       = out sample_awaiting
           ++ [XSendEvent 900
                 {| xselection_requestor := 900;
                    xselection_selection := 300;
                    xselection_target := 304;
                    xselection_property := XNone;
                    xselection_time := 12345 |}]).
Proof.
  assert (clipboard_owner_at sample_guest_busy 0 ≠ owner_none) as H1
    by (by vm_compute).
  assert (clipboard_owner_at sample_awaiting 0 ≠ owner_none) as H2
    by (by vm_compute).
  split; (split; [assumption|]).
  - pose proof (set_clipboard_owner_flushes sample_guest_busy 0 owner_none H1)
      as Hflush.
    cbv zeta in Hflush. destruct Hflush as (_ & Hout & Hguest & _).
    destruct (Hguest ltac:(by vm_compute)) as (Hq & _).
    split; [exact Hq|].
    vm_compute in Hout. vm_compute. exact Hout.
  - pose proof (set_clipboard_owner_flushes sample_awaiting 0 owner_none H2)
      as Hflush.
    cbv zeta in Hflush. destruct Hflush as (_ & Hout & _ & Hclient).
    destruct (Hclient ltac:(by vm_compute)) as (Hq & _).
    split; [exact Hq|].
    vm_compute in Hout. vm_compute. exact Hout.
Defined.

(** C6, with an owner that announces image/png and two of the text
    targets: the types are recorded in the catalog's order, text first. *)
Lemma targets_notify_intersects_catalog_witness :
  vdagent_x11_get_clipboard_selection sample_new_owner
    (SelectionNotify (sample_targets_reply 300)) = Some 0
  ∧ expected_targets_notifies_at sample_new_owner 0 = 1
  ∧ targets_atom sample_new_owner ≠ XNone
  ∧ xselection_property (sample_targets_reply 300)
    = targets_atom sample_new_owner
  ∧ xselection_requestor (sample_targets_reply 300)
    = selection_window sample_new_owner
  ∧ env_reply (announces [307; 306; 304]) = atoms_reply [307; 306; 304]
  ∧ [307; 306; 304] ≠ []
  ∧ sizeof_Atom * Z.of_nat (length [307; 306; 304]) <= INT_MAX
  ∧ Forall format_ok (clipboard_formats sample_new_owner)
  ∧ Z.of_nat (length (clipboard_formats sample_new_owner)) < MAX_TYPES
  ∧ ∃ x',
      vdagent_x11_handle_targets_notify sample_new_owner
        (SelectionNotify (sample_targets_reply 300))
        (announces [307; 306; 304]) = Some x'
      ∧ clipboard_type_count_at x' 0 = 2
      ∧ clipboard_owner_at x' 0 = owner_guest.
Proof.
  assert (Forall format_ok (clipboard_formats sample_new_owner)) as Hok.
  { replace (clipboard_formats _)
      with (clipboard_formats (sample_x11 0)) by (by vm_compute).
    apply sample_formats_ok. }
  do 8 (split; [by vm_compute|]).
  split; [exact Hok|]. split; [by vm_compute|].
  destruct (targets_notify_intersects_catalog sample_new_owner
              (sample_targets_reply 300) 0 (announces [307; 306; 304])
              [307; 306; 304]
              ltac:(by vm_compute) ltac:(by vm_compute)
              ltac:(by vm_compute) ltac:(by vm_compute)
              ltac:(by vm_compute) ltac:(by vm_compute)
              ltac:(by vm_compute) ltac:(by vm_compute) Hok
              ltac:(by vm_compute))
    as (x' & Hr & Hc & _ & Hgrab & _).
  exists x'. split; [exact Hr|]. split; [exact Hc|].
  by destruct (Hgrab ltac:(by vm_compute)) as [Ho _].
Defined.

(** C7, with three changes of owner of CLIPBOARD before the first reply:
    the two replies that come first are dropped. *)
Lemma stale_targets_notifies_dropped_witness :
  selection_of_atom sample_start 300 = Some 0
  ∧ expected_targets_notifies_at sample_start 0 = 0
  ∧ Z.of_nat (length [(900, no_reply); (901, no_reply); (902, no_reply)])
    <= INT_MAX
  ∧ Forall (λ '(w, _), w ≠ XNone ∧ w ≠ selection_window sample_start)
           [(900, no_reply); (901, no_reply); (902, no_reply)]
  ∧ ∃ x1 x2,
      vdagent_x11_do_read sample_start
        (owner_changes 300 [(900, no_reply); (901, no_reply); (902, no_reply)])
        = Some x1
      ∧ expected_targets_notifies_at x1 0 = 3
      ∧ vdagent_x11_do_read x1
          (selection_notifies [(sample_targets_reply 300, announces [304]);
                               (sample_targets_reply 300, announces [307])])
        = Some x2
      ∧ out x2 = out x1
      ∧ clipboard_type_count_at x2 0 = 0.
Proof.
  assert (Forall (λ '(w, _), w ≠ XNone ∧ w ≠ selection_window sample_start)
                 [(900, no_reply); (901, no_reply); (902, no_reply)]) as Hw
    by (repeat constructor; by vm_compute).
  split; [by vm_compute|]. split; [by vm_compute|].
  split; [by vm_compute|]. split; [exact Hw|].
  assert (Forall (λ '(e, _), xselection_selection e = 300
                        ∧ xselection_target e = targets_atom sample_start)
                 [(sample_targets_reply 300, announces [304]);
                  (sample_targets_reply 300, announces [307])]) as Hs.
  { apply Forall_cons_2; [by vm_compute|].
    apply Forall_cons_2; [by vm_compute|]. apply Forall_nil_2. }
  destruct (stale_targets_notifies_dropped sample_start 0 300
              [(900, no_reply); (901, no_reply); (902, no_reply)]
              [(sample_targets_reply 300, announces [304]);
               (sample_targets_reply 300, announces [307])])
    as (x1 & x2 & Hr1 & He & Hr2 & Hx2 & _);
    [by vm_compute|by vm_compute|by vm_compute|exact Hw|reflexivity
    |exact Hs|].
  exists x1, x2.
  split; [exact Hr1|].
  split; [exact He|].
  split; [exact Hr2|].
  split.
  - by rewrite Hx2.
  - rewrite Hx2.
    assert (x1 = force (vdagent_x11_do_read sample_start
                          (owner_changes 300 [(900, no_reply);
                                              (901, no_reply);
                                              (902, no_reply)]))) as ->
      by (by rewrite Hr1).
    by vm_compute.
Defined.
(** C9, with a grab while two selection requests are queued, and with a
    targets reply for CLIPBOARD while three conversion requests are
    queued. *)
Lemma every_owner_assignment_flushes_witness :
  (vdagent_x11_get_clipboard_atom sample_awaiting 0 = Some 300
   ∧ ∃ x_mid,
       vdagent_x11_clipboard_grab sample_awaiting 0 [2] 1 []
         = Some (assign_clipboard_owner 0 owner_client x_mid)
       ∧ clipboard_owner_at x_mid 0 = owner_client
       ∧ out x_mid
         = out sample_awaiting
             ++ [XSetSelectionOwner 300 77;
                 XSendEvent 900
                   {| xselection_requestor := 900;
                      xselection_selection := 300;
                      xselection_target := 304;
                      xselection_property := XNone;
                      xselection_time := 12345 |}])
  ∧ (matched_targets (clipboard_formats sample_guest_busy) [304] ≠ []
     ∧ expected_targets_notifies_at
         (set_expected_targets_notifies {[0 := 1]} sample_guest_busy) 0 = 1
     ∧ ∃ x_mid,
         vdagent_x11_handle_targets_notify
           (set_expected_targets_notifies {[0 := 1]} sample_guest_busy)
           (SelectionNotify (sample_targets_reply 300)) (announces [304])
           = Some (assign_clipboard_owner 0 owner_guest x_mid)
         ∧ clipboard_owner_at x_mid 0 = owner_guest
         ∧ Forall (λ r, conv_selection r ≠ 0) (conversion_req x_mid)).
Proof.
  split.
  - split; [by vm_compute|].
    destruct (every_owner_assignment_flushes sample_awaiting 0) as [Hgrab _].
    destruct (Hgrab 300 [2] 1 [] ltac:(by vm_compute) ltac:(by vm_compute))
      as (x_mid & Hr & Ho & Hout & _).
    exists x_mid. split; [exact Hr|]. split.
    + rewrite Ho. by vm_compute.
    + rewrite Hout. by vm_compute.
  - split; [by vm_compute|]. split; [by vm_compute|].
    destruct (every_owner_assignment_flushes
                (set_expected_targets_notifies {[0 := 1]} sample_guest_busy)
                0) as [_ Htargets].
    assert (Forall format_ok
              (clipboard_formats
                 (set_expected_targets_notifies {[0 := 1]}
                                                sample_guest_busy))) as Hok.
    { replace (clipboard_formats _)
        with (clipboard_formats (sample_x11 0)) by (by vm_compute).
      apply sample_formats_ok. }
    destruct (Htargets (sample_targets_reply 300) (announces [304]) [304]
                ltac:(by vm_compute) ltac:(by vm_compute)
                ltac:(by vm_compute) ltac:(by vm_compute)
                ltac:(by vm_compute) ltac:(by vm_compute)
                ltac:(by vm_compute) ltac:(by vm_compute) Hok
                ltac:(by vm_compute) ltac:(by vm_compute))
      as (x_mid & Hr & Ho & _ & _ & Hconv & _).
    exists x_mid. split; [exact Hr|]. split; [|exact Hconv].
    rewrite Ho. by vm_compute.
Defined.

(** C10, with a request for UTF8_STRING and a request for TARGETS that
    name no property: the replies go to the properties 304 and 301. *)
Lemma reply_property_defaults_to_target_witness :
  (selection_req sample_awaiting_on_target
   = [{| sel_event := sample_request 300 304 0; sel_selection := 0 |}]
   ∧ xselectionrequest_property (sample_request 300 304 0) = XNone
   ∧ out (data_written sample_awaiting_on_target
            {| sel_event := sample_request 300 304 0; sel_selection := 0 |}
            [104; 105] 2)
     = out sample_awaiting_on_target
         ++ [XChangeProperty 900 304 304 8 [104; 105] 2;
             XSendEvent 900
               {| xselection_requestor := 900;
                  xselection_selection := 300;
                  xselection_target := 304;
                  xselection_property := 304;
                  xselection_time := 12345 |}])
  ∧ (selection_req sample_targets_request
     = [{| sel_event := sample_request 300 301 0; sel_selection := 0 |}]
     ∧ out (send_selection_notify_to 301
              {| sel_event := sample_request 300 301 0; sel_selection := 0 |}
              (send_targets_property sample_targets_request 0
                 (sample_request 300 301 0)))
       = out sample_targets_request
           ++ [XChangeProperty 900 301 XA_ATOM 32 [301; 304; 305; 306] 4;
               XSendEvent 900
                 {| xselection_requestor := 900;
                    xselection_selection := 300;
                    xselection_target := 301;
                    xselection_property := 301;
                    xselection_time := 12345 |}]).
Proof.
  split.
  - assert (selection_req sample_awaiting_on_target
            = [{| sel_event := sample_request 300 304 0;
                  sel_selection := 0 |}]) as Hq by (by vm_compute).
    split; [exact Hq|]. split; [reflexivity|].
    destruct (reply_property_defaults_to_target sample_awaiting_on_target
                _ _ Hq eq_refl) as [_ Hdata].
    destruct (Hdata 0 1 [104; 105] 2 [] ltac:(by vm_compute)
                ltac:(by vm_compute) ltac:(by vm_compute)) as [Hsingle _].
    destruct (Hsingle ltac:(by vm_compute)) as [_ Hout].
    exact Hout.
  - assert (selection_req sample_targets_request
            = [{| sel_event := sample_request 300 301 0;
                  sel_selection := 0 |}]) as Hq by (by vm_compute).
    split; [exact Hq|].
    destruct (reply_property_defaults_to_target sample_targets_request
                _ _ Hq eq_refl) as [Htargets _].
    destruct (Htargets 0) as [_ Hout].
    etrans; [exact Hout|]. by vm_compute.
Defined.

(** C3: out of memory in [sample_guest], which would serve the request,
    and in [sample_client], which would queue the selection request. No
    message is posted and no event is sent; the state is as before. *)
Lemma out_of_memory_request_gets_no_reply :
  vdagent_x11_clipboard_request sample_guest 0 1 false [] = Some sample_guest
  ∧ vdagent_x11_clipboard_request sample_guest 0 1 true []
    = Some (emit (XConvertSelection 300 304 300 77)
              (set_conversion_req
                 [{| conv_target := 304; conv_selection := 0 |}]
                 sample_guest))
  ∧ vdagent_x11_handle_event sample_client
      (SelectionRequest (sample_request 300 304 555)) out_of_memory
    = Some sample_client
  ∧ out sample_client
    = [udscs_write VDAGENTD_GUEST_XORG_RESOLUTION 0 0 (Resolution 1024 768);
       XSetSelectionOwner 300 77]
  ∧ out sample_guest
    = [udscs_write VDAGENTD_GUEST_XORG_RESOLUTION 0 0 (Resolution 1024 768);
       XConvertSelection 300 301 301 77; XGetWindowProperty 77 301 false 4;
       udscs_write VDAGENTD_CLIPBOARD_GRAB 0 0 (Types [1; 2]);
       XConvertSelection 1 301 301 77; XGetWindowProperty 77 301 false 4;
       udscs_write VDAGENTD_CLIPBOARD_GRAB 1 0 (Types [1; 2])].
Proof. split_and!; by vm_compute. Qed.

Lemma out_of_memory_drops_request_witness :
  (is_Some (vdagent_x11_get_clipboard_atom sample_guest 0)
   ∧ clipboard_owner_at sample_guest 0 = owner_guest
   ∧ vdagent_x11_type_to_target sample_guest 0 1 ≠ XNone
   ∧ vdagent_x11_clipboard_request sample_guest 0 1 false []
     = Some sample_guest)
  ∧ (env_alloc_ok out_of_memory = false
     ∧ vdagent_x11_handle_event sample_client
         (SelectionRequest (sample_request 300 304 555)) out_of_memory
       = Some sample_client).
Proof.
  destruct (out_of_memory_drops_request sample_guest) as [Hrequest _].
  destruct (out_of_memory_drops_request sample_client) as [_ Hevent].
  assert (is_Some (vdagent_x11_get_clipboard_atom sample_guest 0)) as H1
    by (exists 300; by vm_compute).
  assert (clipboard_owner_at sample_guest 0 = owner_guest) as H2
    by (by vm_compute).
  assert (vdagent_x11_type_to_target sample_guest 0 1 ≠ XNone) as H3
    by (by vm_compute).
  split.
  - split; [exact H1|]. split; [exact H2|]. split; [exact H3|].
    exact (Hrequest 0 1 [] H1 H2 H3).
  - split; [reflexivity|]. exact (Hevent _ out_of_memory eq_refl).
Defined.

(** C5: data that arrives while no request is queued, and while the INCR
    transfer of [sample_incr] is served: the state, and with it [out],
    stays as it was, so no SelectionNotify is sent and the queue does not
    advance. *)
Lemma unexpected_data_is_dropped_silently :
  vdagent_x11_clipboard_data sample_client 0 1 [104; 105] 2 []
    = Some sample_client
  ∧ selection_req sample_client = []
  ∧ vdagent_x11_clipboard_data sample_incr 0 1 [104; 105] 2 []
    = Some sample_incr
  ∧ selection_req sample_incr = [sample_head; sample_second]
  ∧ selection_req_data sample_incr = Some twenty_bytes.
Proof. split_and!; by vm_compute. Qed.

Lemma unexpected_clipboard_data_witness :
  (is_Some (selection_req_data sample_incr)
   ∧ vdagent_x11_clipboard_data sample_incr 0 1 [104; 105] 2 []
     = Some sample_incr)
  ∧ (selection_req sample_client = []
     ∧ vdagent_x11_clipboard_data sample_client 0 1 [104; 105] 2 []
       = Some sample_client)
  ∧ (selection_req sample_awaiting = sample_head :: [sample_second]
     ∧ selection_req_data sample_awaiting = None
     ∧ vdagent_x11_target_to_type sample_awaiting (sel_selection sample_head)
         (xselectionrequest_target (sel_event sample_head)) = Some 1
     ∧ (1 ≠ 2 ∨ 0 ≠ sel_selection sample_head)
     ∧ out (set_selection_req [sample_second]
              (refused sample_awaiting sample_head))
       = out sample_awaiting
           ++ [XSendEvent 900
                 {| xselection_requestor := 900;
                    xselection_selection := 300;
                    xselection_target := 304;
                    xselection_property := XNone;
                    xselection_time := 12345 |}]).
Proof.
  assert (is_Some (selection_req_data sample_incr)) as H1
    by (exists twenty_bytes; by vm_compute).
  assert (selection_req sample_client = []) as H2 by (by vm_compute).
  assert (selection_req sample_awaiting = sample_head :: [sample_second])
    as H3 by (by vm_compute).
  assert (selection_req_data sample_awaiting = None) as H4
    by (by vm_compute).
  assert (vdagent_x11_target_to_type sample_awaiting
            (sel_selection sample_head)
            (xselectionrequest_target (sel_event sample_head)) = Some 1)
    as H5 by (by vm_compute).
  assert (1 ≠ 2 ∨ 0 ≠ sel_selection sample_head) as H6 by (by left).
  split; [|split].
  - split; [exact H1|].
    destruct (unexpected_clipboard_data sample_incr 0 1 [104; 105] 2 [])
      as (Hincr & _). exact (Hincr H1).
  - split; [exact H2|].
    destruct (unexpected_clipboard_data sample_client 0 1 [104; 105] 2 [])
      as (_ & Hempty & _). exact (Hempty H2).
  - do 4 (split; [assumption|]).
    destruct (unexpected_clipboard_data sample_awaiting 0 2 [104; 105] 2 [])
      as (_ & _ & Hmismatch).
    destruct (Hmismatch sample_head [sample_second] 1 H3 H4 H5 H6)
      as (_ & Hout & _).
    exact Hout.
Defined.

(** C8: data named for SECONDARY (2) while window 900 waits for CLIPBOARD
    data. The waiting request is refused with a SelectionNotify, an X11
    call, and leaves the queue; the PRIMARY request behind it is handled
    and refused as well. *)
Lemma data_for_secondary_refuses_the_head :
  out <$> vdagent_x11_clipboard_data sample_awaiting 2 1 [104; 105] 2 []
    = Some (out sample_awaiting
              ++ [XSendEvent 900
                    {| xselection_requestor := 900;
                       xselection_selection := 300;
                       xselection_target := 304;
                       xselection_property := XNone;
                       xselection_time := 12345 |};
                  XSendEvent 900
                    {| xselection_requestor := 900;
                       xselection_selection := 1;
                       xselection_target := 304;
                       xselection_property := XNone;
                       xselection_time := 12345 |}])
  ∧ selection_req
      <$> vdagent_x11_clipboard_data sample_awaiting 2 1 [104; 105] 2 []
    = Some []
  ∧ selection_req sample_awaiting = [sample_head; sample_second].
Proof. split_and!; by vm_compute. Qed.

Lemma unsupported_selection_witness :
  0 <= 2 < 256
  ∧ 2 ≠ VD_AGENT_CLIPBOARD_SELECTION_CLIPBOARD
  ∧ 2 ≠ VD_AGENT_CLIPBOARD_SELECTION_PRIMARY
  ∧ vdagent_x11_clipboard_request sample_guest 2 1 true []
    = Some (emit (udscs_write VDAGENTD_CLIPBOARD_DATA 2
                    VD_AGENT_CLIPBOARD_NONE NoData) sample_guest)
  ∧ vdagent_x11_clipboard_grab sample_guest 2 [1] 1 [] = Some sample_guest
  ∧ vdagent_x11_clipboard_release sample_client 2 [] [] = Some sample_client
  ∧ vdagent_x11_clipboard_data sample_incr 2 1 [104; 105] 2 []
    = Some sample_incr
  ∧ (selection_req sample_awaiting = sample_head :: [sample_second]
     ∧ selection_req_data sample_awaiting = None
     ∧ sel_selection sample_head ≠ 2
     ∧ vdagent_x11_target_to_type sample_awaiting (sel_selection sample_head)
         (xselectionrequest_target (sel_event sample_head)) = Some 1
     ∧ vdagent_x11_clipboard_data sample_awaiting 2 1 [104; 105] 2 []
       = (x' ← vdagent_x11_handle_selection_request
                 (set_selection_req [sample_second]
                    (refused sample_awaiting sample_head));
          vdagent_x11_do_read x' [])
     ∧ out (set_selection_req [sample_second]
              (refused sample_awaiting sample_head))
       = out sample_awaiting
           ++ [XSendEvent 900
                 {| xselection_requestor := 900;
                    xselection_selection := 300;
                    xselection_target := 304;
                    xselection_property := XNone;
                    xselection_time := 12345 |}]
     ∧ selection_req (set_selection_req [sample_second]
                        (refused sample_awaiting sample_head))
       = [sample_second]).
Proof.
  assert (2 ≠ VD_AGENT_CLIPBOARD_SELECTION_CLIPBOARD) as H0 by done.
  assert (2 ≠ VD_AGENT_CLIPBOARD_SELECTION_PRIMARY) as H1 by done.
  assert (selection_req sample_awaiting = sample_head :: [sample_second])
    as H3 by (by vm_compute).
  assert (selection_req_data sample_awaiting = None) as H4
    by (by vm_compute).
  assert (sel_selection sample_head ≠ 2) as H5 by done.
  assert (vdagent_x11_target_to_type sample_awaiting
            (sel_selection sample_head)
            (xselectionrequest_target (sel_event sample_head)) = Some 1)
    as H6 by (by vm_compute).
  assert (0 <= 2 < 256) as Hid by lia.
  split; [exact Hid|]. split; [exact H0|]. split; [exact H1|].
  destruct (unsupported_selection sample_guest 2 Hid H0 H1)
    as (Hrequest & Hgrab & _).
  destruct (unsupported_selection sample_client 2 Hid H0 H1)
    as (_ & _ & Hrelease & _).
  destruct (unsupported_selection sample_incr 2 Hid H0 H1)
    as (_ & _ & _ & Hincr).
  destruct (unsupported_selection sample_awaiting 2 Hid H0 H1)
    as (_ & _ & _ & Hdata).
  split; [apply Hrequest|]. split; [apply Hgrab|]. split; [apply Hrelease|].
  split.
  - destruct (Hincr 1 [104; 105] 2 []) as [Hignored _].
    apply Hignored. left. exists twenty_bytes. by vm_compute.
  - do 4 (split; [assumption|]).
    destruct (Hdata 1 [104; 105] 2 []) as [_ Hmismatch].
    destruct (Hmismatch sample_head [sample_second] 1 H3 H4 H5 H6)
      as (Hrun & Hout & Hq).
    split; [exact Hrun|]. split; [exact Hout|exact Hq].
Defined.

(** * The bridge from its creation to its end *)

Lemma get_selection_exit_frame (incr : bool) (ret : Z) (d : list Z) (x : vdagent_x11) r dd x' :
  get_selection_exit incr ret d x = Some (r, dd, x') →
  display_of x' = display_of x ∧ outbound_of x' = outbound_of x
  ∧ catalog_of x' = catalog_of x ∧ screen_of x' = screen_of x
  ∧ conversion_req x' = conversion_req x.
Proof.
  unfold get_selection_exit. intros [= <- <- <-].
  destruct incr; by x11_simpl.
Qed.

Lemma get_selection_frame (x : vdagent_x11) (event : XEvent)
    (selection : Z) (type prop : Atom) (format : Z) (incr : bool)
    (env : environment) r dd x' :
  vdagent_x11_get_selection x event selection type prop format incr env = Some (r, dd, x') →
  display_of x' = display_of x ∧ outbound_of x' = outbound_of x
  ∧ catalog_of x' = catalog_of x ∧ screen_of x' = screen_of x
  ∧ conversion_req x' = conversion_req x.
Proof.
  unfold vdagent_x11_get_selection, get_selection_data, get_selection_exit.
  intros H.
  repeat match type of H with
         | context [if ?b then _ else _] => destruct b
         | context [match ?b with _ => _ end] => destruct b
         end; simplify_eq; by x11_simpl.
Qed.

(** ** The parts of the state a function leaves alone *)

Lemma x11_inv_ext (x x' : vdagent_x11) :
  outbound_of x' = outbound_of x → inbound_of x' = inbound_of x →
  catalog_of x' = catalog_of x → x11_inv x → x11_inv x'.
Proof.
  unfold outbound_of, inbound_of, catalog_of.
  intros [= Hq Hd _ _ _] [= Hc He _ Hs _] [= Hx _ Ht _ _] [H1 H2 H3 H4 H5 H6].
  split; unfold clipboard_type_count_at, expected_targets_notifies_at in *;
    rewrite ?Hq, ?Hd, ?Hc, ?He, ?Hs, ?Hx, ?Ht; done.
Qed.

Lemma emit_parts (a : action) (x : vdagent_x11) :
  display_of (emit a x) = display_of x
  ∧ outbound_of (emit a x) = outbound_of x
  ∧ inbound_of (emit a x) = inbound_of x
  ∧ catalog_of (emit a x) = catalog_of x
  ∧ screen_of (emit a x) = screen_of x.
Proof. by x11_simpl. Qed.

Lemma emit_inv (a : action) (x : vdagent_x11) : x11_inv x → x11_inv (emit a x).
Proof.
  destruct (emit_parts a x) as (_ & ? & ? & ? & _). by apply x11_inv_ext.
Qed.

Lemma supported_get_clipboard_atom (x : vdagent_x11) (selection : Z) :
  supported selection ↔ is_Some (vdagent_x11_get_clipboard_atom x selection).
Proof.
  unfold supported, vdagent_x11_get_clipboard_atom,
    VD_AGENT_CLIPBOARD_SELECTION_CLIPBOARD,
    VD_AGENT_CLIPBOARD_SELECTION_PRIMARY.
  destruct (Z.eqb_spec selection 0), (Z.eqb_spec selection 1); split;
    intros H; try (by eexists); try lia; by destruct H.
Qed.

Lemma selection_of_atom_supported (x : vdagent_x11) (a : Atom) (s : Z) :
  selection_of_atom x a = Some s → supported s.
Proof.
  unfold selection_of_atom, supported.
  repeat case_match; intros [= <-]; auto.
Qed.

Lemma get_clipboard_selection_supported (x : vdagent_x11) (e : XEvent) (s : Z) :
  vdagent_x11_get_clipboard_selection x e = Some s → supported s.
Proof.
  destruct e; cbn; try done; apply selection_of_atom_supported.
Qed.

(** ** Ownership changes *)

Lemma set_clipboard_owner_parts (x : vdagent_x11) (selection : Z)
    (new_owner : owner) :
  let x' := vdagent_x11_set_clipboard_owner x selection new_owner in
  display_of x' = display_of x ∧ screen_of x' = screen_of x
  ∧ expected_targets_notifies x' = expected_targets_notifies x
  ∧ clipboard_data x' = clipboard_data x
  ∧ clipboard_data_space x' = clipboard_data_space x.
Proof.
  cbn zeta. rewrite set_clipboard_owner_eq.
  unfold assign_clipboard_owner, requests_cleared.
  repeat case_decide;
    destruct (selection_head selection (selection_req x)),
             (conversion_head selection (conversion_req x));
    by x11_simpl.
Qed.

Lemma filter_head_kept {A} (f : A → bool) (q : list A) :
  match q with r :: _ => f r = true | [] => False end →
  List.filter f q ≠ [].
Proof. destruct q as [|r q]; [done|]. cbn. by intros ->. Qed.

Lemma set_clipboard_owner_type_count (x : vdagent_x11) (selection s : Z)
    (new_owner : owner) :
  clipboard_type_count_at
    (vdagent_x11_set_clipboard_owner x selection new_owner) s
  = if decide (new_owner = owner_none ∧ s = selection) then 0
    else clipboard_type_count_at x s.
Proof.
  rewrite set_clipboard_owner_eq.
  unfold assign_clipboard_owner, requests_cleared, clipboard_type_count_at.
  repeat case_decide;
    destruct (selection_head selection (selection_req x)),
             (conversion_head selection (conversion_req x));
    x11_simpl;
    try (destruct_and?; subst; by rewrite lookup_insert_eq);
    try (rewrite lookup_insert_ne; [done|]; intros ->; tauto);
    try tauto.
Qed.

Lemma set_clipboard_owner_inv (x : vdagent_x11) (selection : Z)
    (new_owner : owner) :
  x11_inv x → x11_inv (vdagent_x11_set_clipboard_owner x selection new_owner).
Proof.
  intros [H1 H2 H3 H4 H5 H6].
  pose proof (set_clipboard_owner_parts x selection new_owner)
    as (_ & _ & He & _ & _).
  pose proof (set_clipboard_owner_selection_req_data x selection new_owner)
    as Hd.
  pose proof (set_clipboard_owner_clipboard_data x selection new_owner)
    as Hc.
  cbn zeta in *. split.
  - rewrite set_clipboard_owner_selection_req.
    apply Forall_forall. intros r Hr%list_elem_of_In%filter_In.
    destruct Hr as [Hr%list_elem_of_In _].
    by eapply Forall_forall in H1.
  - rewrite set_clipboard_owner_conversion_req.
    apply Forall_forall. intros r Hr%list_elem_of_In%filter_In.
    destruct Hr as [Hr%list_elem_of_In _].
    by eapply Forall_forall in H2.
  - rewrite set_clipboard_owner_selection_req.
    destruct (selection_head selection (selection_req x)) eqn:Hh.
    + destruct Hd as (-> & _). by intros [? ?].
    + destruct Hd as (-> & _). intros Hs. specialize (H3 Hs).
      apply filter_head_kept.
      destruct (selection_req x) as [|r q]; [done|]. cbn in Hh.
      by rewrite Hh.
  - destruct (conversion_head selection (conversion_req x)).
    + by destruct Hc as (_ & ->).
    + destruct Hc as (-> & ->). done.
  - intros s. rewrite set_clipboard_owner_type_count.
    case_decide; [unfold MAX_TYPES; lia|done].
  - intros s. unfold expected_targets_notifies_at in *. rewrite He. done.
Qed.

(** ** Draining the queue of selection requests *)

Lemma needs_data_ext (x x' : vdagent_x11) r type :
  display_of x' = display_of x → clipboard_owner x' = clipboard_owner x →
  needs_data x r type → needs_data x' r type.
Proof.
  unfold display_of, needs_data, vdagent_x11_target_to_type,
    clipboard_owner_at.
  intros [= -> _ _ -> _ -> _ _ _] ->. done.
Qed.

Lemma answer_of_ext (x x' : vdagent_x11) r :
  display_of x' = display_of x → clipboard_owner x' = clipboard_owner x →
  answer_of x' r = answer_of x r.
Proof.
  unfold display_of, answer_of, answered_property, clipboard_owner_at.
  intros [= _ _ _ -> _ -> _ _ _] ->. done.
Qed.

Lemma handle_selection_request_from_shape :
  ∀ queue x x',
    selection_req x = queue →
    handle_selection_request_from queue x = Some x' →
    ∃ done rest acts,
      queue = done ++ rest
      ∧ x' = set_out (out x ++ acts) (set_selection_req rest x)
      ∧ sent_events acts = answer_of x <$> done
      ∧ Forall (λ r, ∀ type, ¬ needs_data x r type) done
      ∧ match rest with
        | [] => daemon_messages acts = []
        | r :: _ =>
            ∃ type, needs_data x r type
              ∧ daemon_messages acts =
                  [udscs_write VDAGENTD_CLIPBOARD_REQUEST (sel_selection r)
                               type NoData]
        end.
Proof.
  induction queue as [|req next IH]; intros x x' Hq H.
  - injection H as <-. exists [], [], [].
    split_and!; try done; try constructor.
    rewrite app_nil_r, <- Hq. by x11_simpl.
  - cbn [handle_selection_request_from] in H.
    assert (∀ prop y pre,
              y = set_out (out x ++ pre) x →
              sent_events pre = [] → daemon_messages pre = [] →
              prop = answered_property x req →
              (∀ type, ¬ needs_data x req type) →
              handle_selection_request_from next
                (set_selection_req next (send_selection_notify_to prop req y))
              = Some x' →
              ∃ done rest acts,
                req :: next = done ++ rest
                ∧ x' = set_out (out x ++ acts) (set_selection_req rest x)
                ∧ sent_events acts = answer_of x <$> done
                ∧ Forall (λ r, ∀ type, ¬ needs_data x r type) done
                ∧ match rest with
                  | [] => daemon_messages acts = []
                  | r :: _ =>
                      ∃ type, needs_data x r type
                        ∧ daemon_messages acts =
                            [udscs_write VDAGENTD_CLIPBOARD_REQUEST
                                         (sel_selection r) type NoData]
                  end) as Hreply.
    { intros prop y pre -> Hs Hm Hprop Hneed Hrec.
      apply IH in Hrec; [|by x11_simpl].
      destruct Hrec as (done & rest & acts & -> & -> & Hans & Hnot & Hrest).
      exists (req :: done), rest,
        (pre ++ XSendEvent (xselectionrequest_requestor (sel_event req))
                  (selection_notify prop (sel_event req)) :: acts).
      split_and!.
      - done.
      - clear IH Hans Hnot Hrest H Hprop Hneed. x11_simpl. f_equal.
        by rewrite <- !app_assoc.
      - unfold sent_events in *. rewrite omap_app, Hs. cbn.
        rewrite Hans.
        apply (f_equal2 cons); [unfold answer_of; by rewrite <- Hprop|].
        apply list_fmap_ext. intros _ r _.
        apply answer_of_ext; by x11_simpl.
      - apply Forall_cons_2; [done|].
        eapply Forall_impl; [exact Hnot|]. intros r Hr type Hn. cbn beta in Hr.
        apply (Hr type). eapply needs_data_ext; [| |exact Hn]; by x11_simpl.
      - unfold daemon_messages in *. rewrite List.filter_app, Hm. cbn.
        destruct rest as [|r rest]; [done|].
        destruct Hrest as (type & Hn & ->). exists type. split; [|done].
        eapply needs_data_ext; [| |exact Hn]; by x11_simpl. }
    assert (x = set_out (out x ++ []) x) as Hx
      by (by rewrite app_nil_r, set_out_same).
    destruct (bool_decide (clipboard_owner_at x (sel_selection req)
                           = owner_client)) eqn:Hown; cbn [negb] in H.
    2:{ apply bool_decide_eq_false in Hown.
        eapply (Hreply _ x []); [exact Hx|done|done| | |exact H].
        - unfold answered_property.
          by rewrite bool_decide_eq_false_2 by done.
        - intros type (Ho & _). done. }
    apply bool_decide_eq_true in Hown.
    destruct (Z.eqb_spec (xselectionrequest_target (sel_event req))
                         (multiple_atom x)) as [Hmul|Hmul].
    { eapply (Hreply _ x []); [exact Hx|done|done| | |exact H].
      - unfold answered_property. rewrite Hmul, Z.eqb_refl.
        by rewrite andb_false_r.
      - intros type (_ & Hm & _). done. }
    destruct (Z.eqb_spec (xselectionrequest_target (sel_event req))
                         (targets_atom x)) as [Htar|Htar].
    { refine (Hreply _ _ [_] eq_refl _ _ _ _ H); [done|done| |].
      - unfold answered_property.
        rewrite bool_decide_eq_true_2 by done.
        destruct (Z.eqb_spec (xselectionrequest_target (sel_event req))
                             (multiple_atom x)); [done|].
        by rewrite Htar, Z.eqb_refl.
      - intros type (_ & _ & Ht & _). done. }
    destruct (vdagent_x11_target_to_type x (sel_selection req)
                (xselectionrequest_target (sel_event req))) as [type|] eqn:Ht;
      [|done].
    cbn in H.
    destruct (Z.eqb_spec type VD_AGENT_CLIPBOARD_NONE) as [Hnone|Hnone].
    { eapply (Hreply _ x []); [exact Hx|done|done| | |exact H].
      - unfold answered_property.
        destruct (Z.eqb_spec (xselectionrequest_target (sel_event req))
                             (targets_atom x)); [done|].
        by rewrite andb_false_r.
      - intros type' (_ & _ & _ & Ht' & Hn'). congruence. }
    injection H as <-.
    exists [], (req :: next),
      [udscs_write VDAGENTD_CLIPBOARD_REQUEST (sel_selection req) type NoData].
    split_and!; [done| |done|constructor|exists type; by repeat split].
    rewrite <- Hq. clear. by x11_simpl.
Qed.

(** ** What each handler keeps *)

Lemma handle_selection_request_from_inv (x x' : vdagent_x11) :
  x11_inv x → selection_req_data x = None →
  vdagent_x11_handle_selection_request x = Some x' →
  x11_inv x' ∧ selection_req_data x' = None
  ∧ display_of x' = display_of x ∧ inbound_of x' = inbound_of x
  ∧ catalog_of x' = catalog_of x ∧ screen_of x' = screen_of x.
Proof.
  intros [H1 H2 H3 H4 H5 H6] Hd H.
  apply handle_selection_request_from_shape in H; [|done].
  destruct H as (done & rest & acts & Hq & -> & _).
  split_and!; try (by x11_simpl).
  rewrite Hq in H1. apply Forall_app in H1 as [_ H1].
  split; by x11_simpl.
Qed.

Lemma get_selection_incr_state (x : vdagent_x11) (event : XEvent)
    (selection : Z) (type prop : Atom) (format : Z) (incr : bool)
    (env : environment) r dd x' :
  vdagent_x11_get_selection x event selection type prop format incr env
    = Some (r, dd, x') →
  (incr = true → expect_property_notify x = true) →
  (expect_property_notify x = false → clipboard_data_size x = 0) →
  expect_property_notify x' = false → clipboard_data_size x' = 0.
Proof.
  unfold vdagent_x11_get_selection, get_selection_data, get_selection_exit.
  intros H.
  repeat match type of H with
         | context [if ?b then _ else _] => destruct b eqn:?
         | context [match ?b with _ => _ end] => destruct b eqn:?
         end; simplify_eq; x11_simpl; intros; try done;
    try (exfalso; intuition congruence); intuition congruence.
Qed.

Lemma get_selection_inv (x : vdagent_x11) (event : XEvent)
    (selection : Z) (type prop : Atom) (format : Z) (incr : bool)
    (env : environment) r dd x' :
  vdagent_x11_get_selection x event selection type prop format incr env
    = Some (r, dd, x') →
  (incr = true → expect_property_notify x = true) →
  x11_inv x → x11_inv x'.
Proof.
  intros H Hi [H1 H2 H3 H4 H5 H6].
  pose proof (get_selection_incr_state _ _ _ _ _ _ _ _ _ _ _ H Hi H4) as H4'.
  apply get_selection_frame in H as (_ & Ho & Hc & _ & Hq).
  unfold outbound_of, catalog_of in *.
  injection Ho as Ho1 Ho2 _ _ _. injection Hc as Hc1 _ Hc3 _ _.
  split; unfold clipboard_type_count_at, expected_targets_notifies_at in *;
    rewrite ?Ho1, ?Ho2, ?Hq, ?Hc1, ?Hc3; done.
Qed.

Lemma get_selection_free_parts (x : vdagent_x11) (incr : bool) :
  let x' := vdagent_x11_get_selection_free x incr in
  display_of x' = display_of x ∧ outbound_of x' = outbound_of x
  ∧ catalog_of x' = catalog_of x ∧ screen_of x' = screen_of x
  ∧ conversion_req x' = conversion_req x
  ∧ expect_property_notify x' = expect_property_notify x
  ∧ clipboard_data_size x' = clipboard_data_size x
  ∧ out x' = out x.
Proof.
  unfold vdagent_x11_get_selection_free.
  destruct incr; [destruct (_ <? _)|]; by x11_simpl.
Qed.

Lemma get_selection_free_inv (x : vdagent_x11) (incr : bool) :
  x11_inv x → x11_inv (vdagent_x11_get_selection_free x incr).
Proof.
  intros [H1 H2 H3 H4 H5 H6].
  destruct (get_selection_free_parts x incr)
    as (_ & Ho & Hc & _ & Hq & He & Hs & _).
  unfold outbound_of, catalog_of in *.
  injection Ho as Ho1 Ho2 _ _ _. injection Hc as Hc1 _ Hc3 _ _.
  split; unfold clipboard_type_count_at, expected_targets_notifies_at in *;
    rewrite ?Ho1, ?Ho2, ?Hq, ?Hc1, ?Hc3, ?He, ?Hs; done.
Qed.

Lemma next_conversion_request_inv (x x' : vdagent_x11) :
  vdagent_x11_next_conversion_request x = Some x' →
  x11_inv x →
  x11_inv x' ∧ display_of x' = display_of x ∧ outbound_of x' = outbound_of x
  ∧ catalog_of x' = catalog_of x ∧ screen_of x' = screen_of x.
Proof.
  unfold vdagent_x11_next_conversion_request.
  destruct (conversion_req x) as [|r next] eqn:Hq; [done|].
  intros [= <-] [H1 H2 H3 H4 H5 H6].
  rewrite Hq in H2. apply Forall_cons in H2 as [_ H2].
  split_and!; try (by x11_simpl); split; by x11_simpl.
Qed.

Lemma handle_conversion_request_inv (x x' : vdagent_x11) :
  vdagent_x11_handle_conversion_request x = Some x' →
  x11_inv x →
  x11_inv x' ∧ display_of x' = display_of x ∧ outbound_of x' = outbound_of x
  ∧ inbound_of x' = inbound_of x
  ∧ catalog_of x' = catalog_of x ∧ screen_of x' = screen_of x.
Proof.
  unfold vdagent_x11_handle_conversion_request.
  destruct (conversion_req x) as [|r next] eqn:Hq.
  { by intros [= <-]. }
  destruct (vdagent_x11_get_clipboard_atom x (conv_selection r)); [|done].
  intros [= <-] Hinv.
  destruct (emit_parts (XConvertSelection z (conv_target r) z
                          (selection_window x)) x) as (? & ? & ? & ? & ?).
  split_and!; try done. by apply emit_inv.
Qed.

Lemma handle_selection_notify_inv (x : vdagent_x11) (event : XEvent)
    (incr : bool) (env : environment) (x' : vdagent_x11) :
  vdagent_x11_handle_selection_notify x event incr env = Some x' →
  (incr = true → expect_property_notify x = true) →
  x11_inv x →
  x11_inv x' ∧ display_of x' = display_of x ∧ outbound_of x' = outbound_of x
  ∧ catalog_of x' = catalog_of x ∧ screen_of x' = screen_of x.
Proof.
  unfold vdagent_x11_handle_selection_notify. intros H Hi Hinv.
  destruct (conversion_req x) as [|req next] eqn:Hq.
  { by injection H as <-. }
  destruct (vdagent_x11_get_clipboard_atom x (conv_selection req)) as [clip|];
    [|done].
  cbn [mbind option_bind] in H.
  match type of H with
  | match ?c with _ => _ end = _ => destruct c as [len|]
  end.
  2:{ by injection H as <-. }
  destruct (vdagent_x11_target_to_type x (conv_selection req)
              (conv_target req)) as [type|]; [|done].
  cbn [mbind option_bind] in H.
  match type of H with
  | (?c ≫= _) = _ => destruct c as [[[len' data] x1]|] eqn:Hg; [|done]
  end.
  cbn [mbind option_bind] in H.
  assert (x11_inv x1 ∧ display_of x1 = display_of x
          ∧ outbound_of x1 = outbound_of x ∧ catalog_of x1 = catalog_of x
          ∧ screen_of x1 = screen_of x) as (Hinv1 & Hd1 & Ho1 & Hc1 & Hs1).
  { destruct (len =? 0).
    - split; [by eapply get_selection_inv|].
      apply get_selection_frame in Hg. tauto.
    - by injection Hg as <- <- <-. }
  destruct (len' =? 0). { by injection H as <-. }
  match type of H with
  | (let '(_, _) := ?p in _) = _ => destruct p as [type' len'']
  end.
  match type of H with
  | (vdagent_x11_next_conversion_request ?y ≫= _) = _ =>
      assert (x11_inv y ∧ display_of y = display_of x
              ∧ outbound_of y = outbound_of x ∧ catalog_of y = catalog_of x
              ∧ screen_of y = screen_of x) as (Hinv2 & Hd2 & Ho2 & Hc2 & Hs2);
      [|destruct (vdagent_x11_next_conversion_request y) as [x2|] eqn:Hn;
        [|done]]
  end.
  { match goal with
    | |- x11_inv (vdagent_x11_get_selection_free ?y _) ∧ _ =>
        destruct (get_selection_free_parts y incr)
          as (Hd & Ho & Hc & Hs & _);
        destruct (emit_parts (udscs_write VDAGENTD_CLIPBOARD_DATA
                                (conv_selection req) type'
                                (data_payload data len'')) x1)
          as (Hd' & Ho' & _ & Hc' & Hs')
    end.
    cbn zeta in *.
    split; [by apply get_selection_free_inv, emit_inv|].
    rewrite Hd, Ho, Hc, Hs, Hd', Ho', Hc', Hs'. done. }
  cbn [mbind option_bind] in H.
  apply next_conversion_request_inv in Hn as (Hinv3 & Hd3 & Ho3 & Hc3 & Hs3);
    [|done].
  apply handle_conversion_request_inv in H as (? & Hd4 & Ho4 & _ & Hc4 & Hs4);
    [|done].
  split; [done|]. rewrite Hd4, Ho4, Hc4, Hs4, Hd3, Ho3, Hc3, Hs3. done.
Qed.

Lemma record_targets_parts (selection : Z) (atoms : list Atom) (len : Z) :
  ∀ formats x,
    let x' := record_targets selection formats atoms len x in
    display_of x' = display_of x ∧ outbound_of x' = outbound_of x
    ∧ inbound_of x' = inbound_of x ∧ screen_of x' = screen_of x
    ∧ expected_targets_notifies x' = expected_targets_notifies x
    ∧ clipboard_owner x' = clipboard_owner x
    ∧ out x' = out x
    ∧ (∀ s, s ≠ selection →
         clipboard_type_count_at x' s = clipboard_type_count_at x s)
    ∧ (0 <= clipboard_type_count_at x selection < MAX_TYPES →
       0 <= clipboard_type_count_at x' selection <= MAX_TYPES).
Proof.
  induction formats as [|f formats IH]; intros x; cbn zeta.
  { cbn [record_targets]. split_and!; try done. lia. }
  cbn [record_targets].
  destruct (negb _); [|apply IH].
  match goal with
  | |- context [if ?c =? MAX_TYPES then ?y else _] =>
      assert (display_of y = display_of x ∧ outbound_of y = outbound_of x
              ∧ inbound_of y = inbound_of x ∧ screen_of y = screen_of x
              ∧ expected_targets_notifies y = expected_targets_notifies x
              ∧ clipboard_owner y = clipboard_owner x
              ∧ out y = out x
              ∧ (∀ s, s ≠ selection →
                   clipboard_type_count_at y s = clipboard_type_count_at x s)
              ∧ clipboard_type_count_at y selection
                = clipboard_type_count_at x selection + 1)
        as (Hd & Ho & Hi & Hs & He & Hw & Hout & Hother & Hc);
      [|destruct (Z.eqb_spec c MAX_TYPES) as [Hfull|Hfull];
        [|specialize (IH y); cbn zeta in IH;
          destruct IH as (Hd' & Ho' & Hi' & Hs' & He' & Hw' & Hout' & Hother'
                          & Hc')]]
  end.
  - unfold clipboard_type_count_at. split_and!; try (by x11_simpl).
    + intros s Hs. x11_simpl. by rewrite lookup_insert_ne.
    + x11_simpl. by rewrite lookup_insert_eq.
  - split_and!; try done. rewrite Hc. lia.
  - rewrite Hd', Ho', Hi', Hs', He', Hw', Hout'. split_and!; try done.
    + intros s Hs0. rewrite Hother' by done. by apply Hother.
    + intros Hr. apply Hc'. rewrite Hc. lia.
Qed.

Lemma handle_targets_notify_inv (x : vdagent_x11) (event : XEvent)
    (env : environment) (x' : vdagent_x11) :
  vdagent_x11_handle_targets_notify x event env = Some x' →
  x11_inv x →
  x11_inv x' ∧ display_of x' = display_of x ∧ screen_of x' = screen_of x.
Proof.
  unfold vdagent_x11_handle_targets_notify. intros H Hinv.
  destruct (vdagent_x11_get_clipboard_selection x event) as [selection|];
    [|by injection H as <-].
  destruct (Z.eqb_spec (expected_targets_notifies_at x selection) 0)
    as [Hz|Hz]; [by injection H as <-|].
  match type of H with
  | context [negb (expected_targets_notifies_at ?y _ =? 0)] =>
      assert (x11_inv y ∧ display_of y = display_of x
              ∧ screen_of y = screen_of x) as (Hinv1 & Hd1 & Hs1);
      [|destruct (negb (expected_targets_notifies_at y selection =? 0));
        [by injection H as <-|]]
  end.
  { split; [|by x11_simpl].
    destruct Hinv as [H1 H2 H3 H4 H5 H6].
    split; try (by x11_simpl).
    intros s. pose proof (H6 s). pose proof (H6 selection).
    unfold expected_targets_notifies_at in *. x11_simpl.
    destruct (decide (s = selection)) as [->|Hne].
    - rewrite lookup_insert_eq. cbn. lia.
    - by rewrite lookup_insert_ne. }
  match type of H with
  | (?c ≫= _) = _ => destruct c as [[[len atoms] x2]|] eqn:Hg; [|done]
  end.
  cbn [mbind option_bind] in H.
  pose proof (get_selection_inv _ _ _ _ _ _ _ _ _ _ _ Hg ltac:(done) Hinv1)
    as Hinv2.
  apply get_selection_frame in Hg as (Hd2 & _ & _ & Hs2 & _).
  destruct ((len =? 0) || (len =? -1)).
  { injection H as <-. by rewrite Hd2, Hs2. }
  match type of H with
  | context [record_targets selection ?fs atoms ?l ?y] =>
      pose proof (record_targets_parts selection atoms l fs y) as Hr;
      assert (x11_inv y ∧ display_of y = display_of x2
              ∧ screen_of y = screen_of x2
              ∧ clipboard_type_count_at y selection = 0)
        as (Hinv3 & Hd3 & Hs3 & Hc3);
      [|set (x4 := record_targets selection fs atoms l y) in *]
  end.
  { split_and!; try (by x11_simpl).
    - destruct Hinv2 as [H1 H2 H3 H4 H5 H6].
      split; try (by x11_simpl).
      intros s. pose proof (H5 s).
      unfold clipboard_type_count_at in *. x11_simpl.
      destruct (decide (s = selection)) as [->|Hne].
      + rewrite lookup_insert_eq. cbn. unfold MAX_TYPES. lia.
      + by rewrite lookup_insert_ne.
    - unfold clipboard_type_count_at. x11_simpl.
      by rewrite lookup_insert_eq. }
  cbn zeta in Hr.
  destruct Hr as (Hd4 & Ho4 & Hi4 & Hs4 & He4 & Hw4 & _ & Hother & Hc4).
  assert (x11_inv x4) as Hinv4.
  { destruct Hinv3 as [H1 H2 H3 H4 H5 H6].
    unfold outbound_of, inbound_of in *.
    injection Ho4 as Ho41 Ho42 _ _ _. injection Hi4 as Hi41 Hi42 _ Hi43 _.
    split; rewrite ?Ho41, ?Ho42, ?Hi41, ?Hi42, ?Hi43; try done.
    - intros s. destruct (decide (s = selection)) as [->|Hne].
      + apply Hc4. rewrite Hc3. unfold MAX_TYPES. lia.
      + rewrite Hother by done. apply H5.
    - intros s. unfold expected_targets_notifies_at in *. rewrite He4.
      apply H6. }
  destruct (negb (clipboard_type_count_at x4 selection =? 0)).
  - injection H as <-.
    match goal with
    | |- context [vdagent_x11_set_clipboard_owner ?y _ _] =>
        pose proof (set_clipboard_owner_parts y selection owner_guest)
          as (Hd5 & Hs5 & _)
    end.
    cbn zeta in *. split; [by apply set_clipboard_owner_inv, emit_inv|].
    rewrite Hd5, Hs5.
    match goal with
    | |- context [emit ?a x4] =>
        destruct (emit_parts a x4) as (-> & _ & _ & _ & ->)
    end.
    by rewrite Hd4, Hs4, Hd3, Hs3, Hd2, Hs2.
  - injection H as <-. by rewrite Hd4, Hs4, Hd3, Hs3, Hd2, Hs2.
Qed.

Lemma next_selection_request_drain_inv (x x1 x' : vdagent_x11) :
  x11_inv x → selection_req_data x = None →
  vdagent_x11_next_selection_request x = Some x1 →
  vdagent_x11_handle_selection_request x1 = Some x' →
  x11_inv x' ∧ selection_req_data x' = None
  ∧ display_of x' = display_of x ∧ inbound_of x' = inbound_of x
  ∧ catalog_of x' = catalog_of x ∧ screen_of x' = screen_of x.
Proof.
  intros Hinv Hd Hn H. unfold vdagent_x11_next_selection_request in Hn.
  destruct (selection_req x) as [|r next] eqn:Hq; [done|].
  injection Hn as <-.
  apply handle_selection_request_from_inv in H
    as (? & ? & Hd' & Hi' & Hc' & Hs').
  - rewrite Hd', Hi', Hc', Hs'. split_and!; try done; by x11_simpl.
  - destruct Hinv as [H1 H2 H3 H4 H5 H6].
    rewrite Hq in H1. apply Forall_cons in H1 as [_ H1].
    split; by x11_simpl.
  - revert Hd. clear. by x11_simpl.
Qed.

Lemma send_selection_notify_inv (x : vdagent_x11) (prop : Atom)
    (x' : vdagent_x11) :
  x11_inv x → selection_req_data x = None →
  vdagent_x11_send_selection_notify x prop None = Some x' →
  x11_inv x' ∧ selection_req_data x' = None
  ∧ display_of x' = display_of x ∧ inbound_of x' = inbound_of x
  ∧ catalog_of x' = catalog_of x ∧ screen_of x' = screen_of x.
Proof.
  intros Hinv Hd H. unfold vdagent_x11_send_selection_notify in H.
  destruct (selection_req x) as [|head next] eqn:Hq; [done|].
  match type of H with
  | (vdagent_x11_next_selection_request ?y ≫= _) = _ =>
      destruct (vdagent_x11_next_selection_request y) as [x1|] eqn:Hn;
        [|done];
      cbn [mbind option_bind] in H;
      apply (next_selection_request_drain_inv y) in H
        as (? & ? & Hd' & Hi' & Hc' & Hs'); [| | |done]
  end.
  - rewrite Hd', Hi', Hc', Hs'. split_and!; try done; by x11_simpl.
  - by apply emit_inv.
  - revert Hd. clear. by x11_simpl.
Qed.

Lemma handle_property_delete_notify_inv (x : vdagent_x11) (event : XEvent)
    (x' : vdagent_x11) :
  vdagent_x11_handle_property_delete_notify x event = Some x' →
  x11_inv x →
  x11_inv x' ∧ display_of x' = display_of x ∧ inbound_of x' = inbound_of x
  ∧ catalog_of x' = catalog_of x ∧ screen_of x' = screen_of x.
Proof.
  unfold vdagent_x11_handle_property_delete_notify. intros H Hinv.
  destruct (selection_req x) as [|req next] eqn:Hq; [done|].
  destruct event; try done.
  destruct (_ || _); [by injection H as <-|].
  match type of H with
  | (if ?len =? 0 then _ else _) = _ => destruct (len =? 0)
  end.
  - match type of H with
    | (vdagent_x11_next_selection_request ?y ≫= _) = _ =>
        destruct (vdagent_x11_next_selection_request y) as [x1|] eqn:Hn;
          [|done];
        cbn [mbind option_bind] in H;
        apply (next_selection_request_drain_inv y) in H
          as (? & ? & Hd' & Hi' & Hc' & Hs'); [| | |done]
    end.
    + rewrite Hd', Hi', Hc', Hs'. split_and!; try done; by x11_simpl.
    + destruct Hinv as [H1 H2 H3 H4 H5 H6].
      split; try (by x11_simpl);
        intros _; clear -Hq; x11_simpl; by subst.
    + clear. by x11_simpl.
  - injection H as <-. split_and!; try (by x11_simpl).
    destruct Hinv as [H1 H2 H3 H4 H5 H6].
    split; try (by x11_simpl);
      intros _; clear -Hq; x11_simpl; by subst.
Qed.

Lemma handle_event_inv (x : vdagent_x11) (event : XEvent)
    (env : environment) (x' : vdagent_x11) :
  vdagent_x11_handle_event x event env = Some x' →
  x11_inv x → x11_inv x' ∧ display_of x' = display_of x.
Proof.
  unfold vdagent_x11_handle_event. intros H Hinv.
  destruct event as [subtype w a|window w h| |e|window atom state| |e|].
  - destruct (vdagent_x11_get_clipboard_selection x _) as [selection|];
      [|by injection H as <-].
    match type of H with
    | match ?c with _ => _ end = _ => destruct c as [w'|]
    end; [|by injection H as <-].
    destruct (w' =? selection_window x); [by injection H as <-|].
    pose proof (set_clipboard_owner_inv x selection owner_none Hinv) as Hinv1.
    pose proof (set_clipboard_owner_parts x selection owner_none)
      as (Hd1 & _).
    cbn zeta in Hd1.
    remember (vdagent_x11_set_clipboard_owner x selection owner_none)
      as x1 eqn:Hx1.
    clear Hx1.
    destruct (w' =? XNone); [by injection H as <-|].
    match type of H with
    | (if ?n =? INT_MAX then _ else _) = _ =>
        destruct (Z.eqb_spec n INT_MAX) as [Hmax|Hmax]; [done|]
    end.
    injection H as <-. split; [|rewrite <- Hd1; by x11_simpl].
    match goal with
    | |- context [emit ?a x1] => pose proof (emit_inv a x1 Hinv1) as Hinv2
    end.
    destruct Hinv2 as [H1 H2 H3 H4 H5 H6]. clear Hinv Hinv1 Hd1.
    split; try (by x11_simpl).
    intros s. pose proof (H6 s). pose proof (H6 selection).
    unfold expected_targets_notifies_at in *. revert Hmax. x11_simpl.
    intros Hmax.
    destruct (decide (s = selection)) as [->|Hne].
    + rewrite lookup_insert_eq. cbn. lia.
    + by rewrite lookup_insert_ne.
  - destruct (negb _); [by injection H as <-|].
    destruct (_ && _); injection H as <-; [done|].
    split; [|by x11_simpl].
    destruct Hinv as [H1 H2 H3 H4 H5 H6].
    unfold vdagent_x11_send_daemon_guest_xorg_res.
    split; by x11_simpl.
  - by injection H as <-.
  - destruct (xselection_target e =? targets_atom x).
    + apply handle_targets_notify_inv in H as (? & ? & _); done.
    + apply handle_selection_notify_inv in H as (? & ? & _); done.
  - match type of H with
    | (?c ≫= _) = _ => destruct c as [x1|] eqn:H1; [|done]
    end.
    cbn [mbind option_bind] in H.
    assert (x11_inv x1 ∧ display_of x1 = display_of x) as (Hinv1 & Hd1).
    { destruct (expect_property_notify x) eqn:He; cbn [andb] in H1.
      - destruct (bool_decide (state = PropertyNewValue)).
        + apply handle_selection_notify_inv in H1 as (? & ? & _); done.
        + by injection H1 as <-.
      - by injection H1 as <-. }
    destruct (bool_decide (is_Some (selection_req_data x1)) && _).
    + apply handle_property_delete_notify_inv in H; [|done].
      destruct H as (? & -> & _). done.
    + by injection H as <-.
  - by injection H as <-.
  - destruct (vdagent_x11_get_clipboard_selection x _) as [selection|] eqn:Hs;
      [|by injection H as <-].
    apply get_clipboard_selection_supported in Hs.
    destruct (negb (env_alloc_ok env)); [by injection H as <-|].
    destruct Hinv as [H1 H2 H3 H4 H5 H6].
    destruct (selection_req x) as [|r q] eqn:Hq.
    + apply handle_selection_request_from_inv in H.
      * destruct H as (? & _ & -> & _). split; [done|by x11_simpl].
      * split; try (by x11_simpl).
        x11_simpl. apply Forall_cons_2; [exact Hs|apply Forall_nil_2].
      * destruct (selection_req_data x) eqn:Hd; [|clear -Hd; by x11_simpl].
        exfalso. by apply H3.
    + injection H as <-. split; [|by x11_simpl].
      split; try (by x11_simpl).
      x11_simpl. subst. apply (Forall_app_2 _ (r :: q) [_]); [done|].
      apply Forall_cons_2; [exact Hs|apply Forall_nil_2].
  - by injection H as <-.
Qed.

Lemma do_read_inv :
  ∀ pending x x',
    vdagent_x11_do_read x pending = Some x' →
    x11_inv x → x11_inv x' ∧ display_of x' = display_of x.
Proof.
  induction pending as [|[event env] pending IH]; intros x x' H Hinv.
  - by injection H as <-.
  - cbn [vdagent_x11_do_read] in H.
    destruct (vdagent_x11_handle_event x event env) as [x1|] eqn:H1; [|done].
    cbn [mbind option_bind] in H.
    apply handle_event_inv in H1 as (Hinv1 & Hd1); [|done].
    apply IH in H as (? & ->); done.
Qed.

(** ** What each entry point keeps *)

Lemma clipboard_request_inv (x : vdagent_x11) (selection type : Z)
    (alloc_ok : bool) (pending : list (XEvent * environment))
    (x' : vdagent_x11) :
  vdagent_x11_clipboard_request x selection type alloc_ok pending = Some x' →
  x11_inv x → x11_inv x' ∧ display_of x' = display_of x.
Proof.
  unfold vdagent_x11_clipboard_request. intros H Hinv.
  assert (∀ a, x11_inv (emit a x) ∧ display_of (emit a x) = display_of x)
    as Hnone.
  { intros a. split; [by apply emit_inv|by x11_simpl]. }
  destruct (vdagent_x11_get_clipboard_atom x selection) as [clip|] eqn:Hclip;
    [|injection H as <-; apply Hnone].
  assert (supported selection) as Hsup
    by (apply (supported_get_clipboard_atom x); by eexists).
  destruct (negb _); [injection H as <-; apply Hnone|].
  destruct (_ =? XNone); [injection H as <-; apply Hnone|].
  destruct (negb alloc_ok); [by injection H as <-|].
  destruct Hinv as [H1 H2 H3 H4 H5 H6].
  destruct (conversion_req x) as [|r q] eqn:Hq.
  - match type of H with
    | (vdagent_x11_handle_conversion_request ?y ≫= _) = _ =>
        destruct (vdagent_x11_handle_conversion_request y) as [x1|] eqn:Hc;
          [|done];
        cbn [mbind option_bind] in H;
        apply handle_conversion_request_inv in Hc as (Hinv1 & Hd1 & _)
    end.
    + apply do_read_inv in H as (? & ->); [|done]. split; [done|].
      rewrite Hd1. by x11_simpl.
    + split; try (by x11_simpl).
      x11_simpl. apply Forall_cons_2; [exact Hsup|apply Forall_nil_2].
  - injection H as <-. split; [|by x11_simpl].
    split; try (by x11_simpl).
    x11_simpl. subst. apply (Forall_app_2 _ (r :: q) [_]); [done|].
    apply Forall_cons_2; [exact Hsup|apply Forall_nil_2].
Qed.

Lemma clipboard_grab_inv (x : vdagent_x11) (selection : Z) (types : list Z)
    (type_count : Z) (pending : list (XEvent * environment))
    (x' : vdagent_x11) :
  0 <= type_count < UINT32_MOD →
  vdagent_x11_clipboard_grab x selection types type_count pending = Some x' →
  x11_inv x → x11_inv x' ∧ display_of x' = display_of x.
Proof.
  unfold vdagent_x11_clipboard_grab. intros Hc H Hinv.
  destruct (vdagent_x11_get_clipboard_atom x selection) as [clip|];
    [|by injection H as <-].
  destruct (_ <? _) eqn:Hlen in H; [done|].
  apply do_read_inv in H as (? & ->).
  - split; [done|].
    match goal with
    | |- context [vdagent_x11_set_clipboard_owner ?y _ _] =>
        destruct (set_clipboard_owner_parts y selection owner_client)
          as (-> & _)
    end.
    by x11_simpl.
  - apply set_clipboard_owner_inv, emit_inv.
    destruct Hinv as [H1 H2 H3 H4 H5 H6].
    split; try (by x11_simpl).
    intros s. pose proof (H5 s) as Hs5.
    unfold clipboard_type_count_at in *. revert Hc Hs5. clear. x11_simpl.
    intros Hc Hs5.
    destruct (decide (s = selection)) as [->|Hne].
    + rewrite lookup_insert_eq. cbn. unfold MAX_TYPES.
      destruct (Z.ltb_spec 256 type_count); lia.
    + by rewrite lookup_insert_ne.
Qed.

Lemma clipboard_data_inv (x : vdagent_x11) (selection type : Z)
    (data : list Z) (size : Z) (pending : list (XEvent * environment))
    (x' : vdagent_x11) :
  vdagent_x11_clipboard_data x selection type data size pending = Some x' →
  x11_inv x → x11_inv x' ∧ display_of x' = display_of x.
Proof.
  unfold vdagent_x11_clipboard_data. intros H Hinv.
  destruct (bool_decide (is_Some (selection_req_data x))) eqn:Hd;
    [by injection H as <-|].
  apply bool_decide_eq_false in Hd.
  assert (selection_req_data x = None) as Hnone.
  { destruct (selection_req_data x); [|done]. exfalso. apply Hd. by eexists. }
  destruct (selection_req x) as [|req next] eqn:Hq; [by injection H as <-|].
  destruct (vdagent_x11_target_to_type x _ _) as [type_from_event|]; [|done].
  cbn [mbind option_bind] in H.
  destruct (_ || _).
  - match type of H with
    | (?c ≫= _) = _ => destruct c as [x1|] eqn:Hs; [|done]
    end.
    cbn [mbind option_bind] in H.
    apply send_selection_notify_inv in Hs as (? & _ & Hd1 & _); [|done..].
    apply do_read_inv in H as (? & ->); done.
  - destruct (_ <? _).
    + cbn [vdagent_x11_send_selection_notify mbind option_bind] in H.
      apply do_read_inv in H as (? & ->).
      * split; [done|by x11_simpl].
      * apply emit_inv, emit_inv, emit_inv.
        destruct Hinv as [H1 H2 H3 H4 H5 H6].
        split; try (by x11_simpl);
          intros _; clear -Hq; x11_simpl; by subst.
    + match type of H with
      | (?c ≫= _) = _ => destruct c as [x1|] eqn:Hs; [|done]
      end.
      cbn [mbind option_bind] in H.
      apply send_selection_notify_inv in Hs as (? & _ & Hd1 & _).
      * apply do_read_inv in H as (? & ->); [|done].
        split; [done|]. rewrite Hd1. by x11_simpl.
      * by apply emit_inv.
      * clear -Hnone. by x11_simpl.
Qed.

Lemma clipboard_release_inv (x : vdagent_x11) (selection : Z)
    (xfixes_events pending : list (XEvent * environment))
    (x' : vdagent_x11) :
  vdagent_x11_clipboard_release x selection xfixes_events pending = Some x' →
  x11_inv x → x11_inv x' ∧ display_of x' = display_of x.
Proof.
  unfold vdagent_x11_clipboard_release. intros H Hinv.
  destruct (vdagent_x11_get_clipboard_atom x selection) as [clip|];
    [|by injection H as <-].
  destruct (negb _); [by injection H as <-|].
  match type of H with
  | (?c ≫= _) = _ => destruct c as [x1|] eqn:Hs; [|done]
  end.
  cbn [mbind option_bind] in H.
  apply do_read_inv in Hs as (? & Hd1); [|by apply emit_inv, emit_inv].
  apply do_read_inv in H as (? & ->); [|done].
  split; [done|]. rewrite Hd1. by x11_simpl.
Qed.

Lemma set_monitor_config_inv (x : vdagent_x11) (has_xrandr : bool)
    (monitors : list VDAgentMonConfig) (sizes : list XRRScreenSize)
    (config_ok : bool) (pending : list (XEvent * environment))
    (best : option Z) (x' : vdagent_x11) :
  vdagent_x11_set_monitor_config x has_xrandr monitors sizes config_ok
                                 pending = Some (best, x') →
  x11_inv x → x11_inv x' ∧ display_of x' = display_of x.
Proof.
  unfold vdagent_x11_set_monitor_config. intros H Hinv.
  destruct (negb has_xrandr); [by injection H as <- <-|].
  destruct sizes as [|size0 sizes]; [by injection H as <- <-|].
  destruct (monitors !! 0%nat) as [mon|]; [|done].
  cbn [mbind option_bind] in H.
  destruct (_ =? -1); [by injection H as <- <-|].
  destruct (negb config_ok); [by injection H as <- <-|].
  destruct (_ !! Z.to_nat _) as [size|]; [|done].
  cbn [mbind option_bind] in H.
  match type of H with
  | (?c ≫= _) = _ => destruct c as [x1|] eqn:Hs; [|done]
  end.
  cbn [mbind option_bind] in H. injection H as <- <-.
  apply do_read_inv in Hs as (? & ->).
  - split; [done|]. unfold vdagent_x11_send_daemon_guest_xorg_res.
    by x11_simpl.
  - destruct Hinv as [H1 H2 H3 H4 H5 H6].
    unfold vdagent_x11_send_daemon_guest_xorg_res.
    split; by x11_simpl.
Qed.

Lemma create_inv (XInternAtom : string → Atom) (root selection : Window)
    (extended_max max w h : Z) (pending : list (XEvent * environment))
    (x : vdagent_x11) :
  vdagent_x11_create XInternAtom root selection extended_max max w h pending
    = Some x →
  x11_inv x.
Proof.
  unfold vdagent_x11_create. intros H.
  apply do_read_inv in H as (? & _); [done|].
  unfold vdagent_x11_send_daemon_guest_xorg_res.
  split; x11_simpl; try done; try apply Forall_nil_2;
    try (by intros [? ?]);
    intros s;
    unfold clipboard_type_count_at, expected_targets_notifies_at,
      MAX_TYPES, INT_MAX;
    cbn; rewrite lookup_empty; cbn; lia.
Qed.

Lemma step_inv (x x' : vdagent_x11) :
  step x x' → x11_inv x → x11_inv x' ∧ display_of x' = display_of x.
Proof.
  intros [pending y H|selection type alloc_ok pending y H
          |selection types type_count pending y Hc H
          |selection type data size pending y H
          |selection xfixes_events pending y H
          |has_xrandr monitors sizes config_ok pending best y H] Hinv.
  - by eapply do_read_inv.
  - by eapply clipboard_request_inv.
  - by eapply clipboard_grab_inv.
  - by eapply clipboard_data_inv.
  - by eapply clipboard_release_inv.
  - by eapply set_monitor_config_inv.
Qed.

Lemma reachable_inv (x : vdagent_x11) : reachable x → x11_inv x.
Proof.
  induction 1 as [? ? ? ? ? ? ? ? x H|x x' _ IH Hstep].
  - by eapply create_inv.
  - by apply (step_inv x x').
Qed.

(** ** The states the bridge reaches *)

(** X1. In every state the bridge reaches, the two queues hold requests
    of CLIPBOARD and PRIMARY only. [vdagent_x11_handle_conversion_request]
    ignores the result of [vdagent_x11_get_clipboard_atom]; with such a
    queue the atom it passes to [XConvertSelection] has been set. *)
Theorem reachable_queues_supported (x : vdagent_x11) :
  reachable x →
  Forall (λ r, supported (sel_selection r)) (selection_req x)
  ∧ Forall (λ r, supported (conv_selection r)) (conversion_req x)
  ∧ is_Some (vdagent_x11_handle_conversion_request x).
Proof.
  intros [H1 H2 _ _ _ _]%reachable_inv. split_and!; try done.
  unfold vdagent_x11_handle_conversion_request.
  destruct (conversion_req x) as [|r q]; [by eexists|].
  apply Forall_cons in H2 as [[c Hc]%(supported_get_clipboard_atom x) _].
  rewrite Hc. by eexists.
Qed.

(** X2. In every state the bridge reaches, an INCR send buffer belongs
    to a queued request: [vdagent_x11_handle_event] calls
    [vdagent_x11_handle_property_delete_notify] only with a buffer, so the
    function's [assert (x11->selection_req)] holds. *)
Theorem reachable_incr_buffer_has_request (x : vdagent_x11) :
  reachable x → is_Some (selection_req_data x) → selection_req x ≠ [].
Proof. intros [_ _ H3 _ _ _]%reachable_inv. exact H3. Qed.

(** X3. In every state the bridge reaches, the number of types recorded
    for a selection is between 0 and 256, the length of a row of
    [clipboard_agent_types] and of [clipboard_x11_targets], and the number
    of expected TARGETS replies is not negative. *)
Theorem reachable_counts_in_range (x : vdagent_x11) (selection : Z) :
  reachable x →
  0 <= clipboard_type_count_at x selection <= MAX_TYPES
  ∧ 0 <= expected_targets_notifies_at x selection <= INT_MAX.
Proof. intros [_ _ _ _ H5 H6]%reachable_inv. split; [apply H5|apply H6]. Qed.

(** X4. In every state the bridge reaches, bytes are counted as
    received only while an INCR property is being read: between two
    transfers [clipboard_data_size] is 0, which is what the first chunk of
    the next transfer is appended at. *)
Theorem reachable_received_size_reset (x : vdagent_x11) :
  reachable x → expect_property_notify x = false → clipboard_data_size x = 0.
Proof. intros [_ _ _ H4 _ _]%reachable_inv. exact H4. Qed.

(** X5. No entry point changes what [vdagent_x11_create] has set up:
    the catalog of formats, the five atoms, the two windows and
    [max_prop_size]. *)
Theorem step_keeps_display (x x' : vdagent_x11) :
  reachable x → step x x' → display_of x' = display_of x.
Proof.
  intros Hinv%reachable_inv Hstep. by apply (step_inv x x').
Qed.

(** ** Serving the queue of selection requests *)

Lemma answered_at_once_ext (x x' : vdagent_x11) r :
  display_of x' = display_of x → clipboard_owner x' = clipboard_owner x →
  answered_at_once x r → answered_at_once x' r.
Proof.
  unfold display_of, answered_at_once, clipboard_owner_at.
  intros [= _ _ _ -> _ -> _ _ _] ->. done.
Qed.

(** The requests answered at once, one after the other. *)
Lemma handle_selection_request_from_answers :
  ∀ done x rest,
    selection_req x = done ++ rest →
    Forall (answered_at_once x) done →
    ∃ calls,
      handle_selection_request_from (done ++ rest) x
        = handle_selection_request_from rest
            (set_out (out x ++ calls) (set_selection_req rest x))
      ∧ sent_events calls = answer_of x <$> done
      ∧ daemon_messages calls = [].
Proof.
  induction done as [|req done IH]; intros x rest Hq Hall.
  - exists []. cbn [app] in *.
    by rewrite <- Hq, set_selection_req_same, app_nil_r, set_out_same.
  - apply Forall_cons in Hall as [Hreq Hall].
    assert (∀ prop pre,
              sent_events pre = [] → daemon_messages pre = [] →
              prop = answered_property x req →
              ∃ calls,
                handle_selection_request_from (done ++ rest)
                  (set_selection_req (done ++ rest)
                     (send_selection_notify_to prop req
                        (set_out (out x ++ pre) x)))
                = handle_selection_request_from rest
                    (set_out (out x ++ calls) (set_selection_req rest x))
                ∧ sent_events calls = answer_of x <$> (req :: done)
                ∧ daemon_messages calls = []) as Hreply.
    { intros prop pre Hs Hm Hprop.
      destruct (IH (set_selection_req (done ++ rest)
                      (send_selection_notify_to prop req
                         (set_out (out x ++ pre) x))) rest)
        as (calls & Hrun & Hans & Hmsg).
      - clear. by x11_simpl.
      - eapply Forall_impl; [exact Hall|]. intros r Hr.
        revert Hr. apply answered_at_once_ext; clear; by x11_simpl.
      - exists (pre ++ XSendEvent (xselectionrequest_requestor (sel_event req))
                         (selection_notify prop (sel_event req)) :: calls).
        split_and!.
        + rewrite Hrun. f_equal. clear. x11_simpl. f_equal.
          by rewrite <- !app_assoc.
        + unfold sent_events in *. rewrite omap_app, Hs. cbn.
          rewrite Hans.
          apply (f_equal2 cons); [unfold answer_of; by rewrite <- Hprop|].
          apply list_fmap_ext. intros _ r _.
          apply answer_of_ext; clear; by x11_simpl.
        + unfold daemon_messages in *. rewrite List.filter_app, Hm. cbn.
          exact Hmsg. }
    cbn [app handle_selection_request_from].
    destruct (bool_decide (clipboard_owner_at x (sel_selection req)
                           = owner_client)) eqn:Hown; cbn [negb].
    2:{ apply bool_decide_eq_false in Hown.
        destruct (Hreply XNone []) as (calls & Hrun & Hrest); [done|done| |].
        - unfold answered_property.
          by rewrite bool_decide_eq_false_2 by done.
        - exists calls. split; [|done]. rewrite <- Hrun.
          by rewrite app_nil_r, set_out_same. }
    apply bool_decide_eq_true in Hown.
    destruct (Z.eqb_spec (xselectionrequest_target (sel_event req))
                         (multiple_atom x)) as [Hmul|Hmul].
    { destruct (Hreply XNone []) as (calls & Hrun & Hrest); [done|done| |].
      - unfold answered_property. rewrite Hmul, Z.eqb_refl.
        by rewrite andb_false_r.
      - exists calls. split; [|done]. rewrite <- Hrun.
        by rewrite app_nil_r, set_out_same. }
    destruct (Z.eqb_spec (xselectionrequest_target (sel_event req))
                         (targets_atom x)) as [Htar|Htar].
    2:{ by destruct Hreq as [?|[?|?]]. }
    match goal with
    | |- context [send_targets_property x ?s ?e] =>
        remember (send_targets_property x s e) as y eqn:Hy
    end.
    unfold send_targets_property in Hy. cbv zeta in Hy.
    match type of Hy with
    | y = emit ?a x =>
        destruct (Hreply (reply_property (sel_event req)) [a])
          as (calls & Hrun & Hrest); [done|done| |]
    end.
    + unfold answered_property.
      rewrite bool_decide_eq_true_2 by done.
      destruct (Z.eqb_spec (xselectionrequest_target (sel_event req))
                           (multiple_atom x)); [done|].
      by rewrite Htar, Z.eqb_refl.
    + exists calls. split; [|done]. rewrite <- Hrun. subst y.
      do 3 f_equal; clear; by x11_simpl.
Qed.

(** X6. [vdagent_x11_handle_selection_request] works through the queue
    in order. The leading requests that are answered at once - the client
    does not own the selection, or the target is MULTIPLE or TARGETS - get
    exactly one SelectionNotify each, sent to the requestor and repeating
    the requestor, the selection, the target and the time of the request:
    its property is None for a refusal and the reply property for TARGETS
    ([answer_of]); these requests leave the queue. When no request is
    left, nothing is posted to the daemon. A request that needs data of the
    client, its target being classified as a type, stays at the head: one
    CLIPBOARD_REQUEST with its selection and type is posted and the
    requests behind it are not looked at. Nothing else of the state
    changes. For a request of a selection of the client whose target
    [vdagent_x11_target_to_type] has no result for (it reads past the
    catalog), the function has no result either. *)
Theorem handle_selection_request_drains (x : vdagent_x11)
    (done rest : list vdagent_x11_selection_request) :
  selection_req x = done ++ rest →
  Forall (answered_at_once x) done →
  (rest = [] →
     ∃ calls,
       vdagent_x11_handle_selection_request x
         = Some (set_out (out x ++ calls) (set_selection_req [] x))
       ∧ sent_events calls = answer_of x <$> done
       ∧ daemon_messages calls = [])
  ∧ (∀ r type,
       head rest = Some r → needs_data x r type →
       ∃ calls,
         vdagent_x11_handle_selection_request x
           = Some (set_out (out x ++ calls) (set_selection_req rest x))
         ∧ sent_events calls = answer_of x <$> done
         ∧ daemon_messages calls =
             [udscs_write VDAGENTD_CLIPBOARD_REQUEST (sel_selection r) type
                          NoData])
  ∧ (∀ r,
       head rest = Some r → ¬ answered_at_once x r →
       vdagent_x11_target_to_type x (sel_selection r)
         (xselectionrequest_target (sel_event r)) = None →
       vdagent_x11_handle_selection_request x = None).
Proof.
  intros Hq Hall.
  destruct (handle_selection_request_from_answers done x rest Hq Hall)
    as (calls & Hrun & Hans & Hmsg).
  unfold vdagent_x11_handle_selection_request. rewrite Hq, Hrun.
  remember (set_out (out x ++ calls) (set_selection_req rest x)) as y eqn:Hy.
  assert (clipboard_owner y = clipboard_owner x
          ∧ multiple_atom y = multiple_atom x
          ∧ targets_atom y = targets_atom x
          ∧ ∀ s t, vdagent_x11_target_to_type y s t
                   = vdagent_x11_target_to_type x s t)
    as (Ho & Hm & Ht & Hc).
  { subst y. clear. unfold vdagent_x11_target_to_type. by x11_simpl. }
  split_and!.
  - intros ->. exists calls. subst y. done.
  - intros r type Hr (Hown & Hmul & Htar & Htype & Hnone).
    destruct rest as [|r' rest']; [done|]. injection Hr as ->.
    exists (calls ++ [udscs_write VDAGENTD_CLIPBOARD_REQUEST (sel_selection r)
                        type NoData]).
    split_and!.
    + cbn [handle_selection_request_from].
      unfold clipboard_owner_at in *. rewrite Ho, Hm, Ht, Hc, Htype.
      rewrite bool_decide_eq_true_2 by done. cbn [negb].
      destruct (Z.eqb_spec (xselectionrequest_target (sel_event r))
                           (multiple_atom x)); [done|].
      destruct (Z.eqb_spec (xselectionrequest_target (sel_event r))
                           (targets_atom x)); [done|].
      cbn [mbind option_bind].
      destruct (Z.eqb_spec type VD_AGENT_CLIPBOARD_NONE); [done|].
      f_equal. subst y. clear. x11_simpl. by rewrite <- app_assoc.
    + unfold sent_events in *. by rewrite omap_app, Hans, app_nil_r.
    + unfold daemon_messages in *. by rewrite List.filter_app, Hmsg.
  - intros r Hr Hnot Htype.
    destruct rest as [|r' rest']; [done|]. injection Hr as ->.
    cbn [handle_selection_request_from].
    unfold answered_at_once, clipboard_owner_at in *.
    rewrite Ho, Hm, Ht, Hc, Htype.
    case_bool_decide as Hown; cbn [negb]; [|tauto].
    destruct (Z.eqb_spec (xselectionrequest_target (sel_event r))
                         (multiple_atom x)); [tauto|].
    destruct (Z.eqb_spec (xselectionrequest_target (sel_event r))
                         (targets_atom x)); [tauto|].
    done.
Qed.

(** ** The reply to a TARGETS request *)

Lemma send_targets_atoms_eq :
  ∀ atoms targets,
    Z.of_nat (length targets) < MAX_TYPES →
    send_targets_atoms atoms targets =
      (take (Z.to_nat MAX_TYPES) (targets ++ atoms),
       negb (Z.of_nat (length (targets ++ atoms)) <? MAX_TYPES)).
Proof.
  induction atoms as [|a atoms IH]; intros targets Hlen.
  - cbn [send_targets_atoms]. rewrite app_nil_r.
    rewrite take_ge by (unfold MAX_TYPES in *; lia).
    destruct (Z.ltb_spec (Z.of_nat (length targets)) MAX_TYPES); [done|lia].
  - cbn [send_targets_atoms].
    replace (targets ++ a :: atoms) with ((targets ++ [a]) ++ atoms)
      by (by rewrite <- app_assoc).
    destruct (Z.eqb_spec (Z.of_nat (length (targets ++ [a]))) MAX_TYPES)
      as [Hfull|Hfull].
    + rewrite take_app_le by (unfold MAX_TYPES in *; lia).
      rewrite take_ge by (unfold MAX_TYPES in *; lia).
      destruct (Z.ltb_spec (Z.of_nat (length ((targets ++ [a]) ++ atoms)))
                           MAX_TYPES) as [Hlt|]; [|done].
      rewrite (length_app (targets ++ [a])) in Hlt. lia.
    + apply IH. rewrite length_app in *. cbn [length] in *. lia.
Qed.

Lemma send_targets_formats_eq (type : Z) :
  ∀ formats targets,
    Z.of_nat (length targets) < MAX_TYPES →
    let all :=
      targets ++ flat_map
                   (λ f, if fmt_type f =? type
                         then take (Z.to_nat (fmt_atom_count f)) (fmt_atoms f)
                         else [])
                   formats in
    send_targets_formats formats type targets =
      (take (Z.to_nat MAX_TYPES) all,
       negb (Z.of_nat (length all) <? MAX_TYPES)).
Proof.
  induction formats as [|f formats IH]; intros targets Hlen; cbn zeta.
  - cbn [send_targets_formats flat_map]. rewrite app_nil_r.
    unfold MAX_TYPES in *. rewrite take_ge by lia.
    destruct (Z.ltb_spec (Z.of_nat (length targets)) 256); [done|lia].
  - cbn [send_targets_formats flat_map].
    destruct (fmt_type f =? type); cbn [negb].
    + rewrite send_targets_atoms_eq by done. rewrite app_assoc.
      set (atoms := take (Z.to_nat (fmt_atom_count f)) (fmt_atoms f)).
      destruct (Z.ltb_spec (Z.of_nat (length (targets ++ atoms))) MAX_TYPES)
        as [Hfit|Hfull]; cbn [negb].
      * rewrite (take_ge (targets ++ atoms))
          by (unfold MAX_TYPES in *; lia).
        by apply IH.
      * rewrite (take_app_le (targets ++ atoms))
          by (unfold MAX_TYPES in *; lia).
        destruct (Z.ltb_spec (Z.of_nat (length ((targets ++ atoms) ++
                    flat_map
                      (λ f, if fmt_type f =? type
                            then take (Z.to_nat (fmt_atom_count f))
                                      (fmt_atoms f)
                            else []) formats))) MAX_TYPES) as [Hlt|]; [|done].
        rewrite (length_app (targets ++ atoms)) in Hlt. lia.
    + cbn [app]. by apply IH.
Qed.

Lemma send_targets_types_eq (formats : list clipboard_format_info) :
  ∀ types targets,
    Z.of_nat (length targets) < MAX_TYPES →
    send_targets_types formats types targets =
      take (Z.to_nat MAX_TYPES) (targets ++ offered_targets formats types).
Proof.
  unfold offered_targets.
  induction types as [|type types IH]; intros targets Hlen.
  - cbn [send_targets_types flat_map]. rewrite app_nil_r.
    unfold MAX_TYPES in *. by rewrite take_ge by lia.
  - cbn [send_targets_types flat_map].
    rewrite send_targets_formats_eq by done. cbn zeta. rewrite app_assoc.
    match goal with
    | |- context [negb (Z.of_nat (length ?l) <? _)] => set (all := l)
    end.
    destruct (Z.ltb_spec (Z.of_nat (length all)) MAX_TYPES)
      as [Hfit|Hfull]; cbn [negb].
    + rewrite (take_ge all) by (unfold MAX_TYPES in *; lia). by apply IH.
    + by rewrite (take_app_le all) by (unfold MAX_TYPES in *; lia).
Qed.


(** ** Requests that arrive while one is being served *)

(** X8. While a selection request is being served, the SelectionRequest
    events that arrive are put behind it in the order of their arrival,
    and nothing is sent: no call is made for them and nothing else of the
    state changes. An event of a selection the bridge does not serve, or
    one for which no queue entry can be allocated, is dropped. *)
Theorem selection_requests_queue_up (x : vdagent_x11)
    (arrivals : list (XSelectionRequestEvent * environment)) :
  selection_req x ≠ [] →
  vdagent_x11_do_read x (selection_requests arrivals) =
    Some (set_selection_req
            (selection_req x ++ omap (accepted_request x) arrivals) x).
Proof.
  revert x. induction arrivals as [|[e env] arrivals IH]; intros x Hq.
  - cbn. by rewrite app_nil_r, set_selection_req_same.
  - cbn [selection_requests fmap list_fmap vdagent_x11_do_read fst snd omap
         list_omap].
    unfold vdagent_x11_handle_event, accepted_request.
    cbn [vdagent_x11_get_clipboard_selection fst snd].
    destruct (selection_of_atom x (xselectionrequest_selection e))
      as [selection|] eqn:Hs; cbn [fmap option_fmap option_map].
    2:{ cbn [mbind option_bind]. rewrite IH by done.
        by destruct (env_alloc_ok env). }
    destruct (env_alloc_ok env); cbn [negb].
    2:{ cbn [mbind option_bind]. by rewrite IH by done. }
    destruct (selection_req x) as [|r q] eqn:Hx; [done|].
    cbn [mbind option_bind].
    fold (selection_requests arrivals).
    rewrite IH.
    2:{ clear. by x11_simpl. }
    f_equal.
    replace (omap (accepted_request (set_selection_req _ x)) arrivals)
      with (omap (accepted_request x) arrivals).
    2:{ apply list_omap_ext, Forall_Forall2_diag, Forall_forall.
        intros arrival _. clear. by x11_simpl. }
    revert Hx. clear. x11_simpl. intros ->. cbn.
    by rewrite <- app_assoc.
Qed.

(** ** Property changes that belong to no transfer *)

(** X9. A PropertyNotify changes the state only as the next step of a
    running INCR transfer: a new value of the selection's property on the
    selection window while a chunk is expected, or the deletion by the
    requestor of the property the pieces are written to. Any other
    PropertyNotify - of another window or another property, or with no
    transfer running - is ignored. *)
Theorem unrelated_property_notify_ignored (x : vdagent_x11)
    (window : Window) (atom : Atom) (state : property_state)
    (env : environment) :
  reachable x →
  ¬ continues_receive x window atom state →
  ¬ continues_send x window atom state →
  vdagent_x11_handle_event x (PropertyNotify window atom state) env = Some x.
Proof.
  intros Hreach Hrecv Hsend.
  destruct (reachable_inv x Hreach) as [_ Hconv Hbuf _ _ _].
  unfold vdagent_x11_handle_event.
  assert ((if expect_property_notify x
              && bool_decide (state = PropertyNewValue)
           then vdagent_x11_handle_selection_notify x
                  (PropertyNotify window atom state) true env
           else Some x) = Some x) as ->.
  { destruct (expect_property_notify x) eqn:He; [|done].
    case_bool_decide as Hst; cbn [andb]; [|done].
    unfold vdagent_x11_handle_selection_notify.
    destruct (conversion_req x) as [|req next] eqn:Hq; [done|].
    apply Forall_cons in Hconv as [[clip Hclip]%(supported_get_clipboard_atom x) _].
    rewrite Hclip. cbn [mbind option_bind].
    destruct (Z.eqb_spec atom clip) as [->|Ha]; [|done].
    destruct (Z.eqb_spec window (selection_window x)) as [->|Hw]; [|done].
    exfalso. apply Hrecv. split_and!; try done. by exists req, next. }
  cbn [mbind option_bind].
  case_bool_decide as Hd; cbn [andb]; [|done].
  case_bool_decide as Hst; [|done].
  unfold vdagent_x11_handle_property_delete_notify.
  destruct (selection_req x) as [|req next] eqn:Hq; [by destruct (Hbuf Hd)|].
  destruct (Z.eqb_spec window (xselectionrequest_requestor (sel_event req)))
    as [->|Hw]; [|done].
  destruct (Z.eqb_spec atom (selection_req_atom x)) as [->|Ha]; [|done].
  exfalso. apply Hsend. split_and!; try done. by exists req, next.
Qed.

(** ** Requests of the client for the guest's data *)

Lemma type_to_target_from_find (x : vdagent_x11) (selection type : Z) :
  ∀ idx,
    type_to_target_from x selection type idx =
      recorded_target
        ((λ i, (clipboard_agent_types_at x selection i,
                clipboard_x11_targets_at x selection i)) <$> idx) type.
Proof.
  unfold recorded_target.
  induction idx as [|i idx IH]; [done|].
  cbn [type_to_target_from fmap list_fmap List.find fst].
  by destruct (clipboard_agent_types_at x selection i =? type).
Qed.

(** X10. [vdagent_x11_type_to_target] looks a type up among the pairs
    recorded for the selection - those a TARGETS reply has left there:
    the atom of the first pair of the type is returned, and None when the
    type has not been recorded. *)
Theorem type_to_target_looks_up (x : vdagent_x11) (selection type : Z)
    (pairs : list (Z * Atom)) :
  clipboard_type_count_at x selection = Z.of_nat (length pairs) →
  (∀ (i : nat) t a, pairs !! i = Some (t, a) →
     clipboard_agent_types_at x selection (Z.of_nat i) = t
     ∧ clipboard_x11_targets_at x selection (Z.of_nat i) = a) →
  vdagent_x11_type_to_target x selection type = recorded_target pairs type
  ∧ (type ∉ pairs.*1 →
       vdagent_x11_type_to_target x selection type = XNone).
Proof.
  intros Hc Hrows. unfold vdagent_x11_type_to_target.
  rewrite type_to_target_from_find, Hc.
  assert ((λ i, (clipboard_agent_types_at x selection i,
                 clipboard_x11_targets_at x selection i))
            <$> indices (Z.of_nat (length pairs)) = pairs) as ->.
  { apply list_eq. intros i. rewrite list_lookup_fmap.
    destruct (pairs !! i) as [[t a]|] eqn:Hi.
    - pose proof (lookup_lt_Some _ _ _ Hi).
      rewrite indices_lookup by lia. cbn.
      by destruct (Hrows i t a Hi) as [-> ->].
    - pose proof (lookup_ge_None_1 _ _ Hi).
      rewrite (lookup_ge_None_2 (indices _)); [done|].
      rewrite indices_length. lia. }
  split; [done|]. intros Hnot. unfold recorded_target.
  destruct (List.find _ pairs) as [[t a]|] eqn:Hf; [|done].
  apply find_some in Hf as [Hin%list_elem_of_In Heq]. cbn in Heq.
  apply Z.eqb_eq in Heq as ->. exfalso. apply Hnot.
  apply list_elem_of_fmap. by exists (type, a).
Qed.

(** X11. A request of the client for data of a selection the guest
    does not own, or for a type that has not been recorded for the
    selection, is answered at once with CLIPBOARD_DATA of type NONE; no
    conversion is asked of the X server and nothing else of the state
    changes. *)
Theorem clipboard_request_refused (x : vdagent_x11) (selection type : Z)
    (alloc_ok : bool) (pending : list (XEvent * environment)) :
  clipboard_owner_at x selection ≠ owner_guest
  ∨ vdagent_x11_type_to_target x selection type = XNone →
  vdagent_x11_clipboard_request x selection type alloc_ok pending =
    Some (emit (udscs_write VDAGENTD_CLIPBOARD_DATA selection
                  VD_AGENT_CLIPBOARD_NONE NoData) x).
Proof.
  intros H. unfold vdagent_x11_clipboard_request.
  destruct (vdagent_x11_get_clipboard_atom x selection); [|done].
  case_bool_decide as Ho; cbn [negb]; [|done].
  destruct H as [H|H]; [done|]. by rewrite H.
Qed.

(** X12. A request of the client that can be served is put at the
    end of the queue of conversion requests, with the atom recorded for
    its type as target. When the queue was empty the conversion of the
    selection to that target is asked of the X server at once, on the
    selection window and to the property named after the selection; when
    it was not, nothing is asked: one conversion is under way at a time. *)
Theorem clipboard_request_converts (x : vdagent_x11) (selection type : Z)
    (clip : Atom) (pending : list (XEvent * environment)) :
  vdagent_x11_get_clipboard_atom x selection = Some clip →
  clipboard_owner_at x selection = owner_guest →
  vdagent_x11_type_to_target x selection type ≠ XNone →
  let req := {| conv_target := vdagent_x11_type_to_target x selection type;
                conv_selection := selection |} in
  vdagent_x11_clipboard_request x selection type true pending =
    match conversion_req x with
    | [] =>
        vdagent_x11_do_read
          (emit (XConvertSelection clip (conv_target req) clip
                                   (selection_window x))
                (set_conversion_req [req] x))
          pending
    | queue => Some (set_conversion_req (queue ++ [req]) x)
    end.
Proof.
  intros Hclip Ho Ht req. unfold vdagent_x11_clipboard_request.
  rewrite Hclip, bool_decide_eq_true_2 by done. cbn [negb].
  destruct (Z.eqb_spec (vdagent_x11_type_to_target x selection type) XNone);
    [done|].
  destruct (conversion_req x) as [|r q]; [|done].
  unfold vdagent_x11_handle_conversion_request.
  replace (conversion_req (set_conversion_req _ x)) with [req]
    by (by x11_simpl).
  replace (vdagent_x11_get_clipboard_atom (set_conversion_req _ x)
             (conv_selection req))
    with (Some clip) by (rewrite <- Hclip; by x11_simpl).
  done.
Qed.

(** ** The answer of the selection owner *)

Lemma daemon_messages_app (l1 l2 : list action) :
  daemon_messages (l1 ++ l2) = daemon_messages l1 ++ daemon_messages l2.
Proof. apply List.filter_app. Qed.

(** The end of [vdagent_x11_handle_selection_notify]: the answer is
    posted, the head request dropped and the next conversion asked for. *)
Lemma conversion_request_answered (x : vdagent_x11)
    (req : vdagent_x11_conversion_request)
    (next : list vdagent_x11_conversion_request) (incr : bool)
    (a : action) :
  conversion_req x = req :: next →
  Forall (λ r, supported (conv_selection r)) next →
  daemon_messages [a] = [a] →
  ∃ x',
    (x1 ← vdagent_x11_next_conversion_request
            (vdagent_x11_get_selection_free (emit a x) incr);
     vdagent_x11_handle_conversion_request x1) = Some x'
    ∧ daemon_messages (out x') = daemon_messages (out x) ++ [a]
    ∧ conversion_req x' = next
    ∧ expect_property_notify x' = expect_property_notify x
    ∧ clipboard_data_size x' = clipboard_data_size x.
Proof.
  intros Hq Hnext Ha.
  destruct (get_selection_free_parts (emit a x) incr)
    as (_ & _ & _ & _ & Hq1 & He1 & Hs1 & Hout1).
  cbn zeta in *.
  set (x1 := vdagent_x11_get_selection_free (emit a x) incr) in *.
  unfold vdagent_x11_next_conversion_request.
  replace (conversion_req x1) with (req :: next)
    by (rewrite Hq1, <- Hq; by x11_simpl).
  cbn [mbind option_bind].
  unfold vdagent_x11_handle_conversion_request.
  replace (conversion_req (set_conversion_req next x1)) with next
    by (by x11_simpl).
  assert (out x1 = out x ++ [a]) as Hout by (rewrite Hout1; by x11_simpl).
  assert (expect_property_notify x1 = expect_property_notify x) as He
    by (rewrite He1; by x11_simpl).
  assert (clipboard_data_size x1 = clipboard_data_size x) as Hs
    by (rewrite Hs1; by x11_simpl).
  clearbody x1. clear Hq1 He1 Hs1 Hout1.
  destruct next as [|r next].
  - eexists. split; [done|].
    split_and!; [|by x11_simpl|by x11_simpl|by x11_simpl].
    replace (out (set_conversion_req [] x1)) with (out x1) by (by x11_simpl).
    by rewrite Hout, daemon_messages_app, Ha.
  - apply Forall_cons in Hnext as [[c Hc]%(supported_get_clipboard_atom x1) _].
    replace (vdagent_x11_get_clipboard_atom (set_conversion_req (r :: next) x1)
               (conv_selection r)) with (Some c)
      by (rewrite <- Hc; by x11_simpl).
    cbn [mbind option_bind].
    eexists. split; [done|].
    split_and!; [|by x11_simpl|by x11_simpl|by x11_simpl].
    match goal with
    | |- context [emit ?b (set_conversion_req ?q x1)] =>
        replace (out (emit b (set_conversion_req q x1)))
          with (out x1 ++ [b]) by (by x11_simpl)
    end.
    by rewrite Hout, !daemon_messages_app, Ha, app_nil_r.
Qed.

(** Reading the property of a SelectionNotify that is not the start of an
    INCR transfer: the bytes, or -1. *)
Lemma get_selection_reads (x : vdagent_x11) (e : XSelectionEvent)
    (selection : Z) (type prop : Atom) (env : environment) :
  reply_type (env_reply env) ≠ incr_atom x →
  Z.of_nat (length (reply_items (env_reply env))) <= INT_MAX →
  let ok :=
    negb (xselection_property e =? XNone)
    && (xselection_requestor e =? selection_window x)
    && (xselection_property e =? prop)
    && reply_success (env_reply env)
    && (reply_type (env_reply env) =? type)
    && (reply_format (env_reply env) =? 8)
    && (0 <? Z.of_nat (length (reply_items (env_reply env)))) in
  ∃ x',
    vdagent_x11_get_selection x (SelectionNotify e) selection type prop 8
                              false env
      = Some (if ok then Z.of_nat (length (reply_items (env_reply env)))
              else -1,
              if ok then reply_items (env_reply env) else [], x')
    ∧ daemon_messages (out x') = daemon_messages (out x)
    ∧ inbound_of x' = inbound_of x.
Proof.
  intros Hincr Hlen ok. subst ok.
  unfold vdagent_x11_get_selection, get_selection_data, get_selection_exit.
  cbn [xselection negb andb].
  destruct (Z.eqb_spec (xselection_property e) XNone); cbn [negb andb orb].
  { by eexists. }
  destruct (Z.eqb_spec (xselection_requestor e) (selection_window x));
    cbn [negb andb orb].
  2:{ by eexists. }
  destruct (Z.eqb_spec (xselection_property e) prop); cbn [negb andb orb].
  2:{ by eexists. }
  assert (∀ w p d t,
            daemon_messages (out (emit (XGetWindowProperty w p d t) x))
            = daemon_messages (out x)
            ∧ inbound_of (emit (XGetWindowProperty w p d t) x)
              = inbound_of x) as Hemit.
  { intros. split; [|by x11_simpl].
    replace (out (emit _ x)) with (out x ++ [XGetWindowProperty w p d t])
      by (by x11_simpl).
    by rewrite daemon_messages_app, app_nil_r. }
  assert (∀ w p d t w' p',
            daemon_messages
              (out (emit (XDeleteProperty w' p')
                      (emit (XGetWindowProperty w p d t) x)))
            = daemon_messages (out x)
            ∧ inbound_of (emit (XDeleteProperty w' p')
                            (emit (XGetWindowProperty w p d t) x))
              = inbound_of x) as Hdel.
  { intros. split; [|by x11_simpl].
    replace (out (emit _ (emit _ x)))
      with (out x ++ [XGetWindowProperty w p d t; XDeleteProperty w' p'])
      by (x11_simpl; by rewrite <- app_assoc).
    by rewrite daemon_messages_app, app_nil_r. }
  cbv zeta.
  destruct (reply_success (env_reply env)); cbn [negb andb orb].
  2:{ eexists. split; [done|]. by apply Hemit. }
  assert (∀ a, incr_atom (emit a x) = incr_atom x) as Hi
    by (intros; by x11_simpl).
  assert (∀ a, targets_atom (emit a x) = targets_atom x) as Ht
    by (intros; by x11_simpl).
  assert (∀ a, selection_window (emit a x) = selection_window x) as Hw
    by (intros; by x11_simpl).
  rewrite !Hi, !Ht, !Hw. clear Hi Ht Hw.
  destruct (Z.eqb_spec (reply_type (env_reply env)) (incr_atom x)); [done|].
  assert (to_int (Z.of_nat (length (reply_items (env_reply env))))
          = Z.of_nat (length (reply_items (env_reply env)))) as Hint
    by (apply to_int_small; lia).
  destruct (prop =? targets_atom x); cbn [negb];
    destruct (reply_type (env_reply env) =? type); cbn [negb andb];
    try (eexists; split; [done|]; first [by apply Hemit|by apply Hdel]);
    destruct (reply_format (env_reply env) =? 8); cbn [negb andb];
    try (eexists; split; [done|]; first [by apply Hemit|by apply Hdel]);
    cbn [Z.eqb Pos.eqb];
    destruct (0 <? Z.of_nat (length (reply_items (env_reply env))));
    rewrite ?Hint;
    eexists; (split; [done|]); first [by apply Hemit|by apply Hdel].
Qed.

(** The answer to the conversion at the head of the queue, for a target
    that is classified as [type]. *)
Lemma conversion_answered_once (x : vdagent_x11)
    (req : vdagent_x11_conversion_request)
    (next : list vdagent_x11_conversion_request) (clip : Atom) (type : Z)
    (e : XSelectionEvent) (env : environment) :
  reachable x →
  conversion_req x = req :: next →
  vdagent_x11_get_clipboard_atom x (conv_selection req) = Some clip →
  vdagent_x11_target_to_type x (conv_selection req) (conv_target req)
    = Some type →
  xselection_target e ≠ targets_atom x →
  reply_type (env_reply env) ≠ incr_atom x →
  Z.of_nat (length (reply_items (env_reply env))) <= INT_MAX →
  ∃ x',
    vdagent_x11_handle_event x (SelectionNotify e) env = Some x'
    ∧ daemon_messages (out x') =
        daemon_messages (out x)
        ++ [conversion_answer (conv_selection req) type
              (if delivers x req clip e (env_reply env)
               then Some (reply_items (env_reply env)) else None)]
    ∧ conversion_req x' = next
    ∧ expect_property_notify x' = expect_property_notify x
    ∧ clipboard_data_size x' = clipboard_data_size x.
Proof.
  intros Hreach Hq Hclip Htype Htarget Hincr Hlen.
  destruct (reachable_inv x Hreach) as [_ Hconv _ _ _ _].
  rewrite Hq in Hconv. apply Forall_cons in Hconv as [_ Hnext].
  unfold vdagent_x11_handle_event.
  destruct (Z.eqb_spec (xselection_target e) (targets_atom x)); [done|].
  unfold vdagent_x11_handle_selection_notify.
  rewrite Hq, Hclip. cbn [mbind option_bind].
  rewrite Htype. cbn [mbind option_bind xselection].
  cbn [vdagent_x11_get_clipboard_selection].
  unfold delivers.
  set (items := reply_items (env_reply env)) in *.
  assert (∀ y, conversion_req y = req :: next →
               daemon_messages (out y) = daemon_messages (out x) →
               expect_property_notify y = expect_property_notify x →
               clipboard_data_size y = clipboard_data_size x →
               ∀ a, daemon_messages [a] = [a] →
               ∃ x',
                 (x1 ← vdagent_x11_next_conversion_request
                         (vdagent_x11_get_selection_free (emit a y) false);
                  vdagent_x11_handle_conversion_request x1) = Some x'
                 ∧ daemon_messages (out x') = daemon_messages (out x) ++ [a]
                 ∧ conversion_req x' = next
                 ∧ expect_property_notify x' = expect_property_notify x
                 ∧ clipboard_data_size x' = clipboard_data_size x) as Hend.
  { intros y Hy Hout He Hs a Ha.
    destruct (conversion_request_answered y req next false a Hy Hnext Ha)
      as (x' & Hx' & Hout' & Hq' & He' & Hs').
    exists x'. by rewrite Hx', Hout', Hq', He', Hs', Hout, He, Hs. }
  assert (∃ x',
            (x1 ← vdagent_x11_next_conversion_request
                    (vdagent_x11_get_selection_free
                       (emit (udscs_write VDAGENTD_CLIPBOARD_DATA
                                (conv_selection req) VD_AGENT_CLIPBOARD_NONE
                                NoData) x) false);
             vdagent_x11_handle_conversion_request x1) = Some x'
            ∧ daemon_messages (out x') =
                daemon_messages (out x)
                ++ [conversion_answer (conv_selection req) type None]
            ∧ conversion_req x' = next
            ∧ expect_property_notify x' = expect_property_notify x
            ∧ clipboard_data_size x' = clipboard_data_size x) as Hnone.
  { by apply Hend. }
  destruct (get_selection_reads x e (conv_selection req) (conv_target req)
              clip env Hincr Hlen) as (x1 & Hget & Hout1 & Hin1).
  cbn zeta in Hget. fold items in Hget.
  set (ok := negb (xselection_property e =? XNone)
             && (xselection_requestor e =? selection_window x)
             && (xselection_property e =? clip)
             && reply_success (env_reply env)
             && (reply_type (env_reply env) =? conv_target req)
             && (reply_format (env_reply env) =? 8)
             && (0 <? Z.of_nat (length items))) in *.
  unfold inbound_of in Hin1. injection Hin1 as Hq1 He1 _ Hs1 _.
  rewrite Hq in Hq1.
  assert (∃ x',
            (vdagent_x11_get_selection x (SelectionNotify e)
               (conv_selection req) (conv_target req) clip 8 false env
             ≫= λ '(len, data, x),
                  if len =? 0 then Some x
                  else
                    let '(type, len0) :=
                      if len =? -1 then (VD_AGENT_CLIPBOARD_NONE, 0)
                      else (type, len) in
                    x1 ← vdagent_x11_next_conversion_request
                           (vdagent_x11_get_selection_free
                              (emit (udscs_write VDAGENTD_CLIPBOARD_DATA
                                       (conv_selection req) type
                                       (data_payload data len0)) x) false);
                    vdagent_x11_handle_conversion_request x1) = Some x'
            ∧ daemon_messages (out x') =
                daemon_messages (out x)
                ++ [conversion_answer (conv_selection req) type
                      (if ok then Some items else None)]
            ∧ conversion_req x' = next
            ∧ expect_property_notify x' = expect_property_notify x
            ∧ clipboard_data_size x' = clipboard_data_size x) as Hread.
  { rewrite Hget. cbn [mbind option_bind].
    destruct ok eqn:Hok.
    - assert (0 < Z.of_nat (length items)) as Hpos.
      { subst ok. apply andb_prop in Hok as [_ Hok]. lia. }
      destruct (Z.eqb_spec (Z.of_nat (length items)) 0); [lia|].
      destruct (Z.eqb_spec (Z.of_nat (length items)) (-1)); [lia|].
      cbn beta iota.
      unfold data_payload.
      destruct (Z.eqb_spec (Z.of_nat (length items)) 0); [lia|].
      rewrite Nat2Z.id, firstn_all. by apply Hend.
    - cbn [Z.eqb]. cbn beta iota. by apply Hend. }
  subst ok.
  case_bool_decide as Hsel; cbn [andb].
  2:{ destruct (selection_of_atom x (xselection_selection e)) as [s|] eqn:Hs.
      - destruct (Z.eqb_spec s (conv_selection req)) as [->|_]; [done|].
        cbn [negb].
        destruct (negb (xselection_target e =? conv_target req) && _);
          exact Hnone.
      - destruct (negb (xselection_target e =? conv_target req) && _);
          exact Hnone. }
  rewrite Hsel, Z.eqb_refl. cbn [negb].
  destruct (xselection_target e =? conv_target req) eqn:Ht1;
    cbn [negb andb orb Z.eqb].
  2:{ destruct (xselection_target e =? incr_atom x) eqn:Ht2;
        cbn [negb andb orb Z.eqb]; [|exact Hnone].
      exact Hread. }
  exact Hread.
Qed.

(** X13. The answer of the selection owner to the conversion at the head
    of the queue, short of starting an INCR transfer. When the target of
    the head request is classified as a type by
    [vdagent_x11_target_to_type], the request is answered exactly once,
    whatever the owner answers: one CLIPBOARD_DATA message for its
    selection is posted, with the bytes read and that type when the answer
    delivers them, and of type NONE otherwise (the owner refused, the
    event names another selection, target, window or property, the
    property cannot be read, or it is empty or of another type or
    format); the request leaves the queue, and the INCR receive state is
    as it was. When the target is one the classification has no result
    for (it reads past the catalog), the handler has no result either. *)
Theorem selection_notify_answers_once (x : vdagent_x11)
    (req : vdagent_x11_conversion_request)
    (next : list vdagent_x11_conversion_request) (clip : Atom)
    (e : XSelectionEvent) (env : environment) :
  reachable x →
  conversion_req x = req :: next →
  vdagent_x11_get_clipboard_atom x (conv_selection req) = Some clip →
  xselection_target e ≠ targets_atom x →
  reply_type (env_reply env) ≠ incr_atom x →
  Z.of_nat (length (reply_items (env_reply env))) <= INT_MAX →
  (∀ type,
     vdagent_x11_target_to_type x (conv_selection req) (conv_target req)
       = Some type →
     ∃ x',
       vdagent_x11_handle_event x (SelectionNotify e) env = Some x'
       ∧ daemon_messages (out x') =
           daemon_messages (out x)
           ++ [conversion_answer (conv_selection req) type
                 (if delivers x req clip e (env_reply env)
                  then Some (reply_items (env_reply env)) else None)]
       ∧ conversion_req x' = next
       ∧ expect_property_notify x' = expect_property_notify x
       ∧ clipboard_data_size x' = clipboard_data_size x)
  ∧ (vdagent_x11_target_to_type x (conv_selection req) (conv_target req)
       = None →
     vdagent_x11_handle_event x (SelectionNotify e) env = None).
Proof.
  intros Hreach Hq Hclip Htarget Hincr Hlen. split.
  - intros type Htype.
    by apply (conversion_answered_once x req next clip type e env).
  - intros Htype. unfold vdagent_x11_handle_event.
    destruct (Z.eqb_spec (xselection_target e) (targets_atom x)); [done|].
    unfold vdagent_x11_handle_selection_notify.
    rewrite Hq, Hclip. cbn [mbind option_bind negb].
    rewrite Htype.
    by destruct (negb _ && negb _).
Qed.

(** ** The INCR transfer from the selection owner *)

Lemma display_of_fields (x x' : vdagent_x11) :
  display_of x' = display_of x →
  selection_window x' = selection_window x
  ∧ incr_atom x' = incr_atom x
  ∧ targets_atom x' = targets_atom x
  ∧ (∀ s, vdagent_x11_get_clipboard_atom x' s
          = vdagent_x11_get_clipboard_atom x s)
  ∧ (∀ s t, vdagent_x11_target_to_type x' s t
            = vdagent_x11_target_to_type x s t)
  ∧ (∀ a, selection_of_atom x' a = selection_of_atom x a).
Proof.
  unfold display_of, vdagent_x11_get_clipboard_atom,
    vdagent_x11_target_to_type, selection_of_atom.
  intros [= -> -> -> -> -> _ _ -> _]. done.
Qed.

(** One chunk: it is appended to the buffer. *)
Lemma incr_receive_chunk (x : vdagent_x11)
    (req : vdagent_x11_conversion_request)
    (next : list vdagent_x11_conversion_request) (clip : Atom) (type : Z)
    (received chunk : list Z) :
  incr_receiving x req next received →
  vdagent_x11_get_clipboard_atom x (conv_selection req) = Some clip →
  vdagent_x11_target_to_type x (conv_selection req) (conv_target req)
    = Some type →
  chunk ≠ [] →
  Z.of_nat (length (received ++ chunk)) <= INT_MAX →
  ∃ x',
    vdagent_x11_handle_event x
      (PropertyNotify (selection_window x) clip PropertyNewValue)
      (chunk_arrived req chunk) = Some x'
    ∧ incr_receiving x' req next (received ++ chunk)
    ∧ daemon_messages (out x') = daemon_messages (out x)
    ∧ display_of x' = display_of x.
Proof.
  intros (Hq & He & Hs & Hd) Hclip Htype Hne Hlen.
  rewrite length_app in Hlen.
  assert (0 < Z.of_nat (length chunk))
    by (destruct chunk; [done|cbn [length]; lia]).
  unfold vdagent_x11_handle_event. rewrite He.
  change (bool_decide (PropertyNewValue = PropertyNewValue)) with true.
  cbn [andb].
  unfold vdagent_x11_handle_selection_notify.
  rewrite Hq, Hclip. cbn [mbind option_bind].
  rewrite !Z.eqb_refl. cbn [negb orb].
  rewrite Htype. cbn [mbind option_bind Z.eqb].
  unfold vdagent_x11_get_selection. cbn [negb andb orb]. cbv zeta.
  cbn [chunk_arrived env_reply env_alloc_ok reply_success reply_type
       reply_format reply_items negb andb].
  unfold get_selection_data.
  cbn [chunk_arrived env_reply env_alloc_ok reply_success reply_type
       reply_format reply_items negb andb].
  rewrite !Z.eqb_refl. cbn [negb Z.eqb Pos.eqb].
  destruct (Z.eqb_spec (Z.of_nat (length chunk)) 0); [lia|]. cbn [negb].
  assert (∀ a, clipboard_data_size (emit a x) = clipboard_data_size x) as H1
    by (intros; by x11_simpl).
  assert (∀ a, clipboard_data_space (emit a x) = clipboard_data_space x) as H2
    by (intros; by x11_simpl).
  rewrite !H1, !H2, Hs. clear H1 H2.
  unfold INT_MAX in Hlen.
  assert (to_ulong (Z.of_nat (length received) + Z.of_nat (length chunk))
          = Z.of_nat (length received) + Z.of_nat (length chunk)) as ->.
  { unfold to_ulong, ULONG_MOD. apply Z.mod_small. lia. }
  assert (to_uint32 (Z.of_nat (length received) + Z.of_nat (length chunk))
          = Z.of_nat (length (received ++ chunk))) as Hu.
  { rewrite to_uint32_small by (unfold UINT32_MOD; lia).
    rewrite length_app. lia. }
  rewrite Hu.
  assert (bool_decide (PropertyNewValue = PropertyDelete) = false) as Hst
    by done.
  destruct (_ <? _); cbn [mbind option_bind Z.eqb];
    rewrite Hst, andb_false_r;
    (eexists; split; [done|]); unfold incr_receiving;
    (split_and!; [by x11_simpl|by x11_simpl|by x11_simpl| | |by x11_simpl]);
    try (match goal with
         | |- daemon_messages (out ?y) = _ =>
             match y with
             | context [emit (XGetWindowProperty ?w ?p ?d ?t)] =>
                 replace (out y) with (out x ++ [XGetWindowProperty w p d t])
                   by (clear; by x11_simpl)
             end
         end;
         by rewrite daemon_messages_app, app_nil_r);
    revert Hs Hd; clear; x11_simpl; intros -> Hd;
    rewrite Nat2Z.id, Hd; by rewrite take_ge by done.
Qed.

(** The empty chunk: the buffer is posted and the request dropped. *)
Lemma incr_receive_end (x : vdagent_x11)
    (req : vdagent_x11_conversion_request)
    (next : list vdagent_x11_conversion_request) (clip : Atom) (type : Z)
    (received : list Z) :
  incr_receiving x req next received →
  Forall (λ r, supported (conv_selection r)) next →
  vdagent_x11_get_clipboard_atom x (conv_selection req) = Some clip →
  vdagent_x11_target_to_type x (conv_selection req) (conv_target req)
    = Some type →
  received ≠ [] →
  Z.of_nat (length received) <= INT_MAX →
  ∃ x',
    vdagent_x11_handle_event x
      (PropertyNotify (selection_window x) clip PropertyNewValue)
      (chunk_arrived req []) = Some x'
    ∧ daemon_messages (out x') =
        daemon_messages (out x)
        ++ [udscs_write VDAGENTD_CLIPBOARD_DATA (conv_selection req) type
                        (Bytes received)]
    ∧ conversion_req x' = next
    ∧ expect_property_notify x' = false
    ∧ clipboard_data_size x' = 0.
Proof.
  intros (Hq & He & Hs & Hd) Hnext Hclip Htype Hne Hlen.
  assert (0 < Z.of_nat (length received))
    by (destruct received; [done|cbn [length]; lia]).
  unfold vdagent_x11_handle_event. rewrite He.
  change (bool_decide (PropertyNewValue = PropertyNewValue)) with true.
  cbn [andb].
  unfold vdagent_x11_handle_selection_notify.
  rewrite Hq, Hclip. cbn [mbind option_bind].
  rewrite !Z.eqb_refl. cbn [negb orb].
  rewrite Htype. cbn [mbind option_bind Z.eqb].
  unfold vdagent_x11_get_selection. cbn [negb andb orb]. cbv zeta.
  cbn [chunk_arrived env_reply env_alloc_ok reply_success reply_type
       reply_format reply_items negb andb].
  unfold get_selection_data, get_selection_exit.
  cbn [chunk_arrived env_reply env_alloc_ok reply_success reply_type
       reply_format reply_items negb andb length].
  rewrite !Z.eqb_refl. cbn [negb Z.eqb Pos.eqb Z.of_nat].
  assert (∀ a, clipboard_data_size (emit a x) = clipboard_data_size x) as H1
    by (intros; by x11_simpl).
  rewrite !H1, Hs. clear H1.
  destruct (Z.ltb_spec 0 (Z.of_nat (length received))); [|lia].
  rewrite to_int_small by lia.
  cbn [mbind option_bind].
  destruct (Z.eqb_spec (Z.of_nat (length received)) 0); [lia|].
  destruct (Z.eqb_spec (Z.of_nat (length received)) (-1)); [lia|].
  cbn beta iota. unfold data_payload.
  destruct (Z.eqb_spec (Z.of_nat (length received)) 0); [lia|].
  assert (∀ a, clipboard_data (emit a x) = clipboard_data x) as H1
    by (intros; by x11_simpl).
  rewrite !H1, Nat2Z.id, Hd. clear H1.
  match goal with
  | |- context [vdagent_x11_get_selection_free (emit ?a ?y) true] =>
      destruct (conversion_request_answered y req next true a)
        as (x' & Hx' & Hout' & Hq' & He' & Hs');
      [revert Hq; clear; by x11_simpl|done|done|]
  end.
  rewrite Hx'. cbn [mbind option_bind].
  change (bool_decide (PropertyNewValue = PropertyDelete)) with false.
  rewrite andb_false_r.
  exists x'. split; [done|]. rewrite Hout', Hq', He', Hs'.
  split_and!; try (by x11_simpl).
  f_equal.
  match goal with
  | |- daemon_messages (out ?y) = _ =>
      match y with
      | context [emit (XGetWindowProperty ?w ?p ?d ?t)] =>
          replace (out y) with (out x ++ [XGetWindowProperty w p d t])
            by (clear; by x11_simpl)
      end
  end.
  by rewrite daemon_messages_app, app_nil_r.
Qed.

(** The chunks, one after the other. *)
Lemma incr_receive_run (req : vdagent_x11_conversion_request)
    (next : list vdagent_x11_conversion_request) (clip : Atom) (type : Z) :
  ∀ chunks x received,
    incr_receiving x req next received →
    vdagent_x11_get_clipboard_atom x (conv_selection req) = Some clip →
    vdagent_x11_target_to_type x (conv_selection req) (conv_target req)
      = Some type →
    Forall (λ chunk, chunk ≠ []) chunks →
    Z.of_nat (length (received ++ concat chunks)) <= INT_MAX →
    ∃ x',
      vdagent_x11_do_read x (chunk_events x req clip chunks) = Some x'
      ∧ incr_receiving x' req next (received ++ concat chunks)
      ∧ daemon_messages (out x') = daemon_messages (out x)
      ∧ display_of x' = display_of x.
Proof.
  induction chunks as [|chunk chunks IH];
    intros x received Hrecv Hclip Htype Hne Hlen.
  - exists x. cbn. by rewrite app_nil_r.
  - apply Forall_cons in Hne as [Hne Hnes].
    cbn [concat] in Hlen. rewrite app_assoc in Hlen.
    destruct (incr_receive_chunk x req next clip type received chunk)
      as (x1 & H1 & Hrecv1 & Hout1 & Hd1); try done.
    { rewrite length_app in Hlen. lia. }
    destruct (display_of_fields x x1 Hd1) as (Hw & _ & _ & Hc & Ht & _).
    destruct (IH x1 (received ++ chunk)) as (x' & H' & Hrecv' & Hout' & Hd');
      try done.
    { by rewrite Hc. }
    { by rewrite Ht. }
    exists x'.
    cbn [chunk_events fmap list_fmap vdagent_x11_do_read].
    rewrite H1. cbn [mbind option_bind].
    unfold chunk_events in H'. rewrite Hw in H'.
    rewrite H', Hout', Hout1, Hd', Hd1. cbn [concat].
    by rewrite app_assoc.
Qed.

Lemma do_read_app :
  ∀ pending1 pending2 x,
    vdagent_x11_do_read x (pending1 ++ pending2) =
      x1 ← vdagent_x11_do_read x pending1; vdagent_x11_do_read x1 pending2.
Proof.
  induction pending1 as [|[event env] pending1 IH]; intros pending2 x;
    [done|].
  cbn [app vdagent_x11_do_read].
  destruct (vdagent_x11_handle_event x event env) as [x1|]; [|done].
  cbn [mbind option_bind]. apply IH.
Qed.

(** X14. The INCR transfer from the selection owner, once it is under
    way: a chunk is expected for the head request and the bytes [received]
    are in the buffer. The chunks the owner then writes, one per
    PropertyNotify of a new value of the selection's property, are
    appended in the order of their arrival, and the empty chunk ends the
    transfer. When the target of the request is classified as a type, the
    daemon gets one CLIPBOARD_DATA message for the request, of that type,
    whose bytes are the bytes received followed by the chunks; the request
    then leaves the queue and no further chunk is expected. When the
    classification has no result for the target, the first chunk has no
    result either. How the transfer is announced is not part of the
    statement. *)
Theorem inbound_incr_round_trip (x : vdagent_x11)
    (req : vdagent_x11_conversion_request)
    (next : list vdagent_x11_conversion_request) (clip : Atom)
    (received : list Z) (chunks : list (list Z)) :
  reachable x →
  incr_receiving x req next received →
  vdagent_x11_get_clipboard_atom x (conv_selection req) = Some clip →
  Forall (λ chunk, chunk ≠ []) chunks →
  received ++ concat chunks ≠ [] →
  Z.of_nat (length (received ++ concat chunks)) <= INT_MAX →
  (∀ type,
     vdagent_x11_target_to_type x (conv_selection req) (conv_target req)
       = Some type →
     ∃ x',
       vdagent_x11_do_read x (chunk_events x req clip (chunks ++ [[]]))
         = Some x'
       ∧ daemon_messages (out x') =
           daemon_messages (out x)
           ++ [udscs_write VDAGENTD_CLIPBOARD_DATA (conv_selection req) type
                           (Bytes (received ++ concat chunks))]
       ∧ conversion_req x' = next
       ∧ expect_property_notify x' = false
       ∧ clipboard_data_size x' = 0)
  ∧ (vdagent_x11_target_to_type x (conv_selection req) (conv_target req)
       = None →
     vdagent_x11_do_read x (chunk_events x req clip (chunks ++ [[]]))
       = None).
Proof.
  intros Hreach Hrecv Hclip Hne Hsome Hlen.
  destruct (reachable_inv x Hreach) as [_ Hconv _ _ _ _].
  pose proof Hrecv as (Hq & He & _ & _).
  rewrite Hq in Hconv. apply Forall_cons in Hconv as [_ Hnext].
  split.
  - intros type Htype.
    destruct (incr_receive_run req next clip type chunks x received)
      as (x2 & H2 & Hrecv2 & Hout2 & Hd2); try done.
    destruct (display_of_fields x x2 Hd2) as (Hw2 & _ & _ & Hc2 & Ht2 & _).
    destruct (incr_receive_end x2 req next clip type
                (received ++ concat chunks))
      as (x' & H' & Hout' & Hq' & He' & Hs'); try done.
    { by rewrite Hc2. }
    { by rewrite Ht2. }
    exists x'. unfold chunk_events. rewrite fmap_app, do_read_app.
    unfold chunk_events in H2. rewrite H2. cbn [mbind option_bind].
    cbn [fmap list_fmap vdagent_x11_do_read].
    rewrite <- Hw2, H'. cbn [mbind option_bind].
    by rewrite Hout', Hout2.
  - intros Htype.
    assert (∀ env,
              vdagent_x11_handle_event x
                (PropertyNotify (selection_window x) clip PropertyNewValue)
                env = None) as Hfirst.
    { intros env. unfold vdagent_x11_handle_event. rewrite He.
      change (bool_decide (PropertyNewValue = PropertyNewValue)) with true.
      cbn [andb]. unfold vdagent_x11_handle_selection_notify.
      rewrite Hq, Hclip. cbn [mbind option_bind].
      rewrite !Z.eqb_refl. cbn [negb orb]. by rewrite Htype. }
    destruct chunks as [|chunk chunks];
      cbn [app chunk_events fmap list_fmap vdagent_x11_do_read];
      by rewrite Hfirst.
Qed.

(** ** The announcement of an INCR transfer *)

(** X28. The size hint of an INCR announcement is read from the data of
    the property without a look at the number of items: when the answer to
    the conversion at the head of the queue is a property of type INCR
    that is returned with no item, [*(uint32_t * )data] reads past the
    data, and the handler has no result. *)
Theorem incr_size_hint_read_unchecked (x : vdagent_x11)
    (req : vdagent_x11_conversion_request)
    (next : list vdagent_x11_conversion_request) (clip : Atom) (type : Z)
    (e : XSelectionEvent) (env : environment) :
  conversion_req x = req :: next →
  vdagent_x11_get_clipboard_atom x (conv_selection req) = Some clip →
  vdagent_x11_target_to_type x (conv_selection req) (conv_target req)
    = Some type →
  clip ≠ XNone → clip ≠ targets_atom x →
  xselection_target e ≠ targets_atom x →
  selection_of_atom x (xselection_selection e) = Some (conv_selection req) →
  xselection_target e = conv_target req ∨ xselection_target e = incr_atom x →
  xselection_property e = clip →
  xselection_requestor e = selection_window x →
  reply_success (env_reply env) = true →
  reply_type (env_reply env) = incr_atom x →
  reply_items (env_reply env) = [] →
  vdagent_x11_handle_event x (SelectionNotify e) env = None.
Proof.
  intros Hq Hclip Htype Hnone Hclipt Htarget Hsel Ht Hprop Hreq Hok Hty Hit.
  unfold vdagent_x11_handle_event.
  destruct (Z.eqb_spec (xselection_target e) (targets_atom x)); [done|].
  unfold vdagent_x11_handle_selection_notify.
  rewrite Hq, Hclip. cbn [mbind option_bind].
  cbn [vdagent_x11_get_clipboard_selection xselection].
  rewrite Hsel, Z.eqb_refl. cbn [negb].
  assert (negb (xselection_target e =? conv_target req)
          && negb (xselection_target e =? incr_atom x) = false) as ->.
  { destruct Ht as [->| ->]; rewrite Z.eqb_refl; by rewrite ?andb_false_r. }
  rewrite Htype. cbn [mbind option_bind Z.eqb].
  unfold vdagent_x11_get_selection.
  cbn [xselection negb andb orb]. rewrite Hprop, Hreq, !Z.eqb_refl.
  destruct (Z.eqb_spec clip XNone); [done|]. cbn [negb andb orb].
  cbv zeta.
  assert (∀ a, incr_atom (emit a x) = incr_atom x) as Hi
    by (intros; by x11_simpl).
  assert (∀ a, targets_atom (emit a x) = targets_atom x) as Hta
    by (intros; by x11_simpl).
  rewrite ?Hi, ?Hta, Hok, Hty, Hit. clear Hi Hta.
  rewrite ?Z.eqb_refl. cbn [negb].
  destruct (Z.eqb_spec clip (targets_atom x)); [done|]. cbn [negb].
  unfold read_uint32.
  by repeat match goal with
            | |- context [if ?c then _ else _] => destruct c
            end.
Qed.

(** ** Grabs and releases of the client *)

(** The state a grab leaves, before the pending events are read. *)
Lemma clipboard_grab_state (x : vdagent_x11) (selection : Z)
    (types : list Z) (type_count : Z) (clip : Atom) :
  vdagent_x11_get_clipboard_atom x selection = Some clip →
  0 <= type_count <= Z.of_nat (length types) →
  let count := Z.min type_count MAX_TYPES in
  ∃ x1,
    (∀ pending,
       vdagent_x11_clipboard_grab x selection types type_count pending
       = vdagent_x11_do_read x1 pending)
    ∧ clipboard_type_count_at x1 selection = count
    ∧ agent_types_row x1 selection = take (Z.to_nat count) types
    ∧ (∀ s, s ≠ selection → agent_types_row x1 s = agent_types_row x s)
    ∧ clipboard_owner_at x1 selection = owner_client
    ∧ out x1 = out x ++ [XSetSelectionOwner clip (selection_window x)]
                     ++ refusals selection (selection_req x)
                     ++ none_answers selection (conversion_req x)
    ∧ (∀ a env,
         vdagent_x11_handle_event x1
           (XFixesSelectionNotify XFixesSetSelectionOwnerNotify
                                  (selection_window x) a) env = Some x1)
    ∧ display_of x1 = display_of x
    ∧ selection_req x1 =
        List.filter (λ r, negb (sel_selection r =? selection))
                    (selection_req x).
Proof.
  intros Hclip Hc count.
  unfold vdagent_x11_clipboard_grab. rewrite Hclip.
  assert ((if MAX_TYPES <? type_count then MAX_TYPES else type_count)
          = count) as ->.
  { subst count. unfold MAX_TYPES.
    destruct (Z.ltb_spec 256 type_count); lia. }
  assert (0 <= count <= Z.of_nat (length types)) as Hcount
    by (subst count; unfold MAX_TYPES; lia).
  destruct (Z.ltb_spec (Z.of_nat (length types)) count); [lia|].
  eexists. split; [done|].
  match goal with
  | |- context [vdagent_x11_set_clipboard_owner ?y selection owner_client] =>
      set (x0 := y)
  end.
  destruct (set_clipboard_owner_catalog x0 selection owner_client)
    as (Hat & _ & Htc).
  destruct (set_clipboard_owner_parts x0 selection owner_client)
    as (Hd & _).
  cbn zeta in *. specialize (Htc ltac:(done)).
  set (x1 := vdagent_x11_set_clipboard_owner x0 selection owner_client) in *.
  assert (clipboard_type_count_at x1 selection = count) as Hcnt.
  { unfold clipboard_type_count_at. rewrite Htc. subst x0. x11_simpl.
    by rewrite lookup_insert_eq. }
  split_and!.
  - done.
  - unfold agent_types_row. rewrite Hcnt.
    unfold clipboard_agent_types_at. rewrite Hat. subst x0. x11_simpl.
    replace count with (Z.of_nat (length (take (Z.to_nat count) types))) at 1
      by (rewrite length_take; lia).
    apply copy_agent_types_row.
  - intros s Hs. unfold agent_types_row, clipboard_type_count_at,
      clipboard_agent_types_at.
    rewrite Htc, Hat. subst x0. x11_simpl.
    rewrite lookup_insert_ne by done.
    apply list_fmap_ext. intros _ i _.
    by rewrite copy_agent_types_other by (by left).
  - apply set_clipboard_owner_owner.
  - subst x1. rewrite set_clipboard_owner_out. unfold release_message.
    rewrite bool_decide_eq_false_2 by (by intros [? _]).
    subst x0. x11_simpl. by rewrite app_nil_r, <- !app_assoc.
  - intros a env. unfold vdagent_x11_handle_event.
    destruct (vdagent_x11_get_clipboard_selection x1 _); [|done].
    destruct (display_of_fields x0 x1 Hd) as (Hw & _).
    replace (selection_window x1) with (selection_window x)
      by (rewrite Hw; subst x0; by x11_simpl).
    by rewrite Z.eqb_refl.
  - rewrite Hd. subst x0. by x11_simpl.
  - subst x1. rewrite set_clipboard_owner_selection_req.
    subst x0. by x11_simpl.
Qed.

(** X15. A grab of the client records the announced types for the
    selection - the first 256 when there are more, which is what a row of
    [clipboard_agent_types] holds - and leaves the types recorded for the
    other selection alone. The selection window is made the owner of the
    selection at the X server, and the client is the owner from then on.
    The XFixes event the X server then sends for the bridge's own window
    is ignored. *)
Theorem clipboard_grab_records (x : vdagent_x11) (selection : Z)
    (types : list Z) (type_count : Z) (clip : Atom) :
  vdagent_x11_get_clipboard_atom x selection = Some clip →
  0 <= type_count <= Z.of_nat (length types) →
  let count := Z.min type_count MAX_TYPES in
  ∃ x1,
    (∀ pending,
       vdagent_x11_clipboard_grab x selection types type_count pending
       = vdagent_x11_do_read x1 pending)
    ∧ clipboard_type_count_at x1 selection = count
    ∧ agent_types_row x1 selection = take (Z.to_nat count) types
    ∧ (∀ s, s ≠ selection → agent_types_row x1 s = agent_types_row x s)
    ∧ clipboard_owner_at x1 selection = owner_client
    ∧ out x1 = out x ++ [XSetSelectionOwner clip (selection_window x)]
                     ++ refusals selection (selection_req x)
                     ++ none_answers selection (conversion_req x)
    ∧ (∀ a env,
         vdagent_x11_handle_event x1
           (XFixesSelectionNotify XFixesSetSelectionOwnerNotify
                                  (selection_window x) a) env = Some x1).
Proof.
  intros Hclip Hc count.
  destruct (clipboard_grab_state x selection types type_count clip Hclip Hc)
    as (x1 & ? & ? & ? & ? & ? & ? & ? & _).
  by exists x1.
Qed.

(** X16. What the client grabs is what X clients are offered. After a
    grab, a TARGETS request for the selection is answered with TARGETS
    followed by the atoms of the formats of the announced types, in the
    order the client announced them, and the requestor is notified with
    the reply property; the request does not stay queued. *)
Theorem granted_types_are_offered (x : vdagent_x11) (selection : Z)
    (types : list Z) (type_count : Z) (clip : Atom)
    (e : XSelectionRequestEvent) (env : environment) :
  vdagent_x11_get_clipboard_atom x selection = Some clip →
  0 <= type_count <= Z.of_nat (length types) →
  selection_req x = [] →
  targets_atom x ≠ multiple_atom x →
  selection_of_atom x (xselectionrequest_selection e) = Some selection →
  xselectionrequest_target e = targets_atom x →
  env_alloc_ok env = true →
  let targets :=
    take (Z.to_nat MAX_TYPES)
      (targets_atom x
       :: offered_targets (clipboard_formats x)
            (take (Z.to_nat (Z.min type_count MAX_TYPES)) types)) in
  ∃ x',
    vdagent_x11_clipboard_grab x selection types type_count
      [(SelectionRequest e, env)] = Some x'
    ∧ out x' = out x ++ [XSetSelectionOwner clip (selection_window x)]
                     ++ none_answers selection (conversion_req x)
                     ++ [XChangeProperty (xselectionrequest_requestor e)
                           (reply_property e) XA_ATOM 32 targets
                           (Z.of_nat (length targets));
                         XSendEvent (xselectionrequest_requestor e)
                           (selection_notify (reply_property e) e)]
    ∧ selection_req x' = []
    ∧ clipboard_owner_at x' selection = owner_client.
Proof.
  intros Hclip Hc Hq Hmul Hsel Htar Halloc targets.
  destruct (clipboard_grab_state x selection types type_count clip Hclip Hc)
    as (x1 & Hgrab & Hcnt & Hrow & _ & Hown & Hout & _ & Hd & Hq1).
  cbn zeta in *. rewrite Hgrab. clear Hgrab.
  destruct (display_of_fields x x1 Hd) as (Hw & _ & Hta & _ & _ & Hsa).
  cbn [vdagent_x11_do_read].
  unfold vdagent_x11_handle_event.
  cbn [vdagent_x11_get_clipboard_selection].
  rewrite Hsa, Hsel, Halloc, Hq1, Hq. cbn [negb List.filter].
  unfold vdagent_x11_handle_selection_request.
  set (req := {| sel_event := e; sel_selection := selection |}).
  replace (selection_req (set_selection_req [req] x1)) with [req]
    by (by x11_simpl).
  cbn [handle_selection_request_from sel_selection sel_event req].
  replace (clipboard_owner_at (set_selection_req [req] x1) selection)
    with owner_client by (rewrite <- Hown; by x11_simpl).
  rewrite bool_decide_eq_true_2 by done. cbn [negb].
  replace (multiple_atom (set_selection_req [req] x1)) with (multiple_atom x).
  2:{ unfold display_of in Hd. injection Hd as _ _ _ _ _ Hm _ _ _.
      rewrite <- Hm. by x11_simpl. }
  replace (targets_atom (set_selection_req [req] x1)) with (targets_atom x)
    by (rewrite <- Hta; by x11_simpl).
  rewrite Htar.
  destruct (Z.eqb_spec (targets_atom x) (multiple_atom x)); [done|].
  rewrite Z.eqb_refl. cbn [mbind option_bind].
  eexists. split; [done|].
  split_and!; [|by x11_simpl|rewrite <- Hown; by x11_simpl].
  unfold send_targets_property.
  rewrite send_targets_types_eq by (cbn; unfold MAX_TYPES; lia).
  replace (agent_types_row (set_selection_req [req] x1) selection)
    with (take (Z.to_nat (Z.min type_count MAX_TYPES)) types)
    by (rewrite <- Hrow; by x11_simpl).
  replace (clipboard_formats (set_selection_req [req] x1))
    with (clipboard_formats x).
  2:{ unfold display_of in Hd. injection Hd as Hf _ _ _ _ _ _ _ _.
      rewrite <- Hf. by x11_simpl. }
  replace (targets_atom (set_selection_req [req] x1)) with (targets_atom x)
    by (rewrite <- Hta; by x11_simpl).
  cbn [app]. fold targets.
  match goal with
  | |- out (set_selection_req [] (send_selection_notify_to ?p req
              (emit ?a (set_selection_req [req] x1)))) = _ =>
      replace (out (set_selection_req [] (send_selection_notify_to p req
                      (emit a (set_selection_req [req] x1)))))
        with (out x1 ++ [a; XSendEvent (xselectionrequest_requestor e)
                              (selection_notify p e)])
        by (clear; x11_simpl; by rewrite <- app_assoc)
  end.
  rewrite Hout, Hq. unfold refusals. cbn [List.filter fmap list_fmap app].
  by rewrite <- !app_assoc.
Qed.

(** ** The selection owner goes away *)

Lemma owner_gone_state (x : vdagent_x11) (subtype : xfixes_subtype)
    (w : Window) (a : Atom) (selection : Z) (env : environment) :
  selection_of_atom x a = Some selection →
  selection_window x ≠ XNone →
  (subtype = XFixesSetSelectionOwnerNotify ∧ w = XNone)
  ∨ subtype = XFixesSelectionWindowDestroyNotify
  ∨ subtype = XFixesSelectionClientCloseNotify →
  vdagent_x11_handle_event x (XFixesSelectionNotify subtype w a) env =
    Some (vdagent_x11_set_clipboard_owner x selection owner_none).
Proof.
  intros Hsel Hwin Hsub. unfold vdagent_x11_handle_event.
  cbn [vdagent_x11_get_clipboard_selection]. rewrite Hsel.
  destruct Hsub as [[-> ->]|[->| ->]];
    (destruct (Z.eqb_spec XNone (selection_window x)); [congruence|]);
    by rewrite Z.eqb_refl.
Qed.

(** X17. When the owner of a selection gives it up - the XFixes event
    names no new owner, or tells that the owner's window was destroyed or
    its client closed, whatever window the event then names - the
    selection has no owner any more and no types: the pending requests of
    the selection are answered as for any change of owner, the daemon is
    sent a CLIPBOARD_RELEASE when the guest was the owner, and no TARGETS
    are asked for. *)
Theorem selection_owner_gone (x : vdagent_x11) (subtype : xfixes_subtype)
    (w : Window) (a : Atom) (selection : Z) (env : environment) :
  selection_of_atom x a = Some selection →
  selection_window x ≠ XNone →
  (subtype = XFixesSetSelectionOwnerNotify ∧ w = XNone)
  ∨ subtype = XFixesSelectionWindowDestroyNotify
  ∨ subtype = XFixesSelectionClientCloseNotify →
  ∃ x',
    vdagent_x11_handle_event x (XFixesSelectionNotify subtype w a) env
      = Some x'
    ∧ clipboard_owner_at x' selection = owner_none
    ∧ clipboard_type_count_at x' selection = 0
    ∧ expected_targets_notifies x' = expected_targets_notifies x
    ∧ out x' = out x ++ refusals selection (selection_req x)
                     ++ none_answers selection (conversion_req x)
                     ++ release_message x selection owner_none.
Proof.
  intros Hsel Hwin Hsub. eexists. split; [by apply owner_gone_state|].
  split_and!.
  - apply set_clipboard_owner_owner.
  - rewrite set_clipboard_owner_type_count. by rewrite decide_True.
  - by destruct (set_clipboard_owner_parts x selection owner_none)
      as (_ & _ & ? & _).
  - apply set_clipboard_owner_out.
Qed.

(** X18. A release of the client for a selection the client does not
    own is ignored. Otherwise the ownership of the selection at the X
    server is given up and the server is waited for; the XFixes event that
    tells the selection has no owner then makes it ownerless in the
    bridge: its pending requests are answered, its types are forgotten,
    and the daemon is not sent a CLIPBOARD_RELEASE, which is for
    selections the guest owned. *)
Theorem clipboard_release_gives_up (x : vdagent_x11) (selection : Z)
    (clip : Atom) (env : environment)
    (pending : list (XEvent * environment)) :
  (clipboard_owner_at x selection ≠ owner_client →
   ∀ xfixes_events,
     vdagent_x11_clipboard_release x selection xfixes_events pending = Some x)
  ∧ (clipboard_owner_at x selection = owner_client →
     vdagent_x11_get_clipboard_atom x selection = Some clip →
     selection_of_atom x clip = Some selection →
     selection_window x ≠ XNone →
     ∃ x1,
       vdagent_x11_clipboard_release x selection
         [(XFixesSelectionNotify XFixesSetSelectionOwnerNotify XNone clip,
           env)] pending
       = vdagent_x11_do_read x1 pending
       ∧ clipboard_owner_at x1 selection = owner_none
       ∧ clipboard_type_count_at x1 selection = 0
       ∧ out x1 = out x ++ [XSetSelectionOwner clip XNone; XSync]
                        ++ refusals selection (selection_req x)
                        ++ none_answers selection (conversion_req x)).
Proof.
  split.
  - intros Ho xfixes_events. unfold vdagent_x11_clipboard_release.
    destruct (vdagent_x11_get_clipboard_atom x selection); [|done].
    by rewrite bool_decide_eq_false_2.
  - intros Ho Hclip Hsel Hwin. unfold vdagent_x11_clipboard_release.
    rewrite Hclip, bool_decide_eq_true_2 by done. cbn [negb].
    cbn [vdagent_x11_do_read].
    set (x0 := emit XSync (emit (XSetSelectionOwner clip XNone) x)).
    rewrite (owner_gone_state x0 _ _ _ selection).
    2:{ rewrite <- Hsel. subst x0. by x11_simpl. }
    2:{ subst x0. revert Hwin. clear. by x11_simpl. }
    2:{ by left. }
    cbn [mbind option_bind]. eexists. split; [done|]. split_and!.
    + apply set_clipboard_owner_owner.
    + rewrite set_clipboard_owner_type_count. by rewrite decide_True.
    + rewrite set_clipboard_owner_out. unfold release_message.
      rewrite bool_decide_eq_false_2.
      2:{ intros [_ Hg]. revert Ho Hg. subst x0. clear.
          unfold clipboard_owner_at. x11_simpl. congruence. }
      subst x0. x11_simpl. by rewrite app_nil_r, <- !app_assoc.
Qed.

(** ** The size of the root window *)

(** X19. The bridge tracks the size of the root window: after a
    ConfigureNotify of the root window its width and height are those of
    the event, and the daemon is sent the new resolution exactly when the
    size has changed. A ConfigureNotify of another window changes
    nothing. *)
Theorem configure_notify_reports_size (x : vdagent_x11) (window : Window)
    (w h : Z) (env : environment) :
  ∃ x',
    vdagent_x11_handle_event x (ConfigureNotify window w h) env = Some x'
    ∧ (window ≠ root_window x → x' = x)
    ∧ (window = root_window x →
       width x' = w ∧ height x' = h
       ∧ out x' =
           out x
           ++ (if bool_decide (w = width x ∧ h = height x) then []
               else [udscs_write VDAGENTD_GUEST_XORG_RESOLUTION 0 0
                                 (Resolution w h)])
       ∧ outbound_of x' = outbound_of x ∧ inbound_of x' = inbound_of x
       ∧ catalog_of x' = catalog_of x ∧ display_of x' = display_of x).
Proof.
  unfold vdagent_x11_handle_event.
  destruct (Z.eqb_spec window (root_window x)) as [->|Hw]; cbn [negb].
  2:{ by exists x. }
  destruct (Z.eqb_spec w (width x)) as [->|Hwidth];
    [destruct (Z.eqb_spec h (height x)) as [->|Hheight]|]; cbn [andb].
  - exists x. split_and!; try done. intros _.
    rewrite bool_decide_eq_true_2 by done. by rewrite app_nil_r.
  - eexists. split_and!; try done. intros _.
    rewrite bool_decide_eq_false_2 by (by intros [_ ?]).
    unfold vdagent_x11_send_daemon_guest_xorg_res. by x11_simpl.
  - eexists. split_and!; try done. intros _.
    rewrite bool_decide_eq_false_2 by (by intros [? _]).
    unfold vdagent_x11_send_daemon_guest_xorg_res. by x11_simpl.
Qed.

(** ** The screen size closest to a monitor *)

Lemma closest_size_step_spec (mon : VDAgentMonConfig)
    (pre : list XRRScreenSize) (size : XRRScreenSize) (best cd : Z) :
  sizes_in_range mon (pre ++ [size]) →
  closest_so_far mon pre best cd →
  let acc := closest_size_step mon (Z.of_nat (length pre)) size (best, cd) in
  closest_so_far mon (pre ++ [size]) acc.1 acc.2.
Proof.
  intros (Hw & Hh & Hsq & Hsizes) Hinv.
  apply Forall_app in Hsizes as [_ Hsize].
  apply Forall_cons in Hsize as [[Hsw Hsh] _].
  unfold closest_size_step. cbn zeta. cbn [snd].
  unfold UINT_MAX, UINT32_MOD, INT_MAX in *.
  rewrite !(to_uint32_small (xrr_width size)),
          !(to_uint32_small (xrr_height size))
    by (unfold UINT32_MOD; lia).
  destruct (Z.ltb_spec (mon_width mon) (xrr_width size)) as [Hfw|Hfw];
    [|destruct (Z.ltb_spec (mon_height mon) (xrr_height size)) as [Hfh|Hfh]];
    cbn [orb fst snd].
  1,2: destruct Hinv as [(-> & -> & Hnone)|(s & Hb0 & Hs & Hf & -> & Hmin)];
    [left; split_and!; try done;
       apply Forall_app; split; [done|];
       apply Forall_cons_2; [|apply Forall_nil_2];
       unfold fits; lia
    |right; exists s; split_and!; try done;
       [by apply lookup_app_l_Some
       |intros j s' Hj Hfit; apply lookup_app_Some in Hj as [Hj|[_ Hj]];
          [by apply Hmin|];
          destruct (j - length pre)%nat; [|done];
          injection Hj as <-; unfold fits in Hfit; lia]].
  assert (fits mon size) as Hfit by (unfold fits; lia).
  assert (0 <= mon_width mon - xrr_width size <= mon_width mon) by lia.
  assert (0 <= mon_height mon - xrr_height size <= mon_height mon) by lia.
  assert (0 <= distance mon size < 4294967295) as Hdist.
  { unfold distance. nia. }
  rewrite (to_uint32_small (mon_width mon - xrr_width size))
    by (unfold UINT32_MOD; nia).
  rewrite (to_uint32_small (mon_height mon - xrr_height size))
    by (unfold UINT32_MOD; nia).
  fold (distance mon size).
  rewrite (to_uint32_small (distance mon size)) by (unfold UINT32_MOD; lia).
  destruct (Z.ltb_spec (distance mon size) cd) as [Hlt|Hge]; cbn [fst snd].
  - right. exists size. split_and!; try done; try lia.
    + rewrite Nat2Z.id. apply lookup_app_Some. right.
      split; [lia|]. by rewrite Nat.sub_diag.
    + intros j s' Hj Hfit'. apply lookup_app_Some in Hj as [Hj|[Hge Hj]].
      * destruct Hinv as [(_ & _ & Hnone)|(s & Hb0 & Hs & Hf & -> & Hmin)].
        -- eapply Forall_forall in Hnone; [done|].
           by eapply list_elem_of_lookup_2.
        -- destruct (Hmin j s' Hj Hfit'). lia.
      * destruct (j - length pre)%nat eqn:Hsub; [|done].
        injection Hj as <-. lia.
  - destruct Hinv as [(_ & -> & _)|(s & Hb0 & Hs & Hf & -> & Hmin)];
      [unfold UINT_MAX, UINT32_MOD in *; lia|].
    right. exists s. split_and!; try done.
    + by apply lookup_app_l_Some.
    + intros j s' Hj Hfit'. apply lookup_app_Some in Hj as [Hj|[Hgej Hj]].
      * by apply Hmin.
      * destruct (j - length pre)%nat eqn:Hsub; [|done].
        injection Hj as <-. split; [lia|].
        apply lookup_lt_Some in Hs. lia.
Qed.

Lemma closest_size_from_spec (mon : VDAgentMonConfig) :
  ∀ sizes pre best cd,
    sizes_in_range mon (pre ++ sizes) →
    closest_so_far mon pre best cd →
    let acc :=
      closest_size_from mon (Z.of_nat (length pre)) sizes (best, cd) in
    closest_so_far mon (pre ++ sizes) acc.1 acc.2.
Proof.
  induction sizes as [|size sizes IH]; intros pre best cd Hrange Hinv.
  - cbn. by rewrite app_nil_r.
  - cbn [closest_size_from]. cbn zeta.
    replace (pre ++ size :: sizes) with ((pre ++ [size]) ++ sizes) in *
      by (by rewrite <- app_assoc).
    replace (Z.of_nat (length pre) + 1)
      with (Z.of_nat (length (pre ++ [size])))
      by (rewrite length_app; cbn [length]; lia).
    pose proof (closest_size_step_spec mon pre size best cd) as Hstep.
    cbn zeta in Hstep.
    destruct (closest_size_step mon (Z.of_nat (length pre)) size (best, cd))
      as [best' cd'].
    apply IH; [done|]. apply Hstep; [|done].
    destruct Hrange as (? & ? & ? & Hsizes). split_and!; try done.
    by apply Forall_app in Hsizes as [? _].
Qed.

Lemma closest_size_is_closest_aux (mon : VDAgentMonConfig)
    (sizes : list XRRScreenSize) :
  sizes_in_range mon sizes →
  let best := closest_size mon sizes in
  (best = -1 ∧ Forall (λ s, ¬ fits mon s) sizes)
  ∨ ∃ size,
      0 <= best ∧ sizes !! Z.to_nat best = Some size ∧ fits mon size
      ∧ ∀ (j : nat) size',
          sizes !! j = Some size' → fits mon size' →
          distance mon size <= distance mon size'
          ∧ (Z.of_nat j < best → distance mon size < distance mon size').
Proof.
  intros Hrange best. subst best. unfold closest_size.
  assert (closest_so_far mon [] (-1) UINT_MAX) as Hinit
    by (left; split_and!; try done; apply Forall_nil_2).
  pose proof (closest_size_from_spec mon sizes [] (-1) UINT_MAX Hrange Hinit)
    as Hspec.
  cbn zeta in Hspec. change (Z.of_nat (length [])) with 0 in Hspec.
  cbn [app] in Hspec.
  destruct Hspec as [(Hb & _ & Hnone)|(size & ? & ? & ? & _ & ?)].
  - left. by split.
  - right. by exists size.
Qed.

(** X20. The search of [vdagent_x11_set_monitor_config] for a screen
    size. With sizes and a monitor whose squared differences do not wrap
    around, the search finds no size exactly when none of the sizes fits
    within the monitor; otherwise it finds a size that fits and is closest
    to the monitor's size (in the sum of the squared differences of width
    and height) among those that fit, the first of them when several are
    as close. *)
Theorem closest_size_is_closest (mon : VDAgentMonConfig)
    (sizes : list XRRScreenSize) :
  sizes_in_range mon sizes →
  let best := closest_size mon sizes in
  (best = -1 ∧ Forall (λ s, ¬ fits mon s) sizes)
  ∨ ∃ size,
      0 <= best ∧ sizes !! Z.to_nat best = Some size ∧ fits mon size
      ∧ ∀ (j : nat) size',
          sizes !! j = Some size' → fits mon size' →
          distance mon size <= distance mon size'
          ∧ (Z.of_nat j < best → distance mon size < distance mon size').
Proof. apply closest_size_is_closest_aux. Qed.


(** X21. [vdagent_x11_set_monitor_config] sets the screen to the size
    its search finds and tells the daemon. Without XRandR, without screen
    sizes, without a size that fits within the first monitor, or without a
    screen configuration, nothing is changed and nothing is sent.
    Otherwise [XRRSetScreenConfig] is called with the index of the closest
    size that fits, the bridge takes the size as the size of the root
    window and the daemon is sent this resolution. *)
Theorem set_monitor_config_sets_closest (x : vdagent_x11)
    (monitors : list VDAgentMonConfig) (mon : VDAgentMonConfig)
    (sizes : list XRRScreenSize) (config_ok : bool)
    (pending : list (XEvent * environment)) :
  monitors !! 0%nat = Some mon →
  sizes_in_range mon sizes →
  vdagent_x11_set_monitor_config x false monitors sizes config_ok pending
    = Some (None, x)
  ∧ (Forall (λ s, ¬ fits mon s) sizes ∨ config_ok = false →
     vdagent_x11_set_monitor_config x true monitors sizes config_ok pending
       = Some (None, x))
  ∧ (¬ Forall (λ s, ¬ fits mon s) sizes → config_ok = true →
     ∃ size x1,
       sizes !! Z.to_nat (closest_size mon sizes) = Some size
       ∧ fits mon size
       ∧ vdagent_x11_set_monitor_config x true monitors sizes config_ok
                                        pending
         = (x' ← vdagent_x11_do_read x1 pending;
            Some (Some (closest_size mon sizes), x'))
       ∧ width x1 = xrr_width size ∧ height x1 = xrr_height size
       ∧ out x1 = out x ++ [udscs_write VDAGENTD_GUEST_XORG_RESOLUTION 0 0
                              (Resolution (xrr_width size)
                                          (xrr_height size))]
       ∧ outbound_of x1 = outbound_of x ∧ inbound_of x1 = inbound_of x
       ∧ catalog_of x1 = catalog_of x ∧ display_of x1 = display_of x).
Proof.
  intros Hmon Hrange.
  pose proof (closest_size_is_closest_aux mon sizes Hrange) as Hbest.
  unfold vdagent_x11_set_monitor_config. cbn [negb]. split_and!.
  - done.
  - intros Hno. destruct sizes as [|size0 sizes]; [done|].
    rewrite Hmon. cbn [mbind option_bind].
    destruct Hbest as [[-> _]|(size & H0 & Hs & Hfit & _)].
    + done.
    + destruct Hno as [Hno| ->].
      * exfalso. eapply Forall_forall in Hno; [done|].
        by eapply list_elem_of_lookup_2.
      * destruct (Z.eqb_spec (closest_size mon (size0 :: sizes)) (-1));
          [lia|done].
  - intros Hsome ->. destruct sizes as [|size0 sizes].
    { exfalso. apply Hsome, Forall_nil_2. }
    rewrite Hmon. cbn [mbind option_bind].
    destruct Hbest as [[_ Hnone]|(size & H0 & Hs & Hfit & _)]; [done|].
    destruct (Z.eqb_spec (closest_size mon (size0 :: sizes)) (-1)); [lia|].
    cbn [negb]. rewrite Hs. cbn [mbind option_bind].
    eexists size, _. split_and!; [done|done|done|..];
      unfold vdagent_x11_send_daemon_guest_xorg_res; by x11_simpl.
Qed.

(** ** The end of the bridge *)

Lemma refusals_filter_other (s s' : Z)
    (queue : list vdagent_x11_selection_request) :
  s ≠ s' →
  refusals s (List.filter (λ r, negb (sel_selection r =? s')) queue)
  = refusals s queue.
Proof.
  intros Hs. unfold refusals. f_equal.
  induction queue as [|r queue IH]; [done|]. cbn [List.filter].
  destruct (Z.eqb_spec (sel_selection r) s') as [Hr|Hr]; cbn [negb].
  - destruct (Z.eqb_spec (sel_selection r) s); [lia|done].
  - cbn [List.filter]. by rewrite IH.
Qed.

Lemma none_answers_filter_other (s s' : Z)
    (queue : list vdagent_x11_conversion_request) :
  s ≠ s' →
  none_answers s (List.filter (λ r, negb (conv_selection r =? s')) queue)
  = none_answers s queue.
Proof.
  intros Hs. unfold none_answers. f_equal.
  induction queue as [|r queue IH]; [done|]. cbn [List.filter].
  destruct (Z.eqb_spec (conv_selection r) s') as [Hr|Hr]; cbn [negb].
  - destruct (Z.eqb_spec (conv_selection r) s); [lia|done].
  - cbn [List.filter]. by rewrite IH.
Qed.

Lemma filter_supported_nil {A} (sel : A → Z) (queue : list A) :
  Forall (λ r, supported (sel r)) queue →
  List.filter (λ r, negb (sel r =? 1))
    (List.filter (λ r, negb (sel r =? 0)) queue) = [].
Proof.
  induction 1 as [|r queue [Hr|Hr] _ IH]; [done|..];
    unfold VD_AGENT_CLIPBOARD_SELECTION_CLIPBOARD,
      VD_AGENT_CLIPBOARD_SELECTION_PRIMARY in Hr;
    repeat (cbn [List.filter Z.eqb Pos.eqb negb]; rewrite ?Hr); done.
Qed.

(** X22. [vdagent_x11_destroy] leaves no request unanswered: before
    the display is closed, every queued selection request has been refused
    with a SelectionNotify whose property is None ([refusals]: one
    [refusal] per request, sent to its requestor), every queued conversion
    request has been answered with CLIPBOARD_DATA of type NONE, and a
    CLIPBOARD_RELEASE has been sent for each selection the guest owned;
    both queues are empty and neither selection has an owner. With a NULL
    pointer nothing is done. *)
Theorem destroy_answers_all (x : vdagent_x11) :
  reachable x →
  vdagent_x11_destroy None = None
  ∧ ∃ x',
      vdagent_x11_destroy (Some x) = Some x'
      ∧ selection_req x' = [] ∧ conversion_req x' = []
      ∧ clipboard_owner_at x' VD_AGENT_CLIPBOARD_SELECTION_CLIPBOARD
        = owner_none
      ∧ clipboard_owner_at x' VD_AGENT_CLIPBOARD_SELECTION_PRIMARY
        = owner_none
      ∧ out x' =
          out x
          ++ refusals VD_AGENT_CLIPBOARD_SELECTION_CLIPBOARD (selection_req x)
          ++ none_answers VD_AGENT_CLIPBOARD_SELECTION_CLIPBOARD
                          (conversion_req x)
          ++ release_message x VD_AGENT_CLIPBOARD_SELECTION_CLIPBOARD
                             owner_none
          ++ refusals VD_AGENT_CLIPBOARD_SELECTION_PRIMARY (selection_req x)
          ++ none_answers VD_AGENT_CLIPBOARD_SELECTION_PRIMARY
                          (conversion_req x)
          ++ release_message x VD_AGENT_CLIPBOARD_SELECTION_PRIMARY
                             owner_none.
Proof.
  intros [Hsel Hconv _ _ _ _]%reachable_inv. split; [done|].
  unfold VD_AGENT_CLIPBOARD_SELECTION_CLIPBOARD,
    VD_AGENT_CLIPBOARD_SELECTION_PRIMARY in *.
  set (x1 := vdagent_x11_set_clipboard_owner x 0 owner_none).
  exists (vdagent_x11_set_clipboard_owner x1 1 owner_none).
  split; [done|]. split_and!.
  - rewrite set_clipboard_owner_selection_req. subst x1.
    rewrite set_clipboard_owner_selection_req.
    by apply (filter_supported_nil sel_selection).
  - rewrite set_clipboard_owner_conversion_req. subst x1.
    rewrite set_clipboard_owner_conversion_req.
    by apply (filter_supported_nil conv_selection).
  - rewrite set_clipboard_owner_other_owner by done.
    apply set_clipboard_owner_owner.
  - apply set_clipboard_owner_owner.
  - rewrite set_clipboard_owner_out. subst x1.
    rewrite set_clipboard_owner_out, set_clipboard_owner_selection_req,
      set_clipboard_owner_conversion_req.
    rewrite refusals_filter_other, none_answers_filter_other by done.
    rewrite <- !app_assoc. do 5 f_equal.
    unfold release_message.
    by rewrite set_clipboard_owner_other_owner by done.
Qed.

(** ** Selections and their atoms *)

(** X23. The two maps between the selections the bridge serves and
    their atoms are inverse to each other: the selection found for the
    atom of an event has this atom, and - on a display on which CLIPBOARD
    and PRIMARY are different atoms - the atom of a selection leads back
    to the selection. Selections other than CLIPBOARD and PRIMARY have no
    atom. *)
Theorem selection_atoms_round_trip (x : vdagent_x11) (selection : Z)
    (a : Atom) :
  (selection_of_atom x a = Some selection →
   vdagent_x11_get_clipboard_atom x selection = Some a)
  ∧ (clipboard_atom x ≠ clipboard_primary_atom x →
     vdagent_x11_get_clipboard_atom x selection = Some a →
     selection_of_atom x a = Some selection
     ∧ ∀ e, xselectionrequest_selection e = a →
            vdagent_x11_get_clipboard_selection x (SelectionRequest e)
            = Some selection)
  ∧ (¬ supported selection →
     vdagent_x11_get_clipboard_atom x selection = None).
Proof.
  unfold selection_of_atom, vdagent_x11_get_clipboard_atom, supported,
    VD_AGENT_CLIPBOARD_SELECTION_CLIPBOARD,
    VD_AGENT_CLIPBOARD_SELECTION_PRIMARY.
  cbn [vdagent_x11_get_clipboard_selection]. unfold selection_of_atom.
  split_and!.
  - destruct (Z.eqb_spec a (clipboard_atom x)) as [->|?];
      [by intros [= <-]|].
    destruct (Z.eqb_spec a (clipboard_primary_atom x)) as [->|?];
      [by intros [= <-]|done].
  - intros Hne.
    destruct (Z.eqb_spec selection 0) as [->|?];
      [|destruct (Z.eqb_spec selection 1) as [->|?]; [|done]];
      intros [= <-]; rewrite ?Z.eqb_refl.
    + split; [done|]. intros e ->. by rewrite Z.eqb_refl.
    + destruct (Z.eqb_spec (clipboard_primary_atom x) (clipboard_atom x));
        [congruence|].
      split; [done|]. intros e ->.
      destruct (Z.eqb_spec (clipboard_primary_atom x) (clipboard_atom x));
        [congruence|]. by rewrite Z.eqb_refl.
  - intros Hs.
    destruct (Z.eqb_spec selection 0); [tauto|].
    destruct (Z.eqb_spec selection 1); [tauto|done].
Qed.

(** ** The state [vdagent_x11_create] builds, continued *)

(** X24. On a display that hands out atoms for the names of the
    catalog and has request sizes in the range of the X protocol,
    [vdagent_x11_create] builds a bridge whose catalog is well formed
    (every format counts its atoms, none of which is None, and there are
    fewer than 256 formats) and whose largest property size is positive
    and at most 256 KiB - whatever events were pending, and for as long as
    the bridge runs. *)
Theorem create_sets_up (XInternAtom : string → Atom)
    (root selection : Window) (extended_max max w h : Z)
    (pending : list (XEvent * environment)) (x x' : vdagent_x11) :
  (∀ name, name ∈ catalog_names → XInternAtom name ≠ XNone) →
  extended_max = 0 ∨ 4096 <= extended_max <= INT_MAX →
  4096 <= max <= INT_MAX →
  vdagent_x11_create XInternAtom root selection extended_max max w h pending
    = Some x →
  rtc step x x' →
  clipboard_formats x' = intern_formats XInternAtom
  ∧ Forall format_ok (clipboard_formats x')
  ∧ Z.of_nat (length (clipboard_formats x')) < MAX_TYPES
  ∧ 0 < max_prop_size x' <= 262144
  ∧ selection_window x' = selection ∧ root_window x' = root.
Proof.
  intros Hatoms Hext Hmax Hcreate Hsteps.
  assert (reachable x) as Hreach by (by eapply reachable_create).
  assert (reachable x' ∧ display_of x' = display_of x) as [_ Hd].
  { clear Hcreate. induction Hsteps as [x|x y z Hstep _ IH].
    - done.
    - pose proof (reachable_inv x Hreach) as Hinv.
      destruct (step_inv x y Hstep Hinv) as [_ Hdy].
      destruct IH as [Hz Hdz]; [by eapply reachable_step|].
      split; [done|]. by rewrite Hdz. }
  unfold vdagent_x11_create in Hcreate.
  apply do_read_inv in Hcreate as [_ Hd0].
  2:{ unfold vdagent_x11_send_daemon_guest_xorg_res.
      split; x11_simpl; try done; try apply Forall_nil_2;
        try (by intros [? ?]);
        intros s;
        unfold clipboard_type_count_at, expected_targets_notifies_at,
          MAX_TYPES, INT_MAX;
        cbn; rewrite lookup_empty; cbn; lia. }
  rewrite Hd0 in Hd. unfold display_of in Hd.
  injection Hd as Hf _ _ _ _ _ Hr Hs Hm.
  rewrite Hf, Hr, Hs, Hm.
  unfold vdagent_x11_send_daemon_guest_xorg_res. x11_simpl.
  destruct (intern_formats_ok XInternAtom Hatoms) as [? ?].
  split_and!; try done; by apply initial_max_prop_size_bounds.
Qed.

(** The bind of the option monad on a result. *)
Lemma bind_result {A B : Type} (a : A) (f : A → option B) :
  Some a ≫= f = f a.
Proof. done. Qed.

(** ** Out of memory while receiving *)

Lemma conversion_request_keeps_space (x : vdagent_x11) (incr : bool)
    (a : action) (x' : vdagent_x11) :
  (x1 ← vdagent_x11_next_conversion_request
          (vdagent_x11_get_selection_free (emit a x) incr);
   vdagent_x11_handle_conversion_request x1) = Some x' →
  clipboard_data_space x'
  = clipboard_data_space (vdagent_x11_get_selection_free (emit a x) incr).
Proof.
  generalize (vdagent_x11_get_selection_free (emit a x) incr). intros z.
  unfold vdagent_x11_next_conversion_request.
  destruct (conversion_req z) as [|r q]; [done|].
  cbn [mbind option_bind]. unfold vdagent_x11_handle_conversion_request.
  replace (conversion_req (set_conversion_req q z)) with q
    by (by x11_simpl).
  destruct q as [|r' q'].
  - intros [= <-]. by x11_simpl.
  - destruct (vdagent_x11_get_clipboard_atom _ _); [|done].
    cbn [mbind option_bind]. intros [= <-]. by x11_simpl.
Qed.

(** X26. When the buffer cannot be enlarged for a chunk of an INCR
    transfer, the transfer is given up: the buffer is dropped, the daemon
    is sent CLIPBOARD_DATA of type NONE for the request, the request
    leaves the queue and no further chunk is expected. *)
Theorem inbound_incr_out_of_memory (x : vdagent_x11)
    (req : vdagent_x11_conversion_request)
    (next : list vdagent_x11_conversion_request) (clip : Atom) (type : Z)
    (received chunk : list Z) :
  reachable x →
  incr_receiving x req next received →
  vdagent_x11_get_clipboard_atom x (conv_selection req) = Some clip →
  vdagent_x11_target_to_type x (conv_selection req) (conv_target req)
    = Some type →
  chunk ≠ [] →
  Z.of_nat (length (received ++ chunk)) <= INT_MAX →
  clipboard_data_space x < Z.of_nat (length (received ++ chunk)) →
  ∃ x',
    vdagent_x11_handle_event x
      (PropertyNotify (selection_window x) clip PropertyNewValue)
      (chunk_out_of_memory req chunk) = Some x'
    ∧ daemon_messages (out x') =
        daemon_messages (out x)
        ++ [udscs_write VDAGENTD_CLIPBOARD_DATA (conv_selection req)
                        VD_AGENT_CLIPBOARD_NONE NoData]
    ∧ conversion_req x' = next
    ∧ expect_property_notify x' = false
    ∧ clipboard_data_size x' = 0
    ∧ clipboard_data_space x' = 0.
Proof.
  intros Hreach (Hq & He & Hs & Hd) Hclip Htype Hne Hlen Hspace.
  destruct (reachable_inv x Hreach) as [_ Hconv _ _ _ _].
  rewrite Hq in Hconv. apply Forall_cons in Hconv as [_ Hnext].
  rewrite length_app in Hlen, Hspace.
  assert (0 < Z.of_nat (length chunk))
    by (destruct chunk; [done|cbn [length]; lia]).
  unfold vdagent_x11_handle_event. rewrite He.
  change (bool_decide (PropertyNewValue = PropertyNewValue)) with true.
  cbn [andb].
  unfold vdagent_x11_handle_selection_notify.
  rewrite Hq, Hclip. cbn [mbind option_bind].
  rewrite !Z.eqb_refl. cbn [negb orb].
  rewrite Htype. cbn [mbind option_bind Z.eqb].
  unfold vdagent_x11_get_selection. cbn [negb andb orb]. cbv zeta.
  cbn [chunk_out_of_memory chunk_arrived env_reply env_alloc_ok
       reply_success reply_type reply_format reply_items negb andb].
  unfold get_selection_data, get_selection_exit.
  cbn [chunk_out_of_memory chunk_arrived env_reply env_alloc_ok
       reply_success reply_type reply_format reply_items negb andb].
  rewrite !Z.eqb_refl. cbn [negb Z.eqb Pos.eqb].
  destruct (Z.eqb_spec (Z.of_nat (length chunk)) 0); [lia|]. cbn [negb].
  assert (∀ a, clipboard_data_size (emit a x) = clipboard_data_size x) as H1
    by (intros; by x11_simpl).
  assert (∀ a, clipboard_data_space (emit a x) = clipboard_data_space x) as H2
    by (intros; by x11_simpl).
  rewrite !H1, !H2, Hs. clear H1 H2.
  unfold INT_MAX in Hlen.
  assert (to_ulong (Z.of_nat (length received) + Z.of_nat (length chunk))
          = Z.of_nat (length received) + Z.of_nat (length chunk)) as ->.
  { unfold to_ulong, ULONG_MOD. apply Z.mod_small. lia. }
  destruct (Z.ltb_spec (clipboard_data_space x)
              (Z.of_nat (length received) + Z.of_nat (length chunk)));
    [|lia].
  rewrite (bind_result (_, _, _)). cbn beta iota.
  cbn [Z.eqb Pos.eqb]. unfold data_payload. cbn [Z.eqb].
  match goal with
  | |- context [vdagent_x11_get_selection_free (emit ?a ?y) true] =>
      destruct (conversion_request_answered y req next true a)
        as (x' & Hx' & Hout' & Hq' & He' & Hs');
      [revert Hq; clear; by x11_simpl|done|done|];
      pose proof (conversion_request_keeps_space y true a x' Hx') as Hsp;
      assert (clipboard_data_space
                (vdagent_x11_get_selection_free (emit a y) true) = 0) as Hz
  end.
  { unfold vdagent_x11_get_selection_free.
    match goal with
    | |- context [if ?c then _ else _] => destruct c
    end; clear; by x11_simpl. }
  rewrite Hx'. cbn [mbind option_bind].
  change (bool_decide (PropertyNewValue = PropertyDelete)) with false.
  rewrite andb_false_r.
  exists x'. split; [done|]. rewrite Hout', Hq', He', Hs'.
  split_and!; try (by x11_simpl); try (by rewrite Hsp).
  f_equal.
  match goal with
  | |- daemon_messages (out ?y) = _ =>
      match y with
      | context [emit (XGetWindowProperty ?w ?p ?d ?t)] =>
          replace (out y) with (out x ++ [XGetWindowProperty w p d t])
            by (clear; by x11_simpl)
      end
  end.
  by rewrite daemon_messages_app, app_nil_r.
Qed.

(** ** A TARGETS reply that cannot be used *)

(** X27. When the TARGETS reply that was waited for gives no list
    of atoms - the owner refused, or the property cannot be read, is of
    another type or format, or is empty - nothing is recorded and nobody
    is told: the owner of the selection and the types recorded for it are
    as they were, no message goes to the daemon, and no further reply is
    expected. *)
Theorem unusable_targets_reply_changes_nothing (x : vdagent_x11)
    (e : XSelectionEvent) (selection : Z) (env : environment) :
  selection_of_atom x (xselection_selection e) = Some selection →
  xselection_target e = targets_atom x →
  expected_targets_notifies_at x selection = 1 →
  targets_unreadable x e (env_reply env) →
  ∃ x',
    vdagent_x11_handle_event x (SelectionNotify e) env = Some x'
    ∧ expected_targets_notifies_at x' selection = 0
    ∧ clipboard_owner x' = clipboard_owner x
    ∧ clipboard_type_count x' = clipboard_type_count x
    ∧ clipboard_agent_types x' = clipboard_agent_types x
    ∧ clipboard_x11_targets x' = clipboard_x11_targets x
    ∧ daemon_messages (out x') = daemon_messages (out x)
    ∧ outbound_of x' = outbound_of x ∧ inbound_of x' = inbound_of x.
Proof.
  intros Hsel Htarget Hexp Hbad.
  unfold vdagent_x11_handle_event. rewrite Htarget, Z.eqb_refl.
  unfold vdagent_x11_handle_targets_notify.
  cbn [vdagent_x11_get_clipboard_selection]. rewrite Hsel, Hexp.
  cbn [Z.eqb Pos.eqb]. change (1 - 1) with 0.
  set (x1 := set_expected_targets_notifies
               (<[selection := 0]> (expected_targets_notifies x)) x).
  assert (expected_targets_notifies_at x1 selection = 0) as Hexp1.
  { unfold expected_targets_notifies_at. subst x1. x11_simpl.
    by rewrite lookup_insert_eq. }
  rewrite Hexp1. cbn [Z.eqb negb].
  assert (∀ y, daemon_messages (out y) = daemon_messages (out x1)
               → catalog_of y = catalog_of x1
               → outbound_of y = outbound_of x1
               → inbound_of y = inbound_of x1
               → expected_targets_notifies_at y selection = 0
                 ∧ clipboard_owner y = clipboard_owner x
                 ∧ clipboard_type_count y = clipboard_type_count x
                 ∧ clipboard_agent_types y = clipboard_agent_types x
                 ∧ clipboard_x11_targets y = clipboard_x11_targets x
                 ∧ daemon_messages (out y) = daemon_messages (out x)
                 ∧ outbound_of y = outbound_of x
                 ∧ inbound_of y = inbound_of x) as Hsame.
  { intros y Hout Hc Ho Hi. rewrite Hout, Ho, Hi.
    unfold catalog_of in Hc. injection Hc as He Hw Ht Ha Hx.
    unfold expected_targets_notifies_at in *. rewrite He, Hw, Ht, Ha, Hx.
    split; [exact Hexp1|]. subst x1. by x11_simpl. }
  assert (∀ a, daemon_messages [a] = []
               → expected_targets_notifies_at (emit a x1) selection = 0
                 ∧ clipboard_owner (emit a x1) = clipboard_owner x
                 ∧ clipboard_type_count (emit a x1) = clipboard_type_count x
                 ∧ clipboard_agent_types (emit a x1)
                   = clipboard_agent_types x
                 ∧ clipboard_x11_targets (emit a x1)
                   = clipboard_x11_targets x
                 ∧ daemon_messages (out (emit a x1))
                   = daemon_messages (out x)
                 ∧ outbound_of (emit a x1) = outbound_of x
                 ∧ inbound_of (emit a x1) = inbound_of x) as Hread.
  { intros a Ha. apply Hsame; try (by x11_simpl).
    replace (out (emit a x1)) with (out x1 ++ [a]) by (by x11_simpl).
    by rewrite daemon_messages_app, Ha, app_nil_r. }
  assert (expected_targets_notifies_at x1 selection = 0
          ∧ clipboard_owner x1 = clipboard_owner x
          ∧ clipboard_type_count x1 = clipboard_type_count x
          ∧ clipboard_agent_types x1 = clipboard_agent_types x
          ∧ clipboard_x11_targets x1 = clipboard_x11_targets x
          ∧ daemon_messages (out x1) = daemon_messages (out x)
          ∧ outbound_of x1 = outbound_of x
          ∧ inbound_of x1 = inbound_of x) as Hidle
    by (by apply Hsame).
  assert (targets_atom x1 = targets_atom x
          ∧ selection_window x1 = selection_window x) as [Hta Hwin]
    by (subst x1; by x11_simpl).
  clearbody x1.
  unfold vdagent_x11_get_selection, get_selection_data, get_selection_exit.
  cbn [xselection negb andb orb]. rewrite Hta, Hwin.
  destruct (Z.eqb_spec (xselection_property e) XNone) as [Hp|Hp];
    cbn [negb andb orb mbind option_bind Z.eqb].
  { by exists x1. }
  destruct (Z.eqb_spec (xselection_requestor e) (selection_window x))
    as [Hr|Hr]; cbn [negb andb orb mbind option_bind Z.eqb].
  2:{ by exists x1. }
  destruct (Z.eqb_spec (xselection_property e) (targets_atom x))
    as [Hpt|Hpt]; cbn [negb andb orb mbind option_bind Z.eqb].
  2:{ by exists x1. }
  cbv zeta.
  assert (∀ a, targets_atom (emit a x1) = targets_atom x) as Hta'
    by (intros; rewrite <- Hta; by x11_simpl).
  rewrite !Hta', Z.eqb_refl. cbn [negb andb].
  destruct (reply_success (env_reply env)) eqn:Hsucc;
    cbn [negb andb orb mbind option_bind Z.eqb].
  2:{ eexists. split; [done|]. by apply Hread. }
  destruct (Z.eqb_spec (reply_type (env_reply env)) XA_ATOM) as [Hty|Hty];
    cbn [negb andb orb mbind option_bind Z.eqb].
  2:{ eexists. split; [done|]. by apply Hread. }
  destruct (Z.eqb_spec (reply_format (env_reply env)) 32) as [Hf|Hf];
    cbn [negb andb orb mbind option_bind Z.eqb].
  2:{ eexists. split; [done|]. by apply Hread. }
  cbn [Z.eqb Pos.eqb].
  destruct Hbad as [?|[?|[?|[?|[?|[?|Hempty]]]]]]; try congruence.
  rewrite Hempty. cbn [length Z.of_nat Z.mul].
  change (to_ulong 0) with 0. cbn [Z.ltb Z.compare mbind option_bind Z.eqb].
  eexists. split; [done|]. by apply Hread.
Qed.

(** ** Evaluations on the sample runs, continued *)

Lemma sample_start_reachable : reachable sample_start.
Proof.
  apply (reachable_create sample_XInternAtom 50 77 0 108 1024 768 []).
  by vm_compute.
Qed.

Lemma sample_client_reachable : reachable sample_client.
Proof.
  apply (reachable_step sample_start); [apply sample_start_reachable|].
  apply (step_clipboard_grab _ 0 [1] 1 []); by vm_compute.
Qed.

Lemma sample_awaiting_reachable : reachable sample_awaiting.
Proof.
  apply (reachable_step sample_client); [apply sample_client_reachable|].
  apply (step_do_read _
           [(SelectionRequest (sample_request 300 304 555), no_reply);
            (SelectionRequest (sample_request 1 304 556), no_reply)]).
  by vm_compute.
Qed.

Lemma sample_incr_reachable : reachable sample_incr.
Proof.
  apply (reachable_step sample_awaiting); [apply sample_awaiting_reachable|].
  apply (step_clipboard_data _ 0 1 twenty_bytes 20 []). by vm_compute.
Qed.

Lemma sample_guest_reachable : reachable sample_guest.
Proof.
  apply (reachable_step sample_start); [apply sample_start_reachable|].
  apply (step_do_read _
           [(XFixesSelectionNotify XFixesSetSelectionOwnerNotify 900 300,
             no_reply);
            (SelectionNotify (sample_targets_reply 300),
             announces [307; 306; 304]);
            (XFixesSelectionNotify XFixesSetSelectionOwnerNotify 900 1,
             no_reply);
            (SelectionNotify (sample_targets_reply 1),
             announces [304; 307])]).
  by vm_compute.
Qed.

Lemma sample_guest_busy_reachable : reachable sample_guest_busy.
Proof.
  apply (reachable_step
           (force (x ← vdagent_x11_clipboard_request sample_guest 0 1 true [];
                   vdagent_x11_clipboard_request x 1 1 true []))).
  - apply (reachable_step
             (force (vdagent_x11_clipboard_request sample_guest 0 1 true []))).
    + apply (reachable_step sample_guest); [apply sample_guest_reachable|].
      apply (step_clipboard_request _ 0 1 true []). by vm_compute.
    + apply (step_clipboard_request _ 1 1 true []). by vm_compute.
  - apply (step_clipboard_request _ 0 2 true []). by vm_compute.
Qed.

Lemma sample_receiving_reachable : reachable sample_receiving.
Proof.
  apply (reachable_step sample_guest_busy);
    [apply sample_guest_busy_reachable|].
  apply (step_do_read _
           ((SelectionNotify sample_answer,
             incr_announced sample_guest_busy 3)
            :: chunk_events sample_guest_busy
                 {| conv_target := 304; conv_selection := 0 |} 300
                 [[104; 105]])).
  by vm_compute.
Qed.

Lemma sample_later_target_reachable : reachable sample_later_target.
Proof.
  apply (reachable_step
           (force (vdagent_x11_do_read sample_start
                     [(XFixesSelectionNotify XFixesSetSelectionOwnerNotify
                                             900 300, no_reply);
                      (SelectionNotify (sample_targets_reply 300),
                       announces [306])]))).
  - apply (reachable_step sample_start); [apply sample_start_reachable|].
    apply (step_do_read _
             [(XFixesSelectionNotify XFixesSetSelectionOwnerNotify 900 300,
               no_reply);
              (SelectionNotify (sample_targets_reply 300),
               announces [306])]).
    by vm_compute.
  - apply (step_clipboard_request _ 0 1 true []). by vm_compute.
Qed.

(** X1, in [sample_guest_busy], where three conversion requests are
    queued. *)
Lemma reachable_queues_supported_witness :
  reachable sample_guest_busy
  ∧ Forall (λ r, supported (conv_selection r))
           (conversion_req sample_guest_busy)
  ∧ is_Some (vdagent_x11_handle_conversion_request sample_guest_busy).
Proof.
  split; [apply sample_guest_busy_reachable|].
  destruct (reachable_queues_supported sample_guest_busy
              sample_guest_busy_reachable) as (_ & Hc & Hs).
  by split.
Defined.

(** X2, in [sample_incr], where twenty bytes are being sent. *)
Lemma reachable_incr_buffer_has_request_witness :
  reachable sample_incr
  ∧ is_Some (selection_req_data sample_incr)
  ∧ selection_req sample_incr ≠ [].
Proof.
  assert (is_Some (selection_req_data sample_incr)) as Hd
    by (exists twenty_bytes; by vm_compute).
  split; [apply sample_incr_reachable|]. split; [exact Hd|].
  exact (reachable_incr_buffer_has_request sample_incr
           sample_incr_reachable Hd).
Defined.

(** X3, for CLIPBOARD in [sample_guest]. *)
Lemma reachable_counts_in_range_witness :
  reachable sample_guest
  ∧ 0 <= clipboard_type_count_at sample_guest 0 <= MAX_TYPES
  ∧ 0 <= expected_targets_notifies_at sample_guest 0 <= INT_MAX.
Proof.
  split; [apply sample_guest_reachable|].
  exact (reachable_counts_in_range sample_guest 0 sample_guest_reachable).
Defined.

(** X4, in [sample_guest_busy], which waits for the owner's answer. *)
Lemma reachable_received_size_reset_witness :
  reachable sample_guest_busy
  ∧ expect_property_notify sample_guest_busy = false
  ∧ clipboard_data_size sample_guest_busy = 0.
Proof.
  assert (expect_property_notify sample_guest_busy = false) as He
    by (by vm_compute).
  split; [apply sample_guest_busy_reachable|]. split; [exact He|].
  exact (reachable_received_size_reset sample_guest_busy
           sample_guest_busy_reachable He).
Defined.

(** X5, for the grab that leads from [sample_start] to
    [sample_client]. *)
Lemma step_keeps_display_witness :
  reachable sample_start
  ∧ step sample_start sample_client
  ∧ display_of sample_client = display_of sample_start.
Proof.
  assert (step sample_start sample_client) as Hstep
    by (apply (step_clipboard_grab _ 0 [1] 1 []); by vm_compute).
  split; [apply sample_start_reachable|]. split; [exact Hstep|].
  exact (step_keeps_display sample_start sample_client
           sample_start_reachable Hstep).
Defined.

(** X6, in [sample_queued]: the request for PRIMARY is refused, the
    TARGETS request is answered on its property 557, and one
    CLIPBOARD_REQUEST is posted for the request for UTF8_STRING, which
    stays queued. In [sample_later_request] the target is no first name
    of a format. *)
Lemma handle_selection_request_drains_witness :
  (selection_req sample_queued
   = [{| sel_event := sample_request 1 304 556; sel_selection := 1 |};
      {| sel_event := sample_request 300 301 557; sel_selection := 0 |}]
     ++ [{| sel_event := sample_request 300 304 558; sel_selection := 0 |}]
   ∧ Forall (answered_at_once sample_queued)
       [{| sel_event := sample_request 1 304 556; sel_selection := 1 |};
        {| sel_event := sample_request 300 301 557; sel_selection := 0 |}]
   ∧ needs_data sample_queued
       {| sel_event := sample_request 300 304 558; sel_selection := 0 |} 1
   ∧ ∃ calls,
       vdagent_x11_handle_selection_request sample_queued
         = Some (set_out (out sample_queued ++ calls)
                   (set_selection_req
                      [{| sel_event := sample_request 300 304 558;
                          sel_selection := 0 |}] sample_queued))
       ∧ sent_events calls
         = [(900, {| xselection_requestor := 900;
                     xselection_selection := 1;
                     xselection_target := 304;
                     xselection_property := XNone;
                     xselection_time := 12345 |});
            (900, {| xselection_requestor := 900;
                     xselection_selection := 300;
                     xselection_target := 301;
                     xselection_property := 557;
                     xselection_time := 12345 |})]
       ∧ daemon_messages calls
         = [udscs_write VDAGENTD_CLIPBOARD_REQUEST 0 1 NoData])
  ∧ (selection_req sample_later_request
     = [] ++ [{| sel_event := sample_request 300 305 559;
                 sel_selection := 0 |}]
     ∧ ¬ answered_at_once sample_later_request
           {| sel_event := sample_request 300 305 559; sel_selection := 0 |}
     ∧ vdagent_x11_target_to_type sample_later_request 0 305 = None
     ∧ vdagent_x11_handle_selection_request sample_later_request = None).
Proof.
  split.
  - assert (selection_req sample_queued
            = [{| sel_event := sample_request 1 304 556;
                  sel_selection := 1 |};
               {| sel_event := sample_request 300 301 557;
                  sel_selection := 0 |}]
              ++ [{| sel_event := sample_request 300 304 558;
                     sel_selection := 0 |}]) as Hq by (by vm_compute).
    assert (Forall (answered_at_once sample_queued)
              [{| sel_event := sample_request 1 304 556;
                  sel_selection := 1 |};
               {| sel_event := sample_request 300 301 557;
                  sel_selection := 0 |}]) as Hall.
    { apply Forall_cons_2; [left; by vm_compute|].
      apply Forall_cons_2; [right; right; by vm_compute|].
      apply Forall_nil_2. }
    assert (needs_data sample_queued
              {| sel_event := sample_request 300 304 558;
                 sel_selection := 0 |} 1) as Hneeds
      by (split_and!; by vm_compute).
    split; [exact Hq|]. split; [exact Hall|]. split; [exact Hneeds|].
    destruct (handle_selection_request_drains sample_queued _ _ Hq Hall)
      as (_ & Hhead & _).
    destruct (Hhead _ 1 eq_refl Hneeds) as (calls & Hrun & Hans & Hmsg).
    exists calls. split; [exact Hrun|]. split; [|exact Hmsg].
    rewrite Hans. by vm_compute.
  - assert (selection_req sample_later_request
            = [] ++ [{| sel_event := sample_request 300 305 559;
                        sel_selection := 0 |}]) as Hq by (by vm_compute).
    assert (¬ answered_at_once sample_later_request
                {| sel_event := sample_request 300 305 559;
                   sel_selection := 0 |}) as Hnot.
    { intros [H|[H|H]]; revert H; by vm_compute. }
    assert (vdagent_x11_target_to_type sample_later_request 0 305 = None)
      as Htype by (by vm_compute).
    split; [exact Hq|]. split; [exact Hnot|]. split; [exact Htype|].
    destruct (handle_selection_request_drains sample_later_request _ _ Hq
                (Forall_nil_2 _)) as (_ & _ & Hundef).
    exact (Hundef _ eq_refl Hnot Htype).
Defined.


(** X8, in [sample_awaiting]: a request for SECONDARY-like atom 999 is
    dropped, the two others are queued behind the two that wait. *)
Lemma selection_requests_queue_up_witness :
  selection_req sample_awaiting ≠ []
  ∧ selection_req
      (force (vdagent_x11_do_read sample_awaiting
                (selection_requests
                   [(sample_request 300 307 600, no_reply);
                    (sample_request 999 304 601, no_reply);
                    (sample_request 1 304 602, no_reply)])))
    = [sample_head; sample_second;
       {| sel_event := sample_request 300 307 600; sel_selection := 0 |};
       {| sel_event := sample_request 1 304 602; sel_selection := 1 |}].
Proof.
  assert (selection_req sample_awaiting ≠ []) as Hq by (by vm_compute).
  split; [exact Hq|].
  rewrite (selection_requests_queue_up sample_awaiting _ Hq).
  by vm_compute.
Defined.

(** X9, in [sample_incr], which sends to window 900 on property 555:
    the deletion of property 556 of that window is not the requestor's
    next step. *)
Lemma unrelated_property_notify_ignored_witness :
  reachable sample_incr
  ∧ ¬ continues_receive sample_incr 900 556 PropertyDelete
  ∧ ¬ continues_send sample_incr 900 556 PropertyDelete
  ∧ vdagent_x11_handle_event sample_incr
      (PropertyNotify 900 556 PropertyDelete) no_reply = Some sample_incr.
Proof.
  assert (¬ continues_receive sample_incr 900 556 PropertyDelete) as Hr
    by (by intros [? _]).
  assert (¬ continues_send sample_incr 900 556 PropertyDelete) as Hs.
  { intros (_ & _ & req & next & _ & _ & Ha).
    assert (selection_req_atom sample_incr = 555) as Hatom by (by vm_compute).
    rewrite Hatom in Ha. done. }
  split; [apply sample_incr_reachable|]. split; [exact Hr|].
  split; [exact Hs|].
  exact (unrelated_property_notify_ignored sample_incr 900 556 PropertyDelete
           no_reply sample_incr_reachable Hr Hs).
Defined.

(** X10, in [sample_guest], whose owner of CLIPBOARD offers text as
    UTF8_STRING and PNG: PNG is asked for as image/png, and BMP has no
    target. *)
Lemma type_to_target_looks_up_witness :
  clipboard_type_count_at sample_guest 0 = 2
  ∧ vdagent_x11_type_to_target sample_guest 0 2 = 307
  ∧ vdagent_x11_type_to_target sample_guest 0 3 = XNone.
Proof.
  assert (clipboard_type_count_at sample_guest 0
          = Z.of_nat (length [(1, 304); (2, 307)])) as Hc by (by vm_compute).
  assert (∀ (i : nat) t a, [(1, 304); (2, 307)] !! i = Some (t, a) →
            clipboard_agent_types_at sample_guest 0 (Z.of_nat i) = t
            ∧ clipboard_x11_targets_at sample_guest 0 (Z.of_nat i) = a)
    as Hrows.
  { intros [|[|i]] t a Hi; [| |done]; injection Hi as <- <-;
      split; by vm_compute. }
  split; [by vm_compute|]. split.
  - destruct (type_to_target_looks_up sample_guest 0 2 _ Hc Hrows)
      as [Hfound _].
    etrans; [exact Hfound|]. by vm_compute.
  - destruct (type_to_target_looks_up sample_guest 0 3 _ Hc Hrows)
      as [_ Hnone].
    apply Hnone. apply (bool_decide_unpack _). by vm_compute.
Defined.

(** X11, in [sample_client], where the client and not the guest owns
    CLIPBOARD. *)
Lemma clipboard_request_refused_witness :
  clipboard_owner_at sample_client 0 ≠ owner_guest
  ∧ vdagent_x11_clipboard_request sample_client 0 1 true []
    = Some (emit (udscs_write VDAGENTD_CLIPBOARD_DATA 0
                    VD_AGENT_CLIPBOARD_NONE NoData) sample_client).
Proof.
  assert (clipboard_owner_at sample_client 0 ≠ owner_guest) as Ho
    by (by vm_compute).
  split; [exact Ho|].
  exact (clipboard_request_refused sample_client 0 1 true [] (or_introl Ho)).
Defined.

(** X12, in [sample_guest], with no request queued: the conversion of
    CLIPBOARD to image/png is asked for. *)
Lemma clipboard_request_converts_witness :
  vdagent_x11_get_clipboard_atom sample_guest 0 = Some 300
  ∧ clipboard_owner_at sample_guest 0 = owner_guest
  ∧ vdagent_x11_type_to_target sample_guest 0 2 ≠ XNone
  ∧ vdagent_x11_clipboard_request sample_guest 0 2 true []
    = Some (emit (XConvertSelection 300 307 300 77)
              (set_conversion_req
                 [{| conv_target := 307; conv_selection := 0 |}]
                 sample_guest)).
Proof.
  assert (vdagent_x11_get_clipboard_atom sample_guest 0 = Some 300) as Hc
    by (by vm_compute).
  assert (clipboard_owner_at sample_guest 0 = owner_guest) as Ho
    by (by vm_compute).
  assert (vdagent_x11_type_to_target sample_guest 0 2 ≠ XNone) as Ht
    by (by vm_compute).
  split; [exact Hc|]. split; [exact Ho|]. split; [exact Ht|].
  pose proof (clipboard_request_converts sample_guest 0 2 300 [] Hc Ho Ht)
    as H.
  cbv zeta in H. vm_compute in H. vm_compute. exact H.
Defined.

(** X13, in [sample_guest_busy]: the owner of CLIPBOARD delivers two
    bytes of text; and it refuses. In [sample_later_target] the target of
    the head request is atom 306, no first name of a format. *)
Lemma selection_notify_answers_once_witness :
  (reachable sample_guest_busy
   ∧ conversion_req sample_guest_busy
     = [{| conv_target := 304; conv_selection := 0 |};
        {| conv_target := 304; conv_selection := 1 |};
        {| conv_target := 307; conv_selection := 0 |}]
   ∧ vdagent_x11_target_to_type sample_guest_busy 0 304 = Some 1)
  ∧ (∃ x',
       vdagent_x11_handle_event sample_guest_busy
         (SelectionNotify sample_answer)
         (chunk_arrived {| conv_target := 304; conv_selection := 0 |}
                        [104; 105]) = Some x'
       ∧ daemon_messages (out x') =
           daemon_messages (out sample_guest_busy)
           ++ [udscs_write VDAGENTD_CLIPBOARD_DATA 0 1 (Bytes [104; 105])])
  ∧ (∃ x',
       vdagent_x11_handle_event sample_guest_busy
         (SelectionNotify
            {| xselection_requestor := 77; xselection_selection := 300;
               xselection_target := 304; xselection_property := XNone;
               xselection_time := 0 |})
         no_reply = Some x'
       ∧ daemon_messages (out x') =
           daemon_messages (out sample_guest_busy)
           ++ [udscs_write VDAGENTD_CLIPBOARD_DATA 0 VD_AGENT_CLIPBOARD_NONE
                           NoData])
  ∧ (reachable sample_later_target
     ∧ conversion_req sample_later_target
       = [{| conv_target := 306; conv_selection := 0 |}]
     ∧ vdagent_x11_target_to_type sample_later_target 0 306 = None
     ∧ vdagent_x11_handle_event sample_later_target
         (SelectionNotify
            {| xselection_requestor := 77; xselection_selection := 300;
               xselection_target := 306; xselection_property := 300;
               xselection_time := 0 |})
         (chunk_arrived {| conv_target := 306; conv_selection := 0 |}
                        [104; 105]) = None).
Proof.
  assert (conversion_req sample_guest_busy
          = [{| conv_target := 304; conv_selection := 0 |};
             {| conv_target := 304; conv_selection := 1 |};
             {| conv_target := 307; conv_selection := 0 |}]) as Hq
    by (by vm_compute).
  assert (vdagent_x11_get_clipboard_atom sample_guest_busy 0 = Some 300)
    as Hclip by (by vm_compute).
  assert (vdagent_x11_target_to_type sample_guest_busy 0 304 = Some 1)
    as Htype by (by vm_compute).
  split; [split; [apply sample_guest_busy_reachable|by split]|].
  split; [|split].
  - destruct (selection_notify_answers_once sample_guest_busy _ _ 300
                sample_answer
                (chunk_arrived {| conv_target := 304; conv_selection := 0 |}
                               [104; 105])
                sample_guest_busy_reachable Hq Hclip
                ltac:(by vm_compute) ltac:(by vm_compute)
                ltac:(by vm_compute)) as [Hanswer _].
    destruct (Hanswer 1 Htype) as (x' & Hx' & Hout & _).
    exists x'. split; [exact Hx'|]. vm_compute in Hout. vm_compute.
    exact Hout.
  - destruct (selection_notify_answers_once sample_guest_busy _ _ 300
                {| xselection_requestor := 77; xselection_selection := 300;
                   xselection_target := 304; xselection_property := XNone;
                   xselection_time := 0 |}
                no_reply
                sample_guest_busy_reachable Hq Hclip
                ltac:(by vm_compute) ltac:(by vm_compute)
                ltac:(by vm_compute)) as [Hanswer _].
    destruct (Hanswer 1 Htype) as (x' & Hx' & Hout & _).
    exists x'. split; [exact Hx'|]. vm_compute in Hout. vm_compute.
    exact Hout.
  - assert (conversion_req sample_later_target
            = [{| conv_target := 306; conv_selection := 0 |}]) as Hq'
      by (by vm_compute).
    assert (vdagent_x11_target_to_type sample_later_target 0 306 = None)
      as Htype' by (by vm_compute).
    split; [apply sample_later_target_reachable|].
    split; [exact Hq'|]. split; [exact Htype'|].
    destruct (selection_notify_answers_once sample_later_target _ _ 300
                {| xselection_requestor := 77; xselection_selection := 300;
                   xselection_target := 306; xselection_property := 300;
                   xselection_time := 0 |}
                (chunk_arrived {| conv_target := 306; conv_selection := 0 |}
                               [104; 105])
                sample_later_target_reachable Hq'
                ltac:(by vm_compute) ltac:(by vm_compute)
                ltac:(by vm_compute) ltac:(by vm_compute)) as [_ Hundef].
    exact (Hundef Htype').
Defined.

(** X14, in [sample_receiving], which has received two bytes: the owner
    of CLIPBOARD writes one more and ends the transfer. *)
Lemma inbound_incr_round_trip_witness :
  reachable sample_receiving
  ∧ incr_receiving sample_receiving
      {| conv_target := 304; conv_selection := 0 |}
      [{| conv_target := 304; conv_selection := 1 |};
       {| conv_target := 307; conv_selection := 0 |}] [104; 105]
  ∧ vdagent_x11_target_to_type sample_receiving 0 304 = Some 1
  ∧ ∃ x',
      vdagent_x11_do_read sample_receiving
        (chunk_events sample_receiving
           {| conv_target := 304; conv_selection := 0 |} 300
           [[106]; []]) = Some x'
      ∧ daemon_messages (out x') =
          daemon_messages (out sample_receiving)
          ++ [udscs_write VDAGENTD_CLIPBOARD_DATA 0 1
                          (Bytes [104; 105; 106])]
      ∧ conversion_req x'
        = [{| conv_target := 304; conv_selection := 1 |};
           {| conv_target := 307; conv_selection := 0 |}]
      ∧ expect_property_notify x' = false
      ∧ clipboard_data_size x' = 0.
Proof.
  assert (incr_receiving sample_receiving
            {| conv_target := 304; conv_selection := 0 |}
            [{| conv_target := 304; conv_selection := 1 |};
             {| conv_target := 307; conv_selection := 0 |}] [104; 105])
    as Hrecv by (split_and!; by vm_compute).
  assert (vdagent_x11_target_to_type sample_receiving 0 304 = Some 1)
    as Htype by (by vm_compute).
  assert (Forall (λ chunk : list Z, chunk ≠ []) [[106]]) as Hne
    by (apply Forall_cons_2; [done|apply Forall_nil_2]).
  split; [apply sample_receiving_reachable|]. split; [exact Hrecv|].
  split; [exact Htype|].
  destruct (inbound_incr_round_trip sample_receiving _ _ 300 [104; 105]
              [[106]] sample_receiving_reachable Hrecv
              ltac:(by vm_compute) Hne ltac:(done) ltac:(by vm_compute))
    as [Hrun _].
  exact (Hrun 1 Htype).
Defined.

(** X15, in [sample_start]: the client announces text and PNG for
    CLIPBOARD. *)
Lemma clipboard_grab_records_witness :
  vdagent_x11_get_clipboard_atom sample_start 0 = Some 300
  ∧ ∃ x1,
      (∀ pending,
         vdagent_x11_clipboard_grab sample_start 0 [1; 2] 2 pending
         = vdagent_x11_do_read x1 pending)
      ∧ clipboard_type_count_at x1 0 = 2
      ∧ agent_types_row x1 0 = [1; 2]
      ∧ clipboard_owner_at x1 0 = owner_client.
Proof.
  assert (vdagent_x11_get_clipboard_atom sample_start 0 = Some 300) as Hc
    by (by vm_compute).
  split; [exact Hc|].
  destruct (clipboard_grab_records sample_start 0 [1; 2] 2 300 Hc
              ltac:(by vm_compute))
    as (x1 & Hgrab & Hcount & Hrow & _ & Ho & _).
  exists x1. split; [exact Hgrab|]. split; [exact Hcount|].
  split; [exact Hrow|exact Ho].
Defined.

(** X16, in [sample_start]: the client announces text, and window 900
    asks for the TARGETS of CLIPBOARD with no property named. *)
Lemma granted_types_are_offered_witness :
  vdagent_x11_get_clipboard_atom sample_start 0 = Some 300
  ∧ selection_req sample_start = []
  ∧ ∃ x',
      vdagent_x11_clipboard_grab sample_start 0 [1] 1
        [(SelectionRequest (sample_request 300 301 0), no_reply)] = Some x'
      ∧ out x' = out sample_start
                 ++ [XSetSelectionOwner 300 77;
                     XChangeProperty 900 301 XA_ATOM 32 [301; 304; 305; 306]
                                     4;
                     XSendEvent 900 (selection_notify 301
                                       (sample_request 300 301 0))]
      ∧ selection_req x' = [].
Proof.
  assert (vdagent_x11_get_clipboard_atom sample_start 0 = Some 300) as Hc
    by (by vm_compute).
  assert (selection_req sample_start = []) as Hq by (by vm_compute).
  split; [exact Hc|]. split; [exact Hq|].
  destruct (granted_types_are_offered sample_start 0 [1] 1 300
              (sample_request 300 301 0) no_reply Hc ltac:(by vm_compute) Hq
              ltac:(by vm_compute) ltac:(by vm_compute) ltac:(by vm_compute)
              ltac:(by vm_compute))
    as (x' & Hx' & Hout & Hq' & _).
  exists x'. split; [exact Hx'|]. split; [|exact Hq'].
  vm_compute in Hout. vm_compute. exact Hout.
Defined.

(** X17, in [sample_guest]: the window that owned CLIPBOARD is
    destroyed, and the daemon is sent the release. *)
Lemma selection_owner_gone_witness :
  selection_of_atom sample_guest 300 = Some 0
  ∧ selection_window sample_guest ≠ XNone
  ∧ ∃ x',
      vdagent_x11_handle_event sample_guest
        (XFixesSelectionNotify XFixesSelectionWindowDestroyNotify 900 300)
        no_reply = Some x'
      ∧ clipboard_owner_at x' 0 = owner_none
      ∧ out x' = out sample_guest
                 ++ [udscs_write VDAGENTD_CLIPBOARD_RELEASE 0 0 NoData].
Proof.
  assert (selection_of_atom sample_guest 300 = Some 0) as Hs
    by (by vm_compute).
  assert (selection_window sample_guest ≠ XNone) as Hw by (by vm_compute).
  split; [exact Hs|]. split; [exact Hw|].
  destruct (selection_owner_gone sample_guest
              XFixesSelectionWindowDestroyNotify 900 300 0 no_reply Hs Hw
              ltac:(right; by left))
    as (x' & Hx' & Ho & _ & _ & Hout).
  exists x'. split; [exact Hx'|]. split; [exact Ho|].
  vm_compute in Hout. vm_compute. exact Hout.
Defined.

(** X18, in [sample_client], which owns CLIPBOARD. *)
Lemma clipboard_release_gives_up_witness :
  clipboard_owner_at sample_client 0 = owner_client
  ∧ ∃ x1,
      vdagent_x11_clipboard_release sample_client 0
        [(XFixesSelectionNotify XFixesSetSelectionOwnerNotify XNone 300,
          no_reply)] []
      = vdagent_x11_do_read x1 []
      ∧ clipboard_owner_at x1 0 = owner_none
      ∧ out x1 = out sample_client ++ [XSetSelectionOwner 300 XNone; XSync].
Proof.
  assert (clipboard_owner_at sample_client 0 = owner_client) as Ho
    by (by vm_compute).
  split; [exact Ho|].
  destruct (clipboard_release_gives_up sample_client 0 300 no_reply [])
    as [_ Hrelease].
  destruct (Hrelease Ho ltac:(by vm_compute) ltac:(by vm_compute)
              ltac:(by vm_compute)) as (x1 & Hx1 & Hn & _ & Hout).
  exists x1. split; [exact Hx1|]. split; [exact Hn|].
  vm_compute in Hout. vm_compute. exact Hout.
Defined.

(** X20, for a monitor of 1024x768: of the four sizes, 1280x1024
    does not fit and 1024x768, the third, is the closest. *)
Lemma closest_size_is_closest_witness :
  sizes_in_range sample_monitor sample_sizes
  ∧ closest_size sample_monitor sample_sizes = 2
  ∧ ((closest_size sample_monitor sample_sizes = -1
      ∧ Forall (λ s, ¬ fits sample_monitor s) sample_sizes)
     ∨ ∃ size,
         0 <= closest_size sample_monitor sample_sizes
         ∧ sample_sizes !! Z.to_nat (closest_size sample_monitor sample_sizes)
           = Some size
         ∧ fits sample_monitor size
         ∧ ∀ (j : nat) size',
             sample_sizes !! j = Some size' → fits sample_monitor size' →
             distance sample_monitor size <= distance sample_monitor size'
             ∧ (Z.of_nat j < closest_size sample_monitor sample_sizes →
                distance sample_monitor size
                < distance sample_monitor size')).
Proof.
  assert (sizes_in_range sample_monitor sample_sizes) as Hrange.
  { split_and!; [by vm_compute|by vm_compute|by vm_compute|].
    repeat apply Forall_cons_2; try apply Forall_nil_2;
      split; by vm_compute. }
  split; [exact Hrange|]. split; [by vm_compute|].
  exact (closest_size_is_closest sample_monitor sample_sizes Hrange).
Defined.

(** X21, in [sample_start] with the same monitor and sizes: the
    screen is set to 1024x768, which the daemon is told. *)
Lemma set_monitor_config_sets_closest_witness :
  sizes_in_range sample_monitor sample_sizes
  ∧ vdagent_x11_set_monitor_config sample_start true [sample_monitor]
      sample_sizes false [] = Some (None, sample_start)
  ∧ ∃ size x1,
      sample_sizes !! Z.to_nat (closest_size sample_monitor sample_sizes)
      = Some size
      ∧ vdagent_x11_set_monitor_config sample_start true [sample_monitor]
          sample_sizes true []
        = (x' ← vdagent_x11_do_read x1 [];
           Some (Some (closest_size sample_monitor sample_sizes), x'))
      ∧ width x1 = xrr_width size ∧ height x1 = xrr_height size.
Proof.
  assert (sizes_in_range sample_monitor sample_sizes) as Hrange.
  { split_and!; [by vm_compute|by vm_compute|by vm_compute|].
    repeat apply Forall_cons_2; try apply Forall_nil_2;
      split; by vm_compute. }
  split; [exact Hrange|].
  destruct (set_monitor_config_sets_closest sample_start [sample_monitor]
              sample_monitor sample_sizes false [] eq_refl Hrange)
    as (_ & Hnone & _).
  split; [exact (Hnone (or_intror eq_refl))|].
  destruct (set_monitor_config_sets_closest sample_start [sample_monitor]
              sample_monitor sample_sizes true [] eq_refl Hrange)
    as (_ & _ & Hsome).
  destruct (Hsome) as (size & x1 & Hs & _ & Hx1 & Hw & Hh & _).
  - intros Hno. apply Forall_cons in Hno as [Hno _]. apply Hno.
    split; by vm_compute.
  - done.
  - exists size, x1. by split_and!.
Defined.

(** X22, in [sample_awaiting], in which the client owns CLIPBOARD and
    a request for each selection is queued: both are refused. *)
Lemma destroy_answers_all_witness :
  reachable sample_awaiting
  ∧ ∃ x',
      vdagent_x11_destroy (Some sample_awaiting) = Some x'
      ∧ selection_req x' = [] ∧ conversion_req x' = []
      ∧ out x' =
          out sample_awaiting
          ++ [XSendEvent 900
                {| xselection_requestor := 900;
                   xselection_selection := 300;
                   xselection_target := 304;
                   xselection_property := XNone;
                   xselection_time := 12345 |};
              XSendEvent 900
                {| xselection_requestor := 900;
                   xselection_selection := 1;
                   xselection_target := 304;
                   xselection_property := XNone;
                   xselection_time := 12345 |}].
Proof.
  split; [apply sample_awaiting_reachable|].
  destruct (destroy_answers_all sample_awaiting sample_awaiting_reachable)
    as (_ & x' & Hx' & Hq & Hc & _ & _ & Hout).
  exists x'. split; [exact Hx'|]. split; [exact Hq|]. split; [exact Hc|].
  vm_compute in Hout. vm_compute. exact Hout.
Defined.

(** X24, on the sample display with requests of up to 65535 units,
    after a grab of the client. *)
Lemma create_sets_up_witness :
  vdagent_x11_create sample_XInternAtom 50 77 0 65535 1024 768 []
  = Some (sample_x11 65535)
  ∧ rtc step (sample_x11 65535)
      (force (vdagent_x11_clipboard_grab (sample_x11 65535) 0 [1] 1 []))
  ∧ Forall format_ok
      (clipboard_formats
         (force (vdagent_x11_clipboard_grab (sample_x11 65535) 0 [1] 1 [])))
  ∧ 0 < max_prop_size
          (force (vdagent_x11_clipboard_grab (sample_x11 65535) 0 [1] 1 []))
    <= 262144.
Proof.
  assert (vdagent_x11_create sample_XInternAtom 50 77 0 65535 1024 768 []
          = Some (sample_x11 65535)) as Hcreate by (by vm_compute).
  assert (rtc step (sample_x11 65535)
            (force (vdagent_x11_clipboard_grab (sample_x11 65535) 0 [1] 1
                      []))) as Hsteps.
  { apply rtc_once. apply (step_clipboard_grab _ 0 [1] 1 []); by vm_compute. }
  split; [exact Hcreate|]. split; [exact Hsteps|].
  destruct (create_sets_up sample_XInternAtom 50 77 0 65535 1024 768 []
              (sample_x11 65535)
              (force (vdagent_x11_clipboard_grab (sample_x11 65535) 0 [1] 1
                        [])))
    as (_ & Hok & _ & Hmax & _).
  - intros name Hname. apply (bool_decide_unpack _).
    revert name Hname. apply Forall_forall.
    repeat apply Forall_cons_2; try apply Forall_nil_2; by vm_compute.
  - by left.
  - by vm_compute.
  - exact Hcreate.
  - exact Hsteps.
  - by split.
Defined.

(** X25, at the sample display: image/png is atom 307, the first name
    of the PNG template. *)
Lemma target_to_type_first_atom_witness :
  NoDup (sample_XInternAtom <$> catalog_names)
  ∧ clipboard_formats sample_start = intern_formats sample_XInternAtom
  ∧ vdagent_x11_target_to_type sample_start 0 307
    = Some VD_AGENT_CLIPBOARD_IMAGE_PNG.
Proof.
  split_and!.
  - apply (bool_decide_unpack _). by vm_compute.
  - reflexivity.
  - apply (target_to_type_first_atom sample_XInternAtom sample_start 0
             {| tmpl_type := VD_AGENT_CLIPBOARD_IMAGE_PNG;
                tmpl_atom_names := ["image/png"]%string |}
             "image/png"%string).
    + apply (bool_decide_unpack _). by vm_compute.
    + reflexivity.
    + apply list_elem_of_further, list_elem_of_here.
    + reflexivity.
Defined.

(** X26, in [sample_receiving], whose buffer of three bytes holds two:
    two more do not fit. *)
Lemma inbound_incr_out_of_memory_witness :
  reachable sample_receiving
  ∧ incr_receiving sample_receiving
      {| conv_target := 304; conv_selection := 0 |}
      [{| conv_target := 304; conv_selection := 1 |};
       {| conv_target := 307; conv_selection := 0 |}] [104; 105]
  ∧ clipboard_data_space sample_receiving = 3
  ∧ ∃ x',
      vdagent_x11_handle_event sample_receiving
        (PropertyNotify 77 300 PropertyNewValue)
        (chunk_out_of_memory {| conv_target := 304; conv_selection := 0 |}
                             [106; 107]) = Some x'
      ∧ daemon_messages (out x') =
          daemon_messages (out sample_receiving)
          ++ [udscs_write VDAGENTD_CLIPBOARD_DATA 0 VD_AGENT_CLIPBOARD_NONE
                          NoData]
      ∧ expect_property_notify x' = false
      ∧ clipboard_data_space x' = 0.
Proof.
  assert (incr_receiving sample_receiving
            {| conv_target := 304; conv_selection := 0 |}
            [{| conv_target := 304; conv_selection := 1 |};
             {| conv_target := 307; conv_selection := 0 |}] [104; 105])
    as Hrecv by (split_and!; by vm_compute).
  split; [apply sample_receiving_reachable|]. split; [exact Hrecv|].
  split; [by vm_compute|].
  destruct (inbound_incr_out_of_memory sample_receiving _ _ 300 1 _
              [106; 107] sample_receiving_reachable Hrecv
              ltac:(by vm_compute) ltac:(by vm_compute) ltac:(done)
              ltac:(by vm_compute) ltac:(by vm_compute))
    as (x' & Hx' & Hout & _ & He & _ & Hsp).
  exists x'. split; [|by split_and!].
  assert (selection_window sample_receiving = 77) as Hw by (by vm_compute).
  rewrite Hw in Hx'. exact Hx'.
Defined.

(** X27, in [sample_new_owner], which waits for the targets of
    the new owner of CLIPBOARD: the owner refuses. *)
Lemma unusable_targets_reply_changes_nothing_witness :
  expected_targets_notifies_at sample_new_owner 0 = 1
  ∧ ∃ x',
      vdagent_x11_handle_event sample_new_owner
        (SelectionNotify
           {| xselection_requestor := 77; xselection_selection := 300;
              xselection_target := 301; xselection_property := XNone;
              xselection_time := 0 |}) no_reply = Some x'
      ∧ expected_targets_notifies_at x' 0 = 0
      ∧ clipboard_owner x' = clipboard_owner sample_new_owner
      ∧ daemon_messages (out x') = daemon_messages (out sample_new_owner).
Proof.
  assert (expected_targets_notifies_at sample_new_owner 0 = 1) as Hexp
    by (by vm_compute).
  split; [exact Hexp|].
  destruct (unusable_targets_reply_changes_nothing sample_new_owner
              {| xselection_requestor := 77; xselection_selection := 300;
                 xselection_target := 301; xselection_property := XNone;
                 xselection_time := 0 |} 0 no_reply
              ltac:(by vm_compute) ltac:(by vm_compute) Hexp
              ltac:(by left))
    as (x' & Hx' & He & Ho & _ & _ & _ & Hout & _).
  exists x'. by split_and!.
Defined.

(** X28, in [sample_guest_busy]: the owner of CLIPBOARD answers with a
    property of type INCR (atom 302), which is returned without items. *)
Lemma incr_size_hint_read_unchecked_witness :
  conversion_req sample_guest_busy
  = [{| conv_target := 304; conv_selection := 0 |};
     {| conv_target := 304; conv_selection := 1 |};
     {| conv_target := 307; conv_selection := 0 |}]
  ∧ vdagent_x11_target_to_type sample_guest_busy 0 304 = Some 1
  ∧ incr_atom sample_guest_busy = 302
  ∧ vdagent_x11_handle_event sample_guest_busy
      (SelectionNotify sample_answer)
      {| env_reply := {| reply_success := true; reply_type := 302;
                         reply_format := 32; reply_items := [] |};
         env_alloc_ok := true |} = None.
Proof.
  assert (conversion_req sample_guest_busy
          = [{| conv_target := 304; conv_selection := 0 |};
             {| conv_target := 304; conv_selection := 1 |};
             {| conv_target := 307; conv_selection := 0 |}]) as Hq
    by (by vm_compute).
  assert (vdagent_x11_target_to_type sample_guest_busy 0 304 = Some 1)
    as Htype by (by vm_compute).
  split; [exact Hq|]. split; [exact Htype|]. split; [by vm_compute|].
  exact (incr_size_hint_read_unchecked sample_guest_busy _ _ 300 1
           sample_answer
           {| env_reply := {| reply_success := true; reply_type := 302;
                              reply_format := 32; reply_items := [] |};
              env_alloc_ok := true |}
           Hq ltac:(by vm_compute) Htype ltac:(by vm_compute)
           ltac:(by vm_compute) ltac:(by vm_compute) ltac:(by vm_compute)
           ltac:(left; by vm_compute) ltac:(by vm_compute)
           ltac:(by vm_compute) ltac:(done) ltac:(by vm_compute)
           ltac:(done)).
Defined.
